(* ===== verification/_CoqProject ===== *)
-Q . S2P
Prelude.v
Gateway.v
Json.v
MongoDb.v
Utils.v
Wishlist.v
Auth.v
Listing.v
Properties.v
Inquiries.v
Types.v
App.v
Pages.v
Forms.v
PublicPages.v
Home.v
Html.v
StudentView.v
LandlordView.v
MyPropertiesView.v
InquiriesView.v
DetailView.v
LayoutView.v
PropertyCardView.v
WishlistView.v
CatalogueView.v
HomeView.v
AddPropertyView.v
Validations.v
Filters.v
FiltersView.v
RoommatesView.v
MapView.v
Guards.v
