(* ===== verification/Prelude.v ===== *)
(** * UniNest: a verification development of the student-housing application

    The program (a Next.js application over MongoDB) keeps its state in
    six MongoDB collections, changed only by the API route handlers of
    [src/src/app/api/]; the pages of [src/src/app/] and the auth context
    of [src/src/contexts/] run in the browser and reach the handlers
    with [fetch].  The development models both sides and how they meet.

    ** Files, in dependency order
    - [Prelude] (this file): the notation scope [un_scope], the hint
      databases [uninest] and [uninest_rw], the tactics [invc],
      [decide_all], [decide_goal], and the list lemmas behind MongoDB's
      [$addToSet] and [$pull] ([add_to_set], [remove_all]).
    - [Gateway]: [src/src/lib/mongodb.ts].  [connectToDatabase] split
      at its [await] into [begin_call] and [finish_call]; concurrent
      requests are interleavings of those steps ([step], reachability
      [rtc step]).  Theorems: one call at a time every success returns
      the same database; once a client is cached, no interleaving
      creates another and every call not yet begun gets the cached one
      at once (by rule induction on [rtc], over the invariant
      [world_ok]); but for every [n], [n] first requests that all begin
      before a [connect()] settles create [n] clients and hand out [n]
      different ones.  No interleaving creates more clients than calls
      were started, and from any state without a failed call every call
      can still return a database (well-founded induction on a measure
      of the pending work).
    - [Json]: JSON values, JavaScript truthiness, [===], [parseInt],
      [split], and the ObjectId of [bson] as a 24-digit hexadecimal number.
    - [MongoDb]: the [store] (six collections in insertion order and an
      ObjectId counter), the handlers' effect [M] (state passing with
      exceptions, writes already made surviving a later throw), the
      driver calls the handlers make, and the frame lemmas
      ([preserves], [read_only], [unchanged]) used to prove invariants.
    - [Utils]: [src/src/lib/utils.ts], the string helpers, [String(n)]
      of an integer (proved equal to stdpp's [pretty], so that the
      other files reason with [pretty]), and [debounce] as
      a timer state machine ([debounce_call], [tick]) whose burst
      theorem is a liveness property: [func] runs once, with the last
      arguments, [wait] after the last call.
    - [Wishlist], [Auth], [Listing], [Properties], [Inquiries]: the route
      files of [src/src/app/api/], one handler per exported function,
      each [handle_X] wrapping it in the [try]/[catch] of the source.
      Theorems: the invariants each collection keeps (duplicate-free
      wishlist, unique lower-case emails, at most one open inquiry per
      listing and student) or breaks, the answer of every branch, errors
      included, and the partial effects of a throw between two writes;
      the list's query is exactly the spec's filter, and the answers to
      its pages [1 .. totalPages] list every match once; with
      [JWT_SECRET] unset or empty, a token signed with the string of the
      source opens any user's session.
    - [Types]: the interfaces of [src/src/types/], as a type language
      with a decidable membership [has_type]; theorems compare them with
      the documents the handlers write.
    - [App]: the routing of Next.js ([serve]: a path and a method reach
      the handler its [route.ts] exports, anything else is a 404 or 405
      page that is not JSON), the browser's [fetch] with its cookie jar,
      and [AuthClient], the auth context ([refreshUser], [login],
      [register], [logout]).
    - [Pages]: the landlord's inquiries and properties pages and the two
      dashboards; [Forms]: the add-property form; [PublicPages]: the
      properties search page, the wishlist page, a listing's page and
      the dashboard redirect; [Home]: the home page's search (with the
      browser's [encodeURIComponent] and [URLSearchParams] in
      [UrlCodec]), the roommates page, the property card and the
      header's handlers; [Filters]:
      the search filter panel.  A
      page's state is the record of its [useState] hooks and each event
      handler a function of the world (server store and cookie jar), the
      state and the outcome of its [fetch].  Theorems: what the pages
      show agrees with what the server holds after a request (status
      change, wishlist removal and toggle), the requests the dashboards
      and the add-property form make cannot succeed, the search page
      shows exactly the filtered listings in order, and a search typed
      on the home page reaches it unchanged.
    - [Html]: what the pages render, as a tree of elements in a small
      exception monad ([frag]); [Site], the pages of [src/src/app/] as
      the App Router matches a path; the compositional predicates
      [attrs_in] and [attr_to] (every attribute satisfies a property, an
      attribute is present) with the hint database [views] and the
      tactics [links_in_auto] and [links_to_auto] that carry them
      through a render.  [StudentView], [LandlordView],
      [MyPropertiesView], [InquiriesView], [DetailView]: the renders of
      the two dashboards, the landlord's listings page, the landlord's
      inquiries page and a listing's page ([DetailView] also has the
      gallery's clicks as a step relation [gallery_step]).  Theorems:
      which of their links reach a page (the settings, student
      inquiries and edit-property links do not), what their counters
      show over the statuses the routes store, that the inquiry actions
      follow the spec's workflow but for scheduling a PENDING inquiry,
      and that whatever the visitor clicks in a listing's gallery its
      main image stays one of the listing's images.  [LayoutView]: the
      header ([SiteHeaderView], with its menu handlers), the footer
      ([SiteFooterView]) and the root layout ([RootLayoutView]) that
      puts every page between them.  Theorems: the header's "Log in"
      and "Sign up" links and its settings links reach no page (the
      application has no sign-in, sign-up or settings page), and every
      page carries the footer's twenty dead links and its "List
      Property" link, which the listing page answers.  [Html]'s
      [renders_auto] shows that a render does not throw, so these
      theorems hold of a header that is on screen.
      [PropertyCardView], [WishlistView], [CatalogueView]: the listing
      card, the wishlist page and the properties page with its inputs,
      selects, view modes and map selection.  Theorems: the card and the
      wishlist page link only to the properties page and to the listings'
      pages, a rating of 0 is shown as a bare "0", and on the properties
      page every type option but "PG", and the "all" options, leave no
      listing.  [HomeView]: the home page, whose links all reach a page
      and whose popular searches and cities open the properties page
      filtered on their text (through [Home.UrlCodec]).
      [AddPropertyView]: the add-property form's eight cards and
      buttons, the events its controls fire ([fires] reads them off the
      render of the current form) and [step], which runs one on
      [formData].  Theorems: along any run of the form [formData] keeps
      the type of its [useState] literal and no handler throws, and no
      control writes the coordinates, so every listing submitted is
      placed at the fallback point (22.5, 88.4); the page renders every
      form such a run reaches without throwing.
    - [Validations]: [src/src/lib/validations.ts], the [zod] schemas over
      a parser written from the library's semantics.
    - [FiltersView]: the render of the search-filter panel of
      [Filters] (search box, city select, the dialog's sections, the
      active filters and the sort select) and its [event]s.  Theorems:
      an amenity's checkbox shows the filters and flips after a click,
      and after the price slider moves the active-filter badge still
      shows the parent's old minimum.

    - [RoommatesView]: the render of the roommates page over
      [Home.Roommates] and a [RoommateCard] per roommate kept.
      Theorem: the city select offers each city once, and choosing a
      roommate's city keeps that roommate and only that city's.
    - [MapView]: [src/src/components/map/property-map.tsx], the map of
      the properties page: [MapUpdater]'s effect as the [setView] or
      [fitBounds] call it makes, the mount flag, and the markers with
      their popups.  Theorems: selecting a listing centres the map on it
      at zoom 15 and highlights its marker alone; every link of the map
      is a listing's page.
    - [Guards]: the redirect effects of the six dashboard pages,
      [settle], the redirects a visitor follows from a path, and
      [client_step], the operations of [AuthProvider] that change its
      state.  Theorems: nothing redirects while the session loads;
      signed out, every dashboard page redirects, to [/login]; a student
      or landlord reaches after at most one redirect a page that keeps
      them (any other role would bounce between the two dashboards;
      [register] accepts no other).  And since [isLoading] starts false
      and no operation of the provider changes it (rule induction on
      [rtc client_step]), the dashboards never wait for the session: in
      every state without a user, the first render before the session
      is read included, every dashboard page sends the visitor, even a
      signed-in one, to [/login], which the application does not serve.
    ** Bounds and fuel
    Integers are [Z]: the handlers' numbers are JavaScript doubles used
    for counts, pages and times in milliseconds, all far below 2^53, so
    no rounding is modelled.  The only fuel is the digit loop of
    [Utils.z_string], given [N.size_nat n + 1] rounds: a decimal digit
    takes at least three binary ones, so the loop ends before the fuel
    does ([dec_go_fuel]), and [0] gets its one round.  Every other
    recursion is structural.  The gateway's clients are bounded by the
    calls started, and its progress measure is two per call not begun
    and one per call awaiting [connect()].  [Guards.settle] follows at most [n]
    redirects; [dashboard_redirects_settle] shows that a student or a
    landlord stops after at most one, so the 5 it is given never cuts
    a chain short, and [other_role_bounces] that for any other role
    every bound is used up.

    ** Not modelled
    - Styling ([cn], [clsx], [tailwind-merge], class names);
      [router.push] and timers other than the ones a handler's result
      depends on; [sleep] and [generateOTP] (a timer and
      [Math.random]); [calculateDistance] and [formatDistance]
      (floating-point trigonometry and rounding); [formatPrice],
      [formatDate] and the pages' [toLocaleString] calls ([Intl], the
      class [Html.Locale]).
    - Leaflet itself (tiles, projection, the map object): [MapView]
      records the calls the map component makes; the layout's metadata
      and fonts, which are configuration; [next-auth.d.ts], a type
      declaration.
    - Libraries the sources only call: [bcryptjs] (the class
      [PasswordHasher] with the two laws the handlers use), [jsonwebtoken]
      (a signed token that verifies for seven days under its secret),
      MongoDB's server (the driver calls are modelled, not its storage
      engine or indexes), the e-mail pattern of [zod] (the class
      [EmailRegex]) and the server's regular expressions (the class
      [RegexEngine]).
    - The static data files [@/data/properties.json],
      [@/data/reviews.json] and [@/data/roommates.json], which are not
      in the repository: the pages that read them take them as
      parameters.
    - The JSON text between server and browser: a page reads the value
      a route answers as it is built, so a [Date] is not turned into
      its ISO string; the landlord pages' own [Inquiry] and [Property]
      interfaces, which declare those members as strings, are therefore
      not compared with the answers.
    - Unicode: strings are one-byte code units, and [toLowerCase]
      changes ASCII letters only. *)

From stdpp Require Export base list strings decidable sets pretty.
From Stdlib Require Export ZArith Lia.
#[export] Set Warnings "-register-all".

Declare Scope un_scope.
Delimit Scope un_scope with un.

Create HintDb uninest discriminated.
Create Rewrite HintDb uninest_rw.

(** ** Tactics *)

Ltac invc H := inversion H; subst; clear H.

(** Case on every [decide] of the goal, discharging what [done] can. *)
Ltac decide_all := repeat (case_decide; simplify_eq/=; try done).

(** A decidable proposition on closed data, settled by evaluation. *)
Ltac decide_goal := apply (bool_decide_unpack _); vm_compute; reflexivity.

(** ** The array operators of MongoDB updates

    [$pull: {f: x}] removes every element equal to [x];
    [$addToSet: {f: x}] appends [x] when it is not already an element. *)

Definition remove_all {A} `{EqDecision A} (x : A) (l : list A) : list A :=
  filter (fun y => y ≠ x) l.

Definition add_to_set {A} `{EqDecision A} (x : A) (l : list A) : list A :=
  if decide (x ∈ l) then l else l ++ [x].

Section array_ops.
Context {A : Type} `{EqDecision A}.
Implicit Types (x y : A) (l : list A).

Lemma elem_of_remove_all x y l : y ∈ remove_all x l ↔ y ∈ l ∧ y ≠ x.
  Proof. unfold remove_all. rewrite list_elem_of_filter. tauto. Qed.

Lemma not_elem_of_remove_all x l : x ∉ remove_all x l.
  Proof. rewrite elem_of_remove_all. tauto. Qed.

Lemma remove_all_id x l : x ∉ l → remove_all x l = l.
  Proof.
    unfold remove_all. induction l as [|y l IH]; intros Hx; [done |].
    rewrite filter_cons_True; [f_equal; apply IH |]; set_solver.
  Qed.

Lemma remove_all_idemp x l : remove_all x (remove_all x l) = remove_all x l.
  Proof. apply remove_all_id, not_elem_of_remove_all. Qed.

Lemma NoDup_remove_all x l : NoDup l → NoDup (remove_all x l).
  Proof. intros. by apply NoDup_filter. Qed.

Lemma remove_all_app x l1 l2 :
    remove_all x (l1 ++ l2) = remove_all x l1 ++ remove_all x l2.
  Proof. apply filter_app. Qed.

Lemma elem_of_add_to_set x y l : y ∈ add_to_set x l ↔ y = x ∨ y ∈ l.
  Proof.
    unfold add_to_set. case_decide.
    - split; [tauto | intros [-> | ?]; done].
    - rewrite elem_of_app, list_elem_of_singleton. tauto.
  Qed.

Lemma add_to_set_elem x l : x ∈ l → add_to_set x l = l.
  Proof. intros. unfold add_to_set. by case_decide. Qed.

Lemma add_to_set_fresh x l : x ∉ l → add_to_set x l = l ++ [x].
  Proof. intros. unfold add_to_set. by case_decide. Qed.

Lemma add_to_set_idemp x l : add_to_set x (add_to_set x l) = add_to_set x l.
  Proof. apply add_to_set_elem, elem_of_add_to_set. by left. Qed.

Lemma NoDup_snoc x l : NoDup l → x ∉ l → NoDup (l ++ [x]).
  Proof.
    intros Hl Hx. apply NoDup_app. split; [done | split; [| apply NoDup_singleton]].
    intros y Hy ->%list_elem_of_singleton. done.
  Qed.

Lemma NoDup_add_to_set x l : NoDup l → NoDup (add_to_set x l).
  Proof.
    intros Hl. unfold add_to_set. case_decide; [done |]. by apply NoDup_snoc.
  Qed.

Lemma remove_all_add_to_set_fresh x l :
    x ∉ l → remove_all x (add_to_set x l) = l.
  Proof.
    intros Hx. rewrite (add_to_set_fresh x l Hx), remove_all_app.
    rewrite (remove_all_id x l Hx). unfold remove_all. simpl.
    rewrite filter_cons_False by (intros ?; done). by rewrite app_nil_r.
  Qed.

(** Pulling then adding an element that was present moves it to the
      end: the same elements, maybe not the same order. *)
Lemma add_to_set_remove_all_elem x l :
    x ∈ l → NoDup l → add_to_set x (remove_all x l) ≡ₚ l.
  Proof.
    intros Hx Hl. rewrite add_to_set_fresh by apply not_elem_of_remove_all.
    apply NoDup_Permutation.
    - apply NoDup_snoc; [by apply NoDup_remove_all | apply not_elem_of_remove_all].
    - done.
    - intros y. rewrite elem_of_app, list_elem_of_singleton, elem_of_remove_all.
      destruct (decide (y = x)); subst; tauto.
  Qed.
End array_ops.

#[export] Hint Resolve not_elem_of_remove_all NoDup_remove_all NoDup_add_to_set : uninest.
#[export] Hint Rewrite @remove_all_idemp @add_to_set_idemp : uninest_rw.

(** ** The first element that satisfies a boolean test

    [findOne] returns the first match, [updateOne] rewrites it in place
    and the other documents stay: these lemmas cut a list around it. *)

Section first_match.
Context {A : Type} (f : A → bool).

Definition no_match (l : list A) : Prop := ∀ x, x ∈ l → f x = false.

Lemma no_match_Forall l : no_match l ↔ Forall (λ x, f x = false) l.
  Proof. unfold no_match. by rewrite Forall_forall. Qed.

#[export] Instance no_match_dec l : Decision (no_match l).
  Proof. refine (cast_if (decide (Forall (λ x, f x = false) l))); by rewrite no_match_Forall. Defined.

Lemma no_match_app l1 l2 : no_match (l1 ++ l2) ↔ no_match l1 ∧ no_match l2.
  Proof. unfold no_match. setoid_rewrite elem_of_app. naive_solver. Qed.

Lemma find_no_match l : no_match l → List.find f l = None.
  Proof.
    induction l as [|y l IH]; intros Hl; [done |]. simpl.
    rewrite Hl by set_solver. apply IH. intros x Hx. apply Hl. set_solver.
  Qed.

Lemma find_none_no_match l : List.find f l = None → no_match l.
  Proof.
    induction l as [|y l IH]; simpl; intros Hl x Hx; [set_solver |].
    destruct (f y) eqn:Ey; [done |]. apply elem_of_cons in Hx as [-> | Hx]; [done | by apply IH].
  Qed.

Lemma find_some_elem l x : x ∈ l → f x = true → ∃ y, List.find f l = Some y.
  Proof.
    induction l as [|y l IH]; intros Hx Hf; [set_solver |]. simpl.
    destruct (f y) eqn:Ey; [by eexists |]. apply elem_of_cons in Hx as [-> | Hx]; [congruence | auto].
  Qed.

Lemma find_middle l1 x l2 : no_match l1 → f x = true → List.find f (l1 ++ x :: l2) = Some x.
  Proof.
    induction l1 as [|y l1 IH]; intros Hl Hx; simpl; [by rewrite Hx |].
    rewrite Hl by set_solver. apply IH; [| done]. intros z Hz. apply Hl. set_solver.
  Qed.

Lemma list_find_no_match l : no_match l → list_find (λ y, f y = true) l = None.
  Proof.
    intros Hl. apply list_find_None, Forall_forall. intros y Hy.
    by rewrite Hl.
  Qed.

Lemma list_find_middle l1 x l2 :
    no_match l1 → f x = true → list_find (λ y, f y = true) (l1 ++ x :: l2) = Some (length l1, x).
  Proof.
    intros Hl Hx. rewrite list_find_app_r by (by apply list_find_no_match).
    simpl. rewrite decide_True by done. simpl. by f_equal.
  Qed.

Lemma filter_no_match l : no_match l → filter (λ y, f y = true) l = [].
  Proof.
    induction l as [|y l IH]; intros Hl; [done |].
    rewrite filter_cons_False by (rewrite Hl; set_solver). apply IH.
    intros z Hz. apply Hl. set_solver.
  Qed.

Lemma filter_middle l1 x l2 :
    no_match l1 → f x = true →
    filter (λ y, f y = true) (l1 ++ x :: l2) = x :: filter (λ y, f y = true) l2.
  Proof.
    intros Hl Hx. rewrite filter_app, filter_no_match, filter_cons_True by done. done.
  Qed.

Lemma filter_nil_no_match l : filter (λ y, f y = true) l = [] → no_match l.
  Proof.
    intros Hl x Hx. destruct (f x) eqn:E; [| done].
    exfalso. exact (filter_nil_not_elem_of (λ y, f y = true) l x Hl E Hx).
  Qed.

Lemma filter_single_split l x :
    filter (λ y, f y = true) l = [x] → ∃ l1 l2, l = l1 ++ x :: l2 ∧ no_match (l1 ++ l2) ∧ f x = true.
  Proof.
    intros Hl. destruct (head_filter_Some (λ y, f y = true) l x) as (l1 & l2 & -> & Hl1).
    { by rewrite Hl. }
    assert (Hx : f x = true).
    { assert (x ∈ filter (λ y, f y = true) (l1 ++ x :: l2)) as Hin by (rewrite Hl; set_solver).
      apply list_elem_of_filter in Hin as [Hx _]. exact Hx. }
    assert (Hn1 : no_match l1).
    { intros y Hy. rewrite Forall_forall in Hl1.
      specialize (Hl1 y Hy).
      by destruct (f y). }
    exists l1, l2. split; [done | split; [| done]].
    apply no_match_app. split; [done |]. apply filter_nil_no_match.
    rewrite filter_middle in Hl by done. by simplify_eq.
  Qed.
End first_match.

Lemma insert_middle {A} (l1 l2 : list A) (x y : A) :
  <[length l1:=y]> (l1 ++ x :: l2) = l1 ++ y :: l2.
Proof. rewrite <- (Nat.add_0_r (length l1)). by rewrite insert_app_r. Qed.

#[export] Hint Resolve find_no_match find_middle : uninest.

Lemma find_list_find {A} (f : A → bool) l x :
  List.find f l = Some x → ∃ i, list_find (λ y, f y = true) l = Some (i, x) ∧ l !! i = Some x.
Proof.
  induction l as [|y l IH]; simpl; [done |]. destruct (f y) eqn:E.
  - intros [= ->]. by exists 0.
  - intros Hf. destruct (IH Hf) as (i & Hi & Hl). exists (S i). simpl.
    rewrite ?decide_False by congruence. by rewrite Hi.
Qed.

Lemma NoDup_remove_middle {A} (l1 l2 : list A) x : NoDup (l1 ++ x :: l2) → NoDup (l1 ++ l2).
Proof. intros Hnd. apply (sublist_NoDup _ _ Hnd), sublist_app; [done | by apply sublist_cons]. Qed.

Lemma forallb_map_elem {A B} (f : B → bool) (g : A → B) l :
  forallb f (map g l) = true ↔ ∀ x, x ∈ l → f (g x) = true.
Proof.
  rewrite forallb_forall. setoid_rewrite in_map_iff. setoid_rewrite <- list_elem_of_In. naive_solver.
Qed.

Lemma existsb_eq_elem {A} `{EqDecision A} (x : A) (l : list A) :
  existsb (λ y, bool_decide (y = x)) l = bool_decide (x ∈ l).
Proof.
  induction l as [|y l IH]; simpl.
  - done.
  - rewrite IH. repeat case_bool_decide; set_solver.
Qed.

(** [List.last] of a non-empty list does not look at its default. *)
Lemma last_cons_default {A} (x d : A) l : List.last (x :: l) d = List.last l x.
Proof.
  revert x d. induction l as [|y l IH]; intros x d; [done |].
  transitivity (List.last l y); [apply IH | symmetry; apply IH].
Qed.

Lemma elem_of_take_l {A} (x : A) n l : x ∈ take n l → x ∈ l.
Proof. intros (i & Hi & _)%elem_of_take. by eapply list_elem_of_lookup_2. Qed.

Lemma elem_of_List_filter {A} (f : A → bool) x l : x ∈ List.filter f l → x ∈ l.
Proof. rewrite !list_elem_of_In, filter_In. tauto. Qed.

Lemma elem_of_List_filter_iff {A} (f : A → bool) x l : x ∈ List.filter f l ↔ x ∈ l ∧ f x = true.
Proof. rewrite !list_elem_of_In. apply filter_In. Qed.
