(* ===== verification/Gateway.v ===== *)
(** * The database gateway of [src/src/lib/mongodb.ts]

    [connectToDatabase] returns the cached client and database when both
    module variables are set; otherwise it creates a [MongoClient],
    awaits [client.connect()], and only then stores the client and its
    database in the cache.  [getDb] awaits it and returns the database.

    The state is the two cached handles and the number of clients
    created so far (a client is named by its creation index; its
    database handle is [client.db(MONGODB_DB)], named by the same index).
    One call is a sequence of steps of a [call] state: [Start], then
    either [Done] at once (cache hit) or [Awaiting] while [connect()] is
    pending, then [Done] or [Failed].  Requests run concurrently, so a
    run of the server is an interleaving of the steps of its calls: the
    relation [step] over a [world], with reachability [rtc step].

    The theorems: once a client is cached no interleaving creates
    another ([gateway_cache_stops_clients], by induction on [rtc step]
    over [world_ok]); for every [n], [n] first requests that all begin
    before a [connect()] settles create [n] clients ([gateway_race]);
    the clients created are bounded by the calls started
    ([gateway_clients_bounded]) and the calls can always settle
    ([gateway_settles]: the measure [pending] drops with every step of
    [step_progress]). *)

From S2P Require Import Prelude.
From stdpp Require Import relations.
From Stdlib Require Import ZArith.
Open Scope string_scope.
Open Scope list_scope.
Open Scope un_scope.

Module Gateway.

(** [process.env.X || default] *)
Definition env_or (v : option string) (d : string) : string :=
  match v with Some s => if String.eqb s "" then d else s | None => d end.

Definition MONGODB_URI (env : option string) : string := env_or env "mongodb://localhost:27017".
Definition MONGODB_DB (env : option string) : string := env_or env "uninest".

Record cache := mkCache {
  cachedClient : option nat;
  cachedDb : option nat;
  clients_made : nat        (** [new MongoClient] calls so far *)
}.

Definition empty_cache : cache := mkCache None None 0.

(** Where one call of [connectToDatabase] stands. *)
Inductive call := Start | Awaiting (client : nat) | Done (client db : nat) | Failed.

(** The synchronous part of a call, up to its first [await]. *)
Definition begin_call (g : cache) : cache * call :=
  match cachedClient g, cachedDb g with
  | Some c, Some d => (g, Done c d)
  | _, _ => let c := clients_made g in (mkCache (cachedClient g) (cachedDb g) (S c), Awaiting c)
  end.

(** [client.connect()] settles: on success the client and its database
    are cached, overwriting what another call may have cached meanwhile. *)
Definition finish_call (ok : bool) (c : nat) (g : cache) : cache * call :=
  if ok then (mkCache (Some c) (Some c) (clients_made g), Done c c) else (g, Failed).

(** Sequential [connectToDatabase]: both parts with nothing in between;
    [None] is a rejected [connect()]. *)
Definition connectToDatabase (ok : bool) (g : cache) : cache * option (nat * nat) :=
  match begin_call g with
  | (g1, Done c d) => (g1, Some (c, d))
  | (g1, Awaiting c) => match finish_call ok c g1 with (g2, Done c' d') => (g2, Some (c', d')) | (g2, _) => (g2, None) end
  | (g1, _) => (g1, None)
  end.

Definition getDb (ok : bool) (g : cache) : cache * option nat :=
  let '(g', r) := connectToDatabase ok g in (g', option_map snd r).

(** A server: the cache and the calls in flight. *)
Record world := mkWorld { w_cache : cache; w_calls : list call }.

Inductive step : world → world → Prop :=
| step_begin g cs i g' r :
    cs !! i = Some Start → begin_call g = (g', r) →
    step (mkWorld g cs) (mkWorld g' (<[i:=r]> cs))
| step_finish g cs i c ok g' r :
    cs !! i = Some (Awaiting c) → finish_call ok c g = (g', r) →
    step (mkWorld g cs) (mkWorld g' (<[i:=r]> cs)).

Definition init (n : nat) : world := mkWorld empty_cache (replicate n Start).

(** The clients a world has connected and handed out. *)
Definition handed_out (w : world) : list nat :=
  omap (fun c => match c with Done cl _ => Some cl | _ => None end) (w_calls w).

(** Calls that run one after another, each [connect()] outcome given. *)
Fixpoint run_seq (oks : list bool) (g : cache) : cache * list (option nat) :=
  match oks with
  | [] => (g, [])
  | ok :: oks' => let '(g1, r) := getDb ok g in let '(g2, rs) := run_seq oks' g1 in (g2, r :: rs)
  end.

(** The cache is coherent: both handles set together, to one client
    already created. *)
Definition coherent (g : cache) : Prop :=
  match cachedClient g, cachedDb g with
  | Some c, Some d => c = d ∧ c < clients_made g
  | None, None => True
  | _, _ => False
  end.

(** What every reachable world satisfies: a coherent cache, and every
    pending or finished call names a client already created. *)
Definition world_ok (w : world) : Prop :=
  coherent (w_cache w) ∧
  ∀ i c, w_calls w !! i = Some (Awaiting c) ∨ (∃ d, w_calls w !! i = Some (Done c d)) → c < clients_made (w_cache w).

#[export] Instance call_eq_dec : EqDecision call.
Proof. solve_decision. Defined.

(** Where two concurrent first requests end when both [connect()]s
    succeed in the order they began. *)
Definition race_world : world := mkWorld (mkCache (Some 1) (Some 1) 2) [Done 0 0; Done 1 1].

(** A server of two requests whose first has connected, and the same
    server once its second request has been served from the cache. *)
Definition cached_world : world := mkWorld (mkCache (Some 0) (Some 0) 1) [Done 0 0; Start].
Definition served_world : world := mkWorld (mkCache (Some 0) (Some 0) 1) [Done 0 0; Done 0 0].

(** Calls not yet begun, and the work left: a call that has not begun
    has two steps to go, one awaiting [connect()] has one. *)
Definition is_start (c : call) : nat := match c with Start => 1 | _ => 0 end.
Definition weight (c : call) : nat := match c with Start => 2 | Awaiting _ => 1 | _ => 0 end.
Definition starts (w : world) : nat := sum_list_with is_start (w_calls w).
Definition pending (w : world) : nat := sum_list_with weight (w_calls w).

Definition is_done (c : call) : Prop := match c with Done _ _ => True | _ => False end.

(** ** Lemmas *)

(** Replacing one element changes a sum over the list by the difference. *)
Lemma sum_list_with_insert {A} (f : A → nat) l i x y :
  l !! i = Some y → sum_list_with f (<[i:=x]> l) + f y = sum_list_with f l + f x.
Proof.
  intros Hi. rewrite (insert_take_drop l i x) by (by eapply lookup_lt_Some).
  assert (Hl : sum_list_with f l = sum_list_with f (take i l ++ y :: drop (S i) l))
    by by rewrite (take_drop_middle l i y Hi).
  rewrite Hl, !sum_list_with_app. simpl. lia.
Qed.

Lemma sum_list_with_pos {A} (f : A → nat) l : 0 < sum_list_with f l → ∃ i x, l !! i = Some x ∧ 0 < f x.
Proof.
  induction l as [|y l IH]; simpl; [lia |]. intros Hs.
  destruct (decide (0 < f y)); [by exists 0, y |].
  destruct IH as (i & x & Hi & Hx); [lia |]. by exists (S i), x.
Qed.

Lemma sum_list_with_replicate {A} (f : A → nat) n x : sum_list_with f (replicate n x) = (n * f x)%nat.
Proof. induction n as [|n IH]; simpl; lia. Qed.

Lemma elem_le_sum {A} (f : A → nat) l x : x ∈ l → (f x ≤ sum_list_with f l)%nat.
Proof. induction 1; simpl; lia. Qed.

Lemma begin_call_clients g g' r :
  begin_call g = (g', r) → (clients_made g' ≤ S (clients_made g))%nat ∧ is_start r = 0 ∧ (weight r < 2)%nat.
Proof. unfold begin_call. destruct (cachedClient g), (cachedDb g); intros [= <- <-]; simpl; lia. Qed.

Lemma finish_call_clients ok c g g' r :
  finish_call ok c g = (g', r) → clients_made g' = clients_made g ∧ is_start r = 0 ∧ weight r = 0.
Proof. unfold finish_call. destruct ok; intros [= <- <-]; simpl; lia. Qed.

Lemma getDb_hit g c : cachedClient g = Some c → cachedDb g = Some c → ∀ ok, getDb ok g = (g, Some c).
Proof. intros Hc Hd ok. unfold getDb, connectToDatabase, begin_call. by rewrite Hc, Hd. Qed.

Lemma getDb_result ok g g' d :
  coherent g → getDb ok g = (g', Some d) → cachedClient g' = Some d ∧ cachedDb g' = Some d ∧ coherent g'.
Proof.
  unfold getDb, connectToDatabase, begin_call, coherent. intros Hg.
  destruct (cachedClient g) as [c|] eqn:Ec, (cachedDb g) as [d'|] eqn:Ed; try done.
  - intros [= <- <-]. destruct Hg as [-> ?]. by rewrite Ec, Ed.
  - destruct ok; simpl; intros [= <- <-]; simpl; split_and!; done || lia.
Qed.

Lemma run_seq_cached g c oks :
  cachedClient g = Some c → cachedDb g = Some c → run_seq oks g = (g, map (λ _, Some c) oks).
Proof.
  intros Hc Hd. induction oks as [|ok oks IH]; [done |]. simpl. by rewrite (getDb_hit g c Hc Hd ok), IH.
Qed.

Lemma step_ok w w' : world_ok w → step w w' → world_ok w'.
Proof.
  intros [Hg Hc] Hs. destruct Hs as [g cs i g' r Hi Hb | g cs i c ok g' r Hi Hf]; simpl in *.
  - unfold begin_call in Hb. unfold coherent in Hg.
    destruct (cachedClient g) as [c0|] eqn:Ec, (cachedDb g) as [d0|] eqn:Ed; try done; simplify_eq.
    + unfold world_ok; simpl. split; [unfold coherent; by rewrite Ec, Ed |]. intros j c.
      destruct (decide (i = j)) as [<- | Hij].
      * rewrite list_lookup_insert_eq by (by eapply lookup_lt_Some). intros [Hj | (d & Hj)]; simplify_eq; lia.
      * rewrite list_lookup_insert_ne by done. apply Hc.
    + unfold world_ok; simpl. split; [done |]. intros j c.
      destruct (decide (i = j)) as [<- | Hij].
      * rewrite list_lookup_insert_eq by (by eapply lookup_lt_Some). intros [Hj | (d & Hj)]; simplify_eq; lia.
      * rewrite list_lookup_insert_ne by done. intros Hj. specialize (Hc j c Hj). lia.
  - assert (c < clients_made g) by (apply (Hc i); by left).
    unfold finish_call in Hf. destruct ok; simplify_eq; unfold world_ok; simpl.
    + split; [unfold coherent; simpl; lia |]. intros j c'.
      destruct (decide (i = j)) as [<- | Hij].
      * rewrite list_lookup_insert_eq by (by eapply lookup_lt_Some). intros [Hj | (d & Hj)]; simplify_eq; lia.
      * rewrite list_lookup_insert_ne by done. apply Hc.
    + split; [done |]. intros j c'.
      destruct (decide (i = j)) as [<- | Hij].
      * rewrite list_lookup_insert_eq by (by eapply lookup_lt_Some). intros [Hj | (d & Hj)]; simplify_eq.
      * rewrite list_lookup_insert_ne by done. apply Hc.
Qed.

(** Every world a run reaches is well formed. *)
Lemma reachable_ok n w : rtc step (init n) w → world_ok w.
Proof.
  intros Hr. assert (Hi : world_ok (init n)).
  { split; [done |]. intros i c [Hi | (d & Hi)]; apply lookup_replicate in Hi as [[=] _]. }
  induction Hr as [|x y z Hxy _ IH]; [done |]. apply IH. by eapply step_ok.
Qed.

(** Each step keeps the number of clients created, plus the calls not
    yet begun, within the number of calls. *)
Lemma step_clients w w' :
  step w w' → length (w_calls w') = length (w_calls w) ∧
  (clients_made (w_cache w) + starts w ≤ length (w_calls w) →
   clients_made (w_cache w') + starts w' ≤ length (w_calls w'))%nat.
Proof.
  unfold starts. intros [g cs i g' r Hi Hb | g cs i c ok g' r Hi Hf]; simpl; rewrite length_insert; split; [done | | done |].
  - destruct (begin_call_clients _ _ _ Hb) as (Hc & Hr & _).
    pose proof (sum_list_with_insert is_start cs i r Start Hi). simpl in *. lia.
  - destruct (finish_call_clients _ _ _ _ _ Hf) as (Hc & Hr & _).
    pose proof (sum_list_with_insert is_start cs i r (Awaiting c) Hi). simpl in *. lia.
Qed.

(** From any world whose calls have not failed, a step of a call not
    yet settled, with [connect()] succeeding, leaves less work and no
    failed call. *)
Lemma step_progress w :
  (0 < pending w)%nat → Failed ∉ w_calls w →
  ∃ w', step w w' ∧ (pending w' < pending w)%nat ∧ Failed ∉ w_calls w'.
Proof.
  destruct w as [g cs]. unfold pending; simpl. intros Hp Hf.
  destruct (sum_list_with_pos weight cs Hp) as (i & x & Hi & Hx).
  assert (Hnf : ∀ r, r ≠ Failed → Failed ∉ <[i:=r]> cs).
  { intros r Hr Hin. apply list_elem_of_lookup_1 in Hin as [j Hj].
    destruct (decide (i = j)) as [<- | Hij].
    - rewrite list_lookup_insert_eq in Hj by (by eapply lookup_lt_Some). congruence.
    - rewrite list_lookup_insert_ne in Hj by done. apply Hf. by eapply list_elem_of_lookup_2. }
  destruct x as [| c | c d |]; simpl in Hx; try lia.
  - destruct (begin_call g) as [g' r] eqn:Hb. exists (mkWorld g' (<[i:=r]> cs)).
    destruct (begin_call_clients _ _ _ Hb) as (_ & _ & Hr).
    pose proof (sum_list_with_insert weight cs i r Start Hi) as Hs. simpl in Hs.
    split; [by eapply step_begin | split; [unfold pending; simpl; lia |]]. apply Hnf. intros ->.
    revert Hb. unfold begin_call. by destruct (cachedClient g), (cachedDb g).
  - destruct (finish_call true c g) as [g' r] eqn:Hb. exists (mkWorld g' (<[i:=r]> cs)).
    pose proof (sum_list_with_insert weight cs i r (Awaiting c) Hi) as Hs. simpl in Hs.
    destruct (finish_call_clients _ _ _ _ _ Hb) as (_ & _ & Hr).
    split; [by eapply step_finish | split; [unfold pending; simpl; lia |]]. apply Hnf. intros ->. by injection Hb.
Qed.

(** The run of two concurrent first requests. *)
Lemma race_run : rtc step (init 2) race_world.
Proof.
  eapply rtc_l; [eapply (step_begin _ _ 0); reflexivity |].
  eapply rtc_l; [eapply (step_begin _ _ 1); reflexivity |].
  eapply rtc_l; [eapply (step_finish _ _ 0 0 true); reflexivity |].
  eapply rtc_l; [eapply (step_finish _ _ 1 1 true); reflexivity |].
  apply rtc_refl.
Qed.

(** A step of the call at position [length l1]. *)
Lemma step_begin_mid g l1 l2 g' r :
  begin_call g = (g', r) → step (mkWorld g (l1 ++ Start :: l2)) (mkWorld g' (l1 ++ r :: l2)).
Proof.
  intros Hb. replace (l1 ++ r :: l2) with (<[length l1:=r]> (l1 ++ Start :: l2)).
  - eapply step_begin; [by apply list_lookup_middle | done].
  - by rewrite <- (Nat.add_0_r (length l1)), insert_app_r.
Qed.

Lemma step_finish_mid g l1 l2 c ok g' r :
  finish_call ok c g = (g', r) → step (mkWorld g (l1 ++ Awaiting c :: l2)) (mkWorld g' (l1 ++ r :: l2)).
Proof.
  intros Hf. replace (l1 ++ r :: l2) with (<[length l1:=r]> (l1 ++ Awaiting c :: l2)).
  - eapply step_finish; [by apply list_lookup_middle | done].
  - by rewrite <- (Nat.add_0_r (length l1)), insert_app_r.
Qed.

(** The first [k] of [n] calls begin, one after another, before any
    [connect()] settles: each finds the cache empty and creates its
    client. *)
Lemma begin_all n k :
  (k ≤ n)%nat →
  rtc step (init n) (mkWorld (mkCache None None k) ((Awaiting <$> seq 0 k) ++ replicate (n - k)%nat Start)).
Proof.
  induction k as [|k IH]; intros Hk; [by rewrite Nat.sub_0_r |].
  eapply rtc_r; [apply IH; lia |]. replace (n - k) with (S (n - S k)) by lia.
  rewrite seq_S, fmap_app, <- app_assoc. cbn [replicate fmap list_fmap app]. by apply step_begin_mid.
Qed.

(** Then their [connect()]s succeed in the order the calls began, each
    overwriting the cache. *)
Lemma finish_all n k :
  (k ≤ n)%nat → rtc step (mkWorld (mkCache None None n) (Awaiting <$> seq 0 n))
    (mkWorld (mkCache (last (seq 0 k)) (last (seq 0 k)) n)
             (((λ j, Done j j) <$> seq 0 k) ++ (Awaiting <$> seq k (n - k)%nat))).
Proof.
  induction k as [|k IH]; intros Hk; [by rewrite Nat.sub_0_r |].
  eapply rtc_r; [apply IH; lia |]. replace (n - k) with (S (n - S k)) by lia.
  rewrite (seq_S k 0), last_snoc, fmap_app, <- app_assoc. simpl. by apply (step_finish_mid _ _ _ _ true).
Qed.

(** Once a client is cached, a step creates none and leaves one cached. *)
Lemma step_cached w w' :
  world_ok w → is_Some (cachedClient (w_cache w)) → step w w' →
  is_Some (cachedClient (w_cache w')) ∧ clients_made (w_cache w') = clients_made (w_cache w).
Proof.
  intros Hw Hc Hs. revert Hw Hc. destruct Hs as [g cs i g' r Hi Hb | g cs i c' ok g' r Hi Hf]; simpl;
    intros [Hg _] [c Hc]; simpl in Hg.
  - unfold begin_call in Hb. unfold coherent in Hg. rewrite Hc in Hb, Hg.
    destruct (cachedDb g); [| done]. injection Hb as <- <-. rewrite Hc. split; [by eexists | done].
  - unfold finish_call in Hf. destruct ok; injection Hf as <- <-; simpl; split; try done; by eexists.
Qed.

(** ** Properties *)

(** Run one call at a time, the gateway does what the spec says of
    it: every [getDb] that succeeds returns the same database, the one
    of the first successful [connect()]. *)
Theorem gateway_sequential_shared oks g :
  coherent g → cachedClient g = None →
  ∃ d, ∀ r, r ∈ (run_seq oks g).2 → r = None ∨ r = Some d.
Proof.
  revert g. induction oks as [|ok oks IH]; intros g Hg Hn; [exists 0; set_solver |]. simpl.
  destruct (getDb ok g) as [g1 [d|]] eqn:E.
  - destruct (getDb_result _ _ _ _ Hg E) as (Hc & Hd & _).
    rewrite (run_seq_cached g1 d oks Hc Hd). simpl. exists d. intros r [-> | (? & -> & _)%list_elem_of_fmap]%elem_of_cons; by right.
  - assert (Hg1 : coherent g1 ∧ cachedClient g1 = None).
    { revert E. unfold getDb, connectToDatabase, begin_call. unfold coherent in Hg. rewrite Hn in Hg |- *.
      destruct (cachedDb g); [done |]. destruct ok; simpl; intros [= <-]; done. }
    destruct Hg1 as [Hg1 Hn1]. destruct (IH g1 Hg1 Hn1) as [d Hd].
    destruct (run_seq oks g1) as [g2 rs]. exists d. intros r [-> | Hr]%elem_of_cons; [by left | by apply Hd].
Qed.

(** C27. Concurrent requests break the sharing: for every [n], the [n]
    first requests of a server can all begin before any [connect()]
    settles, and then each finds the cache empty and creates its own
    client; when the [connect()]s succeed, the server has created [n]
    clients, handed [n] different ones out, and the cache holds the last
    one to connect.  The spec's handle "lazily created once per process
    and shared" is created [n] times. *)
Theorem gateway_race n :
  ∃ w, rtc step (init n) w ∧ clients_made (w_cache w) = n ∧ cachedClient (w_cache w) = last (seq 0 n) ∧
       w_calls w = (λ j, Done j j) <$> seq 0 n.
Proof.
  exists (mkWorld (mkCache (last (seq 0 n)) (last (seq 0 n)) n) ((λ j, Done j j) <$> seq 0 n)).
  split_and!; [| done | done | done].
  eapply rtc_trans; [apply (begin_all n n); lia |]. rewrite Nat.sub_diag, app_nil_r.
  pose proof (finish_all n n (Nat.le_refl n)) as Hf. rewrite Nat.sub_diag, app_nil_r in Hf. exact Hf.
Qed.

(** C11. The cache does its work: once some [connect()] has succeeded
    and cached its client, however the requests interleave from then
    on, no call creates another client, and every call that has not
    begun will be handed the cached client and database at once,
    without awaiting a [connect()]. *)
Theorem gateway_cache_stops_clients n w w' :
  rtc step (init n) w → is_Some (cachedClient (w_cache w)) → rtc step w w' →
  clients_made (w_cache w') = clients_made (w_cache w) ∧
  ∀ i, w_calls w' !! i = Some Start → ∃ c, begin_call (w_cache w') = (w_cache w', Done c c).
Proof.
  intros Hr Hc Hr'. pose proof (reachable_ok n w Hr) as Hw.
  assert (H : world_ok w' ∧ is_Some (cachedClient (w_cache w')) ∧
              clients_made (w_cache w') = clients_made (w_cache w)).
  { clear Hr. revert Hw Hc. induction Hr' as [x | x y z Hxy _ IH]; intros Hw Hc; [done |].
    destruct (step_cached x y Hw Hc Hxy) as (Hc' & Hm). rewrite <- Hm. apply IH; [| done]. by eapply step_ok. }
  destruct H as ([Hg' _] & [c Hc'] & Hm). split; [done |]. intros i _. exists c.
  unfold begin_call. unfold coherent in Hg'. rewrite Hc' in Hg' |- *.
  destruct (cachedDb (w_cache w')); [by destruct Hg' as [-> _] | done].
Qed.

(** However the requests of a server interleave, [n] of them
    create at most [n] clients: every call creates at most one, when it
    begins and finds the cache empty.  [gateway_race] shows the bound is
    reached. *)
Theorem gateway_clients_bounded n w : rtc step (init n) w → (clients_made (w_cache w) ≤ n)%nat.
Proof.
  intros Hr. cut (length (w_calls w) = n ∧ (clients_made (w_cache w) + starts w ≤ n)%nat); [lia |].
  assert (Hi : length (w_calls (init n)) = n ∧ (clients_made (w_cache (init n)) + starts (init n) ≤ n)%nat).
  { unfold starts, init. simpl. rewrite length_replicate, sum_list_with_replicate. simpl. lia. }
  revert Hr Hi. generalize (init n) as x0.
  induction 1 as [|x y z Hxy _ IH]; intros [Hl Hc]; [done |]. apply IH.
  destruct (step_clients x y Hxy) as [Hl' Hc']. split; [lia |]. rewrite Hl' in Hc'. lia.
Qed.

(** Every request in flight settles: from any world in which no
    [connect()] has failed, the server can run its calls to the end,
    and when every [connect()] succeeds each call has a client and a
    database. *)
Theorem gateway_settles w :
  Failed ∉ w_calls w → ∃ w', rtc step w w' ∧ Forall is_done (w_calls w').
Proof.
  remember (pending w) as k eqn:Hk. revert w Hk. induction k as [k IH] using lt_wf_ind. intros w -> Hf.
  destruct (decide (0 < pending w)%nat) as [Hp | Hp].
  - destruct (step_progress w Hp Hf) as (w' & Hs & Hlt & Hf').
    destruct (IH _ Hlt w' eq_refl Hf') as (w'' & Hr & Hd). exists w''. split; [by eapply rtc_l | done].
  - exists w. split; [done |]. apply Forall_forall. intros c Hc.
    pose proof (elem_le_sum weight _ _ Hc). unfold pending in Hp.
    destruct c; simpl in *; [lia | lia | done | done].
Qed.

Lemma gateway_sequential_shared_witness :
  ∃ d, ∀ r, r ∈ (run_seq [false; true; true] empty_cache).2 → r = None ∨ r = Some d.
Proof. apply gateway_sequential_shared; [exact I | reflexivity]. Defined.

Lemma gateway_clients_bounded_witness : rtc step (init 2) race_world ∧ (clients_made (w_cache race_world) ≤ 2)%nat.
Proof. split; [apply race_run | apply (gateway_clients_bounded 2 race_world race_run)]. Defined.

Lemma gateway_settles_witness : ∃ w', rtc step (init 3) w' ∧ Forall is_done (w_calls w').
Proof. apply gateway_settles. decide_goal. Defined.

Lemma gateway_cache_stops_clients_witness :
  clients_made (w_cache served_world) = clients_made (w_cache cached_world).
Proof.
  refine (proj1 (gateway_cache_stops_clients 2 cached_world served_world _ _ _)).
  - eapply rtc_l; [eapply (step_begin _ _ 0); reflexivity |].
    eapply rtc_l; [eapply (step_finish _ _ 0 0 true); reflexivity |]. apply rtc_refl.
  - by eexists.
  - eapply rtc_l; [eapply (step_begin _ _ 1); reflexivity |]. apply rtc_refl.
Defined.

End Gateway.
