(* ===== verification/Json.v ===== *)
(** * JSON values, JavaScript truthiness and MongoDB ObjectIds

    Request bodies ([await request.json()]), MongoDB documents and
    response bodies ([NextResponse.json]) are all JSON objects in the
    source.  This file gives them one type, [json], with decidable
    equality, and the JavaScript operations the handlers apply to them:
    property access [body.f], truthiness ([!x], [x || d]), object spread
    ([{...o, k: v}]) and the deletion of [undefined] fields by
    [JSON.stringify].  It also models the ObjectId of the [bson] library
    the sources call ([new ObjectId(s)] and [oid.toString()]) as the
    24-digit hexadecimal rendering of a number. *)

From S2P Require Import Prelude.
From Stdlib Require Import Ascii.
Open Scope string_scope.

(** ** ObjectId (library [bson], called by the handlers) *)
Module ObjectId.

Definition hex_char (d : N) : ascii :=
    if (d <? 10)%N then ascii_of_N (48 + d) else ascii_of_N (87 + d).

(** The [k] low hexadecimal digits of [n], most significant first, in front of [acc]. *)
Fixpoint hex_digits (k : nat) (n : N) (acc : string) : string :=
    match k with
    | O => acc
    | S k => hex_digits k (n / 16) (String (hex_char (n mod 16)) acc)
    end.

(** [ObjectId.prototype.toString]: 24 lower-case hexadecimal digits. *)
Definition to_string (o : N) : string := hex_digits 24 o "".

Definition hex_val (c : ascii) : option N :=
    let v := N_of_ascii c in
    if (48 <=? v)%N && (v <=? 57)%N then Some (v - 48)%N
    else if (97 <=? v)%N && (v <=? 102)%N then Some (v - 87)%N
    else if (65 <=? v)%N && (v <=? 70)%N then Some (v - 55)%N
    else None.

Fixpoint parse_hex (s : string) (acc : N) : option N :=
    match s with
    | EmptyString => Some acc
    | String c s' =>
        match hex_val c with
        | Some d => parse_hex s' (acc * 16 + d)
        | None => None
        end
    end.

(** [new ObjectId(s)] on a string: exactly 24 hexadecimal digits, or the
      constructor throws a [BSONError]. *)
Definition of_string (s : string) : option N :=
    if Nat.eqb (String.length s) 24 then parse_hex s 0 else None.

Definition bound : N := 16 ^ 24.

End ObjectId.

(** ** JSON values *)

Inductive json :=
| JNull
| JBool (b : bool)
| JNum (z : Z)
| JDec (m : Z) (e : nat)      (** the decimal literal [m * 10^-e] of the source, e.g. [22.5] *)
| JStr (s : string)
| JOid (o : N)              (** an ObjectId value (BSON) *)
| JTime (t : Z)             (** [new Date()] at time [t] (milliseconds) *)
| JDateOf (v : json)        (** [new Date(v)] of a request value *)
| JArr (l : list json)
| JObj (fs : list (string * json)).

Fixpoint json_eq_dec (x y : json) {struct x} : {x = y} + {x ≠ y}.
Proof.
  refine (match x, y with
  | JNull, JNull => left eq_refl
  | JBool a, JBool b => if decide (a = b) then left _ else right _
  | JNum a, JNum b => if decide (a = b) then left _ else right _
  | JDec a e, JDec b f =>
      if decide (a = b) then (if decide (e = f) then left _ else right _) else right _
  | JStr a, JStr b => if decide (a = b) then left _ else right _
  | JOid a, JOid b => if decide (a = b) then left _ else right _
  | JTime a, JTime b => if decide (a = b) then left _ else right _
  | JDateOf a, JDateOf b => if json_eq_dec a b then left _ else right _
  | JArr a, JArr b =>
      if (fix go (l1 l2 : list json) : {l1 = l2} + {l1 ≠ l2} :=
            match l1, l2 with
            | [], [] => left eq_refl
            | u :: us, v :: vs =>
                match json_eq_dec u v, go us vs with
                | left e1, left e2 => left (f_equal2 cons e1 e2)
                | _, _ => right _
                end
            | _, _ => right _
            end) a b then left _ else right _
  | JObj a, JObj b =>
      if (fix go (l1 l2 : list (string * json)) : {l1 = l2} + {l1 ≠ l2} :=
            match l1, l2 with
            | [], [] => left eq_refl
            | (k, u) :: us, (k', v) :: vs =>
                match decide (k = k'), json_eq_dec u v, go us vs with
                | left e0, left e1, left e2 => left _
                | _, _, _ => right _
                end
            | _, _ => right _
            end) a b then left _ else right _
  | _, _ => right _
  end); congruence.
Defined.

#[export] Instance json_eq_decision : EqDecision json := json_eq_dec.

(** A JSON object, a MongoDB document: an ordered list of fields. *)
Abbreviation fields := (list (string * json)).

(** [o.k] on an object: the first field named [k] ([None] is [undefined]). *)
Fixpoint lookup_field (k : string) (fs : fields) : option json :=
  match fs with
  | [] => None
  | (k', v) :: fs' => if decide (k = k') then Some v else lookup_field k fs'
  end.

(** [v.k] on any value other than [null]: only objects have the fields the
    handlers read ([title], [landlordId], ...). *)
Definition get (v : json) (k : string) : option json :=
  match v with
  | JObj fs => lookup_field k fs
  | _ => None
  end.

(** JavaScript truthiness of a value; [undefined] is [None]. *)
Definition truthy (v : json) : bool :=
  match v with
  | JNull => false
  | JBool b => b
  | JNum z => negb (Z.eqb z 0)
  | JDec m _ => negb (Z.eqb m 0)
  | JStr s => negb (String.eqb s "")
  | _ => true
  end.

Definition truthy_opt (o : option json) : bool :=
  match o with Some v => truthy v | None => false end.

(** [a || d]. *)
Definition or_default (o : option json) (d : json) : json :=
  match o with
  | Some v => if truthy v then v else d
  | None => d
  end.

(** [{...fs, k: v}]: a present key keeps its place, a new key goes last. *)
Fixpoint set_field (k : string) (v : json) (fs : fields) : fields :=
  match fs with
  | [] => [(k, v)]
  | (k', v') :: fs' =>
      if decide (k = k') then (k, v) :: fs' else (k', v') :: set_field k v fs'
  end.

(** The fields other than [k]: [{k, ...rest} = o], or [{...o, k: undefined}]
    once serialised. *)
Definition drop_field (k : string) (fs : fields) : fields :=
  filter (fun kv => kv.1 ≠ k) fs.

(** ** JavaScript operations on primitive values *)

(** The numeric value of a number, as [m * 10^-e]. *)
Definition num_val (v : json) : option (Z * nat) :=
  match v with JNum z => Some (z, 0%nat) | JDec m e => Some (m, e) | _ => None end.

(** [x === y]: primitives by value ([undefined] is [None]); an object, an
    array, a [Date] or an ObjectId is only identical to itself, and the
    values the handlers compare never share an object. *)
Definition strict_eq (x y : option json) : bool :=
  match x, y with
  | None, None => true
  | Some JNull, Some JNull => true
  | Some (JBool a), Some (JBool b) => Bool.eqb a b
  | Some (JStr a), Some (JStr b) => String.eqb a b
  | Some a, Some b =>
      match num_val a, num_val b with
      | Some (m, e), Some (m', e') => Z.eqb (m * 10 ^ Z.of_nat e') (m' * 10 ^ Z.of_nat e)
      | _, _ => false
      end
  | _, _ => false
  end.

(** [parseInt(s)] with no radix: leading white space, a sign, a [0x]
    prefix for hexadecimal, then the longest run of digits; [None] is
    [NaN], when there is no digit.

    [is_ws] is JavaScript's white space ([\s], [trim], [parseInt]) on
    one-byte code units: tab to carriage return, space and the no-break
    space U+00A0. *)
Definition is_ws (c : ascii) : bool :=
  let n := nat_of_ascii c in (Nat.leb 9 n && Nat.leb n 13) || Nat.eqb n 32 || Nat.eqb n 160.

Fixpoint skip_ws (s : string) : string :=
  match s with
  | String c s' => if is_ws c then skip_ws s' else s
  | EmptyString => EmptyString
  end.

Definition digit_val (radix : N) (c : ascii) : option N :=
  match ObjectId.hex_val c with Some d => if (d <? radix)%N then Some d else None | None => None end.

Fixpoint digits_prefix (radix : N) (s : string) (acc : N) (seen : bool) : option N :=
  match s with
  | EmptyString => if seen then Some acc else None
  | String c s' =>
      match digit_val radix c with
      | Some d => digits_prefix radix s' (acc * radix + d) true
      | None => if seen then Some acc else None
      end
  end.

Definition parse_int (s : string) : option Z :=
  let s := skip_ws s in
  let '(sign, s) := match s with
                    | String "-" s' => ((-1)%Z, s')
                    | String "+" s' => (1%Z, s')
                    | _ => (1%Z, s)
                    end in
  let '(radix, s) := match s with
                     | String "0" (String c s') =>
                         if Ascii.eqb c "x" || Ascii.eqb c "X" then (16%N, s') else (10%N, s)
                     | _ => (10%N, s)
                     end in
  option_map (fun n => (sign * Z.of_N n)%Z) (digits_prefix radix s 0 false).

(** [s.split(sep)] on a one-character separator: the pieces between the
    separators, empty ones included. *)
Fixpoint js_split (sep : ascii) (s : string) : list string :=
  match s with
  | EmptyString => [EmptyString]
  | String c s' =>
      let r := js_split sep s' in
      if Ascii.eqb c sep then EmptyString :: r
      else match r with
           | [] => [String c EmptyString]
           | w :: r' => String c w :: r'
           end
  end.

(** A number as [JSON.stringify] writes it: [NaN] and the infinities are [null]. *)
Definition num_json (o : option Z) : json :=
  match o with Some z => JNum z | None => JNull end.

(** [Math.ceil(a / b)] on integers; [None] is [NaN] or an infinity. *)
Definition ceil_div (a : Z) (ob : option Z) : option Z :=
  match ob with
  | Some b => if Z.eqb b 0 then None else Some (- ((- a) / b))%Z
  | None => None
  end.

(** ** Lemmas *)

Lemma lookup_set_field_eq k v fs : lookup_field k (set_field k v fs) = Some v.
Proof.
  induction fs as [|[k' v'] fs IH]; simpl; decide_all; by case_decide.
Qed.

Lemma lookup_set_field_ne k k' v fs :
  k ≠ k' → lookup_field k' (set_field k v fs) = lookup_field k' fs.
Proof.
  intros Hne. induction fs as [|[k'' v'] fs IH]; simpl; decide_all.
  all: simpl; decide_all.
Qed.

Lemma lookup_drop_field_eq k fs : lookup_field k (drop_field k fs) = None.
Proof.
  induction fs as [|[k' v'] fs IH]; [done |]. unfold drop_field in *.
  rewrite filter_cons. case_decide; simpl in *; [case_decide; [congruence | done] | done].
Qed.

Lemma lookup_drop_field_ne k k' fs :
  k ≠ k' → lookup_field k' (drop_field k fs) = lookup_field k' fs.
Proof.
  intros Hne. induction fs as [|[k'' v'] fs IH]; [done |]. unfold drop_field in *.
  rewrite filter_cons. case_decide; simpl in *; decide_all.
Qed.

Lemma or_default_truthy o d : truthy_opt o = true → ∃ v, o = Some v ∧ or_default o d = v.
Proof. destruct o as [v|]; simpl; [|done]. intros ->. by eexists. Qed.

Lemma or_default_falsy o d : truthy_opt o = false → or_default o d = d.
Proof. destruct o as [v|]; simpl; [|done]. by intros ->. Qed.

Lemma elem_of_drop_field k k' v fs : (k', v) ∈ drop_field k fs ↔ (k', v) ∈ fs ∧ k' ≠ k.
Proof. unfold drop_field. rewrite list_elem_of_filter. simpl. tauto. Qed.

Lemma keys_drop_field k k' fs : k' ∈ (drop_field k fs).*1 → k' ∈ fs.*1 ∧ k' ≠ k.
Proof.
  intros ([k'' v] & -> & Hin)%list_elem_of_fmap. apply elem_of_drop_field in Hin as [Hin Hk].
  split; [| done]. apply list_elem_of_fmap. by exists (k'', v).
Qed.

Lemma NoDup_drop_field k fs : NoDup fs.*1 → NoDup (drop_field k fs).*1.
Proof.
  induction fs as [|[k' v] fs IH]; intros Hnd; [constructor |]. simpl in Hnd.
  apply NoDup_cons in Hnd as [Hk Hnd]. unfold drop_field in *. rewrite filter_cons.
  case_decide; simpl; [| by apply IH]. constructor; [| by apply IH].
  intros [? _]%keys_drop_field. done.
Qed.

Lemma keys_set_field k k' v fs : k' ∈ (set_field k v fs).*1 ↔ k' = k ∨ k' ∈ fs.*1.
Proof.
  induction fs as [|[k'' v'] fs IH]; simpl; [set_solver |].
  case_decide; simpl; rewrite !elem_of_cons; [subst; tauto |]. rewrite IH. tauto.
Qed.

Lemma NoDup_set_field k v fs : NoDup fs.*1 → NoDup (set_field k v fs).*1.
Proof.
  induction fs as [|[k' v'] fs IH]; simpl; intros Hnd; [constructor; [set_solver | constructor] |].
  apply NoDup_cons in Hnd as [Hk Hnd]. case_decide; simpl; constructor; [by subst | done | | by apply IH].
  rewrite keys_set_field. intros [-> | ?]; [done | tauto].
Qed.

Lemma elem_of_set_field_ne k k' v v' fs : k' ≠ k → (k', v') ∈ fs → (k', v') ∈ set_field k v fs.
Proof.
  intros Hk. induction fs as [|[k'' v''] fs IH]; simpl; [set_solver |].
  rewrite elem_of_cons. intros [Heq | Hin]; case_decide; simplify_eq; set_solver.
Qed.

Lemma elem_of_set_field_eq k v fs : (k, v) ∈ set_field k v fs.
Proof. induction fs as [|[k' v'] fs IH]; simpl; [set_solver |]. case_decide; set_solver. Qed.

Lemma strict_eq_str_refl a : strict_eq (Some (JStr a)) (Some (JStr a)) = true.
Proof. simpl. apply String.eqb_refl. Qed.

Lemma strict_eq_str_inv a b : strict_eq (Some (JStr a)) (Some (JStr b)) = true → a = b.
Proof. simpl. apply String.eqb_eq. Qed.

Lemma strict_eq_str_ne x a : x ≠ Some (JStr a) → strict_eq x (Some (JStr a)) = false.
Proof.
  intros Hx. destruct x as [[]|]; simpl; try done.
  apply String.eqb_neq. congruence.
Qed.

Lemma strict_eq_str_Some x a : strict_eq x (Some (JStr a)) = true → x = Some (JStr a).
Proof. destruct (decide (x = Some (JStr a))) as [-> | Hx]; [done |]. by rewrite strict_eq_str_ne. Qed.

Lemma truthy_opt_str a : a ≠ "" → truthy_opt (Some (JStr a)) = true.
Proof. intros Ha. simpl. by rewrite (proj2 (String.eqb_neq a "") Ha). Qed.

#[export] Hint Rewrite lookup_set_field_eq lookup_drop_field_eq : uninest_rw.

(** Rewrites the lookups of fields through [set_field] with literal keys. *)
Ltac field_simpl :=
  repeat first [ rewrite lookup_set_field_eq
               | rewrite lookup_set_field_ne by discriminate ].
