(* ===== verification/MongoDb.v ===== *)
(** * The document store and the handlers' effects

    The handlers reach MongoDB through [getDb()] ([src/src/lib/mongodb.ts])
    and call the driver's [findOne], [find(...).sort(...).skip(...).limit(...)],
    [countDocuments], [insertOne], [updateOne] (with and without [upsert]),
    [updateMany] and [deleteOne] on six collections.  This file models:
    - [store]: the six collections as lists of documents in natural
      (insertion) order, and the counter from which ObjectIds are drawn;
    - [M]: the handlers' effect, state passing with exceptions in which a
      write already made survives a later exception, as an awaited
      driver call does (there is no transaction anywhere in the source);
    - [query] and [upd]: the query and update operators the handlers use,
      with MongoDB's matching of a value against an array field;
    - [RegexEngine]: the interface of the server's regular expressions,
      used only by the [city] filter of the property list. *)

From S2P Require Import Prelude Json.
From Stdlib Require Import Ascii.
Open Scope string_scope.

(** ** JavaScript string helpers used by the handlers and by queries *)

Definition lower_ascii (c : Ascii.ascii) : Ascii.ascii :=
  let n := Ascii.nat_of_ascii c in
  if Nat.leb 65 n && Nat.leb n 90 then Ascii.ascii_of_nat (n + 32) else c.

(** [s.toLowerCase()] on ASCII text. *)
Fixpoint to_lower (s : string) : string :=
  match s with
  | EmptyString => EmptyString
  | String c s' => String (lower_ascii c) (to_lower s')
  end.

(** [s.includes(p)]. *)
Fixpoint contains (p s : string) : bool :=
  String.prefix p s ||
  match s with EmptyString => false | String _ s' => contains p s' end.

Definition is_regex_meta (c : Ascii.ascii) : bool :=
  bool_decide (c ∈ ["\"; "^"; "$"; "."; "|"; "?"; "*"; "+"; "("; ")"; "["; "]"; "{"; "}"]%char).

Fixpoint no_regex_meta (s : string) : bool :=
  match s with
  | EmptyString => true
  | String c s' => negb (is_regex_meta c) && no_regex_meta s'
  end.

(** The server's regular expressions, [{$regex: p, $options: "i"}]: which
    patterns compile, and case-insensitive search.  The law fixes the one
    case the development relies on: a pattern without metacharacters is
    a case-insensitive substring test. *)
Class RegexEngine := {
  regex_compiles : string → bool;
  regex_search_i : string → string → bool;
  regex_literal : ∀ p s, no_regex_meta p = true →
    regex_compiles p = true ∧ regex_search_i p s = contains (to_lower p) (to_lower s)
}.

(** ** The store *)

Inductive coll := Users | StudentProfiles | LandlordProfiles | Properties | Inquiries | Wishlists.

#[export] Instance coll_eq_dec : EqDecision coll.
Proof. solve_decision. Defined.

Record store := mkStore {
  db_users : list fields;
  db_studentProfiles : list fields;
  db_landlordProfiles : list fields;
  db_properties : list fields;
  db_inquiries : list fields;
  db_wishlists : list fields;
  db_next_oid : N
}.

Definition docs (c : coll) (s : store) : list fields :=
  match c with
  | Users => db_users s
  | StudentProfiles => db_studentProfiles s
  | LandlordProfiles => db_landlordProfiles s
  | Properties => db_properties s
  | Inquiries => db_inquiries s
  | Wishlists => db_wishlists s
  end.

Definition set_docs (c : coll) (l : list fields) (s : store) : store :=
  let '(mkStore u sp lp p i w n) := s in
  match c with
  | Users => mkStore l sp lp p i w n
  | StudentProfiles => mkStore u l lp p i w n
  | LandlordProfiles => mkStore u sp l p i w n
  | Properties => mkStore u sp lp l i w n
  | Inquiries => mkStore u sp lp p l w n
  | Wishlists => mkStore u sp lp p i l n
  end.

Definition empty_store : store := mkStore [] [] [] [] [] [] 1.

(** ** The effect of a handler *)

Inductive exn :=
| BSONError                       (** [new ObjectId(s)] on a malformed string *)
| TypeError                       (** a property read on [null]/[undefined] *)
| MongoServerError (what : string).

Definition M (A : Type) : Type := store → store * (exn + A).

Definition mret {A} (a : A) : M A := fun s => (s, inr a).
Definition mbind {A B} (m : M A) (k : A → M B) : M B :=
  fun s => match m s with
           | (s', inl e) => (s', inl e)
           | (s', inr a) => k a s'
           end.
Definition throw {A} (e : exn) : M A := fun s => (s, inl e).

(** [try { m } catch { h }]: the writes [m] made before throwing stay. *)
Definition mcatch {A} (m : M A) (h : exn → M A) : M A :=
  fun s => match m s with
           | (s', inl e) => h e s'
           | (s', inr a) => (s', inr a)
           end.

Notation "x <- m ;; k" := (mbind m (fun x => k))
  (at level 100, m at next level, right associativity) : un_scope.
Notation "m ;;; k" := (mbind m (fun _ => k))
  (at level 100, right associativity) : un_scope.
Open Scope un_scope.

Definition of_option {A} (e : exn) (o : option A) : M A :=
  match o with Some a => mret a | None => throw e end.

(** [v.k] where [v] may be [null]: a [TypeError] on [null]. *)
Definition getp (v : json) (k : string) : M (option json) :=
  match v with JNull => throw TypeError | _ => mret (get v k) end.

(** [Promise.all(l.map(f))] or a loop of awaited calls, in order. *)
Fixpoint mmap {A B} (f : A → M B) (l : list A) : M (list B) :=
  match l with
  | [] => mret []
  | x :: l' => y <- f x ;; ys <- mmap f l' ;; mret (y :: ys)
  end.

(** [new ObjectId(v)] for the values the handlers pass: a string must be 24
    hexadecimal digits; [null] or a number draws a fresh id; an ObjectId
    is copied; anything else throws. *)
Definition bump (s : store) : store :=
  let '(mkStore u sp lp p i w n) := s in mkStore u sp lp p i w (n + 1).

Definition fresh_oid : M N := fun s => (bump s, inr (db_next_oid s)).

Definition new_ObjectId (v : json) : M N :=
  match v with
  | JStr str => of_option BSONError (ObjectId.of_string str)
  | JOid o => mret o
  | JNull | JNum _ => fresh_oid
  | _ => throw BSONError
  end.

(** ** Responses *)

(** A signed session token ([jsonwebtoken]): its payload, the time it was
    issued and the secret that signed it.  The string the library prints
    is not modelled, only what [jwt.verify] can recover from it. *)
Record token := mkToken { tok_payload : json; tok_iat : Z; tok_secret : string }.

(** [response.cookies.set(name, value, {maxAge, ...})]; an empty value is [None]. *)
Record cookie := mkCookie { cookie_name : string; cookie_value : option token; cookie_max_age : Z }.

Record response := mkResponse { status : Z; body : json; set_cookie : option cookie }.

Definition respond (st : Z) (fs : fields) : response := mkResponse st (JObj fs) None.

(** [request.nextUrl.searchParams]: [get(k)] is the first value of [k]. *)
Abbreviation params := (list (string * string)).

Fixpoint param (k : string) (ps : params) : option string :=
  match ps with
  | [] => None
  | (k', v) :: ps' => if decide (k = k') then Some v else param k ps'
  end.

(** [!v] for a parameter: absent ([null]) or empty. *)
Definition param_missing (o : option string) : bool :=
  match o with None => true | Some v => String.eqb v "" end.

(** A handler's outer [try { ... } catch { return 500 }]. *)
Definition run (h : M response) (on_exn : response) (s : store) : store * response :=
  match h s with
  | (s', inl _) => (s', on_exn)
  | (s', inr r) => (s', r)
  end.

(** ** Queries

    A query is a conjunction of conditions on top-level fields. *)

Inductive cond :=
| QEq (f : string) (v : json)                    (** [{f: v}] *)
| QIn (f : string) (vs : list json)              (** [{f: {$in: vs}}] *)
| QRegexI (f : string) (p : string)              (** [{f: {$regex: p, $options: "i"}}] *)
| QRange (f : string) (lo hi : option (option Z))
(** [{f: {$gte: lo, $lte: hi}}]; an absent bound is [None], a bound
        computed by [parseInt] may be [NaN], written [Some None] *)
| QAll (f : string) (vs : list json).            (** [{f: {$all: vs}}] *)

Abbreviation query := (list cond).

(** A field matches a value when it equals it or, for an array field,
    when one of its elements does. *)
Definition candidates (x : json) : list json :=
  x :: match x with JArr l => l | _ => [] end.

Definition eq_match (x : option json) (v : json) : bool :=
  match x with
  | None => bool_decide (v = JNull)
  | Some x => existsb (fun y => bool_decide (y = v)) (candidates x)
  end.

Definition bound_ok (cmp : Z → Z → bool) (b : option (option Z)) (x : json) : bool :=
  match b with
  | None => true
  | Some None => false                      (** only [NaN] compares with [NaN] *)
  | Some (Some z) =>
      existsb (fun y => match y with JNum r => cmp r z | _ => false end) (candidates x)
  end.

Section matching.
Context `{RegexEngine}.

Definition cond_match (d : fields) (c : cond) : bool :=
    match c with
    | QEq f v => eq_match (lookup_field f d) v
    | QIn f vs => existsb (eq_match (lookup_field f d)) vs
    | QRegexI f p =>
        match lookup_field f d with
        | Some x => existsb (fun y => match y with JStr s => regex_search_i p s | _ => false end)
                            (candidates x)
        | None => false
        end
    | QRange f lo hi =>
        match lookup_field f d with
        | Some x => bound_ok Z.geb lo x && bound_ok Z.leb hi x
        | None => false
        end
    | QAll f vs => negb (bool_decide (vs = [])) && forallb (eq_match (lookup_field f d)) vs
    end.

Definition matches (q : query) (d : fields) : bool := forallb (cond_match d) q.

(** The server refuses a query whose regular expression does not compile. *)
Definition query_ok (q : query) : bool :=
    forallb (fun c => match c with QRegexI _ p => regex_compiles p | _ => true end) q.

Definition with_query {A} (q : query) (k : M A) : M A :=
    if query_ok q then k else throw (MongoServerError "BadValue: regular expression").

(** [collection(c).findOne(q)]: the first match in natural order. *)
Definition find_one (c : coll) (q : query) : M (option fields) :=
    with_query q (fun s => (s, inr (List.find (matches q) (docs c s)))).

(** [collection(c).countDocuments(q)]. *)
Definition count_documents (c : coll) (q : query) : M Z :=
    with_query q (fun s => (s, inr (Z.of_nat (length (filter (fun d => matches q d = true) (docs c s)))))).
(** [collection(c).find(q).toArray()]: the matches in natural order. *)
Definition find_all (c : coll) (q : query) : M (list fields) :=
    with_query q (fun s => (s, inr (filter (fun d => matches q d = true) (docs c s)))).
End matching.

(** ** Sorting by [createdAt], newest first

    [.sort({createdAt: -1})]; a document without a date sorts last and
    ties keep natural order. *)

Definition created_key (d : fields) : option Z :=
  match lookup_field "createdAt" d with Some (JTime t) => Some t | _ => None end.

Definition key_le (a b : option Z) : bool :=
  match a, b with
  | None, _ => true
  | Some _, None => false
  | Some x, Some y => Z.leb x y
  end.

Fixpoint insert_newest (d : fields) (l : list fields) : list fields :=
  match l with
  | [] => [d]
  | d' :: l' => if key_le (created_key d') (created_key d) then d :: l else d' :: insert_newest d l'
  end.

Fixpoint sort_newest (l : list fields) : list fields :=
  match l with
  | [] => []
  | d :: l' => insert_newest d (sort_newest l')
  end.

(** [.skip(n)] and [.limit(n)] with the numbers the handlers compute:
    [NaN] or a negative skip is refused by the server, a limit of 0 means
    no limit and a negative limit [-n] returns [n] documents. *)
Definition cursor_skip (n : option Z) (l : list fields) : M (list fields) :=
  match n with
  | Some z => if Z.leb 0 z then mret (drop (Z.to_nat z) l)
              else throw (MongoServerError "BadValue: skip")
  | None => throw (MongoServerError "BadValue: skip")
  end.

Definition cursor_limit (n : option Z) (l : list fields) : M (list fields) :=
  match n with
  | Some z => if Z.eqb z 0 then mret l else mret (take (Z.to_nat (Z.abs z)) l)
  | None => throw (MongoServerError "BadValue: limit")
  end.

Definition find_page `{RegexEngine} (c : coll) (q : query) (skip limit : option Z) : M (list fields) :=
  with_query q (fun s =>
    (l <- cursor_skip skip (sort_newest (filter (fun d => matches q d = true) (docs c s)));;
     cursor_limit limit l) s).

(** ** Updates *)

Inductive upd :=
| USet (fs : fields)                 (** [$set] *)
| UInc (f : string) (n : Z)          (** [$inc] *)
| UAddToSet (f : string) (v : json)  (** [$addToSet] *)
| UPull (f : string) (v : json)      (** [$pull] *)
| USetOnInsert (fs : fields).        (** [$setOnInsert] *)

Definition set_one (d : fields) (kv : string * json) : exn + fields :=
  let '(k, v) := kv in
  if decide (k = "_id") then
    (if decide (lookup_field "_id" d = Some v) then inr d
     else inl (MongoServerError "ImmutableField: _id"))
  else inr (set_field k v d).

Fixpoint set_all (d : fields) (fs : fields) : exn + fields :=
  match fs with
  | [] => inr d
  | kv :: fs' => match set_one d kv with inr d' => set_all d' fs' | inl e => inl e end
  end.

Definition apply_upd (inserting : bool) (d : fields) (u : upd) : exn + fields :=
  match u with
  | USet fs => set_all d fs
  | USetOnInsert fs => if inserting then set_all d fs else inr d
  | UInc f n =>
      match lookup_field f d with
      | None => inr (set_field f (JNum n) d)
      | Some (JNum m) => inr (set_field f (JNum (m + n)) d)
      | Some _ => inl (MongoServerError "TypeMismatch: $inc")
      end
  | UAddToSet f v =>
      match lookup_field f d with
      | None => inr (set_field f (JArr [v]) d)
      | Some (JArr l) => inr (set_field f (JArr (add_to_set v l)) d)
      | Some _ => inl (MongoServerError "BadValue: $addToSet")
      end
  | UPull f v =>
      match lookup_field f d with
      | None => inr d
      | Some (JArr l) => inr (set_field f (JArr (remove_all v l)) d)
      | Some _ => inl (MongoServerError "BadValue: $pull")
      end
  end.

Fixpoint apply_upds (inserting : bool) (d : fields) (us : list upd) : exn + fields :=
  match us with
  | [] => inr d
  | u :: us' => match apply_upd inserting d u with
                | inr d' => apply_upds inserting d' us'
                | inl e => inl e
                end
  end.

(** The equality conditions of a query seed an upserted document. *)
Definition seed (q : query) : fields :=
  omap (fun c => match c with QEq f v => Some (f, v) | _ => None end) q.

Section writes.
Context `{RegexEngine}.

(** [collection(c).insertOne(d)]: the driver adds a fresh [_id]. *)
Definition insert_one (c : coll) (d : fields) : M N :=
    o <- fresh_oid ;;
    (fun s => (set_docs c (docs c s ++ [("_id", JOid o) :: d]) s, inr o)).

(** [collection(c).updateOne(q, us, {upsert})]: the first match is
      updated; with [upsert] and no match, a document seeded by the query
      is inserted.  The result is [(matchedCount, modifiedCount)]. *)
Definition update_one (c : coll) (q : query) (us : list upd) (upsert : bool) : M (Z * Z) :=
    with_query q (fun s =>
      match list_find (fun d => matches q d = true) (docs c s) with
      | Some (i, d) =>
          match apply_upds false d us with
          | inr d' => (set_docs c (<[i:=d']> (docs c s)) s,
                       inr (1%Z, if decide (d' = d) then 0%Z else 1%Z))
          | inl e => (s, inl e)
          end
      | None =>
          if upsert then
            match apply_upds true (("_id", JOid (db_next_oid s)) :: seed q) us with
            | inr d' => (set_docs c (docs c s ++ [d']) (bump s), inr (0%Z, 0%Z))
            | inl e => (s, inl e)
            end
          else (s, inr (0%Z, 0%Z))
      end).

(** [updateMany]: matches are updated in natural order; an update that
      fails stops the scan and the documents already updated stay so. *)
Fixpoint update_each (q : query) (us : list upd) (l : list fields) : list fields * option exn :=
    match l with
    | [] => ([], None)
    | d :: l' =>
        if matches q d then
          match apply_upds false d us with
          | inr d' => let '(r, e) := update_each q us l' in (d' :: r, e)
          | inl e => (d :: l', Some e)
          end
        else let '(r, e) := update_each q us l' in (d :: r, e)
    end.

Definition update_many (c : coll) (q : query) (us : list upd) : M unit :=
    with_query q (fun s =>
      let '(l, e) := update_each q us (docs c s) in
      (set_docs c l s, match e with None => inr tt | Some e => inl e end)).

Fixpoint delete_first (q : query) (l : list fields) : list fields :=
    match l with
    | [] => []
    | d :: l' => if matches q d then l' else d :: delete_first q l'
    end.

(** [deleteOne(q)]. *)
Definition delete_one (c : coll) (q : query) : M unit :=
    with_query q (fun s => (set_docs c (delete_first q (docs c s)) s, inr tt)).
End writes.

(** A regular-expression engine that reads every pattern literally: it
    satisfies [regex_literal], and concrete runs use it. *)
Definition literal_regex : RegexEngine.
Proof.
  refine {| regex_compiles := fun _ => true;
            regex_search_i := fun p s => contains (to_lower p) (to_lower s) |}.
  done.
Defined.

(** ** Read-only computations

    A computation that leaves the store as it found it, whatever its
    outcome; proved by composing the lemmas below ([solve_ro]). *)

Definition read_only {A} (m : M A) : Prop := ∀ s, (m s).1 = s.

(** A document whose [_id] is an ObjectId, as [insertOne] gives it. *)
Definition has_oid (d : fields) : Prop := ∃ o, lookup_field "_id" d = Some (JOid o).

(** ** Frames

    What a computation leaves alone: [preserves R m] when the store
    before and after [m] are related by [R], whatever [m]'s outcome.
    [unchanged c] keeps a collection; [field_frame c k] keeps the field
    [k] of every document of [c], in order. *)
Definition preserves {A} (R : store → store → Prop) (m : M A) : Prop := ∀ s, R s (m s).1.

Definition unchanged (c : coll) (s s' : store) : Prop := docs c s' = docs c s.

Definition field_frame (c : coll) (k : string) (s s' : store) : Prop :=
  map (lookup_field k) (docs c s') = map (lookup_field k) (docs c s).

(** [P] holds after [m] when it held before. *)
Definition inv_rel (P : store → Prop) (s s' : store) : Prop := P s → P s'.

(** An update operator that never changes the field [k]. *)
Definition keeps_field (k : string) (u : upd) : Prop :=
  ∀ ins d d', apply_upd ins d u = inr d' → lookup_field k d' = lookup_field k d.

Section update_props.
Context `{RegexEngine}.

(** Every document of the list accepts the update. *)
Definition upds_total (us : list upd) (l : list fields) : Prop :=
  Forall (λ d, ∃ d', apply_upds false d us = inr d') l.

(** [l'] is [l] with the matches of [q] updated. *)
Definition updated (q : query) (us : list upd) (l l' : list fields) : Prop :=
  Forall2 (λ d d', (matches q d = true ∧ apply_upds false d us = inr d') ∨ (matches q d = false ∧ d' = d)) l l'.

End update_props.

(** ** Lemmas on strings *)

Lemma lower_ascii_idemp c : lower_ascii (lower_ascii c) = lower_ascii c.
Proof. destruct c as [[] [] [] [] [] [] [] []]; reflexivity. Qed.

Lemma to_lower_idemp s : to_lower (to_lower s) = to_lower s.
Proof. induction s as [|c s IH]; simpl; [done |]. by rewrite lower_ascii_idemp, IH. Qed.

#[export] Hint Rewrite to_lower_idemp : uninest_rw.

(** ** Lemmas on sorting *)

Lemma insert_newest_perm d l : insert_newest d l ≡ₚ d :: l.
Proof.
  induction l as [|d' l IH]; simpl; [done |]. case_match; [done |].
  rewrite IH. apply perm_swap.
Qed.

Lemma sort_newest_perm l : sort_newest l ≡ₚ l.
Proof. induction l as [|d l IH]; simpl; [done |]. by rewrite insert_newest_perm, IH. Qed.

Lemma sort_newest_length l : length (sort_newest l) = length l.
Proof. apply Permutation_length, sort_newest_perm. Qed.

(** ** Lemmas on the store *)

Lemma docs_set_docs_eq c l s : docs c (set_docs c l s) = l.
Proof. by destruct s, c. Qed.

Lemma docs_set_docs_ne c c' l s : c ≠ c' → docs c' (set_docs c l s) = docs c' s.
Proof. destruct s, c, c'; simpl; congruence. Qed.

Lemma docs_bump c s : docs c (bump s) = docs c s.
Proof. by destruct s, c. Qed.

Lemma next_oid_set_docs c l s : db_next_oid (set_docs c l s) = db_next_oid s.
Proof. by destruct s, c. Qed.

Lemma set_docs_id c s : set_docs c (docs c s) s = s.
Proof. by destruct s, c. Qed.

#[export] Hint Rewrite docs_set_docs_eq docs_bump next_oid_set_docs set_docs_id : uninest_rw.

Lemma getp_some v k x : get v k = Some x → getp v k = mret (Some x).
Proof. destruct v; simpl; congruence. Qed.

Lemma getp_nonnull v k : v ≠ JNull → getp v k = mret (get v k).
Proof. destruct v; simpl; congruence. Qed.

Lemma getp_none v k : v ≠ JNull → get v k = None → getp v k = mret None.
Proof. destruct v; simpl; congruence. Qed.

Lemma mbind_mret {A B} (a : A) (k : A → M B) s : mbind (mret a) k s = k a s.
Proof. done. Qed.

Lemma mmap_mret {A B} (f : A → M B) (g : A → B) l :
  (∀ x, x ∈ l → f x = mret (g x)) → mmap f l = mret (map g l).
Proof.
  induction l as [|x l IH]; intros Hf; [done |]. simpl.
  rewrite Hf by set_solver. rewrite IH by (intros y Hy; apply Hf; set_solver). done.
Qed.

Lemma mmap_total {A B} (f : A → M B) l :
  Forall (λ x, ∃ y, f x = mret y) l → ∃ ys, Forall2 (λ x y, f x = mret y) l ys ∧ mmap f l = mret ys.
Proof.
  induction 1 as [|x l (y & Hy) _ (ys & Hys & Hm)]; [by exists [] |].
  exists (y :: ys). split; [by constructor |]. simpl. by rewrite Hy, Hm.
Qed.

Lemma mbind_inl {A B} (m : M A) (k : A → M B) s s' e :
  m s = (s', inl e) → mbind m k s = (s', inl e).
Proof. unfold mbind. by intros ->. Qed.

Lemma mbind_inr {A B} (m : M A) (k : A → M B) s s' a :
  m s = (s', inr a) → mbind m k s = k a s'.
Proof. unfold mbind. by intros ->. Qed.

Section store_lemmas.
Context `{RegexEngine}.

Lemma insert_one_eq c d s :
  insert_one c d s = (set_docs c (docs c s ++ [("_id", JOid (db_next_oid s)) :: d]) (bump s), inr (db_next_oid s)).
Proof. unfold insert_one, mbind, fresh_oid. by rewrite docs_bump. Qed.

Lemma insert_one_unit c d s :
  (insert_one c d ;;; mret tt) s = (set_docs c (docs c s ++ [("_id", JOid (db_next_oid s)) :: d]) (bump s), inr tt).
Proof. unfold mbind at 1. by rewrite insert_one_eq. Qed.

Lemma eq_match_self x : eq_match (Some x) x = true.
Proof. unfold eq_match, candidates. simpl. by rewrite bool_decide_eq_true_2. Qed.

Lemma eq_match_scalar x v : (∀ l, x ≠ JArr l) → eq_match (Some x) v = bool_decide (x = v).
Proof. intros Hx. unfold eq_match, candidates. destruct x as [| | | | | | | | l |]; simpl; rewrite ?orb_false_r; try done. by destruct (Hx l). Qed.

Lemma eq_match_arr l v : (∀ l', v ≠ JArr l') → eq_match (Some (JArr l)) v = bool_decide (v ∈ l).
Proof.
  intros Hv. unfold eq_match, candidates. simpl.
  rewrite bool_decide_eq_false_2 by (intros <-; by destruct (Hv l)). simpl.
  rewrite (existsb_eq_elem v l). done.
Qed.

Lemma matches_app q1 q2 d : matches (q1 ++ q2) d = matches q1 d && matches q2 d.
  Proof. apply forallb_app. Qed.

Lemma matches_nil d : matches [] d = true.
  Proof. done. Qed.

Lemma matches_single c d : matches [c] d = cond_match d c.
  Proof. unfold matches. simpl. apply andb_true_r. Qed.

Lemma matches_eq_self k v u : lookup_field k u = Some v → matches [QEq k v] u = true.
  Proof. intros E. unfold matches. simpl. rewrite E. simpl. by rewrite bool_decide_eq_true_2. Qed.

Lemma matches_eq_str_other k a b u :
    lookup_field k u = Some (JStr a) → a ≠ b → matches [QEq k (JStr b)] u = false.
  Proof. intros E Hne. unfold matches. simpl. rewrite E. simpl. rewrite bool_decide_eq_false_2; [done | congruence]. Qed.

Lemma with_query_ok {A} q (k : M A) s : query_ok q = true → with_query q k s = k s.
  Proof. unfold with_query. by intros ->. Qed.

Lemma find_one_ok c q s :
    query_ok q = true → find_one c q s = (s, inr (List.find (matches q) (docs c s))).
  Proof. unfold find_one, with_query. by intros ->. Qed.

Lemma count_documents_ok c q s :
    query_ok q = true →
    count_documents c q s = (s, inr (Z.of_nat (length (filter (fun d => matches q d = true) (docs c s))))).
  Proof. unfold count_documents, with_query. by intros ->. Qed.

Lemma delete_one_ok c q s :
    query_ok q = true → delete_one c q s = (set_docs c (delete_first q (docs c s)) s, inr tt).
  Proof. unfold delete_one, with_query. by intros ->. Qed.

Lemma update_one_no_match c q us s :
    query_ok q = true → (∀ d, d ∈ docs c s → matches q d = false) →
    update_one c q us false s = (s, inr (0%Z, 0%Z)).
  Proof.
    intros Hq Hn. unfold update_one, with_query. rewrite Hq.
    destruct (list_find _ _) as [[i d]|] eqn:Hf; [|done].
    apply list_find_Some in Hf as (Hi & Hd & _).
    apply list_elem_of_lookup_2, Hn in Hi. congruence.
  Qed.

Lemma update_one_found c q us s i d d' :
    query_ok q = true → list_find (λ d, matches q d = true) (docs c s) = Some (i, d) →
    apply_upds false d us = inr d' →
    update_one c q us false s =
    (set_docs c (<[i:=d']> (docs c s)) s, inr (1%Z, if decide (d' = d) then 0%Z else 1%Z)).
  Proof. intros Hq Hf Ha. unfold update_one, with_query. by rewrite Hq, Hf, Ha. Qed.

Lemma update_each_no_match q us l :
    (∀ d, d ∈ l → matches q d = false) → update_each q us l = (l, None).
  Proof.
    induction l as [|d l IH]; intros Hn; [done |]. simpl.
    rewrite Hn by set_solver. rewrite IH; [done |]. set_solver.
  Qed.

Lemma delete_first_no_match q l :
    (∀ d, d ∈ l → matches q d = false) → delete_first q l = l.
  Proof.
    induction l as [|d l IH]; intros Hn; [done |]. simpl.
    rewrite Hn by set_solver. rewrite IH; [done |]. set_solver.
  Qed.

Lemma elem_of_delete_first q l d : d ∈ delete_first q l → d ∈ l.
  Proof. induction l as [|d' l IH]; simpl; [done |]. destruct (matches q d'); set_solver. Qed.
End store_lemmas.


(** ** Lemmas on read-only computations *)

Lemma ro_mret {A} (a : A) : read_only (mret a).
Proof. done. Qed.

Lemma ro_throw {A} e : read_only (A:=A) (throw e).
Proof. done. Qed.

Lemma ro_bind {A B} (m : M A) (k : A → M B) :
  read_only m → (∀ a, read_only (k a)) → read_only (mbind m k).
Proof.
  intros Hm Hk s. unfold mbind. specialize (Hm s).
  destruct (m s) as [s' [e|a]]; simpl in *; subst; [done | apply Hk].
Qed.

Lemma ro_getp v k : read_only (getp v k).
Proof. by destruct v. Qed.

Lemma ro_of_option {A} e (o : option A) : read_only (of_option e o).
Proof. by destruct o. Qed.

Lemma ro_with_query {A} `{RegexEngine} q (k : M A) : read_only k → read_only (with_query q k).
Proof. intros Hk s. unfold with_query. by destruct (query_ok q). Qed.

Lemma ro_find_one `{RegexEngine} c q : read_only (find_one c q).
Proof. apply ro_with_query. done. Qed.

Lemma ro_count_documents `{RegexEngine} c q : read_only (count_documents c q).
Proof. apply ro_with_query. done. Qed.

Lemma ro_cursor_skip n l : read_only (cursor_skip n l).
Proof. destruct n as [z|]; [unfold cursor_skip; by destruct (Z.leb 0 z) | done]. Qed.

Lemma ro_cursor_limit n l : read_only (cursor_limit n l).
Proof. destruct n as [z|]; [unfold cursor_limit; by destruct (Z.eqb z 0) | done]. Qed.

Lemma ro_mmap {A B} (f : A → M B) l : (∀ x, read_only (f x)) → read_only (mmap f l).
Proof.
  intros Hf. induction l as [|x l IH]; [done |]. simpl.
  apply ro_bind; [done | intros y; apply ro_bind; [done | intros ys; done]].
Qed.

Lemma ro_find_page `{RegexEngine} c q sk li : read_only (find_page c q sk li).
Proof.
  apply ro_with_query. intros s. apply (ro_bind _ _ (ro_cursor_skip _ _) (λ l, ro_cursor_limit _ l)).
Qed.

Lemma ro_find_all `{RegexEngine} c q : read_only (find_all c q).
Proof. apply ro_with_query. done. Qed.

#[export] Hint Resolve ro_find_all ro_mmap : uninest.
#[export] Hint Resolve ro_mret ro_throw ro_getp ro_of_option ro_find_one ro_count_documents
  ro_cursor_skip ro_cursor_limit ro_find_page : uninest.

Ltac solve_ro :=
  repeat first [ progress (auto with uninest)
               | apply ro_bind; [| intros ?]
               | case_match ].

Lemma run_fst (h : M response) e s : (run h e s).1 = (h s).1.
Proof. unfold run. by destruct (h s) as [s' [|]]. Qed.

Lemma run_read_only (h : M response) e s : read_only h → (run h e s).1 = s.
Proof. intros Hh. by rewrite run_fst. Qed.


(** ** Frames *)

Section frames.
Context (R : store → store → Prop) `{!PreOrder R}.

Lemma pres_mret {A} (a : A) : preserves R (mret a).
Proof. intros s. reflexivity. Qed.

Lemma pres_throw {A} e : preserves R (A:=A) (throw e).
Proof. intros s. reflexivity. Qed.

Lemma pres_bind {A B} (m : M A) (k : A → M B) :
  preserves R m → (∀ a, preserves R (k a)) → preserves R (mbind m k).
Proof.
  intros Hm Hk s. unfold mbind. specialize (Hm s).
  destruct (m s) as [s' [e|a]]; simpl in *; [done |]. etrans; [apply Hm | apply Hk].
Qed.

Lemma pres_mcatch {A} (m : M A) (h : exn → M A) :
  preserves R m → (∀ e, preserves R (h e)) → preserves R (mcatch m h).
Proof.
  intros Hm Hh s. unfold mcatch. specialize (Hm s).
  destruct (m s) as [s' [e|a]]; simpl in *; [| done]. etrans; [apply Hm | apply Hh].
Qed.

Lemma pres_ro {A} (m : M A) : read_only m → preserves R m.
Proof. intros Hm s. rewrite Hm. reflexivity. Qed.

Lemma pres_mmap {A B} (f : A → M B) l : (∀ x, preserves R (f x)) → preserves R (mmap f l).
Proof.
  intros Hf. induction l as [|x l IH]; simpl; [apply pres_mret |].
  apply pres_bind; [done | intros y; apply pres_bind; [done | intros ys; apply pres_mret]].
Qed.

Lemma pres_run h e s : preserves R h → R s (run h e s).1.
Proof. intros Hh. rewrite run_fst. apply Hh. Qed.
End frames.

#[export] Instance unchanged_preorder c : PreOrder (unchanged c).
Proof. split; [intros s; done | intros s1 s2 s3 H1 H2; unfold unchanged in *; congruence]. Qed.

#[export] Instance field_frame_preorder c k : PreOrder (field_frame c k).
Proof. split; [intros s; done | intros s1 s2 s3 H1 H2; unfold field_frame in *; congruence]. Qed.

#[export] Instance inv_rel_preorder P : PreOrder (inv_rel P).
Proof. split; [intros s Hs; exact Hs | intros s1 s2 s3 H1 H2 Hs; auto]. Qed.

Lemma pres_inv_unchanged {A} c (P : store → Prop) (m : M A) :
  (∀ s s', docs c s' = docs c s → P s → P s') → preserves (unchanged c) m → preserves (inv_rel P) m.
Proof. intros HP Hm s. unfold inv_rel. apply HP, Hm. Qed.

Lemma unchanged_field_frame c k s s' : unchanged c s s' → field_frame c k s s'.
Proof. unfold unchanged, field_frame. by intros ->. Qed.

Lemma pres_unchanged_frame {A} c k (m : M A) : preserves (unchanged c) m → preserves (field_frame c k) m.
Proof. intros Hm s. apply unchanged_field_frame, Hm. Qed.

Lemma unchanged_set_docs c c' l s : c' ≠ c → unchanged c s (set_docs c' l s).
Proof. intros. unfold unchanged. by rewrite docs_set_docs_ne. Qed.

Lemma unchanged_bump c s : unchanged c s (bump s).
Proof. unfold unchanged. by rewrite docs_bump. Qed.

Lemma unchanged_new_ObjectId c v : preserves (unchanged c) (new_ObjectId v).
Proof. intros s. destruct v; simpl; try apply unchanged_bump; try done. unfold of_option. by destruct (ObjectId.of_string _). Qed.

Section frame_writes.
Context `{RegexEngine}.

Lemma unchanged_insert_one c c' d : c' ≠ c → preserves (unchanged c) (insert_one c' d).
Proof.
  intros Hc s. rewrite insert_one_eq. simpl. etrans; [apply (unchanged_bump c s) |].
  unfold unchanged. rewrite docs_set_docs_ne, !docs_bump by done. done.
Qed.

Lemma unchanged_update_one c c' q us up : c' ≠ c → preserves (unchanged c) (update_one c' q us up).
Proof.
  intros Hc s. unfold update_one, with_query. destruct (query_ok q); [| done].
  repeat case_match; simpl; try done; try by apply unchanged_set_docs.
  unfold unchanged. by rewrite docs_set_docs_ne, docs_bump.
Qed.

Lemma unchanged_update_many c c' q us : c' ≠ c → preserves (unchanged c) (update_many c' q us).
Proof.
  intros Hc s. unfold update_many, with_query. destruct (query_ok q); [| done].
  destruct (update_each _ _ _). by apply unchanged_set_docs.
Qed.

Lemma unchanged_delete_one c c' q : c' ≠ c → preserves (unchanged c) (delete_one c' q).
Proof.
  intros Hc s. unfold delete_one, with_query. destruct (query_ok q); [| done]. by apply unchanged_set_docs.
Qed.

Lemma apply_upds_keeps k ins d us d' :
  Forall (keeps_field k) us → apply_upds ins d us = inr d' → lookup_field k d' = lookup_field k d.
Proof.
  intros Hus. revert d. induction Hus as [|u us Hu Hus IH]; intros d; simpl; [congruence |].
  destruct (apply_upd ins d u) as [|d1] eqn:E; [done |]. intros Hd. rewrite (IH d1 Hd). by eapply Hu.
Qed.

Lemma keeps_inc f n k : f ≠ k → keeps_field k (UInc f n).
Proof.
  intros Hf ins d d'. simpl.
  repeat case_match; intros; simplify_eq; by rewrite lookup_set_field_ne.
Qed.

Lemma frame_update_one c k q us :
  Forall (keeps_field k) us → preserves (field_frame c k) (update_one c q us false).
Proof.
  intros Hus s. unfold update_one, with_query. destruct (query_ok q); [| done].
  destruct (list_find _ _) as [[i d]|] eqn:Ef; [| done].
  destruct (apply_upds false d us) as [|d'] eqn:Ea; [done |]. simpl.
  unfold field_frame. rewrite docs_set_docs_eq.
  apply list_find_Some in Ef as (Hi & _ & _).
  change (map (lookup_field k) (<[i:=d']> (docs c s))) with (lookup_field k <$> <[i:=d']> (docs c s)).
  rewrite list_fmap_insert, (apply_upds_keeps k false d us d' Hus Ea).
  apply list_insert_id. by rewrite list_lookup_fmap, Hi.
Qed.
End frame_writes.

#[export] Hint Extern 1 (_ ≠ _) => discriminate : uninest.
#[export] Hint Resolve unchanged_preorder field_frame_preorder inv_rel_preorder : uninest.
#[export] Hint Resolve pres_mret pres_throw unchanged_new_ObjectId unchanged_insert_one
  unchanged_update_one unchanged_update_many unchanged_delete_one : uninest.

(** Proves [preserves R m] by following [m]'s binds, catches and cases. *)
Ltac head_of t := lazymatch t with ?f _ => head_of f | _ => t end.

Ltac pres_step :=
  lazymatch goal with
  | |- preserves _ (mbind _ _) => refine (pres_bind _ _ _ _ _); [| intros ?]
  | |- preserves _ (mcatch _ _) => refine (pres_mcatch _ _ _ _ _); [| intros ?]
  | |- preserves _ (mmap _ _) => refine (pres_mmap _ _ _ _); intros ?
  | |- preserves _ _ =>
      first [ progress cbv zeta
            | solve [auto with uninest]
            | refine (pres_ro _ _ _); solve [solve_ro]
            | case_match
            | lazymatch goal with |- preserves _ ?m => let h := head_of m in progress unfold h end ]
  end.

Ltac solve_pres := repeat pres_step.

(** ** [$set] *)

Lemma set_all_notin d fs d' k :
  k ∉ fs.*1 → set_all d fs = inr d' → lookup_field k d' = lookup_field k d.
Proof.
  revert d. induction fs as [|[k' v] fs IH]; intros d Hk; simpl; [congruence |].
  rewrite fmap_cons, elem_of_cons in Hk. simpl in Hk.
  unfold set_one. case_decide; [case_decide; [| done] | ]; intros Hs; rewrite (IH _ ltac:(tauto) Hs); [done |].
  apply lookup_set_field_ne. intros ->. tauto.
Qed.

Lemma set_all_in d fs d' k v :
  NoDup fs.*1 → (k, v) ∈ fs → k ≠ "_id" → set_all d fs = inr d' → lookup_field k d' = Some v.
Proof.
  revert d. induction fs as [|[k' v'] fs IH]; intros d Hnd Hin Hk; simpl; [set_solver |].
  rewrite fmap_cons in Hnd. apply NoDup_cons in Hnd as [Hk' Hnd]. simpl in Hk'.
  apply elem_of_cons in Hin as [Heq | Hin].
  - simplify_eq. unfold set_one. rewrite decide_False by done. intros Hs.
    rewrite (set_all_notin _ _ _ _ Hk' Hs). apply lookup_set_field_eq.
  - unfold set_one. case_decide; [case_decide; [| done] |]; intros Hs; eapply IH; eauto.
Qed.

Lemma set_all_total d fs : "_id" ∉ fs.*1 → ∃ d', set_all d fs = inr d'.
Proof.
  revert d. induction fs as [|[k v] fs IH]; intros d Hk; simpl; [by eexists |].
  rewrite fmap_cons, elem_of_cons in Hk. simpl in Hk.
  unfold set_one. rewrite decide_False by (intros ->; apply Hk; by left). apply IH. tauto.
Qed.

(** ** Updates that cannot fail *)

Section total_updates.
Context `{RegexEngine}.

Lemma update_each_total q us l :
  upds_total us l → ∃ l', update_each q us l = (l', None) ∧ updated q us l l'.
Proof.
  induction 1 as [|d l (d' & Hd') _ (l' & Hl' & Hu)]; [exists []; split; [done | constructor] |]. simpl.
  destruct (matches q d) eqn:Em.
  - rewrite Hd', Hl'. exists (d' :: l'). split; [done |]. constructor; [by left | done].
  - rewrite Hl'. exists (d :: l'). split; [done |]. constructor; [by right | done].
Qed.

Lemma update_many_total c q us s :
  query_ok q = true → upds_total us (docs c s) →
  ∃ l', update_many c q us s = (set_docs c l' s, inr tt) ∧ updated q us (docs c s) l'.
Proof.
  intros Hq Ht. destruct (update_each_total q us _ Ht) as (l' & He & Hu).
  exists l'. unfold update_many, with_query. rewrite Hq, He. done.
Qed.

Lemma pull_removes f v d d' :
  apply_upds false d [UPull f v] = inr d' → ∀ l, lookup_field f d' = Some (JArr l) → v ∉ l.
Proof.
  simpl. destruct (lookup_field f d) as [[]|] eqn:E; intros Hd; simplify_eq; intros l0 Hl.
  - rewrite lookup_set_field_eq in Hl. simplify_eq. apply not_elem_of_remove_all.
  - congruence.
Qed.

Lemma update_one_total c q us s :
  query_ok q = true → upds_total us (docs c s) →
  ∃ s' r, update_one c q us false s = (s', inr r) ∧ (∀ c', c' ≠ c → docs c' s' = docs c' s) ∧
          db_next_oid s' = db_next_oid s.
Proof.
  intros Hq Ht. unfold update_one, with_query. rewrite Hq.
  destruct (list_find _ _) as [[i d]|] eqn:Ef.
  - apply list_find_Some in Ef as (Hi & _ & _). unfold upds_total in Ht. rewrite Forall_lookup in Ht.
    destruct (Ht i d Hi) as (d' & ->). do 2 eexists. split; [reflexivity |].
    split; [intros; by apply docs_set_docs_ne | apply next_oid_set_docs].
  - by do 2 eexists.
Qed.
End total_updates.
