(* ===== verification/Utils.v ===== *)
(** * Text helpers of [src/src/lib/utils.ts]

    The pure string functions the pages call: [slugify] (three global
    regular-expression replacements), [truncate], [capitalizeFirst],
    [getInitials], [formatRelativeTime] (with [formatDate] left to the
    caller: [Intl] is not modelled), the label lookups over JavaScript
    objects used as records, the e-mail and phone checks, the masks and
    [getErrorMessage], [String(n)] of an integer ([z_string], against
    stdpp's [pretty]) and [debounce] (a timer state machine).  Strings
    are [string] of one-byte code units;
    [toLowerCase] and [toUpperCase] act on ASCII letters.  The regular
    expressions are written out as the scans they perform. *)

From S2P Require Import Prelude Json MongoDb.
From Stdlib Require Import Ascii.
Open Scope string_scope.
Open Scope list_scope.
Open Scope un_scope.

Module Utils.

(** ** Character classes *)

Definition in_range (lo hi : nat) (c : ascii) : bool :=
  let n := nat_of_ascii c in Nat.leb lo n && Nat.leb n hi.

Definition is_digit := in_range 48 57.
Definition is_lower := in_range 97 122.
Definition is_upper := in_range 65 90.

(** [\w]: ASCII letters, digits and the underscore. *)
Definition is_word (c : ascii) : bool := is_digit c || is_lower c || is_upper c || Ascii.eqb c "_".

Definition is_dash (c : ascii) : bool := Ascii.eqb c "-".

Definition upper_ascii (c : ascii) : ascii :=
  if is_lower c then ascii_of_nat (nat_of_ascii c - 32) else c.

Fixpoint to_upper (s : string) : string :=
  match s with EmptyString => EmptyString | String c s' => String (upper_ascii c) (to_upper s') end.

(** ** [slugify] (lines 37-43) *)

(** [.replace(/[^\w\s-]/g, "")] *)
Fixpoint strip_special (s : string) : string :=
  match s with
  | EmptyString => EmptyString
  | String c s' => if is_word c || is_ws c || is_dash c then String c (strip_special s') else strip_special s'
  end.

(** [[\s_-]] *)
Definition is_sep (c : ascii) : bool := is_ws c || Ascii.eqb c "_" || is_dash c.

(** [.replace(/[\s_-]+/g, "-")]: each maximal run of separators becomes
    one dash; [in_run] says the previous character was a separator. *)
Fixpoint collapse_seps (in_run : bool) (s : string) : string :=
  match s with
  | EmptyString => EmptyString
  | String c s' =>
      if is_sep c then (if in_run then collapse_seps true s' else String "-" (collapse_seps true s'))
      else String c (collapse_seps false s')
  end.

(** [^-+]: the leading dashes. *)
Fixpoint drop_lead (s : string) : string :=
  match s with String c s' => if is_dash c then drop_lead s' else s | EmptyString => EmptyString end.

(** [-+$]: the trailing dashes. *)
Fixpoint drop_trail (s : string) : string :=
  match s with
  | EmptyString => EmptyString
  | String c s' => let r := drop_trail s' in if is_dash c && String.eqb r "" then EmptyString else String c r
  end.

(** [.replace(/^-+|-+$/g, "")] *)
Definition trim_dashes (s : string) : string := drop_trail (drop_lead s).

Definition slugify (text : string) : string := trim_dashes (collapse_seps false (strip_special (to_lower text))).

(** [generateSlug]: the six base-36 characters of [Math.random()] are
    the argument [unique_id]. *)
Definition generateSlug (title unique_id : string) : string := slugify title +:+ "-" +:+ unique_id.

(** ** [truncate], [capitalizeFirst], [getInitials] *)

(** [text.substring(0, n)]: a negative end counts as 0. *)
Definition substring0 (s : string) (n : Z) : string := String.substring 0 (Z.to_nat n) s.

Definition truncate (text : string) (len : Z) : string :=
  if Z.leb (Z.of_nat (String.length text)) len then text else substring0 text len +:+ "...".

Definition capitalizeFirst (text : string) : string :=
  match text with
  | EmptyString => EmptyString
  | String c s => String (upper_ascii c) (to_lower s)
  end.

(** [n[0]] of a word, [undefined] (joined as the empty string) for an empty word. *)
Definition first_char (w : string) : string :=
  match w with String c _ => String c EmptyString | EmptyString => EmptyString end.

Definition getInitials (name : string) : string :=
  substring0 (to_upper (String.concat "" (map first_char (js_split " " name)))) 2.

(** ** [formatRelativeTime] (lines 24-35)

    [now] and [then_] are [getTime()] values in milliseconds; the last
    branch is [formatDate(date)], given as [date_text]. *)

Definition dec_digit (d : N) : ascii := ascii_of_N (48 + d).

Fixpoint dec_go (fuel : nat) (n : N) (acc : string) : string :=
  match fuel with
  | O => acc
  | S f => let acc' := String (dec_digit (n mod 10)) acc in if (n <? 10)%N then acc' else dec_go f (n / 10) acc'
  end.

(** [String(n)] for an integer [n]: the digits of [|n|], last first,
    with [N.size_nat n + 1] rounds, one more than its binary digits
    (and one for [0]), which bounds its decimal digits. *)
Definition z_string (z : Z) : string :=
  let n := Z.to_N (Z.abs z) in (if Z.ltb z 0 then "-" else "") +:+ dec_go (S (N.size_nat n)) n "".

Definition formatRelativeTime (now then_ : Z) (date_text : string) : string :=
  let diff := ((now - then_) / 1000)%Z in
  if Z.ltb diff 60 then "Just now"
  else if Z.ltb diff 3600 then z_string (diff / 60) +:+ "m ago"
  else if Z.ltb diff 86400 then z_string (diff / 3600) +:+ "h ago"
  else if Z.ltb diff 604800 then z_string (diff / 86400) +:+ "d ago"
  else date_text.

(** ** Label lookups (lines 99-130)

    [labels[k]] on an object literal reads the own properties and then
    those of [Object.prototype]: the members below, all truthy (functions,
    and the prototype object itself for [__proto__]). *)
Definition object_prototype : list string :=
  ["constructor"; "__defineGetter__"; "__defineSetter__"; "hasOwnProperty"; "__lookupGetter__";
   "__lookupSetter__"; "isPrototypeOf"; "propertyIsEnumerable"; "toString"; "valueOf"; "__proto__";
   "toLocaleString"].

(** A value read from such a lookup. *)
Inductive jsval := VStr (s : string) | VProto (member : string).

Definition truthy_val (v : jsval) : bool :=
  match v with VStr s => negb (String.eqb s "") | VProto _ => true end.

Definition record_get (labels : list (string * string)) (k : string) : option jsval :=
  match List.find (fun kv => String.eqb kv.1 k) labels with
  | Some kv => Some (VStr kv.2)
  | None => if existsb (String.eqb k) object_prototype then Some (VProto k) else None
  end.

(** [labels[k] || d] *)
Definition label_or (labels : list (string * string)) (k d : string) : jsval :=
  match record_get labels k with Some v => if truthy_val v then v else VStr d | None => VStr d end.

Definition property_type_labels : list (string * string) :=
  [("PG", "PG"); ("HOSTEL", "Hostel"); ("FLAT", "Flat"); ("APARTMENT", "Apartment"); ("ROOM", "Single Room");
   ("SHARED_ROOM", "Shared Room"); ("HOUSE", "House"); ("VILLA", "Villa")].

Definition getPropertyTypeLabel (type : string) : jsval := label_or property_type_labels type type.

Definition furnishing_labels : list (string * string) :=
  [("FULLY_FURNISHED", "Fully Furnished"); ("SEMI_FURNISHED", "Semi Furnished"); ("UNFURNISHED", "Unfurnished")].

Definition getFurnishingLabel (type : string) : jsval := label_or furnishing_labels type type.

Definition gender_labels : list (string * string) :=
  [("MALE", "Boys Only"); ("FEMALE", "Girls Only"); ("OTHER", "Any Gender"); ("ANY", "Any Gender")].

Definition getGenderLabel (gender : string) : jsval := label_or gender_labels gender "Any Gender".

(** The option lists of lines 178-206, as (value, label) pairs. *)
Definition propertyTypes : list (string * string) :=
  [("PG", "PG"); ("HOSTEL", "Hostel"); ("FLAT", "Flat"); ("APARTMENT", "Apartment"); ("ROOM", "Single Room");
   ("SHARED_ROOM", "Shared Room"); ("HOUSE", "House"); ("VILLA", "Villa")].

Definition furnishingTypes : list (string * string) :=
  [("FULLY_FURNISHED", "Fully Furnished"); ("SEMI_FURNISHED", "Semi Furnished"); ("UNFURNISHED", "Unfurnished")].

Definition genderOptions : list (string * string) :=
  [("ANY", "Any Gender"); ("MALE", "Boys Only"); ("FEMALE", "Girls Only")].

Definition occupancyTypes : list (string * string) :=
  [("single", "Single Occupancy"); ("double", "Double Sharing"); ("triple", "Triple Sharing"); ("any", "Any")].

(** ** Checks and masks (lines 147-176) *)

(** [[^\s@]] *)
Definition email_char (c : ascii) : bool := negb (is_ws c) && negb (Ascii.eqb c "@").

Fixpoint all_chars (p : ascii → bool) (s : string) : bool :=
  match s with EmptyString => true | String c s' => p c && all_chars p s' end.

(** The text before the first ["@"] and the text after it. *)
Fixpoint split_at (sep : ascii) (s : string) : option (string * string) :=
  match s with
  | EmptyString => None
  | String c s' =>
      if Ascii.eqb c sep then Some (EmptyString, s')
      else match split_at sep s' with Some (a, b) => Some (String c a, b) | None => None end
  end.

(** A ["."] that is neither the first nor the last character. *)
Fixpoint dot_before_last (s : string) : bool :=
  match s with
  | String c (String _ _ as s') => Ascii.eqb c "." || dot_before_last s'
  | _ => false
  end.

Definition dot_inside (s : string) : bool :=
  match s with String _ s' => dot_before_last s' | EmptyString => false end.

(** [/^[^\s@]+@[^\s@]+\.[^\s@]+$/.test(email)]: no ["@"] can occur in
    the first run, so the ["@"] of the pattern is the first one. *)
Definition isValidEmail (email : string) : bool :=
  match split_at "@" email with
  | Some (user, rest) =>
      negb (String.eqb user "") && all_chars email_char user && all_chars email_char rest && dot_inside rest
  | None => false
  end.

(** [/^[6-9]\d{9}$/.test(phone)] *)
Definition isValidPhone (phone : string) : bool :=
  match phone with
  | String c rest => in_range 54 57 c && Nat.eqb (String.length rest) 9 && all_chars is_digit rest
  | EmptyString => false
  end.

Fixpoint repeat_str (s : string) (n : nat) : string :=
  match n with O => EmptyString | S n' => s +:+ repeat_str s n' end.

(** [maskEmail]: [None] is the [RangeError] of ["*".repeat(n)] for a
    negative [n]; a missing domain prints as ["undefined"]. *)
Definition maskEmail (email : string) : option string :=
  let parts := js_split "@" email in
  let username := default "" (head parts) in
  let domain := default "undefined" (parts !! 1%nat) in
  if Nat.ltb (String.length username) 2 then None
  else Some (String.substring 0 2 username +:+ repeat_str "*" (String.length username - 2) +:+ "@" +:+ domain).

Definition maskPhone (phone : string) : string :=
  String.substring 0 2 phone +:+ repeat_str "*" 6 +:+ String.substring 8 (String.length phone - 8) phone.

(** What a [catch] receives. *)
Inductive thrown := TError (message : string) | TString (s : string) | TOther.

Definition getErrorMessage (e : thrown) : string :=
  match e with TError m => m | TString s => s | TOther => "An unexpected error occurred" end.

(** ** The shape of a slug and of an e-mail address

    What the code promises of its output, stated apart from the scans. *)

(** The characters a slug is made of, and its shape: no leading,
    trailing or doubled dash. *)
Definition slug_char (c : ascii) : bool := is_digit c || is_lower c || is_dash c.

Definition starts_dash (s : string) : bool := match s with String c _ => is_dash c | EmptyString => false end.

Fixpoint last_char (s : string) : option ascii :=
  match s with EmptyString => None | String c EmptyString => Some c | String _ s' => last_char s' end.

Definition ends_dash (s : string) : bool := match last_char s with Some c => is_dash c | None => false end.

Fixpoint no_double_dash (s : string) : bool :=
  match s with
  | String c s' => negb (is_dash c && starts_dash s') && no_double_dash s'
  | EmptyString => true
  end.

Definition is_slug (s : string) : bool :=
  all_chars slug_char s && no_double_dash s && negb (starts_dash s) && negb (ends_dash s).

(** The characters left after [toLowerCase] and the first replacement. *)
Definition pre_char (c : ascii) : bool := is_digit c || is_lower c || is_sep c.

(** The language of [/^[^\s@]+@[^\s@]+\.[^\s@]+$/]. *)
Definition email_shape (s : string) : Prop :=
  ∃ a b c, s = a +:+ String "@" (b +:+ String "." c) ∧ a ≠ "" ∧ b ≠ "" ∧ c ≠ "" ∧
           all_chars email_char a = true ∧ all_chars email_char b = true ∧ all_chars email_char c = true.

(** ** [debounce] (lines 132-141)

    The closure's state is its [timeout] variable: the pending timer,
    with the time it is due and the arguments it will pass to [func];
    [func] is recorded by the arguments of its runs.  [clearTimeout] of
    a timer that has run, or of none, does nothing, so a timer that has
    run is [None].  Times are milliseconds; the event loop is [tick]. *)
Record debounced (A : Type) := mkDeb { timeout : option (Z * A); func_runs : list A }.
Arguments mkDeb {A}. Arguments timeout {A}. Arguments func_runs {A}.

(** A call of the returned function at time [t]:
    [clearTimeout(timeout); timeout = setTimeout(() => func(...args), wait)],
    a negative [wait] counting as 0. *)
Definition debounce_call {A} (wait t : Z) (args : A) (d : debounced A) : debounced A :=
  mkDeb (Some (t + Z.max 0 wait, args)%Z) (func_runs d).

(** The clock reaches [t]: a timer that is due runs [func(...args)]. *)
Definition tick {A} (t : Z) (d : debounced A) : debounced A :=
  match timeout d with
  | Some (due, a) => if Z.leb due t then mkDeb None (func_runs d ++ [a]) else d
  | None => d
  end.

(** Calls at the given times, the event loop running up to each. *)
Definition burst {A} (wait : Z) (d : debounced A) (bs : list (Z * A)) : debounced A :=
  foldl (fun d '(t, a) => debounce_call wait t a (tick t d)) d bs.

(** Each call comes before the previous one's timer is due. *)
Fixpoint within {A} (wait : Z) (bs : list (Z * A)) : bool :=
  match bs with
  | (t, _) :: ((t', _) :: _) as r => Z.leb t t' && Z.ltb t' (t + wait)%Z && within wait r
  | _ => true
  end.

(** ** Lemmas *)

Ltac ascii_cases c := destruct c as [[] [] [] [] [] [] [] []]; reflexivity.

Lemma pre_char_lower c :
  implb (is_word (lower_ascii c) || is_ws (lower_ascii c) || is_dash (lower_ascii c)) (pre_char (lower_ascii c)) = true.
Proof. ascii_cases c. Qed.

Lemma pre_char_sep c : pre_char c = true → is_sep c = false → slug_char c = true ∧ is_dash c = false.
Proof. revert c. intros c. destruct c as [[] [] [] [] [] [] [] []]; simpl; try done. Qed.

Lemma slug_char_fixed c :
  slug_char c = true →
  lower_ascii c = c ∧ (is_word c || is_ws c || is_dash c) = true ∧ is_sep c = is_dash c.
Proof. destruct c as [[] [] [] [] [] [] [] []]; simpl; try done. Qed.

Lemma dash_slug_char : slug_char "-" = true.
Proof. done. Qed.

Lemma strip_lower_pre t : all_chars pre_char (strip_special (to_lower t)) = true.
Proof.
  induction t as [|c t IH]; [done |]. simpl.
  pose proof (pre_char_lower c) as Hc.
  destruct (is_word (lower_ascii c) || is_ws (lower_ascii c) || is_dash (lower_ascii c)); [| done].
  simpl in Hc |- *. by rewrite Hc, IH.
Qed.

Lemma collapse_ok b s :
  all_chars pre_char s = true →
  all_chars slug_char (collapse_seps b s) = true ∧ no_double_dash (collapse_seps b s) = true ∧
  (b = true → starts_dash (collapse_seps b s) = false).
Proof.
  revert b. induction s as [|c s IH]; intros b Hs; [done |]. simpl in Hs.
  apply andb_prop in Hs as [Hc Hs]. simpl.
  destruct (is_sep c) eqn:Esep.
  - destruct (IH true Hs) as (H1 & H2 & H3). destruct b; [done |]. simpl.
    rewrite H1, H2, H3 by done. done.
  - destruct (pre_char_sep c Hc Esep) as [Hsl Hd]. destruct (IH false Hs) as (H1 & H2 & _).
    simpl. by rewrite Hsl, H1, H2, Hd.
Qed.

Lemma drop_lead_ok p s :
  all_chars p s = true → no_double_dash s = true →
  all_chars p (drop_lead s) = true ∧ no_double_dash (drop_lead s) = true ∧ starts_dash (drop_lead s) = false.
Proof.
  induction s as [|c s IH]; intros Ha Hn; [done |]. simpl in *.
  apply andb_prop in Ha as [Hc Ha]. apply andb_prop in Hn as [_ Hn].
  destruct (is_dash c) eqn:Ed; [by apply IH |]. simpl. by rewrite Hc, Ha, Hn, Ed.
Qed.

Lemma drop_trail_head s d r : drop_trail s = String d r → ∃ s', s = String d s'.
Proof.
  destruct s as [|c s]; simpl; [done |].
  destruct (is_dash c && String.eqb (drop_trail s) ""); [done |]. intros [= <- _]. by eexists.
Qed.

Lemma drop_trail_ok p s :
  all_chars p s = true → no_double_dash s = true →
  all_chars p (drop_trail s) = true ∧ no_double_dash (drop_trail s) = true ∧ ends_dash (drop_trail s) = false ∧
  (starts_dash s = false → starts_dash (drop_trail s) = false).
Proof.
  induction s as [|c s IH]; intros Ha Hn; [done |]. simpl in Ha, Hn |- *.
  apply andb_prop in Ha as [Hc Ha]. apply andb_prop in Hn as [Hcs Hn].
  destruct (IH Ha Hn) as (H1 & H2 & H3 & _).
  destruct (is_dash c && String.eqb (drop_trail s) "") eqn:E; [done |].
  simpl. rewrite Hc, H1, H2. split; [done | split; [| split; [| done]]].
  - destruct (drop_trail s) as [|d r] eqn:Ed; [simpl; by rewrite andb_false_r |].
    destruct (drop_trail_head _ _ _ Ed) as [s' ->]. simpl in Hcs |- *. by rewrite andb_true_r.
  - unfold ends_dash. simpl. destruct (drop_trail s) as [|d r] eqn:Ed; [| exact H3].
    simpl. rewrite String.eqb_refl, andb_true_r in E. by rewrite E.
Qed.

Lemma is_slug_slugify t : is_slug (slugify t) = true.
Proof.
  unfold slugify, trim_dashes, is_slug.
  destruct (collapse_ok false _ (strip_lower_pre t)) as (H1 & H2 & _).
  destruct (drop_lead_ok _ _ H1 H2) as (H3 & H4 & H5).
  destruct (drop_trail_ok _ _ H3 H4) as (H6 & H7 & H8 & H9).
  by rewrite H6, H7, H8, H9.
Qed.

Lemma to_lower_slug s : all_chars slug_char s = true → to_lower s = s.
Proof.
  induction s as [|c s IH]; simpl; [done |]. intros [Hc Hs]%andb_prop.
  by rewrite (proj1 (slug_char_fixed c Hc)), IH.
Qed.

Lemma strip_special_slug s : all_chars slug_char s = true → strip_special s = s.
Proof.
  induction s as [|c s IH]; simpl; [done |]. intros [Hc Hs]%andb_prop.
  by rewrite (proj1 (proj2 (slug_char_fixed c Hc))), IH.
Qed.

Lemma collapse_slug b s :
  all_chars slug_char s = true → no_double_dash s = true → (b = true → starts_dash s = false) →
  collapse_seps b s = s.
Proof.
  revert b. induction s as [|c s IH]; intros b Ha Hn Hb; [done |]. simpl in *.
  apply andb_prop in Ha as [Hc Ha]. apply andb_prop in Hn as [Hcs Hn].
  rewrite (proj2 (proj2 (slug_char_fixed c Hc))).
  destruct (is_dash c) eqn:Ed.
  - destruct b; [by specialize (Hb eq_refl) |]. apply Ascii.eqb_eq in Ed as ->.
    rewrite IH; [done | done | done |]. intros _. by destruct (starts_dash s).
  - rewrite IH; [done | done | done | discriminate].
Qed.

Lemma drop_lead_slug s : starts_dash s = false → drop_lead s = s.
Proof. destruct s as [|c s]; simpl; [done |]. by intros ->. Qed.

Lemma last_char_cons c s : s ≠ "" → last_char (String c s) = last_char s.
Proof. by destruct s. Qed.

Lemma drop_trail_slug s : ends_dash s = false → drop_trail s = s.
Proof.
  unfold ends_dash. induction s as [|c s IH]; [done |]. intros He. simpl.
  destruct (decide (s = "")) as [-> | Hs].
  - simpl in He |- *. by rewrite He.
  - rewrite last_char_cons in He by done. rewrite IH by done.
    destruct s; [done |]. by rewrite andb_false_r.
Qed.

Lemma slugify_slug s : is_slug s = true → slugify s = s.
Proof.
  unfold is_slug, slugify, trim_dashes. intros H.
  apply andb_prop in H as [H He]. apply andb_prop in H as [H Hs]. apply andb_prop in H as [Ha Hn].
  apply negb_true_iff in He, Hs.
  rewrite to_lower_slug, strip_special_slug, collapse_slug, drop_lead_slug, drop_trail_slug; done.
Qed.

(** ** Strings split at a character *)

Lemma all_chars_app p a b : all_chars p (a +:+ b) = all_chars p a && all_chars p b.
Proof. induction a as [|c a IH]; simpl; [done |]. by rewrite IH, andb_assoc. Qed.

Lemma all_chars_impl (p q : ascii → bool) s :
  (∀ c, p c = true → q c = true) → all_chars p s = true → all_chars q s = true.
Proof.
  intros Hpq. induction s as [|c s IH]; simpl; [done |]. intros [Hc Hs]%andb_prop. by rewrite Hpq, IH.
Qed.

Definition not_char (sep c : ascii) : bool := negb (Ascii.eqb c sep).

Lemma email_char_not_at c : email_char c = true → not_char "@" c = true.
Proof. unfold email_char, not_char. by intros [_ ->]%andb_prop. Qed.

Lemma split_at_app sep a b : all_chars (not_char sep) a = true → split_at sep (a +:+ String sep b) = Some (a, b).
Proof.
  induction a as [|c a IH]; simpl; [by rewrite Ascii.eqb_refl |].
  unfold not_char at 1. intros [Hc Ha]%andb_prop. apply negb_true_iff in Hc. by rewrite Hc, IH.
Qed.

Lemma split_at_some sep s a b :
  split_at sep s = Some (a, b) → s = a +:+ String sep b ∧ all_chars (not_char sep) a = true.
Proof.
  revert a. induction s as [|c s IH]; intros a; simpl; [done |].
  destruct (Ascii.eqb c sep) eqn:Ec.
  - intros [= <- <-]. apply Ascii.eqb_eq in Ec as ->. done.
  - destruct (split_at sep s) as [[a' b']|] eqn:Es; [| done]. intros [= <- <-].
    destruct (IH a' eq_refl) as [-> Ha]. simpl. unfold not_char at 1. by rewrite Ec, Ha.
Qed.

Lemma js_split_nosep sep s : all_chars (not_char sep) s = true → js_split sep s = [s].
Proof.
  induction s as [|c s IH]; simpl; [done |]. unfold not_char at 1. intros [Hc Hs]%andb_prop.
  apply negb_true_iff in Hc. by rewrite Hc, IH.
Qed.

Lemma js_split_app sep a r :
  all_chars (not_char sep) a = true → js_split sep (a +:+ String sep r) = a :: js_split sep r.
Proof.
  induction a as [|c a IH]; simpl; [by rewrite Ascii.eqb_refl |]. unfold not_char at 1.
  intros [Hc Ha]%andb_prop. apply negb_true_iff in Hc. by rewrite Hc, IH.
Qed.

Lemma dot_before_last_spec s : dot_before_last s = true ↔ ∃ b c, s = b +:+ String "." c ∧ c ≠ "".
Proof.
  induction s as [|x s IH]; simpl.
  - split; [done |]. intros (b & c & Hs & _). by destruct b.
  - split.
    + destruct s as [|y s]; [done |]. intros [Hx | Hd]%orb_prop.
      * apply Ascii.eqb_eq in Hx as ->. by exists "", (String y s).
      * destruct (proj1 IH Hd) as (b & c & Hs & Hc). exists (String x b), c. by rewrite Hs.
    + intros ([|x' b] & c & Hs & Hc); simpl in Hs; injection Hs as -> ->.
      * destruct c; [done |]. by rewrite Ascii.eqb_refl.
      * assert (Hd : dot_before_last (b +:+ String "." c) = true) by (apply IH; by exists b, c).
        destruct b; simpl in *; by rewrite Hd, orb_true_r.
Qed.

Lemma dot_inside_spec s : dot_inside s = true ↔ ∃ b c, s = b +:+ String "." c ∧ b ≠ "" ∧ c ≠ "".
Proof.
  destruct s as [|x s]; simpl.
  - split; [done |]. intros (b & c & Hs & _). by destruct b.
  - rewrite dot_before_last_spec. split.
    + intros (b & c & -> & Hc). by exists (String x b), c.
    + intros ([|x' b] & c & Hs & Hb & Hc); [done |]. injection Hs as -> ->. by exists b, c.
Qed.

Lemma isValidEmail_at a rest :
  all_chars (not_char "@") a = true →
  isValidEmail (a +:+ String "@" rest) =
  negb (String.eqb a "") && all_chars email_char a && all_chars email_char rest && dot_inside rest.
Proof. intros Ha. unfold isValidEmail. by rewrite split_at_app. Qed.

Lemma substring_length n s : (String.length (String.substring 0 n s) ≤ n)%nat.
Proof.
  revert s. induction n as [|n IH]; intros s; simpl; [by destruct s |].
  destruct s; simpl; [lia |]. specialize (IH s). lia.
Qed.

Lemma append_length a b : String.length (a +:+ b) = (String.length a + String.length b)%nat.
Proof. induction a as [|c a IH]; [done |]. simpl. lia. Qed.

(** ** The digit loop against stdpp's [pretty] *)

Lemma dec_digit_char d : (d < 10)%N → dec_digit d = pretty_N_char d.
Proof.
  intros Hd. assert (d = 0 ∨ d = 1 ∨ d = 2 ∨ d = 3 ∨ d = 4 ∨ d = 5 ∨ d = 6 ∨ d = 7 ∨ d = 8 ∨ d = 9)%N as Hc by lia.
  repeat destruct Hc as [-> | Hc]; [..| subst]; reflexivity.
Qed.

(** Dropping a decimal digit drops at least three binary ones. *)
Lemma size_nat_div10 n : (10 ≤ n)%N → (N.size_nat (n / 10) < N.size_nat n)%nat.
Proof.
  intros Hn. pose proof (N.Div0.div_le_mono 10 n 10 Hn) as H1.
  destruct (n / 10)%N as [|p] eqn:Hq; [done |].
  destruct n as [|q]; [lia |]. simpl.
  assert (Hlt : (p~0 < q)%positive).
  { assert (Npos p * 10 ≤ Npos q)%N as H by (rewrite <- Hq, N.mul_comm; apply N.Div0.mul_div_le). lia. }
  apply Pos.size_nat_monotone in Hlt. simpl in Hlt. lia.
Qed.

Lemma dec_go_pretty f n acc : (0 < n)%N → (N.size_nat n < f)%nat → dec_go f n acc = pretty_N_go n acc.
Proof.
  revert n acc. induction f as [|f IH]; intros n acc Hn Hf; [lia |].
  rewrite pretty_N_go_step by done. simpl.
  rewrite dec_digit_char by (apply N.mod_lt; lia).
  destruct (N.ltb_spec n 10).
  - rewrite N.div_small by done. by rewrite pretty_N_go_0.
  - apply IH; [apply N.div_str_pos; lia |]. pose proof (size_nat_div10 n). lia.
Qed.

(** ** The debounced function *)

Lemma tick_before {A} t due (a : A) c : (t < due)%Z → tick t (mkDeb (Some (due, a)) c) = mkDeb (Some (due, a)) c.
Proof. intros H. unfold tick. simpl. by rewrite (proj2 (Z.leb_gt _ _)) by lia. Qed.

Lemma tick_due {A} t due (a : A) c : (due ≤ t)%Z → tick t (mkDeb (Some (due, a)) c) = mkDeb None (c ++ [a]).
Proof. intros H. unfold tick. simpl. by rewrite (proj2 (Z.leb_le _ _)) by lia. Qed.

(** Within a burst the timer of the last call is the one pending. *)
Lemma burst_pending {A} wait (bs : list (Z * A)) t a c :
  within wait ((t, a) :: bs) = true →
  burst wait (mkDeb (Some (t + Z.max 0 wait, a)%Z) c) bs =
  let '(tl, al) := List.last bs (t, a) in mkDeb (Some (tl + Z.max 0 wait, al)%Z) c.
Proof.
  revert t a. induction bs as [|[t' a'] bs IH]; intros t a Hw; [done |].
  change (within wait ((t, a) :: (t', a') :: bs))
    with ((t <=? t')%Z && (t' <? t + wait)%Z && within wait ((t', a') :: bs)) in Hw.
  apply andb_true_iff in Hw as [[Ht Ht']%andb_true_iff Hw].
  apply Z.leb_le in Ht. apply Z.ltb_lt in Ht'.
  rewrite last_cons_default. unfold burst. simpl. rewrite tick_before by lia. apply (IH t' a' Hw).
Qed.

(** ** Properties *)

(** [slugify] always produces a slug, lower-case letters, digits and
    single dashes with none at either end, and a slug is its own
    [slugify]: the function is idempotent. *)
Theorem slugify_canonical t : is_slug (slugify t) = true ∧ slugify (slugify t) = slugify t.
Proof. split; [apply is_slug_slugify | apply slugify_slug, is_slug_slugify]. Qed.

(** [isValidEmail] accepts exactly the language of its regular
    expression: a non-empty run before a single ["@"], and after it a
    dot with a non-empty run on each side, none of the three runs
    holding white space or an ["@"]. *)
Theorem isValidEmail_spec s : isValidEmail s = true ↔ email_shape s.
Proof.
  split.
  - unfold isValidEmail. destruct (split_at "@" s) as [[a rest]|] eqn:Es; [| done].
    destruct (split_at_some _ _ _ _ Es) as [-> _].
    intros H. apply andb_prop in H as [H Hd]. apply andb_prop in H as [H Hr]. apply andb_prop in H as [Hn Ha].
    apply dot_inside_spec in Hd as (b & c & -> & Hb & Hc).
    rewrite all_chars_app in Hr. simpl in Hr. apply andb_prop in Hr as [Hb' Hc'].
    exists a, b, c. repeat split; try done. intros ->. done.
  - intros (a & b & c & -> & Ha & Hb & Hc & Ha' & Hb' & Hc').
    rewrite isValidEmail_at by (apply (all_chars_impl email_char); [apply email_char_not_at | done]).
    rewrite Ha', all_chars_app. simpl. rewrite Hb', Hc'.
    destruct a; [done |]. simpl. apply dot_inside_spec. by exists b, c.
Qed.

(** On an address [isValidEmail] accepts, [maskEmail] keeps the first
    two characters of the user part, stars the rest and keeps the domain;
    when the user part has one character, which [isValidEmail] accepts,
    ["*".repeat(-1)] throws a [RangeError]. *)
Theorem maskEmail_valid s a rest :
  isValidEmail s = true → split_at "@" s = Some (a, rest) →
  maskEmail s = if Nat.ltb (String.length a) 2 then None
                else Some (String.substring 0 2 a +:+ repeat_str "*" (String.length a - 2) +:+ "@" +:+ rest).
Proof.
  intros Hv Hs. destruct (split_at_some _ _ _ _ Hs) as [-> Ha].
  rewrite isValidEmail_at in Hv by done.
  apply andb_prop in Hv as [Hv _]. apply andb_prop in Hv as [_ Hr].
  unfold maskEmail. rewrite js_split_app, js_split_nosep by (done || by apply (all_chars_impl email_char); [apply email_char_not_at |]).
  done.
Qed.

(** The label lookups read [Object.prototype] through the object
    literal: for a key such as ["constructor"] or ["toString"] each
    returns a function (or, for ["__proto__"], an object), not the
    string its type promises, since that value is truthy and the
    fallback is never taken. *)
Theorem labels_prototype k :
  k ∈ object_prototype →
  getPropertyTypeLabel k = VProto k ∧ getFurnishingLabel k = VProto k ∧ getGenderLabel k = VProto k.
Proof.
  intros Hk. repeat (apply elem_of_cons in Hk as [-> | Hk]; [repeat split |]).
  by apply not_elem_of_nil in Hk.
Qed.

(** The option lists and the label functions agree. *)
Lemma labels_match_options :
  (∀ v l, (v, l) ∈ propertyTypes → getPropertyTypeLabel v = VStr l) ∧
  (∀ v l, (v, l) ∈ furnishingTypes → getFurnishingLabel v = VStr l) ∧
  (∀ v l, (v, l) ∈ genderOptions → getGenderLabel v = VStr l).
Proof.
  split; [| split]; intros v l Hv;
    repeat (apply elem_of_cons in Hv as [[= -> ->] | Hv]; [reflexivity |]); by apply not_elem_of_nil in Hv.
Qed.

(** [truncate] keeps text within the limit and otherwise cuts it to
    [len] characters plus an ellipsis. *)
Lemma truncate_bound t len : (0 ≤ len)%Z → (Z.of_nat (String.length (truncate t len)) ≤ len + 3)%Z.
Proof.
  intros Hl. unfold truncate. destruct (Z.leb_spec (Z.of_nat (String.length t)) len); [lia |].
  unfold substring0. rewrite append_length. pose proof (substring_length (Z.to_nat len) t). simpl. lia.
Qed.

(** [String(n)]: the digits [z_string] writes for an integer are
    those of stdpp's [pretty], the reference decimal printer: no digit
    is lost to the loop's fuel, [0] is ["0"], and a negative number gets
    its ["-"]. *)
Theorem z_string_pretty z : z_string z = pretty z.
Proof.
  unfold z_string. destruct z as [|p|p]; [reflexivity | |];
  rewrite dec_go_pretty by (simpl; lia); reflexivity.
Qed.

(** The digit loop of [String(n)] ends within [N.size_nat n + 1]
    rounds: any more fuel gives the same string. *)
Theorem dec_go_fuel f n acc : (N.size_nat n < f)%nat → dec_go f n acc = dec_go (S (N.size_nat n)) n acc.
Proof.
  intros Hf. destruct (decide (n = 0%N)) as [->|Hn]; [destruct f; [lia |]; reflexivity |].
  rewrite !dec_go_pretty by lia; done.
Qed.

(** C12. [debounce]: after a burst of calls on an idle debounced function,
    each before the previous one's timer is due, [func] has not run;
    it stays so until [wait] after the last call, and then it runs once,
    with the last call's arguments, and no timer is left. *)
Theorem debounce_burst {A} wait (d : debounced A) t a bs :
  timeout d = None → within wait ((t, a) :: bs) = true →
  let '(tl, al) := List.last bs (t, a) in
  let d' := burst wait d ((t, a) :: bs) in
  func_runs d' = func_runs d ∧
  (∀ T, (T < tl + Z.max 0 wait)%Z → tick T d' = d') ∧
  (∀ T, (tl + Z.max 0 wait ≤ T)%Z → tick T d' = mkDeb None (func_runs d ++ [al])).
Proof.
  intros Hd Hw. destruct d as [to c]; simpl in Hd; subst to.
  change (burst wait (mkDeb None c) ((t, a) :: bs)) with (burst wait (mkDeb (Some (t + Z.max 0 wait, a)%Z) c) bs).
  rewrite burst_pending by done. destruct (List.last _ _) as [tl al].
  split_and!; [done | intros T HT | intros T HT]; [by apply tick_before | by apply tick_due].
Qed.

Section witnesses.

Lemma maskEmail_valid_witness :
  isValidEmail "a@uni.edu" = true ∧ split_at "@" "a@uni.edu" = Some ("a", "uni.edu") ∧
  maskEmail "a@uni.edu" = None.
Proof.
  split; [reflexivity | split; [reflexivity |]].
  apply (maskEmail_valid "a@uni.edu" "a" "uni.edu"); reflexivity.
Defined.

Lemma labels_prototype_witness :
  "constructor" ∈ object_prototype ∧ getPropertyTypeLabel "constructor" = VProto "constructor".
Proof. split; [by left |]. apply (labels_prototype "constructor"). by left. Defined.

Lemma dec_go_fuel_witness :
  (N.size_nat 2026 < 40)%nat ∧ dec_go 40 2026 "" = dec_go (S (N.size_nat 2026)) 2026 "" ∧
  dec_go 40 2026 "" = "2026".
Proof. split; [vm_compute; lia | split; [apply dec_go_fuel; vm_compute; lia | reflexivity]]. Defined.

(** Keystrokes at 0, 100, 250 and 390 ms with a 300 ms wait: one run,
    with the last text, at 690 ms. *)
Lemma debounce_burst_witness :
  func_runs (burst 300 (mkDeb None []) [(0, "p"); (100, "pg"); (250, "pg "); (390, "pg k")]%Z) = [] ∧
  func_runs (tick 700 (burst 300 (mkDeb None []) [(0, "p"); (100, "pg"); (250, "pg "); (390, "pg k")]%Z)) = ["pg k"] ∧
  tick 689 (burst 300 (mkDeb None []) [(0, "p"); (100, "pg"); (250, "pg "); (390, "pg k")]%Z)
  = burst 300 (mkDeb None []) [(0, "p"); (100, "pg"); (250, "pg "); (390, "pg k")]%Z.
Proof.
  pose proof (debounce_burst 300 (mkDeb None []) 0 "p" [(100, "pg"); (250, "pg "); (390, "pg k")]%Z eq_refl eq_refl)
    as (_ & Hb & Ha).
  split_and!; [reflexivity | by rewrite (Ha 700%Z ltac:(simpl; lia)) | apply Hb; simpl; lia].
Defined.

End witnesses.

End Utils.
