(* ===== verification/Wishlist.v ===== *)
(** * The wishlist route ([src/src/app/api/wishlist/route.ts])

    One wishlist document, the one whose [userId] is the constant
    ["guest-user"], shared by every client.  [GET] reads its
    [propertyIds]; [POST] adds an id ([$addToSet], upserting the
    document); [DELETE] removes one id ([$pull]) or, with
    [clearAll=true], empties the list (without upsert); [PUT] toggles an
    id after testing membership with a query on the array field.

    The theorems: the list stays duplicate-free, adding is idempotent,
    removing an absent id changes nothing, toggling twice restores the
    list up to order (and exactly when the id was absent), and the
    [isInWishlist] flag that [PUT] returns is the membership after the
    toggle. *)

From S2P Require Import Prelude Json MongoDb.
Open Scope string_scope.
Open Scope list_scope.
Open Scope un_scope.

Module Wishlist.
Section handlers.
Context `{RegexEngine}.

Definition DEFAULT_USER_ID : string := "guest-user".

Definition guest : query := [QEq "userId" (JStr DEFAULT_USER_ID)].

(** [wishlist?.propertyIds || []] *)
Definition ids_of (w : option fields) : json :=
    or_default (w ≫= lookup_field "propertyIds") (JArr []).

(** The update of [POST] and of the adding branch of [PUT]. *)
Definition add_ops (now : Z) (pid : json) : list upd :=
    [UAddToSet "propertyIds" pid; USet [("updatedAt", JTime now)];
     USetOnInsert [("createdAt", JTime now)]].

Definition pull_ops (now : Z) (pid : json) : list upd :=
    [UPull "propertyIds" pid; USet [("updatedAt", JTime now)]].

Definition clear_ops (now : Z) : list upd :=
    [USet [("propertyIds", JArr []); ("updatedAt", JTime now)]].

(** [GET /api/wishlist] *)
Definition GET : M response :=
    w <- find_one Wishlists guest ;;
    match w with
    | None => mret (respond 200 [("propertyIds", JArr [])])
    | Some _ => mret (respond 200 [("propertyIds", ids_of w)])
    end.

(** [POST /api/wishlist] *)
Definition POST (now : Z) (body : json) : M response :=
    propertyId <- getp body "propertyId" ;;
    match propertyId with
    | Some pid =>
        if truthy pid then
          update_one Wishlists guest (add_ops now pid) true ;;;
          w <- find_one Wishlists guest ;;
          mret (respond 200 [("message", JStr "Added to wishlist"); ("propertyIds", ids_of w)])
        else mret (respond 400 [("error", JStr "Property ID is required")])
    | None => mret (respond 400 [("error", JStr "Property ID is required")])
    end.

(** [DELETE /api/wishlist?propertyId=..] and [?clearAll=true] *)
Definition DELETE (now : Z) (ps : params) : M response :=
    let propertyId := param "propertyId" ps in
    let clearAll := param "clearAll" ps in
    if decide (clearAll = Some "true") then
      update_one Wishlists guest (clear_ops now) false ;;;
      mret (respond 200 [("message", JStr "Wishlist cleared"); ("propertyIds", JArr [])])
    else
      match propertyId with
      | Some pid =>
          if String.eqb pid "" then mret (respond 400 [("error", JStr "Property ID is required")])
          else
            update_one Wishlists guest (pull_ops now (JStr pid)) false ;;;
            w <- find_one Wishlists guest ;;
            mret (respond 200 [("message", JStr "Removed from wishlist"); ("propertyIds", ids_of w)])
      | None => mret (respond 400 [("error", JStr "Property ID is required")])
      end.

(** [PUT /api/wishlist]: toggle. *)
Definition PUT (now : Z) (body : json) : M response :=
    propertyId <- getp body "propertyId" ;;
    match propertyId with
    | Some pid =>
        if truthy pid then
          w <- find_one Wishlists (guest ++ [QEq "propertyIds" pid]) ;;
          match w with
          | Some _ => update_one Wishlists guest (pull_ops now pid) false
          | None => update_one Wishlists guest (add_ops now pid) true
          end ;;;
          w' <- find_one Wishlists guest ;;
          mret (respond 200 [("message", JStr (if bool_decide (is_Some w) then "Removed from wishlist"
                                               else "Added to wishlist"));
                             ("propertyIds", ids_of w');
                             ("isInWishlist", JBool (negb (bool_decide (is_Some w))))])
        else mret (respond 400 [("error", JStr "Property ID is required")])
    | None => mret (respond 400 [("error", JStr "Property ID is required")])
    end.

(** The route's handlers with their [catch] responses. *)
Definition handle_GET := run GET (respond 500 [("error", JStr "Failed to fetch wishlist")]).
Definition handle_POST now body :=
    run (POST now body) (respond 500 [("error", JStr "Failed to add to wishlist")]).
Definition handle_DELETE now ps :=
    run (DELETE now ps) (respond 500 [("error", JStr "Failed to remove from wishlist")]).
Definition handle_PUT now body :=
    run (PUT now body) (respond 500 [("error", JStr "Failed to toggle wishlist")]).

(** The list the store holds for the guest. *)
Definition wishlist_ids (s : store) : list json :=
    match List.find (matches guest) (docs Wishlists s) with
    | Some d => match lookup_field "propertyIds" d with Some (JArr l) => l | _ => [] end
    | None => []
    end.
End handlers.

(** The effect of [PUT] on the list. *)
Definition toggle (pid : json) (l : list json) : list json :=
  if decide (pid ∈ l) then remove_all pid l else add_to_set pid l.

(** The guest list ["p1"; "p2"], built by the handlers themselves, for
    the witnesses. *)
Definition demo : store :=
  (@handle_PUT literal_regex 2 (JObj [("propertyId", JStr "p2")])
     (@handle_POST literal_regex 1 (JObj [("propertyId", JStr "p1")]) empty_store).1).1.

(** ** The guest document and its list *)

Section guest_doc.
Context `{RegexEngine}.

Definition ids_field (d : fields) : list json :=
    match lookup_field "propertyIds" d with Some (JArr l) => l | _ => [] end.

(** The list field is absent or a duplicate-free array. *)
Definition ids_ok (d : fields) : Prop :=
    match lookup_field "propertyIds" d with
    | None => True
    | Some (JArr l) => NoDup l
    | Some _ => False
    end.

(** The invariant of the wishlist collection: at most one guest document,
      and its list is well formed. *)
Definition wl_inv (s : store) : Prop :=
    match filter (λ d, matches guest d = true) (docs Wishlists s) with
    | [] => True
    | [d] => ids_ok d
    | _ => False
    end.

#[export] Instance ids_ok_dec d : Decision (ids_ok d).
  Proof. unfold ids_ok. destruct (lookup_field _ d) as [[]|]; apply _. Defined.

#[export] Instance wl_inv_dec s : Decision (wl_inv s).
  Proof. unfold wl_inv. destruct (filter _ _) as [|? []]; apply _. Defined.

Lemma wl_cases s :
    wl_inv s →
    no_match (matches guest) (docs Wishlists s) ∨
    ∃ l1 d l2, docs Wishlists s = l1 ++ d :: l2 ∧ no_match (matches guest) (l1 ++ l2) ∧
               matches guest d = true ∧ ids_ok d.
  Proof.
    unfold wl_inv. destruct (filter _ _) as [|d [|d' rest]] eqn:E; intros Hi; [| | done].
    - left. by apply filter_nil_no_match.
    - right. destruct (filter_single_split _ _ _ E) as (l1 & l2 & Hd & Hn & Hg).
      by exists l1, d, l2.
  Qed.

Lemma wl_inv_none s : no_match (matches guest) (docs Wishlists s) → wl_inv s.
  Proof. intros Hn. unfold wl_inv. by rewrite filter_no_match. Qed.

Lemma wl_inv_split s l1 d l2 :
    docs Wishlists s = l1 ++ d :: l2 → no_match (matches guest) (l1 ++ l2) →
    matches guest d = true → ids_ok d → wl_inv s.
  Proof.
    intros Hd Hn Hg Hok. apply no_match_app in Hn as [Hn1 Hn2].
    unfold wl_inv. rewrite Hd, filter_middle, filter_no_match by done. done.
  Qed.

Lemma wishlist_ids_none s : no_match (matches guest) (docs Wishlists s) → wishlist_ids s = [].
  Proof. intros Hn. unfold wishlist_ids. by rewrite find_no_match. Qed.

Lemma wishlist_ids_split s l1 d l2 :
    docs Wishlists s = l1 ++ d :: l2 → no_match (matches guest) l1 →
    matches guest d = true → wishlist_ids s = ids_field d.
  Proof. intros Hd Hn Hg. unfold wishlist_ids. by rewrite Hd, find_middle. Qed.

Lemma wl_inv_nodup s : wl_inv s → NoDup (wishlist_ids s).
  Proof.
    intros Hi. destruct (wl_cases s Hi) as [Hn | (l1 & d & l2 & Hd & Hn & Hg & Hok)].
    - rewrite wishlist_ids_none by done. constructor.
    - apply no_match_app in Hn as [Hn1 _].
      rewrite (wishlist_ids_split s l1 d l2) by done.
      unfold ids_ok, ids_field in *. destruct (lookup_field _ d) as [[]|]; try done; constructor.
  Qed.

Lemma matches_guest_userId d d' :
    lookup_field "userId" d' = lookup_field "userId" d → matches guest d' = matches guest d.
  Proof. intros E. unfold matches, guest. simpl. by rewrite E. Qed.

(** ** The two updates on one document *)

Lemma apply_add_ops b now pid d :
    ids_ok d →
    ∃ d', apply_upds b d (add_ops now pid) = inr d' ∧
          lookup_field "propertyIds" d' = Some (JArr (add_to_set pid (ids_field d))) ∧
          lookup_field "userId" d' = lookup_field "userId" d.
  Proof.
    intros Hok. unfold ids_ok, ids_field in *.
    destruct (lookup_field "propertyIds" d) as [[]|] eqn:E; try done;
      destruct b; (eexists; split; [simpl; rewrite E; reflexivity |]); simpl;
      field_simpl; split; done.
  Qed.

Lemma apply_pull_ops now pid d :
    ids_ok d →
    ∃ d', apply_upds false d (pull_ops now pid) = inr d' ∧
          ids_field d' = remove_all pid (ids_field d) ∧ ids_ok d' ∧
          lookup_field "userId" d' = lookup_field "userId" d.
  Proof.
    intros Hok. unfold ids_ok, ids_field in *.
    destruct (lookup_field "propertyIds" d) as [[]|] eqn:E; try done;
      (eexists; split; [simpl; rewrite E; reflexivity |]); simpl; field_simpl;
      rewrite ?E; repeat split; auto with uninest.
  Qed.
End guest_doc.

(** ** The handlers' database calls on the guest document *)

Section guest_calls.
Context `{RegexEngine}.

Lemma ids_of_ok d : ids_ok d → ids_of (Some d) = JArr (ids_field d).
  Proof.
    unfold ids_ok, ids_field, ids_of. simpl.
    destruct (lookup_field _ d) as [[]|]; simpl; done.
  Qed.

Lemma guest_seed_ok o : ids_ok [("_id", JOid o); ("userId", JStr DEFAULT_USER_ID)].
  Proof. done. Qed.

Lemma guest_add s now pid :
    wl_inv s →
    ∃ s' r, update_one Wishlists guest (add_ops now pid) true s = (s', inr r) ∧
            wl_inv s' ∧ wishlist_ids s' = add_to_set pid (wishlist_ids s).
  Proof.
    intros Hi. destruct (wl_cases s Hi) as [Hn | (l1 & d & l2 & Hd & Hn & Hg & Hok)].
    - destruct (apply_add_ops true now pid _ (guest_seed_ok (db_next_oid s)))
        as (d' & Ha & Hids & Hu).
      assert (Hg' : matches guest d' = true) by (by rewrite (matches_guest_userId _ _ Hu)).
      assert (Hd' : docs Wishlists (set_docs Wishlists (docs Wishlists s ++ [d']) (bump s))
                    = docs Wishlists s ++ d' :: []) by (by rewrite docs_set_docs_eq).
      eexists _, _. split.
      { unfold update_one. rewrite with_query_ok by done.
        rewrite list_find_no_match by done. simpl seed. by rewrite Ha. }
      rewrite (wishlist_ids_split _ _ _ _ Hd'), wishlist_ids_none by done.
      split; [| unfold ids_field; by rewrite Hids].
      eapply wl_inv_split; [exact Hd' | | done |].
      + apply no_match_app. split; [done | by intros ? ?%elem_of_nil].
      + unfold ids_ok. rewrite Hids. apply NoDup_singleton.
    - apply no_match_app in Hn as [Hn1 Hn2].
      destruct (apply_add_ops false now pid d Hok) as (d' & Ha & Hids & Hu).
      assert (Hg' : matches guest d' = true) by (by rewrite (matches_guest_userId _ _ Hu)).
      assert (Hd' : docs Wishlists (set_docs Wishlists (l1 ++ d' :: l2) s) = l1 ++ d' :: l2)
        by apply docs_set_docs_eq.
      eexists _, _. split.
      { unfold update_one. rewrite with_query_ok by done.
        rewrite Hd, list_find_middle, Ha, insert_middle by done. reflexivity. }
      rewrite (wishlist_ids_split _ _ _ _ Hd'), (wishlist_ids_split _ _ _ _ Hd) by done.
      split; [| unfold ids_field; by rewrite Hids].
      eapply wl_inv_split; [exact Hd' | by apply no_match_app | done |].
      unfold ids_ok. rewrite Hids. apply NoDup_add_to_set.
      unfold ids_ok, ids_field in *. destruct (lookup_field _ d) as [[]|]; try done; constructor.
  Qed.

(** An update without upsert that maps every well-formed document to a
      well-formed one, acting on its list by [f]. *)
Lemma guest_update s ops (f : list json → list json) :
    f [] = [] →
    (∀ d, ids_ok d → ∃ d', apply_upds false d ops = inr d' ∧ ids_field d' = f (ids_field d) ∧
                           ids_ok d' ∧ lookup_field "userId" d' = lookup_field "userId" d) →
    wl_inv s →
    ∃ s' r, update_one Wishlists guest ops false s = (s', inr r) ∧
            wl_inv s' ∧ wishlist_ids s' = f (wishlist_ids s).
  Proof.
    intros Hf Hops Hi. destruct (wl_cases s Hi) as [Hn | (l1 & d & l2 & Hd & Hn & Hg & Hok)].
    - eexists _, _. split; [by apply update_one_no_match |].
      rewrite wishlist_ids_none, Hf by done. done.
    - apply no_match_app in Hn as [Hn1 Hn2].
      destruct (Hops d Hok) as (d' & Ha & Hids & Hok' & Hu).
      assert (Hg' : matches guest d' = true) by (by rewrite (matches_guest_userId _ _ Hu)).
      assert (Hd' : docs Wishlists (set_docs Wishlists (l1 ++ d' :: l2) s) = l1 ++ d' :: l2)
        by apply docs_set_docs_eq.
      eexists _, _. split.
      { unfold update_one. rewrite with_query_ok by done.
        rewrite Hd, list_find_middle, Ha, insert_middle by done. reflexivity. }
      rewrite (wishlist_ids_split _ _ _ _ Hd'), (wishlist_ids_split _ _ _ _ Hd) by done.
      split; [| done]. eapply wl_inv_split; [exact Hd' | by apply no_match_app | done | done].
  Qed.

Lemma guest_pull s now pid :
    wl_inv s →
    ∃ s' r, update_one Wishlists guest (pull_ops now pid) false s = (s', inr r) ∧
            wl_inv s' ∧ wishlist_ids s' = remove_all pid (wishlist_ids s).
  Proof.
    apply guest_update; [done |]. intros d Hok.
    destruct (apply_pull_ops now pid d Hok) as (d' & ?); naive_solver.
  Qed.

Lemma guest_clear s now :
    wl_inv s →
    ∃ s' r, update_one Wishlists guest (clear_ops now) false s = (s', inr r) ∧
            wl_inv s' ∧ wishlist_ids s' = [].
  Proof.
    intros Hi. destruct (guest_update s (clear_ops now) (λ _, [])) as (s' & r & ?); [done | | done |].
    - intros d Hok. eexists. split; [reflexivity |].
      unfold ids_field, ids_ok. field_simpl. repeat split; constructor.
    - by exists s', r.
  Qed.

Lemma guest_read s :
    wl_inv s → ∃ w, find_one Wishlists guest s = (s, inr w) ∧ ids_of w = JArr (wishlist_ids s).
  Proof.
    intros Hi. rewrite find_one_ok by done.
    destruct (wl_cases s Hi) as [Hn | (l1 & d & l2 & Hd & Hn & Hg & Hok)].
    - rewrite find_no_match, wishlist_ids_none by done. by eexists.
    - apply no_match_app in Hn as [Hn1 Hn2].
      rewrite (wishlist_ids_split _ _ _ _ Hd), Hd, find_middle by done.
      eexists. split; [done |]. by apply ids_of_ok.
  Qed.

(** The membership test of [PUT]: [{userId, propertyIds: pid}] finds the
      guest document exactly when [pid] is in its list. *)
Lemma guest_member s pid :
    wl_inv s → truthy pid = true → (∀ l, pid ≠ JArr l) →
    ∃ w, find_one Wishlists (guest ++ [QEq "propertyIds" pid]) s = (s, inr w) ∧
         (is_Some w ↔ pid ∈ wishlist_ids s).
  Proof.
    intros Hi Ht Ha. rewrite find_one_ok by done.
    assert (Hq : ∀ d, matches (guest ++ [QEq "propertyIds" pid]) d =
                      matches guest d && eq_match (lookup_field "propertyIds" d) pid).
    { intros d. unfold matches. rewrite forallb_app. simpl.
      by destruct (eq_match _ (JStr _)), (eq_match _ pid). }
    assert (Hno : ∀ l, no_match (matches guest) l →
                       no_match (matches (guest ++ [QEq "propertyIds" pid])) l).
    { intros l Hl d Hd. by rewrite Hq, Hl. }
    destruct (wl_cases s Hi) as [Hn | (l1 & d & l2 & Hd & Hn & Hg & Hok)].
    - rewrite find_no_match, wishlist_ids_none by auto. eexists. split; [done |].
      split; [by intros [? ?] | by intros ?%elem_of_nil].
    - apply no_match_app in Hn as [Hn1 Hn2].
      rewrite (wishlist_ids_split _ _ _ _ Hd) by done. rewrite Hd.
      assert (He : eq_match (lookup_field "propertyIds" d) pid = bool_decide (pid ∈ ids_field d)).
      { unfold ids_ok, ids_field in *.
        destruct (lookup_field _ d) as [[]|]; try done; cbn [eq_match candidates existsb].
        - rewrite bool_decide_eq_false_2 by (intros <-; by eapply Ha).
          apply existsb_eq_elem.
        - rewrite !bool_decide_eq_false_2; [done | set_solver | by intros ->]. }
      destruct (bool_decide (pid ∈ ids_field d)) eqn:Hm.
      + rewrite find_middle; [| by apply Hno | by rewrite Hq, Hg, He].
        eexists. split; [done |]. split; [intros _; by apply bool_decide_eq_true in Hm | by eexists].
      + rewrite find_no_match.
        * eexists. split; [done |]. split; [by intros [? ?] | intros Hin].
          apply bool_decide_eq_false in Hm. done.
        * apply Hno in Hn1, Hn2. intros x Hx. apply elem_of_app in Hx as [Hx | Hx%elem_of_cons];
            [by apply Hn1 | destruct Hx as [-> | Hx]; [by rewrite Hq, Hg, He | by apply Hn2]].
  Qed.
End guest_calls.

(** ** Theorems *)

Section theorems.
Context `{RegexEngine}.

Lemma find_one_no_regex c q s :
    query_ok q = true → ∃ w, find_one c q s = (s, inr w).
  Proof. intros Hq. rewrite find_one_ok by done. by eexists. Qed.

(** [POST /api/wishlist] adds the id to the shared list with set
      semantics, keeps the collection's invariant, and answers 200 with the
      list now stored. *)
Lemma POST_spec s now body pid :
    wl_inv s → get body "propertyId" = Some pid → truthy pid = true →
    let '(s', r) := handle_POST now body s in
    wl_inv s' ∧ wishlist_ids s' = add_to_set pid (wishlist_ids s) ∧
    r = respond 200 [("message", JStr "Added to wishlist"); ("propertyIds", JArr (wishlist_ids s'))].
  Proof.
    intros Hi Hb Ht. destruct (guest_add s now pid Hi) as (s' & r & Hu & Hi' & Hids).
    destruct (guest_read s' Hi') as (w & Hf & Hw).
    unfold handle_POST, run, POST. rewrite (getp_some _ _ _ Hb). cbn [mbind mret].
    rewrite Ht, (mbind_inr _ _ _ _ _ Hu). cbv beta. rewrite (mbind_inr _ _ _ _ _ Hf).
    cbn. by rewrite Hw.
  Qed.

(** Adding the same id twice leaves the list of the first addition:
      the id is in it exactly once (it is an element of a duplicate-free
      list). *)
Theorem wishlist_POST_twice s now now' body pid :
    wl_inv s → get body "propertyId" = Some pid → truthy pid = true →
    let '(s1, _) := handle_POST now body s in
    let '(s2, _) := handle_POST now' body s1 in
    wishlist_ids s2 = wishlist_ids s1 ∧ NoDup (wishlist_ids s2) ∧ pid ∈ wishlist_ids s2.
  Proof.
    intros Hi Hb Ht. pose proof (POST_spec s now body pid Hi Hb Ht) as H1.
    destruct (handle_POST now body s) as [s1 r1]. destruct H1 as (Hi1 & Hids1 & _).
    pose proof (POST_spec s1 now' body pid Hi1 Hb Ht) as H2.
    destruct (handle_POST now' body s1) as [s2 r2]. destruct H2 as (Hi2 & Hids2 & _).
    rewrite Hids2, Hids1, add_to_set_idemp. split; [done |]. split.
    - apply NoDup_add_to_set. by apply wl_inv_nodup.
    - apply elem_of_add_to_set. by left.
  Qed.

Lemma DELETE_remove_unfold now ps p :
    param "clearAll" ps ≠ Some "true" → param "propertyId" ps = Some p → p ≠ "" →
    DELETE now ps = (update_one Wishlists guest (pull_ops now (JStr p)) false ;;;
                     w <- find_one Wishlists guest ;;
                     mret (respond 200 [("message", JStr "Removed from wishlist");
                                        ("propertyIds", ids_of w)])).
  Proof.
    intros Hc Hp Hne. unfold DELETE. cbv zeta. rewrite decide_False by done.
    rewrite Hp. by rewrite (proj2 (String.eqb_neq p "") Hne).
  Qed.

(** [DELETE /api/wishlist?propertyId=p] removes every occurrence of
      [p], keeps the invariant and answers with the stored list. *)
Lemma DELETE_spec s now ps p :
    wl_inv s → param "clearAll" ps ≠ Some "true" → param "propertyId" ps = Some p → p ≠ "" →
    let '(s', r) := handle_DELETE now ps s in
    wl_inv s' ∧ wishlist_ids s' = remove_all (JStr p) (wishlist_ids s) ∧
    r = respond 200 [("message", JStr "Removed from wishlist"); ("propertyIds", JArr (wishlist_ids s'))].
  Proof.
    intros Hi Hc Hp Hne. destruct (guest_pull s now (JStr p) Hi) as (s' & r & Hu & Hi' & Hids).
    destruct (guest_read s' Hi') as (w & Hf & Hw).
    unfold handle_DELETE, run. rewrite (DELETE_remove_unfold now ps p Hc Hp Hne).
    rewrite (mbind_inr _ _ _ _ _ Hu). cbv beta. rewrite (mbind_inr _ _ _ _ _ Hf). cbn.
    by rewrite Hw, Hids.
  Qed.

Lemma wishlist_DELETE_clear_inv s now ps :
    wl_inv s → param "clearAll" ps = Some "true" →
    let '(s', r) := handle_DELETE now ps s in wl_inv s' ∧ wishlist_ids s' = [].
  Proof.
    intros Hi Hc. destruct (guest_clear s now Hi) as (s' & r & Hu & Hi' & Hids).
    unfold handle_DELETE, run, DELETE. cbv zeta. rewrite decide_True by done.
    by rewrite (mbind_inr _ _ _ _ _ Hu).
  Qed.

(** [DELETE /api/wishlist?clearAll=true] empties the list and keeps
      the invariant; when there is no wishlist document it creates none. *)
Theorem wishlist_DELETE_clear s now ps :
    wl_inv s → param "clearAll" ps = Some "true" →
    let '(s', r) := handle_DELETE now ps s in
    wl_inv s' ∧ wishlist_ids s' = [] ∧ length (docs Wishlists s') = length (docs Wishlists s) ∧
    r = respond 200 [("message", JStr "Wishlist cleared"); ("propertyIds", JArr [])].
  Proof.
    intros Hi Hc. destruct (guest_clear s now Hi) as (s' & r & Hu & Hi' & Hids).
    unfold handle_DELETE, run, DELETE. cbv zeta. rewrite decide_True by done.
    rewrite (mbind_inr _ _ _ _ _ Hu). cbn. split; [done | split; [done | split; [| done]]].
    revert Hu. unfold update_one. rewrite with_query_ok by done.
    destruct (list_find _ _) as [[i d]|]; [destruct (apply_upds _ _ _) | ]; intros [= <- _];
      destruct s; simpl; by rewrite ?length_insert.
  Qed.

(** [PUT /api/wishlist] toggles: an id in the list is removed, an id
      not in it is added, and the answer reports the branch and the list.
      (The id is not itself an array: the membership query matches an
      array value against the whole list as well.) *)
Lemma PUT_spec s now body pid :
    wl_inv s → get body "propertyId" = Some pid → truthy pid = true → (∀ l, pid ≠ JArr l) →
    let '(s', r) := handle_PUT now body s in
    wl_inv s' ∧ wishlist_ids s' = toggle pid (wishlist_ids s) ∧
    r = respond 200 [("message", JStr (if bool_decide (pid ∈ wishlist_ids s)
                                       then "Removed from wishlist" else "Added to wishlist"));
                     ("propertyIds", JArr (wishlist_ids s'));
                     ("isInWishlist", JBool (bool_decide (pid ∈ wishlist_ids s')))].
  Proof.
    intros Hi Hb Ht Ha. destruct (guest_member s pid Hi Ht Ha) as (w & Hf & Hw).
    unfold handle_PUT, run, PUT. rewrite (getp_some _ _ _ Hb). cbn [mbind mret].
    rewrite Ht, (mbind_inr _ _ _ _ _ Hf). cbv beta. unfold toggle.
    destruct w as [d|].
    - assert (Hin : pid ∈ wishlist_ids s) by (apply Hw; by eexists).
      destruct (guest_pull s now pid Hi) as (s' & r & Hu & Hi' & Hids).
      destruct (guest_read s' Hi') as (w' & Hf' & Hw').
      cbv iota. rewrite (mbind_inr _ _ _ _ _ Hu). cbv beta. rewrite (mbind_inr _ _ _ _ _ Hf').
      cbn. rewrite Hw', decide_True by done.
      rewrite bool_decide_eq_true_2 by done.
      rewrite (bool_decide_eq_false_2 (pid ∈ wishlist_ids s')) by (rewrite Hids; apply not_elem_of_remove_all).
      done.
    - assert (Hnin : pid ∉ wishlist_ids s) by (intros Hin; apply Hw in Hin as [? ?]; done).
      destruct (guest_add s now pid Hi) as (s' & r & Hu & Hi' & Hids).
      destruct (guest_read s' Hi') as (w' & Hf' & Hw').
      cbv iota. rewrite (mbind_inr _ _ _ _ _ Hu). cbv beta. rewrite (mbind_inr _ _ _ _ _ Hf').
      cbn. rewrite Hw', decide_False by done.
      rewrite bool_decide_eq_false_2 by done.
      rewrite (bool_decide_eq_true_2 (pid ∈ wishlist_ids s')) by (rewrite Hids; apply elem_of_add_to_set; by left).
      done.
  Qed.

(** Removing an id that is not in the list leaves the list as it
      was, and the answer is 200 with that list. *)
Theorem wishlist_DELETE_absent s now ps p :
    wl_inv s → param "clearAll" ps ≠ Some "true" → param "propertyId" ps = Some p → p ≠ "" →
    JStr p ∉ wishlist_ids s →
    let '(s', r) := handle_DELETE now ps s in
    wishlist_ids s' = wishlist_ids s ∧
    r = respond 200 [("message", JStr "Removed from wishlist"); ("propertyIds", JArr (wishlist_ids s))].
  Proof.
    intros Hi Hc Hp Hne Hn. pose proof (DELETE_spec s now ps p Hi Hc Hp Hne) as Hs.
    destruct (handle_DELETE now ps s) as [s' r]. destruct Hs as (_ & Hids & ->).
    rewrite Hids, remove_all_id by done. done.
  Qed.

(** Toggling the same id twice restores the list up to order, and
      exactly when the id was not in it at first (a present id comes back
      at the end of the list). *)
Theorem wishlist_PUT_twice s now now' body pid :
    wl_inv s → get body "propertyId" = Some pid → truthy pid = true → (∀ l, pid ≠ JArr l) →
    let '(s1, _) := handle_PUT now body s in
    let '(s2, _) := handle_PUT now' body s1 in
    wishlist_ids s2 ≡ₚ wishlist_ids s ∧ (pid ∉ wishlist_ids s → wishlist_ids s2 = wishlist_ids s).
  Proof.
    intros Hi Hb Ht Ha. pose proof (PUT_spec s now body pid Hi Hb Ht Ha) as H1.
    destruct (handle_PUT now body s) as [s1 r1]. destruct H1 as (Hi1 & Hids1 & _).
    pose proof (PUT_spec s1 now' body pid Hi1 Hb Ht Ha) as H2.
    destruct (handle_PUT now' body s1) as [s2 r2]. destruct H2 as (_ & Hids2 & _).
    rewrite Hids2, Hids1. unfold toggle. pose proof (wl_inv_nodup s Hi) as Hnd.
    destruct (decide (pid ∈ wishlist_ids s)) as [Hin | Hnin].
    - rewrite decide_False by apply not_elem_of_remove_all.
      split; [by apply add_to_set_remove_all_elem | done].
    - rewrite decide_True by (apply elem_of_add_to_set; by left).
      rewrite remove_all_add_to_set_fresh by done. done.
  Qed.

(** The [isInWishlist] flag that [PUT] answers is the membership of
      the id in the list it leaves stored, and the message names the
      branch taken. *)
Theorem wishlist_PUT_flag s now req pid :
    wl_inv s → get req "propertyId" = Some pid → truthy pid = true → (∀ l, pid ≠ JArr l) →
    let '(s', r) := handle_PUT now req s in
    get (body r) "isInWishlist" = Some (JBool (bool_decide (pid ∈ wishlist_ids s'))) ∧
    get (body r) "message" =
      Some (JStr (if bool_decide (pid ∈ wishlist_ids s') then "Added to wishlist"
                  else "Removed from wishlist")).
  Proof.
    intros Hi Hb Ht Ha. pose proof (PUT_spec s now req pid Hi Hb Ht Ha) as H1.
    destruct (handle_PUT now req s) as [s' r]. destruct H1 as (_ & Hids & ->).
    split; [done |]. simpl. rewrite Hids. unfold toggle. f_equal. f_equal.
    destruct (decide (pid ∈ wishlist_ids s)) as [Hin | Hnin].
    - rewrite (bool_decide_eq_true_2 _ Hin), bool_decide_eq_false_2 by apply not_elem_of_remove_all.
      done.
    - rewrite (bool_decide_eq_false_2 _ Hnin), bool_decide_eq_true_2 by (apply elem_of_add_to_set; by left).
      done.
  Qed.

Lemma GET_inv s : wl_inv s → wl_inv (handle_GET s).1.
  Proof.
    intros Hi. destruct (guest_read s Hi) as (w & Hf & _).
    unfold handle_GET, run, GET. rewrite (mbind_inr _ _ _ _ _ Hf). by destruct w.
  Qed.

Lemma POST_inv s now b : wl_inv s → wl_inv (handle_POST now b s).1.
  Proof.
    intros Hi. destruct (decide (b = JNull)) as [-> | Hn]; [done |].
    destruct (get b "propertyId") as [pid|] eqn:Hb.
    - destruct (truthy pid) eqn:Ht.
      + pose proof (POST_spec s now b pid Hi Hb Ht) as H1.
        destruct (handle_POST now b s). by destruct H1.
      + unfold handle_POST, run, POST. rewrite (getp_some _ _ _ Hb). cbn. by rewrite Ht.
    - unfold handle_POST, run, POST. by rewrite (getp_none _ _ Hn Hb).
  Qed.

Lemma DELETE_inv s now ps : wl_inv s → wl_inv (handle_DELETE now ps s).1.
  Proof.
    intros Hi. destruct (decide (param "clearAll" ps = Some "true")) as [Hc | Hc].
    - pose proof (wishlist_DELETE_clear_inv s now ps Hi Hc) as H1.
      destruct (handle_DELETE now ps s). by destruct H1.
    - destruct (param "propertyId" ps) as [p|] eqn:Hp; [destruct (decide (p = "")) as [-> | Hne] |].
      + unfold handle_DELETE, run, DELETE. cbv zeta. rewrite decide_False, Hp by done. done.
      + pose proof (DELETE_spec s now ps p Hi Hc Hp Hne) as H1.
        destruct (handle_DELETE now ps s). by destruct H1.
      + unfold handle_DELETE, run, DELETE. cbv zeta. rewrite decide_False, Hp by done. done.
  Qed.

Lemma PUT_inv s now b : wl_inv s → wl_inv (handle_PUT now b s).1.
  Proof.
    intros Hi. destruct (decide (b = JNull)) as [-> | Hn]; [done |].
    destruct (get b "propertyId") as [pid|] eqn:Hb;
      [| unfold handle_PUT, run, PUT; by rewrite (getp_none _ _ Hn Hb)].
    unfold handle_PUT, run, PUT. rewrite (getp_some _ _ _ Hb). cbn [mbind mret].
    destruct (truthy pid); [| done].
    destruct (find_one_no_regex Wishlists (guest ++ [QEq "propertyIds" pid]) s) as [w Hf]; [done |].
    rewrite (mbind_inr _ _ _ _ _ Hf). cbv beta.
    assert (∃ s' r, (match w with
                     | Some _ => update_one Wishlists guest (pull_ops now pid) false
                     | None => update_one Wishlists guest (add_ops now pid) true
                     end) s = (s', inr r) ∧ wl_inv s') as (s' & r & Hu & Hi').
    { destruct w; [destruct (guest_pull s now pid Hi) | destruct (guest_add s now pid Hi)]; naive_solver. }
    rewrite (mbind_inr _ _ _ _ _ Hu). cbv beta.
    destruct (guest_read s' Hi') as (w' & Hf' & _). by rewrite (mbind_inr _ _ _ _ _ Hf').
  Qed.

(** C1. Every handler of the route keeps the invariant of the wishlist
      collection: at most one document for the guest, whose list is
      absent or a duplicate-free array; requests that fail change
      nothing. *)
Theorem wishlist_inv_preserved s now b ps :
    wl_inv s →
    wl_inv (handle_GET s).1 ∧ wl_inv (handle_POST now b s).1 ∧
    wl_inv (handle_DELETE now ps s).1 ∧ wl_inv (handle_PUT now b s).1.
  Proof.
    intros Hi. split; [by apply GET_inv |]. split; [by apply POST_inv |].
    split; [by apply DELETE_inv | by apply PUT_inv].
  Qed.
End theorems.

(** ** Witnesses: the theorems at a concrete store *)

Section witnesses.
#[local] Existing Instance literal_regex.

Lemma wishlist_POST_twice_witness :
    let '(s1, _) := handle_POST 3 (JObj [("propertyId", JStr "p3")]) demo in
    let '(s2, _) := handle_POST 4 (JObj [("propertyId", JStr "p3")]) s1 in
    wishlist_ids s2 = wishlist_ids s1 ∧ NoDup (wishlist_ids s2) ∧ JStr "p3" ∈ wishlist_ids s2.
  Proof.
    apply wishlist_POST_twice;
      [apply (bool_decide_unpack _); vm_compute; reflexivity | reflexivity | reflexivity].
  Defined.

Lemma wishlist_DELETE_absent_witness :
    let '(s', r) := handle_DELETE 3 [("propertyId", "p9")] demo in
    wishlist_ids s' = wishlist_ids demo ∧
    r = respond 200 [("message", JStr "Removed from wishlist"); ("propertyIds", JArr (wishlist_ids demo))].
  Proof.
    apply (wishlist_DELETE_absent demo 3 [("propertyId", "p9")] "p9");
      [apply (bool_decide_unpack _); vm_compute; reflexivity | discriminate | reflexivity
      | discriminate | apply (bool_decide_unpack _); vm_compute; reflexivity].
  Defined.

Lemma wishlist_DELETE_clear_witness :
    let '(s', r) := handle_DELETE 3 [("clearAll", "true")] demo in
    wl_inv s' ∧ wishlist_ids s' = [] ∧ length (docs Wishlists s') = length (docs Wishlists demo) ∧
    r = respond 200 [("message", JStr "Wishlist cleared"); ("propertyIds", JArr [])].
  Proof.
    apply wishlist_DELETE_clear; [apply (bool_decide_unpack _); vm_compute; reflexivity | reflexivity].
  Defined.

Lemma wishlist_PUT_twice_witness :
    let '(s1, _) := handle_PUT 3 (JObj [("propertyId", JStr "p1")]) demo in
    let '(s2, _) := handle_PUT 4 (JObj [("propertyId", JStr "p1")]) s1 in
    wishlist_ids s2 ≡ₚ wishlist_ids demo ∧
    (JStr "p1" ∉ wishlist_ids demo → wishlist_ids s2 = wishlist_ids demo).
  Proof.
    apply wishlist_PUT_twice;
      [apply (bool_decide_unpack _); vm_compute; reflexivity | reflexivity | reflexivity
      | intros l; discriminate].
  Defined.

Lemma wishlist_PUT_flag_witness :
    let '(s', r) := handle_PUT 3 (JObj [("propertyId", JStr "p2")]) demo in
    get (body r) "isInWishlist" = Some (JBool (bool_decide (JStr "p2" ∈ wishlist_ids s'))) ∧
    get (body r) "message" =
      Some (JStr (if bool_decide (JStr "p2" ∈ wishlist_ids s') then "Added to wishlist"
                  else "Removed from wishlist")).
  Proof.
    apply wishlist_PUT_flag;
      [apply (bool_decide_unpack _); vm_compute; reflexivity | reflexivity | reflexivity
      | intros l; discriminate].
  Defined.

Lemma wishlist_inv_preserved_witness :
    wl_inv (handle_GET demo).1 ∧ wl_inv (handle_POST 3 (JObj [("propertyId", JStr "p1")]) demo).1 ∧
    wl_inv (handle_DELETE 3 [("propertyId", "p1")] demo).1 ∧
    wl_inv (handle_PUT 3 (JObj [("propertyId", JStr "p1")]) demo).1.
  Proof. apply wishlist_inv_preserved. apply (bool_decide_unpack _); vm_compute; reflexivity. Defined.
End witnesses.
End Wishlist.
