(* ===== verification/Auth.v ===== *)
(** * Accounts and sessions ([src/src/app/api/auth/])

    [register/route.ts] validates the body, refuses an email already
    registered (compared in lower case), hashes the password with
    [bcrypt], inserts the user with the id ["user-" ++ Date.now()] and a
    profile for its role, and signs a session token; [login/route.ts]
    checks the password and signs a token; [me/route.ts] reads the token
    from the [auth-token] cookie, verifies it and returns the user it
    names, and its [DELETE] clears the cookie.

    [bcrypt] is the interface [PasswordHasher] with the two laws the
    handlers rely on.  The token is a [token] value: [jwt.verify]
    succeeds on it when it was signed with the current secret and is
    less than seven days old.  The secret is [process.env.JWT_SECRET],
    a parameter, or the string written in the three route files. *)

From S2P Require Import Prelude Json MongoDb.
Open Scope string_scope.
Open Scope list_scope.
Open Scope un_scope.

(** [bcrypt.hash(p, 12)] and [bcrypt.compare(q, h)]. *)
Class PasswordHasher := {
  bcrypt_hash : string → string;
  bcrypt_compare : string → string → bool;
  bcrypt_compare_hash : ∀ p, bcrypt_compare p (bcrypt_hash p) = true;
  bcrypt_compare_other : ∀ p q, p ≠ q → bcrypt_compare q (bcrypt_hash p) = false
}.

(** A password hasher for concrete runs: the hash of [p] is a fixed
    prefix followed by [p]; it satisfies the two laws. *)
Definition toy_hasher : PasswordHasher.
Proof.
  refine {| bcrypt_hash := fun p => "$2a$12$" +:+ p;
            bcrypt_compare := fun q h => String.eqb h ("$2a$12$" +:+ q) |}.
  - intros p. apply String.eqb_refl.
  - intros p q Hne. apply String.eqb_neq. intros Heq. apply Hne. simpl in Heq. by simplify_eq.
Defined.

Module Auth.

Definition FALLBACK_SECRET : string := "uninest-secret-key-change-in-production".

(** [process.env.JWT_SECRET || "uninest-secret-key-change-in-production"] *)
Definition JWT_SECRET (env : option string) : string :=
  match env with Some s => if String.eqb s "" then FALLBACK_SECRET else s | None => FALLBACK_SECRET end.

(** [expiresIn: "7d"] and the cookie's [maxAge: 60 * 60 * 24 * 7]. *)
Definition SEVEN_DAYS_S : Z := 60 * 60 * 24 * 7.

Definition jwt_sign (payload : json) (secret : string) (now : Z) : token := mkToken payload now secret.

(** [jwt.verify(token, secret)]: [None] where the library throws. *)
Definition jwt_verify (t : token) (secret : string) (now : Z) : option json :=
  if String.eqb (tok_secret t) secret && Z.ltb now (tok_iat t + SEVEN_DAYS_S * 1000)
  then Some (tok_payload t) else None.

(** The token as the response body carries it: the printed string
    encodes its payload and issue time. *)
Definition token_json (t : token) : json :=
  JObj [("payload", tok_payload t); ("iat", JNum (tok_iat t))].

Definition auth_cookie (t : token) : cookie := mkCookie "auth-token" (Some t) SEVEN_DAYS_S.

(** [x.length] for the values a body may hold; [undefined] elsewhere. *)
Definition js_length (v : json) : option Z :=
  match v with
  | JStr s => Some (Z.of_nat (String.length s))
  | JArr l => Some (Z.of_nat (length l))
  | _ => None
  end.

(** [s.toLowerCase()]: a [TypeError] unless [s] is a string. *)
Definition js_lower (v : json) : M string :=
  match v with JStr s => mret (to_lower s) | _ => throw TypeError end.

(** [k: v] where an [undefined] [v] is dropped by [JSON.stringify]. *)
Definition opt_field (k : string) (o : option json) : fields :=
  match o with Some v => [(k, v)] | None => [] end.

(** [k: v || undefined]. *)
Definition truthy_field (k : string) (o : option json) : fields :=
  match o with Some v => if truthy v then [(k, v)] else [] | None => [] end.

(** The [SafeUser] built from a user document: no password. *)
Definition safe_user (u : fields) : json :=
  JObj (opt_field "id" (lookup_field "id" u) ++ opt_field "email" (lookup_field "email" u) ++
        opt_field "name" (lookup_field "name" u) ++ truthy_field "phone" (lookup_field "phone" u) ++
        truthy_field "image" (lookup_field "image" u) ++ opt_field "role" (lookup_field "role" u) ++
        opt_field "createdAt" (lookup_field "createdAt" u)).

(** The token payload [{userId, email, role}] of a user document. *)
Definition payload_of (u : fields) : json :=
  JObj (opt_field "userId" (lookup_field "id" u) ++ opt_field "email" (lookup_field "email" u) ++
        opt_field "role" (lookup_field "role" u)).

Definition user_id_of (now : Z) : string := "user-" +:+ pretty now.

(** [const newUser = {...}] of [register]. *)
Definition new_user (userId lower hashed : string) (name phone role : option json) (now : Z) : fields :=
  [("id", JStr userId); ("email", JStr lower); ("password", JStr hashed);
   ("name", default JNull name); ("phone", or_default phone JNull); ("image", JNull);
   ("role", default JNull role); ("createdAt", JTime now); ("updatedAt", JTime now)].

Definition student_profile (userId : string) (now : Z) : fields :=
  [("userId", JStr userId); ("college", JNull); ("course", JNull); ("year", JNull);
   ("city", JNull); ("bio", JNull); ("createdAt", JTime now)].

Definition landlord_profile (userId : string) (now : Z) : fields :=
  [("userId", JStr userId); ("companyName", JNull); ("address", JNull); ("city", JNull);
   ("isVerified", JBool false); ("totalProperties", JNum 0); ("responseRate", JNum 0);
   ("responseTime", JNum 60); ("createdAt", JTime now)].

Section handlers.
Context `{RegexEngine} `{PasswordHasher}.
Variable env : option string.

Definition fail400 (msg : string) : M response :=
  mret (respond 400 [("success", JBool false); ("message", JStr msg)]).

(** The one answer of [login] to an unknown email and to a wrong password. *)
Definition invalid_credentials : response :=
  respond 401 [("success", JBool false); ("message", JStr "Invalid email or password")].

(** The database part of [POST /api/auth/register], after validation:
    the duplicate check, the hash, the two inserts and the token. *)
Definition register_user (now : Z) (lower : string) (name password phone role : option json) : M response :=
  existing <- find_one Users [QEq "email" (JStr lower)] ;;
  match existing with
  | Some _ => fail400 "Email already registered"
  | None =>
      hashed <- (match password with Some (JStr p) => mret (bcrypt_hash p) | _ => throw TypeError end) ;;
      let userId := user_id_of now in
      let newUser := new_user userId lower hashed name phone role now in
      insert_one Users newUser ;;;
      (if bool_decide (role = Some (JStr "student"))
       then insert_one StudentProfiles (student_profile userId now) ;;; mret tt
       else insert_one LandlordProfiles (landlord_profile userId now) ;;; mret tt) ;;;
      let t := jwt_sign (JObj [("userId", JStr userId); ("email", JStr lower); ("role", default JNull role)])
                        (JWT_SECRET env) now in
      mret (mkResponse 200 (JObj [("success", JBool true); ("message", JStr "Registration successful");
                                  ("user", safe_user newUser); ("token", token_json t)])
                       (Some (auth_cookie t)))
  end.

(** [POST /api/auth/register] *)
Definition register (now : Z) (b : json) : M response :=
  name <- getp b "name" ;; email <- getp b "email" ;; password <- getp b "password" ;;
  phone <- getp b "phone" ;; role <- getp b "role" ;;
  if negb (truthy_opt name && truthy_opt email && truthy_opt password && truthy_opt role)
  then fail400 "All fields are required"
  else if (match password ≫= js_length with Some n => Z.ltb n 6 | None => false end)
  then fail400 "Password must be at least 6 characters"
  else if negb (bool_decide (role = Some (JStr "student")) || bool_decide (role = Some (JStr "landlord")))
  then fail400 "Invalid role"
  else
    lower <- js_lower (default JNull email) ;;
    register_user now lower name password phone role.

(** The database part of [POST /api/auth/login]. *)
Definition login_user (now : Z) (lower : string) (password : option json) : M response :=
  user <- find_one Users [QEq "email" (JStr lower)] ;;
  match user with
  | None => mret invalid_credentials
  | Some u =>
      ok <- (match password, lookup_field "password" u with
             | Some (JStr p), Some (JStr h) => mret (bcrypt_compare p h)
             | _, _ => throw TypeError
             end) ;;
      if negb ok
      then mret invalid_credentials
      else
        let t := jwt_sign (payload_of u) (JWT_SECRET env) now in
        mret (mkResponse 200 (JObj [("success", JBool true); ("message", JStr "Login successful");
                                    ("user", safe_user u); ("token", token_json t)])
                         (Some (auth_cookie t)))
  end.

(** [POST /api/auth/login] *)
Definition login (now : Z) (b : json) : M response :=
  email <- getp b "email" ;; password <- getp b "password" ;;
  if negb (truthy_opt email && truthy_opt password)
  then fail400 "Email and password are required"
  else
    lower <- js_lower (default JNull email) ;;
    login_user now lower password.

(** [GET /api/auth/me]; the cookie's token is [None] when absent or empty. *)
Definition me (now : Z) (cookie_token : option token) : M response :=
  match cookie_token with
  | None => mret (respond 401 [("success", JBool false); ("message", JStr "Not authenticated"); ("user", JNull)])
  | Some t =>
      decoded <- of_option TypeError (jwt_verify t (JWT_SECRET env) now) ;;
      user <- find_one Users [QEq "id" (default JNull (get decoded "userId"))] ;;
      match user with
      | None => mret (respond 404 [("success", JBool false); ("message", JStr "User not found"); ("user", JNull)])
      | Some u => mret (respond 200 [("success", JBool true); ("user", safe_user u)])
      end
  end.

(** [DELETE /api/auth/me]: logout. *)
Definition logout : response :=
  mkResponse 200 (JObj [("success", JBool true); ("message", JStr "Logged out successfully")])
             (Some (mkCookie "auth-token" None 0)).

Definition handle_register now b :=
  run (register now b) (respond 500 [("success", JBool false); ("message", JStr "Registration failed")]).
Definition handle_login now b :=
  run (login now b) (respond 500 [("success", JBool false); ("message", JStr "Login failed")]).
Definition handle_me now c :=
  run (me now c) (respond 401 [("success", JBool false); ("message", JStr "Invalid token"); ("user", JNull)]).
End handlers.

(** A store with one student account, registered at time 1000 (ms). *)
Definition ann_body : json :=
  JObj [("name", JStr "Ann"); ("email", JStr "Ann@Uni.edu"); ("password", JStr "secret1");
        ("role", JStr "student")].

Definition bob_body : json :=
  JObj [("name", JStr "Bob"); ("email", JStr "bob@uni.edu"); ("password", JStr "hunter22");
        ("role", JStr "landlord")].

(** Ann's user document in [auth_demo]. *)
Definition ann_doc : fields :=
  ("_id", JOid 1) :: new_user (user_id_of 1000) "ann@uni.edu" (@bcrypt_hash toy_hasher "secret1")
                              (Some (JStr "Ann")) None (Some (JStr "student")) 1000.

Definition auth_demo : store := (@handle_register literal_regex toy_hasher None 1000 ann_body empty_store).1.

(** ** Proofs *)

Section proofs.
Context `{RegexEngine} `{PasswordHasher}.
Variable env : option string.

Definition email_q (e : string) : query := [QEq "email" (JStr (to_lower e))].

(** A register body that passes the handler's three validations. *)
Definition reg_valid (b n : json) (e p r : string) : Prop :=
  get b "name" = Some n ∧ truthy n = true ∧ get b "email" = Some (JStr e) ∧ e ≠ "" ∧
  get b "password" = Some (JStr p) ∧ (6 ≤ String.length p)%nat ∧
  get b "role" = Some (JStr r) ∧ (r = "student" ∨ r = "landlord").

(** The registration token of [register_user]. *)
Definition reg_token (now : Z) (lower r : string) : token :=
  jwt_sign (JObj [("userId", JStr (user_id_of now)); ("email", JStr lower); ("role", JStr r)])
           (JWT_SECRET env) now.

(** The user document [register_user] inserts. *)
Definition reg_doc (o : N) (now : Z) (lower p : string) (n : json) (ph : option json) (r : string) : fields :=
  ("_id", JOid o) :: new_user (user_id_of now) lower (bcrypt_hash p) (Some n) ph (Some (JStr r)) now.

(** The accounts invariant: every user's email is a lower-case string
    and no two users have the same email. *)
Definition email_ok (u : fields) : Prop :=
  match lookup_field "email" u with Some (JStr x) => to_lower x = x | _ => False end.

Definition accounts_ok (l : list fields) : Prop :=
  Forall email_ok l ∧ NoDup (map (lookup_field "email") l).

Definition users_inv (s : store) : Prop := accounts_ok (docs Users s).

#[export] Instance reg_valid_dec b n e p r : Decision (reg_valid b n e p r).
Proof. unfold reg_valid. apply _. Defined.

#[export] Instance email_ok_dec u : Decision (email_ok u).
Proof. unfold email_ok. repeat case_match; apply _. Defined.

#[export] Instance accounts_ok_dec l : Decision (accounts_ok l).
Proof. unfold accounts_ok. apply _. Defined.

#[export] Instance users_inv_dec s : Decision (users_inv s).
Proof. unfold users_inv. apply _. Defined.

Lemma ro_js_lower v : read_only (js_lower v).
Proof. by destruct v. Qed.

Lemma ro_fail400 msg : read_only (fail400 msg).
Proof. done. Qed.

#[local] Hint Resolve ro_js_lower ro_fail400 : uninest.

Lemma truthy_str s : s ≠ "" → truthy (JStr s) = true.
Proof. intros Hs. simpl. by rewrite (proj2 (String.eqb_neq s "") Hs). Qed.

Lemma register_validated s now b n e p r :
  reg_valid b n e p r →
  register env now b s =
  register_user env now (to_lower e) (Some n) (Some (JStr p)) (get b "phone") (Some (JStr r)) s.
Proof.
  intros (Hn & Htn & He & Hne & Hp & Hlp & Hr & Hrr).
  assert (b ≠ JNull) as Hb by (intros ->; discriminate).
  assert (p ≠ "") as Hpne by (intros ->; simpl in Hlp; lia).
  unfold register. rewrite !(getp_nonnull b) by done. rewrite !mbind_mret.
  rewrite Hn, He, Hp, Hr. cbn [truthy_opt].
  rewrite Htn, !truthy_str by (done || by destruct Hrr as [-> | ->]).
  cbn [andb negb].
  change (Some (JStr p) ≫= js_length) with (Some (Z.of_nat (String.length p))). cbv iota.
  rewrite (proj2 (Z.ltb_ge _ _)) by lia.
  destruct Hrr as [-> | ->]; cbn; reflexivity.
Qed.

Lemma register_user_dup s now lower n pw ph r u :
  List.find (matches [QEq "email" (JStr lower)]) (docs Users s) = Some u →
  register_user env now lower n pw ph r s =
  (s, inr (respond 400 [("success", JBool false); ("message", JStr "Email already registered")])).
Proof.
  intros Hf. unfold register_user.
  rewrite (mbind_inr _ _ _ _ _ (find_one_ok Users [QEq "email" (JStr lower)] s eq_refl)), Hf. done.
Qed.

Lemma register_user_new s now lower n p ph r :
  no_match (matches [QEq "email" (JStr lower)]) (docs Users s) → (r = "student" ∨ r = "landlord") →
  ∃ s', register_user env now lower (Some n) (Some (JStr p)) ph (Some (JStr r)) s =
        (s', inr (mkResponse 200 (JObj [("success", JBool true); ("message", JStr "Registration successful");
                                        ("user", safe_user (new_user (user_id_of now) lower (bcrypt_hash p) (Some n) ph (Some (JStr r)) now));
                                        ("token", token_json (reg_token now lower r))])
                             (Some (auth_cookie (reg_token now lower r))))) ∧
        docs Users s' = docs Users s ++ [reg_doc (db_next_oid s) now lower p n ph r] ∧
        db_next_oid s' = (db_next_oid s + 2)%N ∧
        (∀ c, c ≠ StudentProfiles → c ≠ LandlordProfiles → c ≠ Users → docs c s' = docs c s).
Proof.
  intros Hn Hr. unfold register_user.
  rewrite (mbind_inr _ _ _ _ _ (find_one_ok Users [QEq "email" (JStr lower)] s eq_refl)).
  rewrite find_no_match by done.
  rewrite mbind_mret. cbv zeta. rewrite (mbind_inr _ _ _ _ _ (insert_one_eq Users _ s)). cbv beta.
  destruct Hr as [-> | ->];
    [rewrite bool_decide_eq_true_2 by done | rewrite bool_decide_eq_false_2 by discriminate];
    rewrite (mbind_inr _ _ _ _ _ (insert_one_unit _ _ _)); cbn [mbind mret];
    (eexists; split; [reflexivity |]); destruct s; simpl; (split; [done | split; [lia |]]);
    intros []; done.
Qed.
(** The users [register_user] leaves: those it found, or those and one
    more whose email is [lower], which no user had. *)
Lemma register_user_users s now lower n pw ph r :
  docs Users (register_user env now lower n pw ph r s).1 = docs Users s ∨
  (no_match (matches [QEq "email" (JStr lower)]) (docs Users s) ∧
   ∃ d, docs Users (register_user env now lower n pw ph r s).1 = docs Users s ++ [d] ∧
        lookup_field "email" d = Some (JStr lower)).
Proof.
  unfold register_user.
  rewrite (mbind_inr _ _ _ _ _ (find_one_ok Users [QEq "email" (JStr lower)] s eq_refl)).
  destruct (List.find _ _) eqn:Hf; [by left |].
  destruct pw as [[]|]; try by left.
  rewrite mbind_mret. cbv zeta. rewrite (mbind_inr _ _ _ _ _ (insert_one_eq Users _ s)). cbv beta.
  right. split; [by apply find_none_no_match |].
  case_bool_decide; rewrite (mbind_inr _ _ _ _ _ (insert_one_unit _ _ _)); cbn [mbind mret fst];
    (eexists; split; [rewrite docs_set_docs_ne, docs_bump, docs_set_docs_eq by done; reflexivity | done]).
Qed.

(** [register] writes only through [register_user], on a lower-cased email. *)
Lemma register_store s now b :
  (register env now b s).1 = s ∨
  ∃ x n pw ph r, (register env now b s).1 = (register_user env now (to_lower x) n pw ph r s).1.
Proof.
  unfold register. destruct (decide (b = JNull)) as [-> | Hb]; [by left |].
  rewrite !(getp_nonnull b) by done. cbn [mbind mret].
  repeat (case_match; try by left).
  all: destruct (default JNull (get b "email")) as [| | | | x | | | | |]; try by left.
  all: right; exists x; do 4 eexists; reflexivity.
Qed.

Lemma accounts_ok_snoc l d lower :
  accounts_ok l → no_match (matches [QEq "email" (JStr lower)]) l →
  lookup_field "email" d = Some (JStr lower) → to_lower lower = lower → accounts_ok (l ++ [d]).
Proof.
  intros [Hf Hd] Hn He Hl. split.
  - apply Forall_app. split; [done |]. apply Forall_singleton. unfold email_ok. by rewrite He.
  - rewrite map_app. apply NoDup_snoc; [done |]. rewrite He. intros (u & Hu & Hin)%list_elem_of_fmap.
    specialize (Hn u Hin). by rewrite matches_eq_self in Hn.
Qed.

Lemma login_validated s now b e p :
  get b "email" = Some (JStr e) → get b "password" = Some (JStr p) → e ≠ "" → p ≠ "" →
  login env now b s = login_user env now (to_lower e) (Some (JStr p)) s.
Proof.
  intros He Hp Hne Hpne. assert (b ≠ JNull) as Hb by (intros ->; discriminate).
  unfold login. rewrite !(getp_nonnull b) by done. cbn [mbind mret]. rewrite He, Hp.
  cbn [truthy_opt]. rewrite !truthy_str by done. done.
Qed.

Lemma login_user_none s now lower pw :
  no_match (matches [QEq "email" (JStr lower)]) (docs Users s) →
  login_user env now lower pw s = (s, inr invalid_credentials).
Proof.
  intros Hn. unfold login_user.
  rewrite (mbind_inr _ _ _ _ _ (find_one_ok Users [QEq "email" (JStr lower)] s eq_refl)).
  by rewrite find_no_match.
Qed.

Lemma login_user_found s now lower p u h :
  List.find (matches [QEq "email" (JStr lower)]) (docs Users s) = Some u →
  lookup_field "password" u = Some (JStr h) →
  login_user env now lower (Some (JStr p)) s =
  (s, inr (if bcrypt_compare p h
           then mkResponse 200 (JObj [("success", JBool true); ("message", JStr "Login successful");
                                      ("user", safe_user u);
                                      ("token", token_json (jwt_sign (payload_of u) (JWT_SECRET env) now))])
                           (Some (auth_cookie (jwt_sign (payload_of u) (JWT_SECRET env) now)))
           else invalid_credentials)).
Proof.
  intros Hf Hh. unfold login_user.
  rewrite (mbind_inr _ _ _ _ _ (find_one_ok Users [QEq "email" (JStr lower)] s eq_refl)), Hf.
  cbv beta iota. rewrite Hh. cbn [mbind mret]. by destruct (bcrypt_compare p h).
Qed.

Lemma me_found s now t payload u :
  jwt_verify t (JWT_SECRET env) now = Some payload →
  List.find (matches [QEq "id" (default JNull (get payload "userId"))]) (docs Users s) = Some u →
  handle_me env now (Some t) s = (s, respond 200 [("success", JBool true); ("user", safe_user u)]).
Proof.
  intros Hv Hf. unfold handle_me, run, me. rewrite Hv. cbn [of_option mbind mret].
  by rewrite (mbind_inr _ _ _ _ _ (find_one_ok Users [QEq "id" (default JNull (get payload "userId"))] s eq_refl)), Hf.
Qed.

(** C4. Registering an email that a user already has, in any case of
    letters, is refused with 400 and changes nothing. *)
Theorem register_duplicate_email s now b n e p r u :
  reg_valid b n e p r → u ∈ docs Users s → lookup_field "email" u = Some (JStr (to_lower e)) →
  handle_register env now b s =
  (s, respond 400 [("success", JBool false); ("message", JStr "Email already registered")]).
Proof.
  intros Hv Hu He. destruct (find_some_elem (matches (email_q e)) _ u Hu) as [u' Hf];
    [by apply matches_eq_self |].
  unfold handle_register, run. by rewrite (register_validated s now b n e p r Hv), (register_user_dup _ _ _ _ _ _ _ u').
Qed.

(** C5. An unknown email and a wrong password get the same answer, 401
    "Invalid email or password", and neither changes the store: the
    response does not tell which accounts exist. *)
Theorem login_uniform_failure s now b e p :
  get b "email" = Some (JStr e) → get b "password" = Some (JStr p) → e ≠ "" → p ≠ "" →
  (no_match (matches (email_q e)) (docs Users s) ∨
   ∃ u q, List.find (matches (email_q e)) (docs Users s) = Some u ∧
          lookup_field "password" u = Some (JStr (bcrypt_hash q)) ∧ q ≠ p) →
  handle_login env now b s = (s, invalid_credentials).
Proof.
  intros He Hp Hne Hpne Hcase. unfold handle_login, run. rewrite (login_validated s now b e p) by done.
  destruct Hcase as [Hn | (u & q & Hf & Hh & Hq)].
  - by rewrite login_user_none.
  - rewrite (login_user_found _ _ _ _ _ _ Hf Hh). by rewrite bcrypt_compare_other.
Qed.
Lemma jwt_verify_sign payload secret iat now :
  (now < iat + SEVEN_DAYS_S * 1000)%Z →
  jwt_verify (jwt_sign payload secret iat) secret now = Some payload.
Proof.
  intros Ht. unfold jwt_verify, jwt_sign. simpl.
  rewrite String.eqb_refl, (proj2 (Z.ltb_lt _ _) Ht). done.
Qed.

Lemma reg_valid_pass_nonempty b n e p r : reg_valid b n e p r → p ≠ "".
Proof. intros (_ & _ & _ & _ & _ & Hl & _). intros ->. simpl in Hl. lia. Qed.

(** C32. A user who registers can then log in with the same password and
    the email in any case of letters: the answer is 200, sets the session
    cookie for the new user id, and the store is not changed by the login. *)
Theorem register_then_login s now now' b n e p r b' e' :
  reg_valid b n e p r → no_match (matches (email_q e)) (docs Users s) →
  get b' "email" = Some (JStr e') → get b' "password" = Some (JStr p) → e' ≠ "" →
  to_lower e' = to_lower e →
  let s1 := (handle_register env now b s).1 in
  let '(s2, r2) := handle_login env now' b' s1 in
  s2 = s1 ∧ status r2 = 200%Z ∧
  set_cookie r2 = Some (auth_cookie (jwt_sign (JObj [("userId", JStr (user_id_of now));
                                                    ("email", JStr (to_lower e)); ("role", JStr r)])
                                              (JWT_SECRET env) now')).
Proof.
  intros Hv Hn He' Hp' Hne' Hlow. pose proof (reg_valid_pass_nonempty _ _ _ _ _ Hv) as Hpne.
  pose proof Hv as (_ & _ & _ & _ & _ & _ & _ & Hr).
  destruct (register_user_new s now (to_lower e) n p (get b "phone") r Hn Hr) as (s1 & Hreg & Hu & _).
  cbv zeta. unfold handle_register, run. rewrite (register_validated s now b n e p r Hv), Hreg. cbn [fst].
  unfold handle_login, run. rewrite (login_validated s1 now' b' e' p), Hlow by done.
  rewrite (login_user_found _ _ _ _ (reg_doc (db_next_oid s) now (to_lower e) p n (get b "phone") r) (bcrypt_hash p)).
  - rewrite bcrypt_compare_hash. cbv beta iota zeta.
    split; [reflexivity | split; [reflexivity |]]. destruct Hr as [-> | ->]; reflexivity.
  - rewrite Hu. apply find_middle; [done |]. by apply matches_eq_self.
  - done.
Qed.

(** C33. Two accounts registered in the same millisecond get the same id
    ["user-" ++ Date.now()], and [GET /api/auth/me] looks users up by that
    id: the session cookie issued to the second account opens the first
    account. *)
Theorem register_same_instant_me s now b1 n1 e1 p1 r1 b2 n2 e2 p2 r2 :
  reg_valid b1 n1 e1 p1 r1 → reg_valid b2 n2 e2 p2 r2 → to_lower e1 ≠ to_lower e2 →
  no_match (matches (email_q e1)) (docs Users s) → no_match (matches (email_q e2)) (docs Users s) →
  no_match (matches [QEq "id" (JStr (user_id_of now))]) (docs Users s) →
  let '(s1, _) := handle_register env now b1 s in
  let '(s2, resp2) := handle_register env now b2 s1 in
  set_cookie resp2 = Some (auth_cookie (reg_token now (to_lower e2) r2)) ∧
  handle_me env now (Some (reg_token now (to_lower e2) r2)) s2 =
  (s2, respond 200 [("success", JBool true);
                    ("user", safe_user (reg_doc (db_next_oid s) now (to_lower e1) p1 n1 (get b1 "phone") r1))]).
Proof.
  intros Hv1 Hv2 Hne Hn1 Hn2 Hid.
  pose proof Hv1 as (_ & _ & _ & _ & _ & _ & _ & Hr1). pose proof Hv2 as (_ & _ & _ & _ & _ & _ & _ & Hr2).
  destruct (register_user_new s now (to_lower e1) n1 p1 (get b1 "phone") r1 Hn1 Hr1) as (s1 & Hreg1 & Hu1 & _).
  unfold handle_register at 1, run at 1. rewrite (register_validated s now b1 n1 e1 p1 r1 Hv1), Hreg1.
  set (d1 := reg_doc (db_next_oid s) now (to_lower e1) p1 n1 (get b1 "phone") r1).
  assert (Hn2' : no_match (matches (email_q e2)) (docs Users s1)).
  { rewrite Hu1. apply no_match_app. split; [done |]. intros x ->%list_elem_of_singleton.
    by apply matches_eq_str_other with (to_lower e1). }
  destruct (register_user_new s1 now (to_lower e2) n2 p2 (get b2 "phone") r2 Hn2' Hr2) as (s2 & Hreg2 & Hu2 & _).
  unfold handle_register, run. rewrite (register_validated s1 now b2 n2 e2 p2 r2 Hv2), Hreg2.
  split; [done |].
  apply (me_found _ _ _ (JObj [("userId", JStr (user_id_of now)); ("email", JStr (to_lower e2)); ("role", JStr r2)])).
  - apply jwt_verify_sign. unfold SEVEN_DAYS_S. lia.
  - rewrite Hu2, Hu1, <- app_assoc. apply find_middle; [done |]. by apply matches_eq_self.
Qed.

(** C34. With [JWT_SECRET] unset or empty in the environment, the
    signing secret is the string written in the source: a token that
    anyone builds from that string and a user's id, knowing neither the
    user's email nor password, opens that user's session in
    [GET /api/auth/me]. *)
Theorem me_forged_token s now uid u :
  env = None ∨ env = Some "" →
  List.find (matches [QEq "id" (JStr uid)]) (docs Users s) = Some u →
  handle_me env now (Some (mkToken (JObj [("userId", JStr uid)]) now "uninest-secret-key-change-in-production")) s =
  (s, respond 200 [("success", JBool true); ("user", safe_user u)]).
Proof.
  intros Henv Hf. apply (me_found _ _ _ (JObj [("userId", JStr uid)])); [| done].
  replace (JWT_SECRET env) with "uninest-secret-key-change-in-production" by (by destruct Henv as [-> | ->]).
  apply (jwt_verify_sign _ _ now now). unfold SEVEN_DAYS_S. lia.
Qed.

(** C2. The accounts invariant (every user's email is a lower-case
    string, no two users share one) holds after any request to
    [register], [login] and [me] from a store where it held. *)
Theorem auth_users_inv s now b t :
  users_inv s →
  users_inv (handle_register env now b s).1 ∧ users_inv (handle_login env now b s).1 ∧
  users_inv (handle_me env now t s).1.
Proof.
  intros Hi. split; [| split].
  - unfold handle_register. rewrite run_fst.
    destruct (register_store s now b) as [-> | (x & n & pw & ph & r & ->)]; [done |].
    unfold users_inv.
    destruct (register_user_users s now (to_lower x) n pw ph r) as [-> | (Hn & d & -> & He)]; [done |].
    apply (accounts_ok_snoc _ _ (to_lower x)); [done | done | done | apply to_lower_idemp].
  - unfold handle_login. rewrite run_read_only; [done |]. unfold login, login_user. solve_ro.
  - unfold handle_me. rewrite run_read_only; [done |]. unfold me. solve_ro.
Qed.
End proofs.

Section witnesses.
#[local] Existing Instance literal_regex.
#[local] Existing Instance toy_hasher.

Lemma register_duplicate_email_witness :
  handle_register None 2000
    (JObj [("name", JStr "Bob"); ("email", JStr "ANN@uni.edu"); ("password", JStr "hunter22");
           ("role", JStr "landlord")]) auth_demo =
  (auth_demo, respond 400 [("success", JBool false); ("message", JStr "Email already registered")]).
Proof.
  apply (register_duplicate_email None auth_demo 2000 _ (JStr "Bob") "ANN@uni.edu" "hunter22" "landlord" ann_doc);
    decide_goal.
Defined.

Lemma login_uniform_failure_witness :
  handle_login None 3000 (JObj [("email", JStr "ann@uni.edu"); ("password", JStr "wrongpw")]) auth_demo =
  (auth_demo, invalid_credentials).
Proof.
  apply (login_uniform_failure None auth_demo 3000 _ "ann@uni.edu" "wrongpw"); try decide_goal.
  right. exists ann_doc, "secret1". split; [vm_compute; reflexivity | split; [reflexivity | discriminate]].
Defined.

Lemma register_then_login_witness :
  let s1 := (handle_register None 1000 ann_body empty_store).1 in
  let '(s2, r2) := handle_login None 5000 (JObj [("email", JStr "ANN@UNI.EDU"); ("password", JStr "secret1")]) s1 in
  s2 = s1 ∧ status r2 = 200%Z ∧
  set_cookie r2 = Some (auth_cookie (jwt_sign (JObj [("userId", JStr (user_id_of 1000));
                                                    ("email", JStr (to_lower "Ann@Uni.edu")); ("role", JStr "student")])
                                              (JWT_SECRET None) 5000)).
Proof.
  apply (register_then_login None empty_store 1000 5000 ann_body (JStr "Ann") "Ann@Uni.edu" "secret1" "student"
           _ "ANN@UNI.EDU"); decide_goal.
Defined.

Lemma register_same_instant_me_witness :
  let '(s1, _) := handle_register None 1000 ann_body empty_store in
  let '(s2, resp2) := handle_register None 1000 bob_body s1 in
  set_cookie resp2 = Some (auth_cookie (reg_token None 1000 (to_lower "bob@uni.edu") "landlord")) ∧
  handle_me None 1000 (Some (reg_token None 1000 (to_lower "bob@uni.edu") "landlord")) s2 =
  (s2, respond 200 [("success", JBool true);
                    ("user", safe_user (reg_doc (db_next_oid empty_store) 1000 (to_lower "Ann@Uni.edu") "secret1"
                                                (JStr "Ann") (get ann_body "phone") "student"))]).
Proof.
  apply (register_same_instant_me None empty_store 1000 ann_body (JStr "Ann") "Ann@Uni.edu" "secret1" "student"
           bob_body (JStr "Bob") "bob@uni.edu" "hunter22" "landlord"); decide_goal.
Defined.

Lemma me_forged_token_witness :
  handle_me (Some "") 9000
    (Some (mkToken (JObj [("userId", JStr "user-1000")]) 9000 "uninest-secret-key-change-in-production")) auth_demo =
  (auth_demo, respond 200 [("success", JBool true); ("user", safe_user ann_doc)]).
Proof.
  apply (me_forged_token (Some "") auth_demo 9000 "user-1000" ann_doc); [by right | vm_compute; reflexivity].
Defined.

Lemma auth_users_inv_witness :
  users_inv (handle_register None 2000 bob_body auth_demo).1 ∧
  users_inv (handle_login None 2000 bob_body auth_demo).1 ∧ users_inv (handle_me None 2000 None auth_demo).1.
Proof. apply (auth_users_inv None auth_demo 2000 bob_body None). decide_goal. Defined.
End witnesses.
End Auth.
