(* ===== verification/Listing.v ===== *)
(** * The property list ([GET /api/properties], [src/src/app/api/properties/route.ts])

    The handler turns the search parameters into a MongoDB query
    ([build_query]), counts the matches, reads one page of them newest
    first, and answers the page with each [_id] printed as [id] and the
    pagination numbers.  This file models the handler and proves:
    - that the query is exactly the filter the spec describes
      ([listing_spec]), for documents whose fields have the types the
      create handler gives them and a city without regular-expression
      metacharacters;
    - the answer on every well-formed page request, and that the
      answers to the requests for pages [1 .. totalPages] with the same
      filters list every match once, newest first;
    - that a page number below 1 or not a number fails with 500. *)

From S2P Require Import Prelude Json MongoDb.
From Stdlib Require Import Ascii.
Open Scope string_scope.
Open Scope list_scope.
Open Scope un_scope.

Module Listing.

(** [searchParams.get(k)] when it is truthy: present and not empty. *)
Definition nonempty_param (k : string) (ps : params) : option string :=
  match param k ps with Some v => if String.eqb v "" then None else Some v | None => None end.

(** [searchParams.get(k) || d]. *)
Definition param_or (k d : string) (ps : params) : string :=
  match nonempty_param k ps with Some v => v | None => d end.

Definition when_some {A B} (o : option A) (f : A → list B) : list B :=
  match o with Some a => f a | None => [] end.

(** The [query] object built by lines 24-64, one condition per [if]. *)
Definition build_query (ps : params) : query :=
  let landlordId := nonempty_param "landlordId" ps in
  let minPrice := nonempty_param "minPrice" ps in
  let maxPrice := nonempty_param "maxPrice" ps in
  when_some landlordId (fun l => [QEq "landlordId" (JStr l)]) ++
  when_some (nonempty_param "city" ps) (fun c => [QRegexI "city" c]) ++
  when_some (nonempty_param "gender" ps)
    (fun g => if String.eqb g "ANY" then [] else [QIn "genderPreference" [JStr g; JStr "ANY"]]) ++
  when_some (nonempty_param "type" ps) (fun t => [QEq "propertyType" (JStr t)]) ++
  (match minPrice, maxPrice with
   | None, None => []
   | _, _ => [QRange "rent" (option_map parse_int minPrice) (option_map parse_int maxPrice)]
   end) ++
  when_some (nonempty_param "amenities" ps) (fun a => [QAll "amenities" (map JStr (js_split "," a))]) ++
  (match nonempty_param "status" ps with
   | Some st => [QEq "status" (JStr st)]
   | None => match landlordId with None => [QEq "status" (JStr "ACTIVE")] | Some _ => [] end
   end) ++
  (if bool_decide (param "featured" ps = Some "true") then [QEq "isFeatured" (JBool true)] else []).

(** [(page - 1) * limit], [NaN] when either is. *)
Definition skip_of (page limit : option Z) : option Z :=
  match page, limit with Some p, Some l => Some ((p - 1) * l)%Z | _, _ => None end.

(** [x.toString()] for the [_id] of a document. *)
Definition id_string (v : option json) : M string :=
  match v with
  | Some (JOid o) => mret (ObjectId.to_string o)
  | Some (JStr s) => mret s
  | Some (JNum z) => mret (pretty z)
  | Some (JBool b) => mret (if b then "true" else "false")
  | _ => throw TypeError
  end.

(** [{...p, id: p._id.toString(), _id: undefined}] once serialised. *)
Definition view (p : fields) : M json :=
  i <- id_string (lookup_field "_id" p) ;;
  mret (JObj (drop_field "_id" (set_field "id" (JStr i) p))).

Section handler.
Context `{RegexEngine}.

Definition GET (ps : params) : M response :=
  let q := build_query ps in
  let page := parse_int (param_or "page" "1" ps) in
  let limit := parse_int (param_or "limit" "20" ps) in
  total <- count_documents Properties q ;;
  properties <- find_page Properties q (skip_of page limit) limit ;;
  items <- mmap view properties ;;
  mret (respond 200 [("success", JBool true); ("properties", JArr items);
                     ("pagination", JObj [("page", num_json page); ("limit", num_json limit);
                                          ("total", JNum total);
                                          ("totalPages", num_json (ceil_div total limit))])]).

Definition handle_GET (ps : params) : store → store * response :=
  run (GET ps) (respond 500 [("success", JBool false); ("message", JStr "Failed to fetch properties")]).

(** The matching properties of the store, newest first. *)
Definition matching (ps : params) (s : store) : list fields :=
  sort_newest (filter (fun d => matches (build_query ps) d = true) (docs Properties s)).
End handler.

(** Page [p] of [limit] documents of a list. *)
Definition page_of {A} (p limit : nat) (l : list A) : list A := take limit (drop ((p - 1) * limit) l).

(** ** The filter the spec describes

    A property is listed when it satisfies every filter given: the
    landlord and the type exactly, the city as a case-insensitive
    substring, the gender or "ANY", the rent within the bounds, every
    amenity present, the status (by default ACTIVE, unless a landlord is
    given) and the featured flag. *)
Definition listing_spec (ps : params) (d : fields) : Prop :=
  (∀ l, nonempty_param "landlordId" ps = Some l → lookup_field "landlordId" d = Some (JStr l)) ∧
  (∀ c, nonempty_param "city" ps = Some c →
        ∃ x, lookup_field "city" d = Some (JStr x) ∧ contains (to_lower c) (to_lower x) = true) ∧
  (∀ g, nonempty_param "gender" ps = Some g → g ≠ "ANY" →
        lookup_field "genderPreference" d = Some (JStr g) ∨
        lookup_field "genderPreference" d = Some (JStr "ANY")) ∧
  (∀ t, nonempty_param "type" ps = Some t → lookup_field "propertyType" d = Some (JStr t)) ∧
  (∀ m, nonempty_param "minPrice" ps = Some m →
        ∃ lo r, parse_int m = Some lo ∧ lookup_field "rent" d = Some (JNum r) ∧ (lo ≤ r)%Z) ∧
  (∀ m, nonempty_param "maxPrice" ps = Some m →
        ∃ hi r, parse_int m = Some hi ∧ lookup_field "rent" d = Some (JNum r) ∧ (r ≤ hi)%Z) ∧
  (∀ a, nonempty_param "amenities" ps = Some a →
        ∃ l, lookup_field "amenities" d = Some (JArr l) ∧ ∀ x, x ∈ js_split "," a → JStr x ∈ l) ∧
  (∀ st, nonempty_param "status" ps = Some st → lookup_field "status" d = Some (JStr st)) ∧
  (nonempty_param "status" ps = None → nonempty_param "landlordId" ps = None →
   lookup_field "status" d = Some (JStr "ACTIVE")) ∧
  (param "featured" ps = Some "true" → lookup_field "isFeatured" d = Some (JBool true)).

(** The types [POST] gives the fields the list filters on. *)
Definition str_typed (d : fields) (k : string) : Prop :=
  match lookup_field k d with Some (JStr _) => True | _ => False end.

Definition prop_typed (d : fields) : Prop :=
  str_typed d "landlordId" ∧ str_typed d "city" ∧ str_typed d "genderPreference" ∧
  str_typed d "propertyType" ∧ str_typed d "status" ∧
  (match lookup_field "rent" d with Some (JNum _) => True | _ => False end) ∧
  (match lookup_field "amenities" d with
   | Some (JArr l) => Forall (fun v => match v with JStr _ => True | _ => False end) l
   | _ => False
   end) ∧
  (match lookup_field "isFeatured" d with Some (JBool _) => True | _ => False end).

(** The city parameter, when given, is read literally by the regex engine. *)
Definition city_literal (ps : params) : Prop :=
  ∀ c, nonempty_param "city" ps = Some c → no_regex_meta c = true.

(** Three listings of one landlord, for concrete runs. *)
Definition demo_prop (o : N) (city : string) (rent t : Z) : fields :=
  [("_id", JOid o); ("title", JStr "Room"); ("landlordId", JStr "L1"); ("city", JStr city);
   ("genderPreference", JStr "ANY"); ("propertyType", JStr "PG"); ("rent", JNum rent);
   ("amenities", JArr [JStr "wifi"; JStr "ac"]); ("status", JStr "ACTIVE"); ("isFeatured", JBool false);
   ("createdAt", JTime t)].

Definition listing_demo : store :=
  mkStore [] [] [] [demo_prop 1 "Kolkata" 6500 10; demo_prop 2 "Salt Lake, Kolkata" 8000 20;
                    demo_prop 3 "Howrah" 5000 30] [] [] 4.

Definition demo_params : params :=
  [("city", "kolkata"); ("minPrice", "6000"); ("amenities", "wifi"); ("page", "1"); ("limit", "1")].

(** The two pages of one listing of [demo_params]. *)
Definition demo_page_req (i : Z) : params :=
  [("city", "kolkata"); ("minPrice", "6000"); ("amenities", "wifi"); ("page", pretty i); ("limit", "1")].

(** ** The query is the spec's filter *)

Lemma js_split_nonempty sep a : js_split sep a ≠ [].
Proof. induction a as [|c a IH]; simpl; [done |]. case_match; [done |]. by case_match. Qed.

Lemma when_some_matches `{RegexEngine} {A} (o : option A) (f : A → query) d :
  matches (when_some o f) d = true ↔ ∀ a, o = Some a → matches (f a) d = true.
Proof. destruct o; simpl; naive_solver. Qed.

Lemma str_typed_lookup d k : str_typed d k → ∃ x, lookup_field k d = Some (JStr x).
Proof. unfold str_typed. destruct (lookup_field k d) as [[]|]; naive_solver. Qed.

Lemma cond_eq_str `{RegexEngine} d k v :
  str_typed d k → cond_match d (QEq k (JStr v)) = true ↔ lookup_field k d = Some (JStr v).
Proof.
  intros (x & Hx)%str_typed_lookup. simpl. rewrite Hx, eq_match_scalar by done.
  rewrite bool_decide_eq_true. naive_solver.
Qed.

Section parts.
Context `{RegexEngine}.
Variables (ps : params) (d : fields).
Hypothesis Ht : prop_typed d.

Lemma part_landlord :
  matches (when_some (nonempty_param "landlordId" ps) (fun l => [QEq "landlordId" (JStr l)])) d = true ↔
  (∀ l, nonempty_param "landlordId" ps = Some l → lookup_field "landlordId" d = Some (JStr l)).
Proof.
  rewrite when_some_matches. setoid_rewrite matches_single.
  setoid_rewrite cond_eq_str; [done | apply Ht].
Qed.

Lemma part_type :
  matches (when_some (nonempty_param "type" ps) (fun t => [QEq "propertyType" (JStr t)])) d = true ↔
  (∀ t, nonempty_param "type" ps = Some t → lookup_field "propertyType" d = Some (JStr t)).
Proof.
  rewrite when_some_matches. setoid_rewrite matches_single.
  setoid_rewrite cond_eq_str; [done | apply Ht].
Qed.

Lemma part_city :
  city_literal ps →
  matches (when_some (nonempty_param "city" ps) (fun c => [QRegexI "city" c])) d = true ↔
  (∀ c, nonempty_param "city" ps = Some c →
        ∃ x, lookup_field "city" d = Some (JStr x) ∧ contains (to_lower c) (to_lower x) = true).
Proof.
  intros Hc. rewrite when_some_matches. setoid_rewrite matches_single.
  destruct (str_typed_lookup d "city") as (x & Hx); [apply Ht |].
  apply forall_proper. intros c. simpl. rewrite Hx. simpl. rewrite orb_false_r.
  split; intros Hm Hs; specialize (Hm Hs); destruct (regex_literal c x (Hc c Hs)) as [_ Hre];
    rewrite Hre in *.
  - by exists x.
  - destruct Hm as (x' & Hx' & Hm). by simplify_eq.
Qed.

Lemma part_gender :
  matches (when_some (nonempty_param "gender" ps)
             (fun g => if String.eqb g "ANY" then [] else [QIn "genderPreference" [JStr g; JStr "ANY"]])) d = true ↔
  (∀ g, nonempty_param "gender" ps = Some g → g ≠ "ANY" →
        lookup_field "genderPreference" d = Some (JStr g) ∨
        lookup_field "genderPreference" d = Some (JStr "ANY")).
Proof.
  rewrite when_some_matches. apply forall_proper. intros g.
  destruct (String.eqb_spec g "ANY") as [-> | Hg]; [naive_solver |].
  rewrite matches_single. destruct (str_typed_lookup d "genderPreference") as (x & Hx); [apply Ht |].
  simpl. rewrite Hx, !eq_match_scalar by done. rewrite orb_false_r, orb_true_iff, !bool_decide_eq_true.
  naive_solver.
Qed.

Lemma bound_lo o r :
  bound_ok Z.geb (option_map parse_int o) (JNum r) = true ↔
  ∀ m, o = Some m → ∃ lo, parse_int m = Some lo ∧ (lo ≤ r)%Z.
Proof.
  destruct o as [m|]; cbn [option_map bound_ok]; [| naive_solver].
  destruct (parse_int m) as [z|] eqn:E; cbn [candidates existsb]; rewrite ?orb_false_r, ?Z.geb_le; naive_solver.
Qed.

Lemma bound_hi o r :
  bound_ok Z.leb (option_map parse_int o) (JNum r) = true ↔
  ∀ m, o = Some m → ∃ hi, parse_int m = Some hi ∧ (r ≤ hi)%Z.
Proof.
  destruct o as [m|]; cbn [option_map bound_ok]; [| naive_solver].
  destruct (parse_int m) as [z|] eqn:E; cbn [candidates existsb]; rewrite ?orb_false_r, ?Z.leb_le; naive_solver.
Qed.

Lemma rent_query_matches (o1 o2 : option string) r :
  lookup_field "rent" d = Some (JNum r) →
  matches (match o1, o2 with
           | None, None => []
           | _, _ => [QRange "rent" (option_map parse_int o1) (option_map parse_int o2)]
           end) d =
  bound_ok Z.geb (option_map parse_int o1) (JNum r) && bound_ok Z.leb (option_map parse_int o2) (JNum r).
Proof.
  intros E. destruct o1, o2; try reflexivity; rewrite matches_single; unfold cond_match; by rewrite E.
Qed.

Lemma part_rent :
  matches (match nonempty_param "minPrice" ps, nonempty_param "maxPrice" ps with
           | None, None => []
           | _, _ => [QRange "rent" (option_map parse_int (nonempty_param "minPrice" ps))
                                    (option_map parse_int (nonempty_param "maxPrice" ps))]
           end) d = true ↔
  (∀ m, nonempty_param "minPrice" ps = Some m →
        ∃ lo r, parse_int m = Some lo ∧ lookup_field "rent" d = Some (JNum r) ∧ (lo ≤ r)%Z) ∧
  (∀ m, nonempty_param "maxPrice" ps = Some m →
        ∃ hi r, parse_int m = Some hi ∧ lookup_field "rent" d = Some (JNum r) ∧ (r ≤ hi)%Z).
Proof.
  destruct Ht as (_ & _ & _ & _ & _ & Hr & _).
  destruct (lookup_field "rent" d) as [[]|] eqn:Er; try done.
  rewrite (rent_query_matches _ _ z Er), andb_true_iff, bound_lo, bound_hi. naive_solver.
Qed.
Lemma part_amenities :
  matches (when_some (nonempty_param "amenities" ps)
             (fun a => [QAll "amenities" (map JStr (js_split "," a))])) d = true ↔
  (∀ a, nonempty_param "amenities" ps = Some a →
        ∃ l, lookup_field "amenities" d = Some (JArr l) ∧ ∀ x, x ∈ js_split "," a → JStr x ∈ l).
Proof.
  rewrite when_some_matches. apply forall_proper. intros a. rewrite matches_single.
  destruct Ht as (_ & _ & _ & _ & _ & _ & Ha & _).
  destruct (lookup_field "amenities" d) as [[]|] eqn:El; try done.
  unfold cond_match. rewrite El, andb_true_iff, negb_true_iff, bool_decide_eq_false, forallb_map_elem.
  setoid_rewrite eq_match_arr; [| done]. setoid_rewrite bool_decide_eq_true.
  assert (map JStr (js_split "," a) ≠ []) by (intros Hm%map_eq_nil; exact (js_split_nonempty "," a Hm)).
  naive_solver.
Qed.

Lemma part_status :
  matches (match nonempty_param "status" ps with
           | Some st => [QEq "status" (JStr st)]
           | None => match nonempty_param "landlordId" ps with
                     | None => [QEq "status" (JStr "ACTIVE")] | Some _ => [] end
           end) d = true ↔
  (∀ st, nonempty_param "status" ps = Some st → lookup_field "status" d = Some (JStr st)) ∧
  (nonempty_param "status" ps = None → nonempty_param "landlordId" ps = None →
   lookup_field "status" d = Some (JStr "ACTIVE")).
Proof.
  assert (str_typed d "status") as Hs by apply Ht.
  destruct (nonempty_param "status" ps), (nonempty_param "landlordId" ps);
    rewrite ?matches_single, ?cond_eq_str by done; naive_solver.
Qed.

Lemma part_featured :
  matches (if bool_decide (param "featured" ps = Some "true") then [QEq "isFeatured" (JBool true)] else []) d = true ↔
  (param "featured" ps = Some "true" → lookup_field "isFeatured" d = Some (JBool true)).
Proof.
  destruct Ht as (_ & _ & _ & _ & _ & _ & _ & Hf).
  destruct (lookup_field "isFeatured" d) as [[]|] eqn:Ef; try done.
  case_bool_decide; [| naive_solver]. rewrite matches_single. unfold cond_match.
  rewrite Ef, eq_match_scalar, bool_decide_eq_true by done. naive_solver.
Qed.
End parts.

(** C26. For documents whose filtered fields have the types the app
    stores, and a city without regular-expression metacharacters, a
    property matches the query [GET] builds exactly when it satisfies
    the filters the spec lists, the default [status = "ACTIVE"] when
    neither a status nor a landlord is given included. *)
Theorem listing_query_spec `{RegexEngine} ps d :
  prop_typed d → city_literal ps → matches (build_query ps) d = true ↔ listing_spec ps d.
Proof.
  intros Ht Hc. unfold build_query, listing_spec. cbv zeta.
  rewrite !matches_app, !andb_true_iff.
  rewrite (part_landlord ps d Ht), (part_city ps d Ht Hc), (part_gender ps d Ht), (part_type ps d Ht),
    (part_rent ps d Ht), (part_amenities ps d Ht), (part_status ps d Ht), (part_featured ps d Ht).
  tauto.
Qed.

(** ** The answer to a page request *)

Lemma ceil_div_pos a l : (0 < l)%Z → ceil_div a (Some l) = Some ((a + l - 1) / l)%Z.
Proof.
  intros Hl. unfold ceil_div. rewrite (proj2 (Z.eqb_neq l 0)) by lia. f_equal.
  pose proof (Z.div_mod (- a) l ltac:(lia)). pose proof (Z.mod_pos_bound (- a) l Hl).
  pose proof (Z.div_mod (a + l - 1) l ltac:(lia)). pose proof (Z.mod_pos_bound (a + l - 1) l Hl).
  nia.
Qed.

Lemma view_oid d : has_oid d → ∃ j, view d = mret j.
Proof. intros [o Ho]. unfold view. rewrite Ho. by eexists. Qed.

Lemma page_has_oid `{RegexEngine} ps s p l :
  Forall has_oid (docs Properties s) → Forall has_oid (page_of p l (matching ps s)).
Proof.
  intros Hd. unfold page_of, matching. apply Forall_take, Forall_drop.
  rewrite sort_newest_perm. rewrite Forall_forall in *. intros x [_ Hx]%list_elem_of_filter. by apply Hd.
Qed.

Lemma GET_find_page `{RegexEngine} ps s p l :
  query_ok (build_query ps) = true → (1 ≤ p)%Z → (1 ≤ l)%Z →
  find_page Properties (build_query ps) (skip_of (Some p) (Some l)) (Some l) s =
  (s, inr (page_of (Z.to_nat p) (Z.to_nat l) (matching ps s))).
Proof.
  intros Hq Hp Hl. unfold find_page. rewrite with_query_ok by done.
  unfold mbind, cursor_skip, skip_of. rewrite (proj2 (Z.leb_le 0 _)) by nia.
  unfold cursor_limit. rewrite (proj2 (Z.eqb_neq l 0)) by lia.
  unfold mret, page_of, matching. do 4 f_equal; [lia | f_equal; nia].
Qed.

Lemma pages_take {A} (l n : nat) (L : list A) :
  concat (map (λ i, page_of i l L) (seq 1 n)) = take (n * l) L.
Proof.
  induction n as [|n IH]; [done |].
  rewrite seq_S, map_app, concat_app, IH. simpl. rewrite app_nil_r.
  unfold page_of. replace (S n - 1) with n by lia. rewrite take_take_drop. f_equal. lia.
Qed.

Lemma pages_enough (t l : Z) : (0 ≤ t)%Z → (1 ≤ l)%Z → (t ≤ (t + l - 1) / l * l)%Z.
Proof.
  intros Ht Hl. pose proof (Z.div_mod (t + l - 1) l ltac:(lia)).
  pose proof (Z.mod_pos_bound (t + l - 1) l ltac:(lia)). nia.
Qed.

Lemma GET_skip_error `{RegexEngine} ps s (sk : option Z) (l : Z) :
  query_ok (build_query ps) = true → match sk with Some k => (k < 0)%Z | None => True end →
  find_page Properties (build_query ps) sk (Some l) s = (s, inl (MongoServerError "BadValue: skip")).
Proof.
  intros Hq Hk. unfold find_page. rewrite with_query_ok by done. unfold mbind, cursor_skip.
  destruct sk as [k|]; [| done]. by rewrite (proj2 (Z.leb_gt 0 k)).
Qed.

(** A request for page [p] of [l] properties, both numbers at least
    1, answers 200 with the [p]-th slice of [l] of the matching
    properties newest first, each shown with its [id], the number of
    all matches and the number of pages [ceil(total / l)]; the store is
    not changed. *)
Theorem listing_GET_page `{RegexEngine} ps s p l :
  parse_int (param_or "page" "1" ps) = Some p → parse_int (param_or "limit" "20" ps) = Some l →
  (1 ≤ p)%Z → (1 ≤ l)%Z → query_ok (build_query ps) = true → Forall has_oid (docs Properties s) →
  let total := Z.of_nat (length (matching ps s)) in
  ∃ items, Forall2 (λ d j, view d = mret j) (page_of (Z.to_nat p) (Z.to_nat l) (matching ps s)) items ∧
    handle_GET ps s =
    (s, respond 200 [("success", JBool true); ("properties", JArr items);
                     ("pagination", JObj [("page", JNum p); ("limit", JNum l); ("total", JNum total);
                                          ("totalPages", JNum ((total + l - 1) / l))])]).
Proof.
  intros Hp Hl Hp1 Hl1 Hq Hd. cbv zeta.
  destruct (mmap_total view _ (Forall_impl _ _ _ (page_has_oid ps s (Z.to_nat p) (Z.to_nat l) Hd) view_oid))
    as (items & Hf & Hm).
  exists items. split; [done |].
  unfold handle_GET, run, GET. rewrite Hp, Hl. cbv zeta.
  rewrite (mbind_inr _ _ _ _ _ (count_documents_ok Properties _ s Hq)).
  rewrite (mbind_inr _ _ _ _ _ (GET_find_page ps s p l Hq Hp1 Hl1)), Hm.
  cbn [mbind mret]. rewrite ceil_div_pos by lia. unfold matching. by rewrite sort_newest_length.
Qed.

Section pages.
Context `{RegexEngine}.
(** The requests for the pages of one listing: they differ at most in
    [page], and ask for [l] properties a page. *)
Variables (req : Z → params) (s : store) (l : Z).
Hypothesis Hl : (1 ≤ l)%Z.
Hypothesis Hq : query_ok (build_query (req 1)) = true.
Hypothesis Hoid : Forall has_oid (docs Properties s).
Let N := ((Z.of_nat (length (matching (req 1) s)) + l - 1) / l)%Z.
Hypothesis Hreq : ∀ i, (1 ≤ i ≤ N)%Z →
  build_query (req i) = build_query (req 1) ∧ parse_int (param_or "page" "1" (req i)) = Some i ∧
  parse_int (param_or "limit" "20" (req i)) = Some l.

Lemma matching_req i : (1 ≤ i ≤ N)%Z → matching (req i) s = matching (req 1) s.
Proof. intros Hi. unfold matching. by rewrite (proj1 (Hreq i Hi)). Qed.

(** The answers to the pages [1 .. n] carry, in order, the views of the
    first [n * l] matching properties. *)
Lemma pages_answered (n : nat) :
  (Z.of_nat n ≤ N)%Z →
  ∃ pages : list (list json), length pages = n ∧
    (∀ k items, pages !! k = Some items →
       handle_GET (req (Z.of_nat k + 1)) s =
       (s, respond 200 [("success", JBool true); ("properties", JArr items);
                        ("pagination", JObj [("page", JNum (Z.of_nat k + 1)); ("limit", JNum l);
                                             ("total", JNum (Z.of_nat (length (matching (req 1) s))));
                                             ("totalPages", JNum N)])])) ∧
    Forall2 (λ d j, view d = mret j) (take (n * Z.to_nat l) (matching (req 1) s)) (concat pages).
Proof.
  induction n as [|n IH]; intros Hn.
  - exists []. split_and!; [done | by intros ?? | by rewrite take_0].
  - destruct IH as (pages & Hlen & Hans & Hv); [lia |].
    assert (Hi : (1 ≤ Z.of_nat n + 1 ≤ N)%Z) by lia.
    destruct (Hreq _ Hi) as (Hb & Hp & Hlim).
    assert (Hq' : query_ok (build_query (req (Z.of_nat n + 1))) = true) by by rewrite Hb.
    destruct (listing_GET_page (req (Z.of_nat n + 1)) s (Z.of_nat n + 1) l Hp Hlim ltac:(lia) Hl Hq' Hoid)
      as (items & Hf & Hg).
    rewrite (matching_req _ Hi) in Hf, Hg.
    exists (pages ++ [items]). split_and!.
    + rewrite length_app. simpl. lia.
    + intros k its Hk. apply lookup_snoc_Some in Hk as [[_ Hk] | [-> <-]]; [by apply Hans |].
      rewrite Hlen, Hg. by fold N.
    + rewrite concat_app. simpl. rewrite app_nil_r.
      replace (take (S n * Z.to_nat l) (matching (req 1) s))
        with (take (n * Z.to_nat l) (matching (req 1) s) ++ page_of (S n) (Z.to_nat l) (matching (req 1) s)).
      * apply Forall2_app; [done |]. by replace (S n) with (Z.to_nat (Z.of_nat n + 1)) by lia.
      * rewrite <- !pages_take, seq_S, map_app, concat_app. simpl. by rewrite app_nil_r.
Qed.
End pages.

(** C35. Reading the pages 1, 2, ... up to the [totalPages] the first
    answer reports, through [GET /api/properties] with the same filters
    and any [limit] of at least 1: every request answers 200, with the
    page number asked, the same [total] and [totalPages], and the
    properties of the answers, put end to end, are every matching
    property exactly once, newest first, each shown with its [id]. *)
Theorem listing_pages_cover `{RegexEngine} (req : Z → params) s l :
  (1 ≤ l)%Z → query_ok (build_query (req 1%Z)) = true → Forall has_oid (docs Properties s) →
  let total := Z.of_nat (length (matching (req 1%Z) s)) in
  let N := ((total + l - 1) / l)%Z in
  (∀ i, (1 ≤ i ≤ N)%Z →
     build_query (req i) = build_query (req 1%Z) ∧ parse_int (param_or "page" "1" (req i)) = Some i ∧
     parse_int (param_or "limit" "20" (req i)) = Some l) →
  ∃ pages : list (list json), length pages = Z.to_nat N ∧
    (∀ k items, pages !! k = Some items →
       handle_GET (req (Z.of_nat k + 1)%Z) s =
       (s, respond 200 [("success", JBool true); ("properties", JArr items);
                        ("pagination", JObj [("page", JNum (Z.of_nat k + 1)%Z); ("limit", JNum l);
                                             ("total", JNum total); ("totalPages", JNum N)])])) ∧
    Forall2 (λ d j, view d = mret j) (matching (req 1%Z) s) (concat pages).
Proof.
  intros Hl Hq Hoid total N Hreq. unfold N, total in *. clear N total.
  set (t := Z.of_nat (length (matching (req 1%Z) s))).
  assert (HN : (0 ≤ (t + l - 1) / l)%Z) by (apply Z.div_pos; lia).
  destruct (pages_answered req s l Hl Hq Hoid Hreq (Z.to_nat ((t + l - 1) / l))) as (pages & Hlen & Hans & Hv).
  { rewrite Z2Nat.id by done. fold t. lia. }
  exists pages. split_and!; [done | done |].
  rewrite take_ge in Hv; [done |].
  pose proof (pages_enough t l ltac:(lia) Hl). apply Nat2Z.inj_le. rewrite Nat2Z.inj_mul, !Z2Nat.id by lia.
  fold t. lia.
Qed.

(** A page number that is 0, negative or not a number makes the
    skip negative or [NaN], which the server refuses: the list answers
    500 "Failed to fetch properties" instead of an empty or first page. *)
Theorem listing_GET_bad_page `{RegexEngine} ps s l :
  match parse_int (param_or "page" "1" ps) with Some p => (p ≤ 0)%Z | None => True end →
  parse_int (param_or "limit" "20" ps) = Some l → (1 ≤ l)%Z → query_ok (build_query ps) = true →
  handle_GET ps s = (s, respond 500 [("success", JBool false); ("message", JStr "Failed to fetch properties")]).
Proof.
  intros Hp Hl Hl1 Hq. unfold handle_GET, run, GET. rewrite Hl. cbv zeta.
  rewrite (mbind_inr _ _ _ _ _ (count_documents_ok Properties _ s Hq)).
  assert (Hsk : match skip_of (parse_int (param_or "page" "1" ps)) (Some l) with
                | Some k => (k < 0)%Z | None => True end)
    by (destruct (parse_int (param_or "page" "1" ps)); simpl in *; nia).
  by rewrite (mbind_inl _ _ _ _ _ (GET_skip_error ps s _ l Hq Hsk)).
Qed.

Section witnesses.
#[local] Existing Instance literal_regex.

Lemma listing_query_spec_witness :
  matches (build_query demo_params) (demo_prop 2 "Salt Lake, Kolkata" 8000 20) = true ↔
  listing_spec demo_params (demo_prop 2 "Salt Lake, Kolkata" 8000 20).
Proof.
  apply listing_query_spec.
  - vm_compute. repeat split; repeat constructor.
  - intros c Hc. vm_compute in Hc. injection Hc as <-. reflexivity.
Defined.

Lemma listing_GET_page_witness :
  let total := Z.of_nat (length (matching demo_params listing_demo)) in
  ∃ items, Forall2 (λ d j, view d = mret j) (page_of 1 1 (matching demo_params listing_demo)) items ∧
    handle_GET demo_params listing_demo =
    (listing_demo, respond 200 [("success", JBool true); ("properties", JArr items);
                     ("pagination", JObj [("page", JNum 1); ("limit", JNum 1); ("total", JNum total);
                                          ("totalPages", JNum ((total + 1 - 1) / 1))])]).
Proof.
  apply (listing_GET_page demo_params listing_demo 1 1); try reflexivity; try lia.
  repeat constructor; eexists; reflexivity.
Defined.

Lemma listing_pages_cover_witness :
  ∃ pages : list (list json), length pages = 2 ∧
    Forall2 (λ d j, view d = mret j) (matching (demo_page_req 1) listing_demo) (concat pages).
Proof.
  destruct (listing_pages_cover demo_page_req listing_demo 1) as (pages & Hlen & _ & Hv).
  - lia.
  - vm_compute. reflexivity.
  - repeat constructor; eexists; reflexivity.
  - intros i [Hi1 Hi2]. change (i ≤ 2)%Z in Hi2.
    assert (i = 1 ∨ i = 2)%Z as [-> | ->] by lia; vm_compute; auto.
  - exists pages. split; [exact Hlen | exact Hv].
Defined.

Lemma listing_GET_bad_page_witness :
  handle_GET [("page", "0")] listing_demo =
  (listing_demo, respond 500 [("success", JBool false); ("message", JStr "Failed to fetch properties")]).
Proof. apply (listing_GET_bad_page _ _ 20); try reflexivity; vm_compute; congruence. Defined.
End witnesses.
End Listing.
