(* ===== verification/Properties.v ===== *)
(** * Creating, updating and deleting listings
    ([POST], [PUT], [DELETE] of [src/src/app/api/properties/route.ts])

    [POST] checks eight required fields, looks the landlord up by
    [_id] (as an ObjectId, or as the string when [new ObjectId] throws),
    inserts the listing with its defaults and increments a counter on
    the landlord's profile.  [PUT] and [DELETE] find the listing by its
    ObjectId, compare its [landlordId] with the caller's, then [$set]
    the body's other fields, or delete the listing, decrement the
    counter and [$pull] the id from every wishlist.  Each step is a
    separate awaited call: an exception between two of them leaves the
    first one done.

    The landlord id the dashboard sends is the user's [id],
    ["user-" ++ Date.now()], not an ObjectId: the theorems show what the
    handlers do with it. *)

From S2P Require Import Prelude Json MongoDb Auth.
From Stdlib Require Import Ascii.
Open Scope string_scope.
Open Scope list_scope.
Open Scope un_scope.

Module Properties.

Definition required_fields : list string :=
  ["title"; "description"; "propertyType"; "address"; "city"; "rent"; "deposit"; "landlordId"].

(** [for (const field of requiredFields) if (!body[field]) return ...]:
    the first field that is absent or falsy. *)
Fixpoint check_required (b : json) (fs : list string) : M (option string) :=
  match fs with
  | [] => mret None
  | f :: fs' => v <- getp b f ;; if truthy_opt v then check_required b fs' else mret (Some f)
  end.

(** [/[^a-z0-9]+/g] replaced by ["-"]: each run of other characters
    becomes one dash. *)
Definition is_slug_char (c : ascii) : bool :=
  let n := nat_of_ascii c in (Nat.leb 97 n && Nat.leb n 122) || (Nat.leb 48 n && Nat.leb n 57).

Fixpoint slug_go (s : string) (in_run : bool) : string :=
  match s with
  | EmptyString => EmptyString
  | String c s' =>
      if is_slug_char c then String c (slug_go s' false)
      else if in_run then slug_go s' true else String "-" (slug_go s' true)
  end.

Definition slugify (t : string) : string := slug_go (to_lower t) false.

(** [body.slug || body.title.toLowerCase().replace(...)]. *)
Definition slug_of (b : json) : M json :=
  let from_title := match get b "title" with
                    | Some (JStr t) => mret (JStr (slugify t))
                    | _ => throw TypeError
                    end in
  match get b "slug" with Some v => if truthy v then mret v else from_title | None => from_title end.

(** Lines 131-144: [findOne({_id: new ObjectId(id), role: "landlord"})],
    and when that throws, the same query with the id as given. *)
Definition find_landlord `{RegexEngine} (lid : json) : M (option fields) :=
  mcatch (o <- new_ObjectId lid ;; find_one Users [QEq "_id" (JOid o); QEq "role" (JStr "landlord")])
         (fun _ => find_one Users [QEq "_id" lid; QEq "role" (JStr "landlord")]).

(** [body.k], stored as [null] when [undefined]. *)
Definition fld (b : json) (k : string) : json := default JNull (get b k).

(** [body.k || d]. *)
Definition fld_or (b : json) (k : string) (d : json) : json := or_default (get b k) d.

Definition default_rules : json :=
  JObj [("nonVegAllowed", JBool true); ("smokingAllowed", JBool false); ("drinkingAllowed", JBool false);
        ("petsAllowed", JBool false); ("visitorsAllowed", JBool true); ("oppositeSexAllowed", JBool false);
        ("gateClosingTime", JNull)].

(** The [property] object of lines 157-243. *)
Definition new_property (b slug : json) (landlord : fields) (now : Z) : fields :=
  [("title", fld b "title"); ("slug", slug); ("description", fld b "description");
   ("propertyType", fld b "propertyType"); ("bhk", fld_or b "bhk" JNull);
   ("address", fld b "address"); ("city", fld b "city"); ("state", fld_or b "state" (JStr "West Bengal"));
   ("pincode", fld_or b "pincode" (JStr "")); ("landmark", fld_or b "landmark" (JStr ""));
   ("latitude", fld_or b "latitude" (JDec 225 1)); ("longitude", fld_or b "longitude" (JDec 884 1));
   ("nearbyColleges", fld_or b "nearbyColleges" (JArr []));
   ("totalRooms", fld_or b "totalRooms" (JNum 1)); ("totalBeds", fld_or b "totalBeds" (JNum 1));
   ("availableBeds", fld_or b "availableBeds" (JNum 1)); ("bedsPerRoom", fld_or b "bedsPerRoom" (JNum 1));
   ("roomSize", fld_or b "roomSize" (JStr "")); ("bathrooms", fld_or b "bathrooms" (JNum 1));
   ("floorNumber", fld_or b "floorNumber" (JNum 1)); ("totalFloors", fld_or b "totalFloors" (JNum 1));
   ("rent", fld b "rent"); ("deposit", fld b "deposit");
   ("maintenanceCharges", fld_or b "maintenanceCharges" (JNum 0));
   ("electricityCharges", fld_or b "electricityCharges" (JStr "separate"));
   ("waterCharges", fld_or b "waterCharges" (JStr "included"));
   ("foodIncluded", fld_or b "foodIncluded" (JBool false)); ("foodCharges", fld_or b "foodCharges" JNull);
   ("mealsPerDay", fld_or b "mealsPerDay" (JNum 0));
   ("genderPreference", fld_or b "genderPreference" (JStr "ANY"));
   ("occupancyType", fld_or b "occupancyType" (JStr "double"));
   ("furnishing", fld_or b "furnishing" (JStr "SEMI_FURNISHED"));
   ("furnishingDetails", fld_or b "furnishingDetails" (JArr []));
   ("amenities", fld_or b "amenities" (JArr [])); ("rules", fld_or b "rules" default_rules);
   ("images", fld_or b "images" (JArr []));
   ("availableFrom", if truthy_opt (get b "availableFrom") then JDateOf (fld b "availableFrom") else JTime now);
   ("minimumStay", fld_or b "minimumStay" (JNum 6)); ("noticePeriod", fld_or b "noticePeriod" (JNum 1));
   ("landlordId", fld b "landlordId"); ("landlordName", default JNull (lookup_field "name" landlord));
   ("landlordPhone", or_default (lookup_field "phone" landlord) (JStr ""));
   ("status", fld_or b "status" (JStr "ACTIVE")); ("isVerified", fld_or b "isVerified" (JBool false));
   ("isFeatured", fld_or b "isFeatured" (JBool false));
   ("viewCount", JNum 0); ("inquiryCount", JNum 0); ("savedCount", JNum 0);
   ("createdAt", JTime now); ("updatedAt", JTime now)].

Definition fail (st : Z) (msg : string) : M response :=
  mret (respond st [("success", JBool false); ("message", JStr msg)]).

Definition invalid_landlord : response :=
  respond 400 [("success", JBool false); ("message", JStr "Invalid landlord - user not found or not a landlord")].

Section handlers.
Context `{RegexEngine}.

(** [POST /api/properties].  [insertOne] adds [_id] to the [property]
    object itself, so the answer's spread carries it. *)
Definition POST (now : Z) (b : json) : M response :=
  missing <- check_required b required_fields ;;
  match missing with
  | Some f => fail 400 (f +:+ " is required")
  | None =>
      landlord <- find_landlord (fld b "landlordId") ;;
      match landlord with
      | None => mret invalid_landlord
      | Some ll =>
          slug <- slug_of b ;;
          let property := new_property b slug ll now in
          o <- insert_one Properties property ;;
          uo <- new_ObjectId (fld b "landlordId") ;;
          update_one LandlordProfiles [QEq "userId" (JOid uo)] [UInc "propertyCount" 1] false ;;;
          mret (respond 200 [("success", JBool true); ("message", JStr "Property created successfully");
                             ("property", JObj (set_field "id" (JStr (ObjectId.to_string o))
                                                  (property ++ [("_id", JOid o)])))])
      end
  end.

(** [const { id, landlordId, ...updateData } = body]. *)
Definition update_data (b : json) : fields :=
  match b with JObj fs => drop_field "landlordId" (drop_field "id" fs) | _ => [] end.

(** [PUT /api/properties]. *)
Definition PUT (now : Z) (b : json) : M response :=
  id <- getp b "id" ;;
  lid <- getp b "landlordId" ;;
  if negb (truthy_opt id) then fail 400 "Property ID is required"
  else
    o <- new_ObjectId (default JNull id) ;;
    property <- find_one Properties [QEq "_id" (JOid o)] ;;
    match property with
    | None => fail 404 "Property not found"
    | Some p =>
        if negb (strict_eq (lookup_field "landlordId" p) lid) then fail 403 "Unauthorized"
        else
          o' <- new_ObjectId (default JNull id) ;;
          r <- update_one Properties [QEq "_id" (JOid o')]
                 [USet (set_field "updatedAt" (JTime now) (update_data b))] false ;;
          mret (respond 200 [("success", JBool true); ("message", JStr "Property updated successfully");
                             ("modifiedCount", JNum r.2)])
    end.

(** [DELETE /api/properties?id=..&landlordId=..]. *)
Definition DELETE (ps : params) : M response :=
  match param "id" ps, param "landlordId" ps with
  | Some i, Some l =>
      if String.eqb i "" || String.eqb l "" then fail 400 "Property ID and landlord ID are required"
      else
        o <- new_ObjectId (JStr i) ;;
        property <- find_one Properties [QEq "_id" (JOid o)] ;;
        match property with
        | None => fail 404 "Property not found"
        | Some p =>
            if negb (strict_eq (lookup_field "landlordId" p) (Some (JStr l))) then fail 403 "Unauthorized"
            else
              o' <- new_ObjectId (JStr i) ;;
              delete_one Properties [QEq "_id" (JOid o')] ;;;
              uo <- new_ObjectId (JStr l) ;;
              update_one LandlordProfiles [QEq "userId" (JOid uo)] [UInc "propertyCount" (-1)] false ;;;
              update_many Wishlists [] [UPull "propertyIds" (JStr i)] ;;;
              mret (respond 200 [("success", JBool true); ("message", JStr "Property deleted successfully")])
        end
  | _, _ => fail 400 "Property ID and landlord ID are required"
  end.

Definition handle_POST now b :=
  run (POST now b) (respond 500 [("success", JBool false); ("message", JStr "Failed to create property")]).
Definition handle_PUT now b :=
  run (PUT now b) (respond 500 [("success", JBool false); ("message", JStr "Failed to update property")]).
Definition handle_DELETE ps :=
  run (DELETE ps) (respond 500 [("success", JBool false); ("message", JStr "Failed to delete property")]).
End handlers.

(** A body with every required field present and truthy. *)
Definition required_ok (b : json) : Prop := Forall (λ f, truthy_opt (get b f) = true) required_fields.

#[export] Instance required_ok_dec b : Decision (required_ok b).
Proof. unfold required_ok. apply _. Defined.

(** A store for concrete runs: a registered landlord (ObjectId 5, id
    ["user-1000"]), the profile [register] gave it, a listing stored with
    the id the dashboard sends (ObjectId 7) and one stored with the
    landlord's ObjectId digits (ObjectId 8), saved in the guest wishlist. *)
Definition lena : fields :=
  [("_id", JOid 5); ("id", JStr "user-1000"); ("email", JStr "lena@uni.edu"); ("name", JStr "Lena");
   ("role", JStr "landlord")].

Definition props_demo : store :=
  mkStore [lena] [] [Auth.landlord_profile "user-1000" 1000]
          [[("_id", JOid 7); ("title", JStr "Room"); ("landlordId", JStr "user-1000")];
           [("_id", JOid 8); ("title", JStr "Flat"); ("landlordId", JStr (ObjectId.to_string 5));
            ("isVerified", JBool false)]]
          [] [[("_id", JOid 9); ("userId", JStr "guest-user"); ("propertyIds", JArr [JStr (ObjectId.to_string 8)])]]
          10.

Definition flat_body (lid : string) : json :=
  JObj [("title", JStr "Flat"); ("description", JStr "Near campus"); ("propertyType", JStr "PG");
        ("address", JStr "1 Lake Rd"); ("city", JStr "Kolkata"); ("rent", JNum 6500); ("deposit", JNum 13000);
        ("landlordId", JStr lid)].

(** ** Lemmas *)

Lemma ro_fail st msg : read_only (fail st msg).
Proof. done. Qed.

#[export] Hint Resolve ro_fail : uninest.

Lemma required_ok_nonnull b : required_ok b → b ≠ JNull.
Proof. intros Hr ->. inversion Hr. discriminate. Qed.

Lemma check_required_ok b fs s :
  b ≠ JNull → Forall (λ f, truthy_opt (get b f) = true) fs → check_required b fs s = (s, inr None).
Proof.
  intros Hb Hfs. induction Hfs as [|f fs Hf _ IH]; [done |]. simpl.
  rewrite getp_nonnull by done. by rewrite mbind_mret, Hf.
Qed.

Lemma check_required_first b pre f post s :
  b ≠ JNull → Forall (λ f, truthy_opt (get b f) = true) pre → truthy_opt (get b f) = false →
  check_required b (pre ++ f :: post) s = (s, inr (Some f)).
Proof.
  intros Hb Hpre Hf. induction Hpre as [|g pre Hg _ IH]; simpl; rewrite getp_nonnull by done;
    rewrite mbind_mret; [by rewrite Hf | by rewrite Hg].
Qed.

Lemma of_string_user_id t : ObjectId.of_string (Auth.user_id_of t) = None.
Proof. unfold ObjectId.of_string. by case_match. Qed.

Lemma find_landlord_string `{RegexEngine} lid s :
  ObjectId.of_string lid = None → Forall has_oid (docs Users s) → find_landlord (JStr lid) s = (s, inr None).
Proof.
  intros Hl Hu. unfold find_landlord, mcatch, mbind. cbn [new_ObjectId]. rewrite Hl. cbn [of_option throw].
  rewrite find_one_ok by done. f_equal. f_equal. apply find_no_match.
  intros u Hin. rewrite Forall_forall in Hu. destruct (Hu u Hin) as [o Ho].
  unfold matches. simpl. rewrite Ho, eq_match_scalar by done. by rewrite bool_decide_eq_false_2.
Qed.

Lemma check_required_total b fs s : b ≠ JNull → ∃ x, check_required b fs s = (s, inr x).
Proof.
  intros Hb. induction fs as [|f fs IH]; simpl; [by eexists |].
  rewrite getp_nonnull, mbind_mret by done. by destruct (truthy_opt (get b f)); [| eexists].
Qed.

(** [POST] with the landlord id of an account, whatever the rest of the
    body: the store is left as it was and the answer is a failure. *)
Lemma POST_user_id_landlord `{RegexEngine} now b t s :
  b ≠ JNull → get b "landlordId" = Some (JStr (Auth.user_id_of t)) → Forall has_oid (docs Users s) →
  ∃ r, handle_POST now b s = (s, r) ∧ get (body r) "success" = Some (JBool false).
Proof.
  intros Hb Hl Hu. unfold handle_POST, run, POST.
  destruct (check_required_total b required_fields s Hb) as [[f|] Hc]; rewrite (mbind_inr _ _ _ _ _ Hc).
  - by eexists.
  - unfold fld. rewrite Hl. cbn [default].
    rewrite (mbind_inr _ _ _ _ _ (find_landlord_string _ s (of_string_user_id t) Hu)). by eexists.
Qed.

Lemma find_landlord_oid `{RegexEngine} lid o s :
  ObjectId.of_string lid = Some o →
  find_landlord (JStr lid) s = (s, inr (List.find (matches [QEq "_id" (JOid o); QEq "role" (JStr "landlord")]) (docs Users s))).
Proof.
  intros Hl. unfold find_landlord, mcatch, mbind. cbn [new_ObjectId]. rewrite Hl. cbn [of_option mret].
  by rewrite find_one_ok.
Qed.

Lemma slug_of_title b t :
  get b "title" = Some (JStr t) → slug_of b = mret (or_default (get b "slug") (JStr (slugify t))).
Proof. intros Ht. unfold slug_of. rewrite Ht. destruct (get b "slug") as [v|]; [| done]. simpl. by case_match. Qed.

Lemma tp_update_one `{RegexEngine} q n :
  preserves (field_frame LandlordProfiles "totalProperties") (update_one LandlordProfiles q [UInc "propertyCount" n] false).
Proof. apply frame_update_one. constructor; [by apply keeps_inc | done]. Qed.

Lemma tp_unchanged `{RegexEngine} {A} (m : M A) :
  preserves (unchanged LandlordProfiles) m → preserves (field_frame LandlordProfiles "totalProperties") m.
Proof. apply pres_unchanged_frame. Qed.

#[local] Hint Resolve tp_update_one tp_unchanged : uninest.
Lemma user_id_nonempty t : Auth.user_id_of t ≠ "".
Proof. unfold Auth.user_id_of. discriminate. Qed.

Lemma of_string_nonempty h o : ObjectId.of_string h = Some o → h ≠ "".
Proof. by intros Ho ->. Qed.

Lemma new_ObjectId_str h o : ObjectId.of_string h = Some o → new_ObjectId (JStr h) = mret o.
Proof. intros Ho. simpl. by rewrite Ho. Qed.

Lemma DELETE_found `{RegexEngine} ps s i l o p :
  param "id" ps = Some i → param "landlordId" ps = Some l → i ≠ "" → l ≠ "" →
  ObjectId.of_string i = Some o → List.find (matches [QEq "_id" (JOid o)]) (docs Properties s) = Some p →
  DELETE ps s =
  (if negb (strict_eq (lookup_field "landlordId" p) (Some (JStr l))) then fail 403 "Unauthorized"
   else delete_one Properties [QEq "_id" (JOid o)] ;;;
        uo <- new_ObjectId (JStr l) ;;
        update_one LandlordProfiles [QEq "userId" (JOid uo)] [UInc "propertyCount" (-1)] false ;;;
        update_many Wishlists [] [UPull "propertyIds" (JStr i)] ;;;
        mret (respond 200 [("success", JBool true); ("message", JStr "Property deleted successfully")])) s.
Proof.
  intros Hi Hl Hi' Hl' Ho Hf. unfold DELETE. rewrite Hi, Hl.
  rewrite (proj2 (String.eqb_neq i "") Hi'), (proj2 (String.eqb_neq l "") Hl'). cbn [orb].
  rewrite (new_ObjectId_str i o Ho), mbind_mret.
  rewrite (mbind_inr _ _ _ _ _ (find_one_ok Properties [QEq "_id" (JOid o)] s eq_refl)), Hf.
  destruct (negb _); [done | by rewrite mbind_mret].
Qed.

Lemma PUT_found `{RegexEngine} now b s i o p :
  get b "id" = Some (JStr i) → i ≠ "" → ObjectId.of_string i = Some o →
  List.find (matches [QEq "_id" (JOid o)]) (docs Properties s) = Some p →
  PUT now b s =
  (if negb (strict_eq (lookup_field "landlordId" p) (get b "landlordId")) then fail 403 "Unauthorized"
   else r <- update_one Properties [QEq "_id" (JOid o)]
               [USet (set_field "updatedAt" (JTime now) (update_data b))] false ;;
        mret (respond 200 [("success", JBool true); ("message", JStr "Property updated successfully");
                           ("modifiedCount", JNum r.2)])) s.
Proof.
  intros Hi Hne Ho Hf. assert (b ≠ JNull) by (intros ->; discriminate).
  unfold PUT. rewrite !(getp_nonnull b) by done. rewrite !mbind_mret, Hi, truthy_opt_str by done.
  change (default JNull (Some (JStr i))) with (JStr i). cbn [negb].
  rewrite (new_ObjectId_str i o Ho), mbind_mret.
  rewrite (mbind_inr _ _ _ _ _ (find_one_ok Properties [QEq "_id" (JOid o)] s eq_refl)), Hf.
  destruct (negb _); [done | by rewrite mbind_mret].
Qed.
Section put_keys.
Variables (now : Z) (fs : fields).
Hypothesis Hnd : NoDup fs.*1.
Let u := set_field "updatedAt" (JTime now) (update_data (JObj fs)).

Lemma put_keys_nodup : NoDup u.*1.
Proof. apply NoDup_set_field, NoDup_drop_field, NoDup_drop_field, Hnd. Qed.

Lemma put_keys_notin k : k ∉ fs.*1 → k ≠ "updatedAt" → k ∉ u.*1.
Proof.
  intros Hk Hu. unfold u, update_data. rewrite keys_set_field.
  intros [-> | (Hin & _)%keys_drop_field]; [done |]. apply keys_drop_field in Hin. tauto.
Qed.

Lemma put_keys_landlord : "landlordId" ∉ u.*1.
Proof. unfold u, update_data. rewrite keys_set_field. intros [? | (_ & ?)%keys_drop_field]; done. Qed.

Lemma put_keys_in k v : (k, v) ∈ fs → k ≠ "id" → k ≠ "landlordId" → k ≠ "updatedAt" → (k, v) ∈ u.
Proof.
  intros Hin ???. unfold u, update_data. apply elem_of_set_field_ne; [done |].
  by apply elem_of_drop_field; split; [apply elem_of_drop_field |].
Qed.
End put_keys.

(** C6. A landlord who registered through [/api/auth/register] has the
    id ["user-" ++ Date.now()], which the dashboard sends as
    [landlordId]: it is not 24 hexadecimal digits, the fallback looks it
    up as an [_id], and users' [_id]s are ObjectIds, so creating a
    listing always answers 400 "Invalid landlord" and stores nothing. *)
Theorem POST_registered_landlord `{RegexEngine} now b t s :
  required_ok b → get b "landlordId" = Some (JStr (Auth.user_id_of t)) → Forall has_oid (docs Users s) →
  handle_POST now b s = (s, invalid_landlord).
Proof.
  intros Hr Hl Hu. unfold handle_POST, run, POST.
  rewrite (mbind_inr _ _ _ _ _ (check_required_ok b _ s (required_ok_nonnull b Hr) Hr)).
  unfold fld. rewrite Hl. cbn [default].
  by rewrite (mbind_inr _ _ _ _ _ (find_landlord_string _ s (of_string_user_id t) Hu)).
Qed.

(** A body missing a required field, or with it falsy (an empty
    string, 0, false, null), is refused with 400 naming the first such
    field in the order title, description, propertyType, address, city,
    rent, deposit, landlordId; nothing is stored. *)
Theorem POST_missing_field `{RegexEngine} now b s pre f post :
  b ≠ JNull → required_fields = pre ++ f :: post →
  Forall (λ g, truthy_opt (get b g) = true) pre → truthy_opt (get b f) = false →
  handle_POST now b s = (s, respond 400 [("success", JBool false); ("message", JStr (f +:+ " is required"))]).
Proof.
  intros Hb Hreq Hpre Hf. unfold handle_POST, run, POST. rewrite Hreq.
  by rewrite (mbind_inr _ _ _ _ _ (check_required_first b pre f post s Hb Hpre Hf)).
Qed.

(** With a landlord id that is an ObjectId's 24 hexadecimal digits
    naming a landlord, [POST] appends the listing with its defaults and
    a fresh [_id], answers 200 with the listing, its [_id] and its [id],
    and changes no other collection when no profile has that ObjectId as
    [userId], which is every profile [register] creates. *)
Theorem POST_creates `{RegexEngine} now b s h o ll t :
  required_ok b → get b "landlordId" = Some (JStr h) → ObjectId.of_string h = Some o →
  List.find (matches [QEq "_id" (JOid o); QEq "role" (JStr "landlord")]) (docs Users s) = Some ll →
  get b "title" = Some (JStr t) →
  (∀ d, d ∈ docs LandlordProfiles s → matches [QEq "userId" (JOid o)] d = false) →
  let p := new_property b (or_default (get b "slug") (JStr (slugify t))) ll now in
  let n := db_next_oid s in
  ∃ s', handle_POST now b s =
        (s', respond 200 [("success", JBool true); ("message", JStr "Property created successfully");
                          ("property", JObj (set_field "id" (JStr (ObjectId.to_string n)) (p ++ [("_id", JOid n)])))]) ∧
        docs Properties s' = docs Properties s ++ [("_id", JOid n) :: p] ∧
        (∀ c, c ≠ Properties → docs c s' = docs c s).
Proof.
  intros Hr Hl Ho Hf Ht Hn. cbv zeta. unfold handle_POST, run, POST.
  rewrite (mbind_inr _ _ _ _ _ (check_required_ok b _ s (required_ok_nonnull b Hr) Hr)).
  unfold fld at 1. rewrite Hl. cbn [default].
  rewrite (mbind_inr _ _ _ _ _ (find_landlord_oid _ _ s Ho)), Hf, (slug_of_title b t Ht). cbv iota.
  rewrite mbind_mret, (mbind_inr _ _ _ _ _ (insert_one_eq Properties _ s)).
  unfold fld. rewrite Hl. change (default JNull (Some (JStr h))) with (JStr h). cbn [new_ObjectId]. rewrite Ho. cbn [of_option]. rewrite mbind_mret.
  erewrite mbind_inr by (apply update_one_no_match; [reflexivity |];
    intros d Hd; rewrite docs_set_docs_ne, docs_bump in Hd by done; by apply Hn).
  eexists. split; [reflexivity |]. split.
  - by rewrite docs_set_docs_eq.
  - intros c Hc. by rewrite docs_set_docs_ne, docs_bump.
Qed.

(** C9. No request to [POST], [PUT] or [DELETE] changes the
    [totalProperties] counter of any landlord profile, the counter the
    spec says creation increments and deletion decrements: the handlers
    [$inc] a field named [propertyCount] instead. *)
Theorem properties_total_untouched `{RegexEngine} now b ps s :
  field_frame LandlordProfiles "totalProperties" s (handle_POST now b s).1 ∧
  field_frame LandlordProfiles "totalProperties" s (handle_PUT now b s).1 ∧
  field_frame LandlordProfiles "totalProperties" s (handle_DELETE ps s).1.
Proof.
  unfold handle_POST, handle_PUT, handle_DELETE.
  split; [| split]; apply (pres_run (field_frame LandlordProfiles "totalProperties"));
    [unfold POST | unfold PUT | unfold DELETE]; solve_pres.
Qed.

(** C7. [PUT] and [DELETE] on a listing whose [landlordId] is not the
    caller's answer 403 "Unauthorized" and change nothing. *)
Theorem ownership_403 `{RegexEngine} now b ps s i l o p :
  get b "id" = Some (JStr i) → get b "landlordId" = Some (JStr l) →
  param "id" ps = Some i → param "landlordId" ps = Some l → i ≠ "" → l ≠ "" →
  ObjectId.of_string i = Some o → List.find (matches [QEq "_id" (JOid o)]) (docs Properties s) = Some p →
  lookup_field "landlordId" p ≠ Some (JStr l) →
  handle_PUT now b s = (s, respond 403 [("success", JBool false); ("message", JStr "Unauthorized")]) ∧
  handle_DELETE ps s = (s, respond 403 [("success", JBool false); ("message", JStr "Unauthorized")]).
Proof.
  intros Hb Hbl Hi Hl Hi' Hl' Ho Hf Hne. unfold handle_PUT, handle_DELETE, run. split.
  - rewrite (PUT_found now b s i o p Hb Hi' Ho Hf), Hbl, strict_eq_str_ne by done. done.
  - rewrite (DELETE_found ps s i l o p Hi Hl Hi' Hl' Ho Hf), strict_eq_str_ne by done. done.
Qed.

(** C25. A landlord who deletes a listing with the [landlordId] the
    dashboard sends, ["user-" ++ Date.now()], gets 500 "Failed to delete
    property", yet the listing is gone: [new ObjectId(landlordId)] throws
    after [deleteOne], so the counter is not decremented and the id
    stays in every wishlist. *)
Theorem DELETE_partial `{RegexEngine} ps s i t o p :
  param "id" ps = Some i → param "landlordId" ps = Some (Auth.user_id_of t) → i ≠ "" →
  ObjectId.of_string i = Some o → List.find (matches [QEq "_id" (JOid o)]) (docs Properties s) = Some p →
  lookup_field "landlordId" p = Some (JStr (Auth.user_id_of t)) →
  handle_DELETE ps s =
  (set_docs Properties (delete_first [QEq "_id" (JOid o)] (docs Properties s)) s,
   respond 500 [("success", JBool false); ("message", JStr "Failed to delete property")]).
Proof.
  intros Hi Hl Hi' Ho Hf Hp. unfold handle_DELETE, run.
  rewrite (DELETE_found ps s i _ o p Hi Hl Hi' (user_id_nonempty t) Ho Hf), Hp, strict_eq_str_refl. cbn [negb].
  rewrite (mbind_inr _ _ _ _ _ (delete_one_ok Properties [QEq "_id" (JOid o)] s eq_refl)).
  cbn [new_ObjectId]. by rewrite of_string_user_id.
Qed.

(** When the landlord id is an ObjectId's digits and the updates
    apply, an owner's [DELETE] answers 200, removes the listing and
    leaves no wishlist whose [propertyIds] array holds its id. *)
Theorem DELETE_cleans `{RegexEngine} ps s i h o oh p :
  param "id" ps = Some i → param "landlordId" ps = Some h → i ≠ "" →
  ObjectId.of_string i = Some o → ObjectId.of_string h = Some oh →
  List.find (matches [QEq "_id" (JOid o)]) (docs Properties s) = Some p →
  lookup_field "landlordId" p = Some (JStr h) →
  upds_total [UInc "propertyCount" (-1)] (docs LandlordProfiles s) →
  upds_total [UPull "propertyIds" (JStr i)] (docs Wishlists s) →
  ∃ s', handle_DELETE ps s =
        (s', respond 200 [("success", JBool true); ("message", JStr "Property deleted successfully")]) ∧
        docs Properties s' = delete_first [QEq "_id" (JOid o)] (docs Properties s) ∧
        length (docs Wishlists s') = length (docs Wishlists s) ∧
        ∀ w, w ∈ docs Wishlists s' → ∀ l, lookup_field "propertyIds" w = Some (JArr l) → JStr i ∉ l.
Proof.
  intros Hi Hl Hi' Ho Hoh Hf Hp Hlp Hw. unfold handle_DELETE, run.
  rewrite (DELETE_found ps s i h o p Hi Hl Hi' (of_string_nonempty h oh Hoh) Ho Hf), Hp, strict_eq_str_refl.
  cbn [negb]. rewrite (mbind_inr _ _ _ _ _ (delete_one_ok Properties [QEq "_id" (JOid o)] s eq_refl)).
  set (s1 := set_docs Properties _ s).
  rewrite (new_ObjectId_str h oh Hoh), mbind_mret.
  destruct (update_one_total LandlordProfiles [QEq "userId" (JOid oh)] [UInc "propertyCount" (-1)] s1 eq_refl)
    as (s2 & r & Hu & Hs2 & _); [by unfold s1; rewrite docs_set_docs_ne |].
  rewrite (mbind_inr _ _ _ _ _ Hu).
  destruct (update_many_total Wishlists [] [UPull "propertyIds" (JStr i)] s2 eq_refl) as (l' & Hm & Hup).
  { rewrite Hs2 by done. by unfold s1; rewrite docs_set_docs_ne. }
  rewrite (mbind_inr _ _ _ _ _ Hm).
  assert (Hw2 : docs Wishlists s2 = docs Wishlists s) by (rewrite Hs2 by done; by unfold s1; rewrite docs_set_docs_ne).
  eexists. split; [reflexivity |]. split; [| split].
  - rewrite docs_set_docs_ne, Hs2 by done. unfold s1. by rewrite docs_set_docs_eq.
  - rewrite docs_set_docs_eq, <- Hw2. by apply Forall2_length in Hup.
  - rewrite docs_set_docs_eq. intros w Hw' l Hl'.
    destruct (list_elem_of_lookup_1 _ _ Hw') as [k Hk].
    destruct (Forall2_lookup_r _ _ _ _ _ Hup Hk) as (d & _ & [[_ Ha] | [Hq _]]); [| done].
    by apply (pull_removes _ _ _ _ Ha).
Qed.

(** An owner's [PUT] [$set]s every other field of the body, [_id]
    excepted, into the listing in place, stamps [updatedAt], keeps every
    field the body does not name, and cannot change [landlordId]: the
    handler strips it from the update.  Nothing keeps the owner from
    setting [isVerified], [isFeatured] or the counters. *)
Theorem PUT_merge `{RegexEngine} now s fs i l o p :
  lookup_field "id" fs = Some (JStr i) → lookup_field "landlordId" fs = Some (JStr l) → i ≠ "" →
  ObjectId.of_string i = Some o → List.find (matches [QEq "_id" (JOid o)]) (docs Properties s) = Some p →
  lookup_field "landlordId" p = Some (JStr l) → NoDup fs.*1 → "_id" ∉ fs.*1 →
  ∃ k p' n, docs Properties s !! k = Some p ∧
    handle_PUT now (JObj fs) s =
    (set_docs Properties (<[k:=p']> (docs Properties s)) s,
     respond 200 [("success", JBool true); ("message", JStr "Property updated successfully"); ("modifiedCount", JNum n)]) ∧
    lookup_field "landlordId" p' = Some (JStr l) ∧ lookup_field "updatedAt" p' = Some (JTime now) ∧
    (∀ k' v, (k', v) ∈ fs → k' ≠ "id" → k' ≠ "landlordId" → k' ≠ "updatedAt" → lookup_field k' p' = Some v) ∧
    (∀ k', k' ∉ fs.*1 → k' ≠ "updatedAt" → lookup_field k' p' = lookup_field k' p).
Proof.
  intros Hi Hl Hne Ho Hf Hp Hnd Hid.
  set (u := set_field "updatedAt" (JTime now) (update_data (JObj fs))).
  destruct (find_list_find _ _ _ Hf) as (k & Hk & Hlk).
  destruct (set_all_total p u) as [p' Hp']; [by apply put_keys_notin |].
  assert (Ha : apply_upds false p [USet u] = inr p') by (simpl; by rewrite Hp').
  exists k, p', (if decide (p' = p) then 0 else 1)%Z. split; [done |]. split.
  - unfold handle_PUT, run. rewrite (PUT_found now (JObj fs) s i o p Hi Hne Ho Hf).
    change (get (JObj fs) "landlordId") with (lookup_field "landlordId" fs).
    rewrite Hl, Hp, strict_eq_str_refl. cbn [negb].
    by rewrite (mbind_inr _ _ _ _ _ (update_one_found Properties [QEq "_id" (JOid o)] _ s k p p' eq_refl Hk Ha)).
  - split; [rewrite (set_all_notin _ _ _ _ (put_keys_landlord now fs) Hp'); done |].
    split; [eapply set_all_in; [apply put_keys_nodup, Hnd | apply elem_of_set_field_eq | discriminate | exact Hp'] |].
    split.
    + intros k' v Hin ???. eapply set_all_in; [apply put_keys_nodup, Hnd | by apply put_keys_in | | exact Hp'].
      intros ->. apply Hid. apply list_elem_of_fmap. by exists ("_id", v).
    + intros k' ??. eapply set_all_notin; [| exact Hp']. by apply put_keys_notin.
Qed.

Section witnesses.
#[local] Existing Instance literal_regex.

Lemma POST_registered_landlord_witness :
  handle_POST 2000 (flat_body "user-1000") props_demo = (props_demo, invalid_landlord).
Proof.
  apply (POST_registered_landlord 2000 (flat_body "user-1000") 1000 props_demo); [decide_goal | reflexivity |].
  repeat constructor; eexists; reflexivity.
Defined.

Lemma POST_missing_field_witness :
  handle_POST 2000 (JObj [("title", JStr "Flat"); ("description", JStr "d"); ("propertyType", JStr "PG");
                          ("address", JStr "a"); ("city", JStr "Kolkata"); ("rent", JNum 0)]) props_demo =
  (props_demo, respond 400 [("success", JBool false); ("message", JStr ("rent" +:+ " is required"))]).
Proof.
  apply (POST_missing_field _ _ _ ["title"; "description"; "propertyType"; "address"; "city"] "rent"
           ["deposit"; "landlordId"]); [discriminate | reflexivity | decide_goal | reflexivity].
Defined.

Lemma POST_creates_witness :
  let p := new_property (flat_body (ObjectId.to_string 5))
             (or_default (get (flat_body (ObjectId.to_string 5)) "slug") (JStr (slugify "Flat"))) lena 2000 in
  ∃ s', handle_POST 2000 (flat_body (ObjectId.to_string 5)) props_demo =
        (s', respond 200 [("success", JBool true); ("message", JStr "Property created successfully");
                          ("property", JObj (set_field "id" (JStr (ObjectId.to_string 10)) (p ++ [("_id", JOid 10)])))]) ∧
        docs Properties s' = docs Properties props_demo ++ [("_id", JOid 10) :: p] ∧
        (∀ c, c ≠ Properties → docs c s' = docs c props_demo).
Proof.
  apply (POST_creates 2000 _ props_demo (ObjectId.to_string 5) 5 lena "Flat");
    [decide_goal | reflexivity | vm_compute; reflexivity | vm_compute; reflexivity | reflexivity |].
  apply Forall_forall. decide_goal.
Defined.

Lemma ownership_403_witness :
  handle_PUT 2000 (JObj [("id", JStr (ObjectId.to_string 8)); ("landlordId", JStr "intruder")]) props_demo =
  (props_demo, respond 403 [("success", JBool false); ("message", JStr "Unauthorized")]) ∧
  handle_DELETE [("id", ObjectId.to_string 8); ("landlordId", "intruder")] props_demo =
  (props_demo, respond 403 [("success", JBool false); ("message", JStr "Unauthorized")]).
Proof.
  apply (ownership_403 2000 _ _ props_demo (ObjectId.to_string 8) "intruder" 8
           [("_id", JOid 8); ("title", JStr "Flat"); ("landlordId", JStr (ObjectId.to_string 5));
            ("isVerified", JBool false)]); try reflexivity; try discriminate; vm_compute; try reflexivity; congruence.
Defined.

Lemma DELETE_partial_witness :
  handle_DELETE [("id", ObjectId.to_string 7); ("landlordId", "user-1000")] props_demo =
  (set_docs Properties (delete_first [QEq "_id" (JOid 7)] (docs Properties props_demo)) props_demo,
   respond 500 [("success", JBool false); ("message", JStr "Failed to delete property")]).
Proof.
  apply (DELETE_partial _ props_demo (ObjectId.to_string 7) 1000 7
           [("_id", JOid 7); ("title", JStr "Room"); ("landlordId", JStr "user-1000")]);
    try reflexivity; try discriminate; vm_compute; reflexivity.
Defined.

Lemma DELETE_cleans_witness :
  ∃ s', handle_DELETE [("id", ObjectId.to_string 8); ("landlordId", ObjectId.to_string 5)] props_demo =
        (s', respond 200 [("success", JBool true); ("message", JStr "Property deleted successfully")]) ∧
        docs Properties s' = delete_first [QEq "_id" (JOid 8)] (docs Properties props_demo) ∧
        length (docs Wishlists s') = length (docs Wishlists props_demo) ∧
        ∀ w, w ∈ docs Wishlists s' → ∀ l, lookup_field "propertyIds" w = Some (JArr l) →
             JStr (ObjectId.to_string 8) ∉ l.
Proof.
  apply (DELETE_cleans _ props_demo (ObjectId.to_string 8) (ObjectId.to_string 5) 8 5
           [("_id", JOid 8); ("title", JStr "Flat"); ("landlordId", JStr (ObjectId.to_string 5));
            ("isVerified", JBool false)]);
    try reflexivity; try discriminate; try (vm_compute; reflexivity);
    repeat constructor; eexists; reflexivity.
Defined.

Lemma PUT_merge_witness :
  let fs := [("id", JStr (ObjectId.to_string 8)); ("landlordId", JStr (ObjectId.to_string 5));
             ("isVerified", JBool true)] in
  let p := [("_id", JOid 8); ("title", JStr "Flat"); ("landlordId", JStr (ObjectId.to_string 5));
            ("isVerified", JBool false)] in
  ∃ k p' n, docs Properties props_demo !! k = Some p ∧
    handle_PUT 2000 (JObj fs) props_demo =
    (set_docs Properties (<[k:=p']> (docs Properties props_demo)) props_demo,
     respond 200 [("success", JBool true); ("message", JStr "Property updated successfully"); ("modifiedCount", JNum n)]) ∧
    lookup_field "landlordId" p' = Some (JStr (ObjectId.to_string 5)) ∧ lookup_field "updatedAt" p' = Some (JTime 2000) ∧
    (∀ k' v, (k', v) ∈ fs → k' ≠ "id" → k' ≠ "landlordId" → k' ≠ "updatedAt" → lookup_field k' p' = Some v) ∧
    (∀ k', k' ∉ fs.*1 → k' ≠ "updatedAt" → lookup_field k' p' = lookup_field k' p).
Proof.
  apply (PUT_merge 2000 props_demo _ (ObjectId.to_string 8) (ObjectId.to_string 5) 8);
    try reflexivity; try discriminate; try (vm_compute; reflexivity); decide_goal.
Defined.
End witnesses.
End Properties.
