(* ===== verification/Inquiries.v ===== *)
(** * Inquiries ([src/src/app/api/inquiries/route.ts])

    An inquiry is a student's request about a listing.  [POST] checks
    three required fields, finds the listing by ObjectId or by slug and
    the student by ObjectId, refuses a second open (PENDING or CONTACTED)
    inquiry of the same student for the same listing, inserts the
    inquiry as PENDING and increments the listing's [inquiryCount].
    [GET] filters, pages and joins a summary of each inquiry's listing.
    [PUT] lets either party set any status, a visit (which forces
    SCHEDULED) and notes; [DELETE] lets the student cancel.

    The spec describes a one-way workflow of statuses and an invariant:
    at most one open inquiry per (listing, student).  [status_step] is
    that workflow; the theorems show which handlers keep the invariant
    and which break it or leave the workflow. *)

From S2P Require Import Prelude Json MongoDb Auth Listing Properties.
From Stdlib Require Import Ascii.
Open Scope string_scope.
Open Scope list_scope.
Open Scope un_scope.

Module Inquiries.

(** ** The workflow of the spec (section 4.3)

    [PENDING -> {CONTACTED, REJECTED, CANCELLED}], [CONTACTED ->
    SCHEDULED -> VISITED -> RENTED]; REJECTED, CANCELLED and RENTED are
    terminal.  The status strings are those of the comment on line 185. *)
Inductive status := PENDING | CONTACTED | SCHEDULED | VISITED | RENTED | REJECTED | CANCELLED.

#[export] Instance status_eq_dec : EqDecision status.
Proof. solve_decision. Defined.

Definition status_name (st : status) : string :=
  match st with
  | PENDING => "PENDING" | CONTACTED => "CONTACTED" | SCHEDULED => "SCHEDULED"
  | VISITED => "VISITED" | RENTED => "RENTED" | REJECTED => "REJECTED" | CANCELLED => "CANCELLED"
  end.

Definition all_status : list status := [PENDING; CONTACTED; SCHEDULED; VISITED; RENTED; REJECTED; CANCELLED].

(** The status a document's [status] field names, if any. *)
Definition status_of (d : fields) : option status :=
  match lookup_field "status" d with
  | Some (JStr x) => List.find (fun st => String.eqb (status_name st) x) all_status
  | _ => None
  end.

Inductive status_step : status → status → Prop :=
| step_contact : status_step PENDING CONTACTED
| step_reject : status_step PENDING REJECTED
| step_cancel : status_step PENDING CANCELLED
| step_schedule : status_step CONTACTED SCHEDULED
| step_visit : status_step SCHEDULED VISITED
| step_rent : status_step VISITED RENTED.

(** An inquiry is open while PENDING or CONTACTED (line 160). *)
Definition open_statuses : list json := [JStr "PENDING"; JStr "CONTACTED"].

Definition is_open (d : fields) : bool :=
  match lookup_field "status" d with Some v => bool_decide (v ∈ open_statuses) | None => false end.

(** The pair the uniqueness check compares. *)
Definition inquiry_key (d : fields) : option json * option json :=
  (lookup_field "propertyId" d, lookup_field "studentId" d).

(** The spec's invariant: no two open inquiries share a listing and a student. *)
Definition open_unique (l : list fields) : Prop :=
  NoDup (map inquiry_key (filter (fun d => is_open d = true) l)).

#[export] Instance open_unique_dec l : Decision (open_unique l).
Proof. unfold open_unique. apply _. Defined.

(** ** [GET /api/inquiries] *)

Definition build_query (ps : params) : query :=
  Listing.when_some (Listing.nonempty_param "studentId" ps) (fun v => [QEq "studentId" (JStr v)]) ++
  Listing.when_some (Listing.nonempty_param "landlordId" ps) (fun v => [QEq "landlordId" (JStr v)]) ++
  Listing.when_some (Listing.nonempty_param "propertyId" ps) (fun v => [QEq "propertyId" (JStr v)]) ++
  Listing.when_some (Listing.nonempty_param "status" ps) (fun v => [QEq "status" (JStr v)]).

(** [[...new Set(l)]]: the values in order of first occurrence. *)
Fixpoint dedup_first {A} `{EqDecision A} (seen : list A) (l : list A) : list A :=
  match l with
  | [] => []
  | x :: l' => if decide (x ∈ seen) then dedup_first seen l' else x :: dedup_first (x :: seen) l'
  end.

(** [try { return new ObjectId(id) } catch { return id }]; an absent
    [propertyId] is [undefined], which draws a fresh ObjectId. *)
Definition oid_or_self (v : option json) : M json :=
  mcatch (o <- new_ObjectId (default JNull v) ;; mret (JOid o)) (fun _ => mret (default JNull v)).

(** [propertyMap.get(k)]: the last listing whose printed [_id] is [k]. *)
Definition map_get (m : list (string * fields)) (k : option json) : option fields :=
  match k with
  | Some (JStr x) => option_map snd (List.find (fun kv => String.eqb kv.1 x) (rev m))
  | _ => None
  end.

(** [property.images?.[0]?.url]. *)
Definition first_image_url (p : fields) : option json :=
  match lookup_field "images" p with
  | Some (JArr (JObj im :: _)) => lookup_field "url" im
  | _ => None
  end.

Definition summary (p : fields) : M json :=
  i <- Listing.id_string (lookup_field "_id" p) ;;
  mret (JObj ([("id", JStr i)] ++ Auth.opt_field "title" (lookup_field "title" p) ++
              Auth.opt_field "slug" (lookup_field "slug" p) ++ Auth.opt_field "city" (lookup_field "city" p) ++
              Auth.opt_field "rent" (lookup_field "rent" p) ++ Auth.opt_field "image" (first_image_url p))).

Definition transform (m : list (string * fields)) (inq : fields) : M json :=
  i <- Listing.id_string (lookup_field "_id" inq) ;;
  prop <- (match map_get m (lookup_field "propertyId" inq) with
           | Some p => summary p
           | None => mret JNull
           end) ;;
  mret (JObj (drop_field "_id" (set_field "property" prop (set_field "id" (JStr i) inq)))).

Section handlers.
Context `{RegexEngine}.

Definition GET (ps : params) : M response :=
  let q := build_query ps in
  let page := parse_int (Listing.param_or "page" "1" ps) in
  let limit := parse_int (Listing.param_or "limit" "20" ps) in
  total <- count_documents Inquiries q ;;
  inquiries <- find_page Inquiries q (Listing.skip_of page limit) limit ;;
  ids <- mmap oid_or_self (dedup_first [] (map (lookup_field "propertyId") inquiries)) ;;
  properties <- find_all Properties [QIn "_id" ids] ;;
  entries <- mmap (fun p => k <- Listing.id_string (lookup_field "_id" p) ;; mret (k, p)) properties ;;
  items <- mmap (transform entries) inquiries ;;
  mret (respond 200 [("success", JBool true); ("inquiries", JArr items);
                     ("pagination", JObj [("page", num_json page); ("limit", num_json limit);
                                          ("total", JNum total);
                                          ("totalPages", num_json (ceil_div total limit))])]).

(** Lines 125-135: by ObjectId, and when that throws, by slug. *)
Definition find_property (pid : json) : M (option fields) :=
  mcatch (o <- new_ObjectId pid ;; find_one Properties [QEq "_id" (JOid o)])
         (fun _ => find_one Properties [QEq "slug" pid]).

(** The [inquiry] object of lines 174-190. *)
Definition new_inquiry (b : json) (pid : string) (property student : fields) (now : Z) : fields :=
  [("propertyId", JStr pid); ("landlordId", default JNull (lookup_field "landlordId" property));
   ("studentId", Properties.fld b "studentId"); ("studentName", default JNull (lookup_field "name" student));
   ("studentEmail", default JNull (lookup_field "email" student));
   ("studentPhone", or_default (Some (or_default (lookup_field "phone" student) (Properties.fld b "phone")))
                               (JStr ""));
   ("message", Properties.fld b "message");
   ("preferredMoveIn", if truthy_opt (get b "preferredMoveIn") then JDateOf (Properties.fld b "preferredMoveIn")
                       else JNull);
   ("status", JStr "PENDING"); ("scheduledVisit", JNull); ("landlordNotes", JStr "");
   ("createdAt", JTime now); ("updatedAt", JTime now)].

Definition POST (now : Z) (b : json) : M response :=
  missing <- Properties.check_required b ["propertyId"; "studentId"; "message"] ;;
  match missing with
  | Some f => Properties.fail 400 (f +:+ " is required")
  | None =>
      property <- find_property (Properties.fld b "propertyId") ;;
      match property with
      | None => Properties.fail 404 "Property not found"
      | Some p =>
          so <- new_ObjectId (Properties.fld b "studentId") ;;
          student <- find_one Users [QEq "_id" (JOid so)] ;;
          match student with
          | None => Properties.fail 404 "Student not found"
          | Some st =>
              pid <- Listing.id_string (lookup_field "_id" p) ;;
              existing <- find_one Inquiries [QEq "propertyId" (JStr pid);
                                              QEq "studentId" (Properties.fld b "studentId");
                                              QIn "status" open_statuses] ;;
              match existing with
              | Some _ => Properties.fail 400 "You already have a pending inquiry for this property"
              | None =>
                  let inquiry := new_inquiry b pid p st now in
                  o <- insert_one Inquiries inquiry ;;
                  update_one Properties [QEq "_id" (default JNull (lookup_field "_id" p))]
                             [UInc "inquiryCount" 1] false ;;;
                  mret (respond 200 [("success", JBool true); ("message", JStr "Inquiry sent successfully");
                                     ("inquiry", JObj (set_field "id" (JStr (ObjectId.to_string o))
                                                         (inquiry ++ [("_id", JOid o)])))])
              end
          end
      end
  end.

(** The [updates] object of lines 252-267. *)
Definition updates (now : Z) (b : json) : fields :=
  let u0 := [("updatedAt", JTime now)] in
  let u1 := if truthy_opt (get b "status") then set_field "status" (Properties.fld b "status") u0 else u0 in
  let u2 := if truthy_opt (get b "scheduledVisit")
            then set_field "status" (JStr "SCHEDULED")
                   (set_field "scheduledVisit" (JDateOf (Properties.fld b "scheduledVisit")) u1)
            else u1 in
  match get b "landlordNotes" with Some v => set_field "landlordNotes" v u2 | None => u2 end.

Definition PUT (now : Z) (b : json) : M response :=
  id <- getp b "id" ;;
  userId <- getp b "userId" ;;
  if negb (truthy_opt id) then Properties.fail 400 "Inquiry ID is required"
  else
    o <- new_ObjectId (default JNull id) ;;
    inquiry <- find_one Inquiries [QEq "_id" (JOid o)] ;;
    match inquiry with
    | None => Properties.fail 404 "Inquiry not found"
    | Some inq =>
        if negb (strict_eq (lookup_field "landlordId" inq) userId) &&
           negb (strict_eq (lookup_field "studentId" inq) userId)
        then Properties.fail 403 "Unauthorized"
        else
          o' <- new_ObjectId (default JNull id) ;;
          update_one Inquiries [QEq "_id" (JOid o')] [USet (updates now b)] false ;;;
          mret (respond 200 [("success", JBool true); ("message", JStr "Inquiry updated successfully")])
    end.

Definition DELETE (now : Z) (ps : params) : M response :=
  match param "id" ps, param "studentId" ps with
  | Some i, Some sid =>
      if String.eqb i "" || String.eqb sid "" then Properties.fail 400 "Inquiry ID and student ID are required"
      else
        o <- new_ObjectId (JStr i) ;;
        inquiry <- find_one Inquiries [QEq "_id" (JOid o)] ;;
        match inquiry with
        | None => Properties.fail 404 "Inquiry not found"
        | Some inq =>
            if negb (strict_eq (lookup_field "studentId" inq) (Some (JStr sid)))
            then Properties.fail 403 "Unauthorized"
            else
              o' <- new_ObjectId (JStr i) ;;
              update_one Inquiries [QEq "_id" (JOid o')]
                         [USet [("status", JStr "CANCELLED"); ("updatedAt", JTime now)]] false ;;;
              mret (respond 200 [("success", JBool true); ("message", JStr "Inquiry cancelled successfully")])
        end
  | _, _ => Properties.fail 400 "Inquiry ID and student ID are required"
  end.

Definition handle_GET ps :=
  run (GET ps) (respond 500 [("success", JBool false); ("message", JStr "Failed to fetch inquiries")]).
Definition handle_POST now b :=
  run (POST now b) (respond 500 [("success", JBool false); ("message", JStr "Failed to create inquiry")]).
Definition handle_PUT now b :=
  run (PUT now b) (respond 500 [("success", JBool false); ("message", JStr "Failed to update inquiry")]).
Definition handle_DELETE now ps :=
  run (DELETE now ps) (respond 500 [("success", JBool false); ("message", JStr "Failed to cancel inquiry")]).
End handlers.

Definition inq_inv (s : store) : Prop := open_unique (docs Inquiries s).

(** A store for concrete runs: the landlord of [Properties.props_demo],
    a student with ObjectId 6, the listing with ObjectId 8, and an
    earlier inquiry (ObjectId 11) of that student, cancelled. *)
Definition sam : fields :=
  [("_id", JOid 6); ("email", JStr "sam@uni.edu"); ("name", JStr "Sam"); ("role", JStr "student");
   ("phone", JStr "98300")].

Definition flat : fields :=
  [("_id", JOid 8); ("title", JStr "Flat"); ("city", JStr "Kolkata"); ("landlordId", JStr (ObjectId.to_string 5))].

Definition old_inquiry (st : string) : fields :=
  [("_id", JOid 11); ("propertyId", JStr (ObjectId.to_string 8)); ("landlordId", JStr (ObjectId.to_string 5));
   ("studentId", JStr (ObjectId.to_string 6)); ("status", JStr st)].

Definition inq_demo (st : string) : store :=
  mkStore [Properties.lena; sam] [] [] [flat] [old_inquiry st] [] 20.

Definition ask_body (sid : string) : json :=
  JObj [("propertyId", JStr (ObjectId.to_string 8)); ("studentId", JStr sid); ("message", JStr "Is it free?")].

Definition put_body (fs : fields) : json :=
  JObj ([("id", JStr (ObjectId.to_string 11)); ("userId", JStr (ObjectId.to_string 6))] ++ fs).

(** ** Lemmas *)

Lemma inq_unchanged {A} (m : M A) : preserves (unchanged Inquiries) m → preserves (inv_rel inq_inv) m.
Proof. apply pres_inv_unchanged. unfold inq_inv. by intros s s' ->. Qed.

Lemma matches_key `{RegexEngine} u pid sid :
  is_open u = true → inquiry_key u = (Some (JStr pid), Some sid) →
  matches [QEq "propertyId" (JStr pid); QEq "studentId" sid; QIn "status" open_statuses] u = true.
Proof.
  unfold is_open, inquiry_key. intros Ho [= Hp Hs]. unfold matches. simpl.
  rewrite Hp, Hs, !eq_match_self. simpl.
  destruct (lookup_field "status" u) as [v|]; [| done]. apply bool_decide_eq_true in Ho.
  rewrite andb_true_r. unfold open_statuses in Ho. rewrite !elem_of_cons in Ho.
  destruct Ho as [-> | [-> | []%not_elem_of_nil]]; rewrite eq_match_self; [done | by rewrite orb_true_r].
Qed.

Lemma open_unique_snoc `{RegexEngine} l d pid sid :
  open_unique l → no_match (matches [QEq "propertyId" (JStr pid); QEq "studentId" sid; QIn "status" open_statuses]) l →
  inquiry_key d = (Some (JStr pid), Some sid) → open_unique (l ++ [d]).
Proof.
  unfold open_unique. intros Hu Hn Hk. rewrite filter_app.
  destruct (is_open d) eqn:Ed; [| rewrite filter_cons_False, filter_nil, app_nil_r by (by rewrite Ed); done].
  rewrite filter_cons_True, filter_nil by done. rewrite map_app. simpl. apply NoDup_snoc; [done |].
  intros (u & Hkey & Hin)%list_elem_of_fmap.
  apply list_elem_of_filter in Hin as [Ho Hin]. hnf in Hkey.
  pose proof (matches_key _ pid sid Ho (eq_trans (eq_sym Hkey) Hk)) as Hm.
  by rewrite Hn in Hm.
Qed.

Lemma open_unique_insert_closed l i d' : is_open d' = false → open_unique l → open_unique (<[i:=d']> l).
Proof.
  intros Hd Hu. destruct (l !! i) as [d|] eqn:Hi.
  - assert (i < length l) by (by apply lookup_lt_Some in Hi).
    rewrite insert_take_drop by done. rewrite <- (take_drop_middle l i d Hi) in Hu.
    unfold open_unique in *. rewrite filter_app, filter_cons_False by (by rewrite Hd).
    rewrite filter_app, filter_cons in Hu. rewrite map_app in *.
    case_decide; [| done]. simpl in Hu. by apply NoDup_remove_middle in Hu.
  - rewrite list_insert_ge; [done |]. by apply lookup_ge_None.
Qed.

Lemma inq_key_cons n d : inquiry_key (("_id", JOid n) :: d) = inquiry_key d.
Proof. done. Qed.

Lemma pres_check_insert `{RegexEngine} pid sid d (failm : M response) (rest : N → M response) :
  inquiry_key d = (Some (JStr pid), Some sid) → read_only failm →
  (∀ o, preserves (unchanged Inquiries) (rest o)) →
  preserves (inv_rel inq_inv)
    (existing <- find_one Inquiries [QEq "propertyId" (JStr pid); QEq "studentId" sid; QIn "status" open_statuses] ;;
     match existing with Some _ => failm | None => o <- insert_one Inquiries d ;; rest o end).
Proof.
  intros Hk Hf Hr s Hs. unfold mbind at 1. rewrite find_one_ok by reflexivity.
  destruct (List.find _ _) eqn:Ef.
  - by rewrite Hf.
  - rewrite (mbind_inr _ _ _ _ _ (insert_one_eq Inquiries d s)).
    unfold inq_inv. rewrite (Hr _ _), docs_set_docs_eq. apply (open_unique_snoc _ _ pid sid Hs).
    + by apply find_none_no_match.
    + by rewrite inq_key_cons.
Qed.

Lemma pres_cancel `{RegexEngine} q now :
  preserves (inv_rel inq_inv) (update_one Inquiries q [USet [("status", JStr "CANCELLED"); ("updatedAt", JTime now)]] false).
Proof.
  intros s Hs. unfold update_one, with_query. destruct (query_ok q); [| done].
  destruct (list_find _ _) as [[i d]|]; [| done].
  destruct (apply_upds false d _) as [|d'] eqn:Ea; [done |]. simpl.
  unfold inq_inv. rewrite docs_set_docs_eq. apply open_unique_insert_closed; [| done].
  simpl in Ea. simplify_eq. unfold is_open.
  rewrite lookup_set_field_ne, lookup_set_field_eq by discriminate.
  by rewrite bool_decide_eq_false_2 by set_solver.
Qed.

Lemma find_property_oid `{RegexEngine} hp po s :
  ObjectId.of_string hp = Some po →
  find_property (JStr hp) s = (s, inr (List.find (matches [QEq "_id" (JOid po)]) (docs Properties s))).
Proof.
  intros Hl. unfold find_property, mcatch, mbind. cbn [new_ObjectId]. rewrite Hl. cbn [of_option mret].
  by rewrite find_one_ok.
Qed.

Lemma fld_str b k v : get b k = Some (JStr v) → Properties.fld b k = JStr v.
Proof. unfold Properties.fld. by intros ->. Qed.

Lemma status_of_name d st : lookup_field "status" d = Some (JStr (status_name st)) → status_of d = Some st.
Proof. unfold status_of. intros ->. by destruct st. Qed.

Lemma updates_keys now b : ("_id" ∉ (updates now b).*1) ∧ NoDup (updates now b).*1.
Proof.
  unfold updates. cbv zeta. split.
  - rewrite ?keys_set_field.
    destruct (truthy_opt (get b "status")), (truthy_opt (get b "scheduledVisit")), (get b "landlordNotes");
      rewrite ?keys_set_field; set_solver.
  - destruct (truthy_opt (get b "status")), (truthy_opt (get b "scheduledVisit")), (get b "landlordNotes");
      repeat apply NoDup_set_field; repeat constructor; set_solver.
Qed.

Lemma updates_status now b v :
  (if truthy_opt (get b "scheduledVisit") then v = JStr "SCHEDULED"
   else truthy_opt (get b "status") = true ∧ v = Properties.fld b "status") →
  ("status", v) ∈ updates now b.
Proof.
  unfold updates. cbv zeta. intros Hv.
  assert (("status", v) ∈ (if truthy_opt (get b "scheduledVisit")
            then set_field "status" (JStr "SCHEDULED") (set_field "scheduledVisit"
                   (JDateOf (Properties.fld b "scheduledVisit"))
                   (if truthy_opt (get b "status") then set_field "status" (Properties.fld b "status")
                      [("updatedAt", JTime now)] else [("updatedAt", JTime now)]))
            else (if truthy_opt (get b "status") then set_field "status" (Properties.fld b "status")
                    [("updatedAt", JTime now)] else [("updatedAt", JTime now)]))) as Hin.
  { destruct (truthy_opt (get b "scheduledVisit")); [subst; apply elem_of_set_field_eq |].
    destruct Hv as [-> ->]. apply elem_of_set_field_eq. }
  destruct (get b "landlordNotes"); [by apply elem_of_set_field_ne | done].
Qed.

Lemma updates_visit now b :
  truthy_opt (get b "scheduledVisit") = true →
  ("scheduledVisit", JDateOf (Properties.fld b "scheduledVisit")) ∈ updates now b.
Proof.
  unfold updates. cbv zeta. intros ->.
  assert (Hin : ("scheduledVisit", JDateOf (Properties.fld b "scheduledVisit")) ∈
    set_field "status" (JStr "SCHEDULED") (set_field "scheduledVisit" (JDateOf (Properties.fld b "scheduledVisit"))
      (if truthy_opt (get b "status") then set_field "status" (Properties.fld b "status") [("updatedAt", JTime now)]
       else [("updatedAt", JTime now)])))
    by (apply elem_of_set_field_ne; [done | apply elem_of_set_field_eq]).
  destruct (get b "landlordNotes"); [by apply elem_of_set_field_ne | done].
Qed.

(** [updateOne] with a [$set] that does not name [_id], on the document
    found by [findOne]: the document is replaced in place. *)
Lemma update_found_set `{RegexEngine} c q s d fs :
  "_id" ∉ fs.*1 → query_ok q = true → List.find (matches q) (docs c s) = Some d →
  ∃ k d' r, docs c s !! k = Some d ∧ set_all d fs = inr d' ∧
            update_one c q [USet fs] false s = (set_docs c (<[k:=d']> (docs c s)) s, inr r).
Proof.
  intros Hk Hq Hf. destruct (find_list_find _ _ _ Hf) as (k & Hl & Hk').
  destruct (set_all_total d fs Hk) as [d' Hd']. exists k, d'. eexists. split; [done | split; [done |]].
  apply update_one_found; [done | done |]. simpl. by rewrite Hd'.
Qed.

#[local] Hint Resolve inq_unchanged pres_cancel Properties.ro_fail : uninest.

(** [preserves (inv_rel inq_inv)] through a handler: the check-then-insert
    of [POST] is taken as a whole. *)
Ltac inq_pres :=
  repeat first [ progress cbv zeta
               | refine (pres_check_insert _ _ _ _ _ _ _ _); [reflexivity | solve [solve_ro] | intros ?; solve_pres]
               | pres_step ].

(** C3. The spec's invariant, at most one open (PENDING or CONTACTED)
    inquiry per listing and student, holds after [POST], [DELETE] and
    [GET] from a store where it held: [POST] checks before it inserts
    and [DELETE] only closes an inquiry. *)
Theorem inquiry_open_unique `{RegexEngine} now b ps s :
  inq_inv s →
  inq_inv (handle_POST now b s).1 ∧ inq_inv (handle_DELETE now ps s).1 ∧ inq_inv (handle_GET ps s).1.
Proof.
  intros Hs. unfold handle_POST, handle_DELETE, handle_GET.
  split; [| split]; refine (pres_run (inv_rel inq_inv) _ _ s _ Hs); [unfold POST | unfold DELETE | unfold GET];
    inq_pres.
Qed.
(** ** Creating an inquiry

    The requests of this section name a listing by its ObjectId's digits
    and carry the three required fields. *)
Section post.
Context `{RegexEngine}.
Variables (now : Z) (b : json) (s : store) (hp hs : string) (po : N) (p : fields).
Hypothesis Hreq : Forall (λ f, truthy_opt (get b f) = true) ["propertyId"; "studentId"; "message"].
Hypothesis Hpid : get b "propertyId" = Some (JStr hp).
Hypothesis Hpo : ObjectId.of_string hp = Some po.
Hypothesis Hp : List.find (matches [QEq "_id" (JOid po)]) (docs Properties s) = Some p.
Hypothesis Hsid : get b "studentId" = Some (JStr hs).

Lemma post_nonnull : b ≠ JNull.
Proof. intros ->. discriminate Hpid. Qed.

(** Through the required fields and the listing lookup. *)
Ltac post_prefix :=
  unfold handle_POST, run, POST;
  rewrite (mbind_inr _ _ _ _ _ (Properties.check_required_ok _ _ s post_nonnull Hreq));
  rewrite (fld_str b "propertyId" hp Hpid), (mbind_inr _ _ _ _ _ (find_property_oid hp po s Hpo)), Hp;
  cbv iota; rewrite (fld_str b "studentId" hs Hsid).

(** C8. A student who registered through the app has the id
    ["user-" ++ Date.now()]: [new ObjectId(studentId)] is outside any
    [try] of its own and throws, so every inquiry it sends answers 500
    and nothing is stored. *)
Theorem inquiry_POST_registered_student t :
  hs = Auth.user_id_of t →
  handle_POST now b s = (s, respond 500 [("success", JBool false); ("message", JStr "Failed to create inquiry")]).
Proof. intros Et. post_prefix. cbn [new_ObjectId]. by rewrite Et, Properties.of_string_user_id. Qed.

Variables (so : N) (st : fields).
Hypothesis Hso : ObjectId.of_string hs = Some so.
Hypothesis Hst : List.find (matches [QEq "_id" (JOid so)]) (docs Users s) = Some st.
Hypothesis Hpo_doc : lookup_field "_id" p = Some (JOid po).

Ltac post_check :=
  post_prefix; rewrite (Properties.new_ObjectId_str hs so Hso), mbind_mret;
  rewrite (mbind_inr _ _ _ _ _ (find_one_ok Users [QEq "_id" (JOid so)] s eq_refl)), Hst; cbv iota;
  rewrite Hpo_doc; cbn [Listing.id_string]; rewrite mbind_mret;
  rewrite (mbind_inr _ _ _ _ _ (find_one_ok Inquiries [QEq "propertyId" (JStr (ObjectId.to_string po));
    QEq "studentId" (JStr hs); QIn "status" open_statuses] s eq_refl)).

(** While the student has an open (PENDING or CONTACTED) inquiry for
    the listing, a second one is refused with 400 and nothing changes. *)
Theorem inquiry_POST_duplicate u :
  u ∈ docs Inquiries s → is_open u = true →
  inquiry_key u = (Some (JStr (ObjectId.to_string po)), Some (JStr hs)) →
  handle_POST now b s =
  (s, respond 400 [("success", JBool false); ("message", JStr "You already have a pending inquiry for this property")]).
Proof.
  intros Hu Ho Hk. post_check.
  destruct (find_some_elem _ _ _ Hu (matches_key u _ (JStr hs) Ho Hk)) as [u' ->]. done.
Qed.

(** When the student has no open inquiry for the listing (all its
    earlier ones are RENTED, REJECTED or CANCELLED), the inquiry is
    appended as PENDING with a fresh [_id], the listing's
    [inquiryCount] is incremented in place, and the response echoes the
    stored inquiry. *)
Theorem inquiry_POST_creates p' :
  no_match (matches [QEq "propertyId" (JStr (ObjectId.to_string po)); QEq "studentId" (JStr hs);
                     QIn "status" open_statuses]) (docs Inquiries s) →
  apply_upds false p [UInc "inquiryCount" 1] = inr p' →
  let d := new_inquiry b (ObjectId.to_string po) p st now in
  let n := db_next_oid s in
  ∃ s' i, handle_POST now b s =
        (s', respond 200 [("success", JBool true); ("message", JStr "Inquiry sent successfully");
                          ("inquiry", JObj (set_field "id" (JStr (ObjectId.to_string n)) (d ++ [("_id", JOid n)])))]) ∧
        docs Inquiries s' = docs Inquiries s ++ [("_id", JOid n) :: d] ∧
        docs Properties s !! i = Some p ∧ docs Properties s' = <[i:=p']> (docs Properties s) ∧
        lookup_field "status" d = Some (JStr "PENDING").
Proof.
  intros Hn Hu. cbv zeta. post_check. rewrite (find_no_match _ _ Hn). cbv iota.
  rewrite (mbind_inr _ _ _ _ _ (insert_one_eq Inquiries _ s)).
  change (default JNull (Some (JOid po))) with (JOid po).
  destruct (find_list_find _ _ _ Hp) as (i & Hf & Hi).
  erewrite mbind_inr; [| apply update_one_found; [reflexivity | | exact Hu]];
    [| by rewrite docs_set_docs_ne, docs_bump].
  eexists; exists i. split; [reflexivity |].
  split; [by rewrite docs_set_docs_ne, docs_set_docs_eq |].
  split; [done |]. split; [by rewrite docs_set_docs_eq, docs_set_docs_ne, docs_bump | done].
Qed.
End post.
(** ** Updating an inquiry

    A [PUT] by either party of an existing inquiry. *)
Section put.
Context `{RegexEngine}.
Variables (now : Z) (b : json) (s : store) (i : string) (o : N) (inq : fields).
Hypothesis Hi : get b "id" = Some (JStr i).
Hypothesis Hne : i ≠ "".
Hypothesis Ho : ObjectId.of_string i = Some o.
Hypothesis Hf : List.find (matches [QEq "_id" (JOid o)]) (docs Inquiries s) = Some inq.
Hypothesis Hparty : strict_eq (lookup_field "landlordId" inq) (get b "userId") ||
                    strict_eq (lookup_field "studentId" inq) (get b "userId") = true.

Lemma PUT_party :
  ∃ k inq', docs Inquiries s !! k = Some inq ∧ set_all inq (updates now b) = inr inq' ∧
    handle_PUT now b s = (set_docs Inquiries (<[k:=inq']> (docs Inquiries s)) s,
                          respond 200 [("success", JBool true); ("message", JStr "Inquiry updated successfully")]).
Proof.
  assert (b ≠ JNull) by (intros ->; discriminate).
  unfold handle_PUT, run, PUT. rewrite !(getp_nonnull b) by done. rewrite !mbind_mret, Hi, truthy_opt_str by done.
  change (default JNull (Some (JStr i))) with (JStr i). cbn [negb].
  rewrite (Properties.new_ObjectId_str i o Ho), mbind_mret.
  rewrite (mbind_inr _ _ _ _ _ (find_one_ok Inquiries [QEq "_id" (JOid o)] s eq_refl)), Hf. cbv iota.
  rewrite <- negb_orb, Hparty. cbn [negb]. rewrite mbind_mret.
  destruct (update_found_set Inquiries [QEq "_id" (JOid o)] s inq (updates now b)
              (proj1 (updates_keys now b)) eq_refl Hf) as (k & inq' & r & Hk & Hs & Hu).
  exists k, inq'. by rewrite (mbind_inr _ _ _ _ _ Hu).
Qed.

(** C31. Either party can move an inquiry to any status, whatever its
    current status: [PUT] writes [status] unchecked, so a RENTED,
    REJECTED or CANCELLED inquiry can be reopened, contrary to the
    one-way workflow [status_step] of the spec. *)
Theorem inquiry_PUT_any_status st' :
  get b "status" = Some (JStr (status_name st')) → truthy_opt (get b "scheduledVisit") = false →
  ∃ k inq', docs Inquiries s !! k = Some inq ∧
            docs Inquiries (handle_PUT now b s).1 = <[k:=inq']> (docs Inquiries s) ∧
            status_of inq' = Some st'.
Proof.
  intros Hst Hv. destruct PUT_party as (k & inq' & Hk & Hs & ->). exists k, inq'.
  split; [done |]. split; [apply docs_set_docs_eq |]. apply status_of_name.
  apply (set_all_in inq (updates now b)); [apply updates_keys | | done | done].
  apply updates_status. rewrite Hv, (fld_str b "status" _ Hst), Hst. by destruct st'.
Qed.

(** A truthy [scheduledVisit] records the visit and forces the
    status to SCHEDULED, whatever status the request names. *)
Theorem inquiry_PUT_schedule :
  truthy_opt (get b "scheduledVisit") = true →
  ∃ k inq', docs Inquiries s !! k = Some inq ∧
            docs Inquiries (handle_PUT now b s).1 = <[k:=inq']> (docs Inquiries s) ∧
            status_of inq' = Some SCHEDULED ∧
            lookup_field "scheduledVisit" inq' = Some (JDateOf (Properties.fld b "scheduledVisit")).
Proof.
  intros Hv. destruct PUT_party as (k & inq' & Hk & Hs & ->). exists k, inq'.
  split; [done |]. split; [apply docs_set_docs_eq |].
  split; [apply status_of_name |]; (apply (set_all_in inq (updates now b)); [apply updates_keys | | done | done]).
  - apply (updates_status now b (JStr "SCHEDULED")). by rewrite Hv.
  - by apply updates_visit.
Qed.
End put.

(** ** Cancelling an inquiry *)
Section delete.
Context `{RegexEngine}.
Variables (now : Z) (ps : params) (s : store) (i sid : string) (o : N) (inq : fields).
Hypothesis Hi : param "id" ps = Some i.
Hypothesis Hsid : param "studentId" ps = Some sid.
Hypothesis Hne : i ≠ "".
Hypothesis Hsne : sid ≠ "".
Hypothesis Ho : ObjectId.of_string i = Some o.
Hypothesis Hf : List.find (matches [QEq "_id" (JOid o)]) (docs Inquiries s) = Some inq.

(** [DELETE] cancels the inquiry when the [studentId] parameter is
    the inquiry's student, whatever its status (a RENTED or REJECTED
    inquiry included, which the workflow of the spec keeps terminal),
    and answers 403 with nothing changed otherwise. *)
Theorem inquiry_DELETE_cancel :
  (strict_eq (lookup_field "studentId" inq) (Some (JStr sid)) = true →
   ∃ k inq', docs Inquiries s !! k = Some inq ∧
             handle_DELETE now ps s =
             (set_docs Inquiries (<[k:=inq']> (docs Inquiries s)) s,
              respond 200 [("success", JBool true); ("message", JStr "Inquiry cancelled successfully")]) ∧
             status_of inq' = Some CANCELLED) ∧
  (strict_eq (lookup_field "studentId" inq) (Some (JStr sid)) = false →
   handle_DELETE now ps s = (s, respond 403 [("success", JBool false); ("message", JStr "Unauthorized")])).
Proof.
  unfold handle_DELETE, run, DELETE. rewrite Hi, Hsid.
  rewrite (proj2 (String.eqb_neq i "") Hne), (proj2 (String.eqb_neq sid "") Hsne). cbn [orb].
  rewrite (Properties.new_ObjectId_str i o Ho), mbind_mret.
  rewrite (mbind_inr _ _ _ _ _ (find_one_ok Inquiries [QEq "_id" (JOid o)] s eq_refl)), Hf. cbv iota.
  split; intros ->; [| done]. cbn [negb]. rewrite mbind_mret.
  destruct (update_found_set Inquiries [QEq "_id" (JOid o)] s inq
              [("status", JStr "CANCELLED"); ("updatedAt", JTime now)] ltac:(set_solver) eq_refl Hf)
    as (k & inq' & r & Hk & Hs & Hu).
  exists k, inq'. rewrite (mbind_inr _ _ _ _ _ Hu). split; [done | split; [done |]].
  apply status_of_name.
  apply (set_all_in inq [("status", JStr "CANCELLED"); ("updatedAt", JTime now)] inq'); [| set_solver | done | done].
  repeat constructor; set_solver.
Qed.
End delete.
(** [PUT] breaks the invariant that [POST] keeps: after the
    student's cancelled inquiry, a second one is created, and a [PUT]
    setting the first back to PENDING leaves two open inquiries for the
    same listing and student. *)
Example inquiry_PUT_breaks_unique :
  let s1 := (@handle_POST literal_regex 3000 (ask_body (ObjectId.to_string 6)) (inq_demo "CANCELLED")).1 in
  inq_inv (inq_demo "CANCELLED") ∧ inq_inv s1 ∧
  ¬ inq_inv (@handle_PUT literal_regex 4000 (put_body [("status", JStr "PENDING")]) s1).1.
Proof. split; [| split]; decide_goal. Qed.

Section witnesses.
#[local] Existing Instance literal_regex.

Lemma inquiry_open_unique_witness :
  inq_inv (handle_POST 3000 (ask_body (ObjectId.to_string 6)) (inq_demo "PENDING")).1 ∧
  inq_inv (handle_DELETE 3000 [("id", "x")] (inq_demo "PENDING")).1 ∧
  inq_inv (handle_GET [("id", "x")] (inq_demo "PENDING")).1.
Proof. apply inquiry_open_unique. decide_goal. Defined.

Lemma inquiry_POST_registered_student_witness :
  handle_POST 3000 (ask_body "user-1000") (inq_demo "CANCELLED") =
  (inq_demo "CANCELLED", respond 500 [("success", JBool false); ("message", JStr "Failed to create inquiry")]).
Proof.
  apply inquiry_POST_registered_student with (hp := ObjectId.to_string 8) (hs := "user-1000") (po := 8%N) (p := flat) (t := 1000%Z);
    [decide_goal | reflexivity | reflexivity | reflexivity | reflexivity | reflexivity].
Defined.

Lemma inquiry_POST_duplicate_witness :
  handle_POST 3000 (ask_body (ObjectId.to_string 6)) (inq_demo "CONTACTED") =
  (inq_demo "CONTACTED",
   respond 400 [("success", JBool false); ("message", JStr "You already have a pending inquiry for this property")]).
Proof.
  apply inquiry_POST_duplicate with (hp := ObjectId.to_string 8) (hs := ObjectId.to_string 6) (po := 8%N) (p := flat) (so := 6%N) (st := sam)
    (u := old_inquiry "CONTACTED"); try reflexivity; try decide_goal; set_solver.
Defined.

Lemma inquiry_POST_creates_witness :
  let d := new_inquiry (ask_body (ObjectId.to_string 6)) (ObjectId.to_string 8) flat sam 3000 in
  ∃ s' i, handle_POST 3000 (ask_body (ObjectId.to_string 6)) (inq_demo "CANCELLED") =
        (s', respond 200 [("success", JBool true); ("message", JStr "Inquiry sent successfully");
                          ("inquiry", JObj (set_field "id" (JStr (ObjectId.to_string 20)) (d ++ [("_id", JOid 20)])))]) ∧
        docs Inquiries s' = docs Inquiries (inq_demo "CANCELLED") ++ [("_id", JOid 20) :: d] ∧
        docs Properties (inq_demo "CANCELLED") !! i = Some flat ∧
        docs Properties s' = <[i:=flat ++ [("inquiryCount", JNum 1)]]> (docs Properties (inq_demo "CANCELLED")) ∧
        lookup_field "status" d = Some (JStr "PENDING").
Proof.
  apply inquiry_POST_creates with (hp := ObjectId.to_string 8) (hs := ObjectId.to_string 6) (po := 8%N) (so := 6%N);
    try reflexivity; try decide_goal.
Defined.

Lemma inquiry_PUT_any_status_witness :
  ¬ status_step RENTED PENDING ∧
  ∃ k inq', docs Inquiries (inq_demo "RENTED") !! k = Some (old_inquiry "RENTED") ∧
            docs Inquiries (handle_PUT 4000 (put_body [("status", JStr "PENDING")]) (inq_demo "RENTED")).1 =
            <[k:=inq']> (docs Inquiries (inq_demo "RENTED")) ∧
            status_of inq' = Some PENDING.
Proof.
  split; [inversion 1 |].
  apply inquiry_PUT_any_status with (i := ObjectId.to_string 11) (o := 11%N); reflexivity || discriminate.
Defined.

Lemma inquiry_PUT_schedule_witness :
  ∃ k inq', docs Inquiries (inq_demo "PENDING") !! k = Some (old_inquiry "PENDING") ∧
            docs Inquiries (handle_PUT 4000 (put_body [("status", JStr "VISITED"); ("scheduledVisit", JStr "2026-12-01")])
                                       (inq_demo "PENDING")).1 = <[k:=inq']> (docs Inquiries (inq_demo "PENDING")) ∧
            status_of inq' = Some SCHEDULED ∧
            lookup_field "scheduledVisit" inq' = Some (JDateOf (JStr "2026-12-01")).
Proof. apply inquiry_PUT_schedule with (i := ObjectId.to_string 11) (o := 11%N); reflexivity || discriminate. Defined.

Lemma inquiry_DELETE_cancel_witness :
  ∃ k inq', docs Inquiries (inq_demo "RENTED") !! k = Some (old_inquiry "RENTED") ∧
     handle_DELETE 4000 [("id", ObjectId.to_string 11); ("studentId", ObjectId.to_string 6)] (inq_demo "RENTED") =
     (set_docs Inquiries (<[k:=inq']> (docs Inquiries (inq_demo "RENTED"))) (inq_demo "RENTED"),
      respond 200 [("success", JBool true); ("message", JStr "Inquiry cancelled successfully")]) ∧
     status_of inq' = Some CANCELLED.
Proof.
  refine (proj1 (inquiry_DELETE_cancel 4000 [("id", ObjectId.to_string 11); ("studentId", ObjectId.to_string 6)]
                   (inq_demo "RENTED") (ObjectId.to_string 11) (ObjectId.to_string 6) 11 (old_inquiry "RENTED")
                   eq_refl eq_refl _ _ eq_refl eq_refl) eq_refl); discriminate.
Defined.
End witnesses.
End Inquiries.
