(* ===== verification/Types.v ===== *)
(** * Declared types of [src/src/types/auth.ts] and [src/src/types/index.ts]

    The interfaces are erased at run time; what they declare is which
    JSON values inhabit them.  [ty] is the part of TypeScript's type
    language the two files use (primitives, string-literal unions,
    [T | null], arrays, object types with optional members, [Pick],
    [extends] and one generic) and [has_type] decides membership of a
    [json] value, structurally: extra members are allowed, an optional
    member may be absent, and a [Date] is a [Date] object ([JTime] or
    [new Date(x)]).  The theorems compare these declarations with the
    documents the handlers write. *)

From S2P Require Import Prelude Json MongoDb Auth Inquiries.
From Stdlib Require Import Ascii.
Open Scope string_scope.
Open Scope list_scope.
Open Scope un_scope.

Module Ty.

Inductive ty :=
| TString | TNumber | TBoolean | TDate | TNull | TUnknown
| TLit (s : string)
| TUnion (a b : ty)
| TArray (t : ty)
| TObject (members : list (string * bool * ty)).   (** name, optional, type *)

(** A union of string literals. *)
Fixpoint lits (l : list string) : ty :=
  match l with [] => TUnknown | [s] => TLit s | s :: l' => TUnion (TLit s) (lits l') end.

Definition nullable (t : ty) : ty := TUnion t TNull.

Definition req (k : string) (t : ty) : string * bool * ty := (k, false, t).
Definition opt (k : string) (t : ty) : string * bool * ty := (k, true, t).

(** [Pick<T, K>] *)
Definition pick (ks : list string) (t : ty) : ty :=
  match t with
  | TObject ms => TObject (filter (fun m => bool_decide (m.1.1 ∈ ks)) ms)
  | _ => t
  end.

(** [interface A extends B]: the members of [B], then those of [A]. *)
Definition extend (base : ty) (ms : list (string * bool * ty)) : ty :=
  match base with TObject bs => TObject (bs ++ ms) | _ => TObject ms end.

Fixpoint has_type (t : ty) (v : json) {struct t} : bool :=
  match t with
  | TString => match v with JStr _ => true | _ => false end
  | TNumber => match v with JNum _ | JDec _ _ => true | _ => false end
  | TBoolean => match v with JBool _ => true | _ => false end
  | TDate => match v with JTime _ | JDateOf _ => true | _ => false end
  | TNull => match v with JNull => true | _ => false end
  | TUnknown => true
  | TLit s => match v with JStr x => String.eqb x s | _ => false end
  | TUnion a b => has_type a v || has_type b v
  | TArray t' => match v with JArr l => forallb (has_type t') l | _ => false end
  | TObject ms =>
      match v with
      | JObj fs =>
          let fix go (ms : list (string * bool * ty)) : bool :=
            match ms with
            | [] => true
            | (k, o, t') :: ms' =>
                match lookup_field k fs with
                | Some x => has_type t' x
                | None => o
                end && go ms'
            end in
          go ms
      | _ => false
      end
  end.

End Ty.

(** ** [src/src/types/auth.ts] *)
Module AuthTypes.
Import Ty.

Definition UserRole : ty := lits ["student"; "landlord"].

Definition User : ty :=
  TObject [opt "_id" TString; req "id" TString; req "email" TString; req "password" TString; req "name" TString;
           opt "phone" TString; opt "image" TString; req "role" UserRole; req "createdAt" TDate;
           req "updatedAt" TDate].

Definition StudentProfile : ty :=
  TObject [req "userId" TString; opt "college" TString; opt "course" TString; opt "year" TNumber;
           opt "city" TString; opt "bio" TString].

Definition LandlordProfile : ty :=
  TObject [req "userId" TString; opt "companyName" TString; opt "address" TString; opt "city" TString;
           req "isVerified" TBoolean; req "totalProperties" TNumber; req "responseRate" TNumber;
           req "responseTime" TNumber].

Definition RegisterRequest : ty :=
  TObject [req "name" TString; req "email" TString; req "password" TString; opt "phone" TString;
           req "role" UserRole].

Definition LoginRequest : ty := TObject [req "email" TString; req "password" TString].

Definition SafeUser : ty :=
  TObject [req "id" TString; req "email" TString; req "name" TString; opt "phone" TString; opt "image" TString;
           req "role" UserRole; req "createdAt" TDate].

Definition AuthResponse : ty :=
  TObject [req "success" TBoolean; req "message" TString; opt "user" SafeUser; opt "token" TString].

Definition TokenPayload : ty :=
  TObject [req "userId" TString; req "email" TString; req "role" UserRole; req "exp" TNumber].

Definition PropertyListing : ty :=
  TObject [
    req "id" TString; req "landlordId" TString; req "title" TString; req "slug" TString; req "description" TString;
    req "propertyType" (lits ["PG"; "HOSTEL"; "FLAT"; "ROOM"]);
    req "roomType" (lits ["private"; "sharing"; "entire"]);
    opt "bhk" (nullable TNumber); req "bedsPerRoom" TNumber; req "roomSize" TString;
    req "status" (lits ["ACTIVE"; "INACTIVE"; "PENDING"; "REJECTED"]);
    req "address" TString; req "city" TString; req "state" TString; req "pincode" TString;
    req "latitude" TNumber; req "longitude" TNumber; opt "landmark" TString;
    req "nearbyColleges" (TArray TString); opt "distanceFromCollege" TString;
    req "totalBeds" TNumber; req "availableBeds" TNumber; req "totalRooms" TNumber; req "bathrooms" TNumber;
    opt "floorNumber" TNumber; opt "totalFloors" TNumber; req "rent" TNumber; req "deposit" TNumber;
    opt "maintenanceCharges" TNumber; req "electricityCharges" (lits ["included"; "separate"]);
    req "waterCharges" (lits ["included"; "separate"]); opt "foodCharges" (nullable TNumber);
    req "foodIncluded" TBoolean; opt "mealsPerDay" TNumber;
    req "genderPreference" (lits ["MALE"; "FEMALE"; "ANY"]);
    req "occupancyType" (lits ["single"; "double"; "triple"; "quadruple"; "any"]);
    req "furnishing" (lits ["FULLY_FURNISHED"; "SEMI_FURNISHED"; "UNFURNISHED"]);
    req "furnishingDetails" (TArray TString); req "amenities" (TArray TString);
    req "rules" (TObject [req "nonVegAllowed" TBoolean; req "smokingAllowed" TBoolean;
                          req "drinkingAllowed" TBoolean; req "petsAllowed" TBoolean;
                          req "visitorsAllowed" TBoolean; req "oppositeSexAllowed" TBoolean;
                          opt "gateClosingTime" (nullable TString)]);
    req "images" (TArray (TObject [req "url" TString; req "isPrimary" TBoolean; opt "caption" TString]));
    req "availableFrom" TString; req "minimumStay" TNumber; req "noticePeriod" TNumber;
    req "isVerified" TBoolean; req "isFeatured" TBoolean; req "viewCount" TNumber;
    req "createdAt" TDate; req "updatedAt" TDate].

Definition PropertyInquiry : ty :=
  TObject [req "id" TString; req "propertyId" TString; req "propertyTitle" TString; req "studentId" TString;
           req "studentName" TString; req "studentEmail" TString; opt "studentPhone" TString;
           req "landlordId" TString; req "message" TString;
           req "status" (lits ["pending"; "contacted"; "visited"; "closed"]);
           req "createdAt" TDate; req "updatedAt" TDate].

End AuthTypes.

(** ** [src/src/types/index.ts] *)
Module AppTypes.
Import Ty.

Definition PropertyImage : ty := TObject [req "url" TString; req "isPrimary" TBoolean; req "caption" TString].

Definition PropertyOwner : ty :=
  TObject [req "id" TString; req "name" TString; req "image" TString; req "phone" TString;
           req "responseRate" TNumber; req "responseTime" TNumber; req "isVerified" TBoolean].

Definition Property : ty :=
  TObject [
    req "id" TString; req "title" TString; req "slug" TString; req "description" TString;
    req "propertyType" TString; req "roomType" TString; req "bhk" (nullable TNumber); req "bedsPerRoom" TNumber;
    req "roomSize" TString; req "status" TString; req "address" TString; req "city" TString; req "state" TString;
    req "pincode" TString; req "latitude" TNumber; req "longitude" TNumber; req "landmark" TString;
    req "nearbyColleges" (TArray TString); req "distanceFromCollege" TString; req "totalBeds" TNumber;
    req "availableBeds" TNumber; req "totalRooms" TNumber; req "bathrooms" TNumber; req "floorNumber" TNumber;
    req "totalFloors" TNumber; req "rent" TNumber; req "deposit" TNumber; req "maintenanceCharges" TNumber;
    req "electricityCharges" TString; req "waterCharges" TString; req "foodCharges" (nullable TNumber);
    req "foodIncluded" TBoolean; req "mealsPerDay" TNumber; req "genderPreference" TString;
    req "occupancyType" TString; req "furnishing" TString; req "furnishingDetails" (TArray TString);
    req "nonVegAllowed" TBoolean; req "smokingAllowed" TBoolean; req "drinkingAllowed" TBoolean;
    req "petsAllowed" TBoolean; req "visitorsAllowed" TBoolean; req "oppositeSexAllowed" TBoolean;
    req "gateClosingTime" (nullable TString); req "availableFrom" TString; req "minimumStay" TNumber;
    req "noticePeriod" TNumber; req "isVerified" TBoolean; req "isFeatured" TBoolean; req "viewCount" TNumber;
    req "images" (TArray PropertyImage); req "amenities" (TArray TString); req "averageRating" TNumber;
    req "reviewCount" TNumber; req "owner" PropertyOwner].

Definition PropertyCard : ty :=
  TObject [
    req "id" TString; req "title" TString; req "slug" TString; req "propertyType" TString; req "rent" TNumber;
    req "deposit" TNumber; req "city" TString; req "address" TString; req "genderPreference" TString;
    req "furnishing" TString; req "availableBeds" TNumber; req "totalBeds" TNumber; req "isVerified" TBoolean;
    req "isFeatured" TBoolean; req "images" (TArray (TObject [req "url" TString; req "isPrimary" TBoolean]));
    opt "averageRating" TNumber; opt "reviewCount" TNumber; opt "distance" TNumber;
    opt "latitude" (nullable TNumber); opt "longitude" (nullable TNumber)].

Definition SearchFilters : ty :=
  TObject [
    opt "query" TString; opt "city" TString; opt "propertyType" (TArray TString); opt "minRent" TNumber;
    opt "maxRent" TNumber; opt "gender" TString; opt "furnishing" (TArray TString);
    opt "amenities" (TArray TString); opt "occupancyType" TString; opt "nearCollege" TString;
    opt "latitude" TNumber; opt "longitude" TNumber; opt "radius" TNumber;
    opt "sortBy" (lits ["relevance"; "price_low"; "price_high"; "newest"; "rating"])].

Definition PaginatedResponse (T : ty) : ty :=
  TObject [req "data" (TArray T);
           req "pagination" (TObject [req "total" TNumber; req "page" TNumber; req "limit" TNumber;
                                      req "totalPages" TNumber; req "hasMore" TBoolean])].

(** [ApiResponse<T = unknown>] *)
Definition ApiResponse (T : ty) : ty :=
  TObject [req "success" TBoolean; opt "data" T; opt "message" TString; opt "error" TString].

Definition User : ty :=
  TObject [req "id" TString; req "name" TString; opt "email" TString; opt "image" TString; opt "phone" TString].

Definition StudentProfile : ty :=
  TObject [req "id" TString; req "userId" TString; opt "college" TString; opt "course" TString;
           opt "year" TNumber].

Definition LandlordProfile : ty :=
  TObject [req "id" TString; req "userId" TString; opt "companyName" TString; req "verified" TBoolean].

Definition UserWithProfile : ty :=
  extend User [opt "studentProfile" (nullable StudentProfile); opt "landlordProfile" (nullable LandlordProfile)].

Definition MessageWithSender : ty :=
  TObject [req "id" TString; req "content" TString; req "senderId" TString;
           req "sender" (pick ["id"; "name"; "image"] User); req "createdAt" TDate; req "isRead" TBoolean].

Definition ConversationWithParticipants : ty :=
  TObject [req "id" TString; opt "propertyId" TString;
           req "participants" (TArray (TObject [req "user" (pick ["id"; "name"; "image"] User);
                                                opt "lastReadAt" TDate]));
           req "messages" (TArray MessageWithSender); req "updatedAt" TDate].

Definition PropertyPerformance : ty :=
  TObject [req "id" TString; req "title" TString; req "views" TNumber; req "inquiries" TNumber;
           req "favorites" TNumber; req "status" TString].

Definition InquiryPreview : ty :=
  TObject [req "id" TString; req "property" (TObject [req "title" TString]);
           req "user" (TObject [req "name" TString; opt "image" TString]); req "message" TString;
           req "createdAt" TDate].

Definition LandlordDashboardStats : ty :=
  TObject [req "totalProperties" TNumber; req "activeListings" TNumber; req "totalViews" TNumber;
           req "totalInquiries" TNumber; req "pendingVisits" TNumber; req "averageRating" TNumber;
           req "totalReviews" TNumber; req "recentInquiries" (TArray InquiryPreview);
           req "propertyPerformance" (TArray PropertyPerformance)].

Definition StudentDashboardStats : ty :=
  TObject [req "savedProperties" TNumber; req "recentlyViewed" TNumber; req "activeApplications" TNumber;
           req "scheduledVisits" TNumber; req "wishlist" (TArray PropertyCard);
           req "recommendations" (TArray PropertyCard)].

Definition ActivityPreview : ty :=
  TObject [req "id" TString; req "action" TString; req "user" (TObject [req "name" TString]);
           opt "entity" TString; req "createdAt" TDate].

Definition GrowthData : ty := TObject [req "date" TString; req "count" TNumber].

Definition AdminDashboardStats : ty :=
  TObject [req "totalUsers" TNumber; req "totalStudents" TNumber; req "totalLandlords" TNumber;
           req "totalProperties" TNumber; req "activeListings" TNumber; req "pendingVerifications" TNumber;
           req "pendingReports" TNumber; req "recentActivity" (TArray ActivityPreview);
           req "userGrowth" (TArray GrowthData); req "propertyGrowth" (TArray GrowthData)].

Definition MapMarker : ty :=
  TObject [req "id" TString; req "latitude" TNumber; req "longitude" TNumber; req "title" TString;
           req "rent" TNumber; req "type" TString].

Definition NotificationItem : ty :=
  TObject [req "id" TString; req "type" TString; req "title" TString; req "message" TString;
           opt "link" TString; req "isRead" TBoolean; req "createdAt" TDate].

Definition FormState : ty := TObject [req "isSubmitting" TBoolean; req "isSuccess" TBoolean; opt "error" TString].

Definition UploadedFile : ty :=
  TObject [req "url" TString; req "name" TString; req "size" TNumber; req "type" TString].

Definition ComparisonProperty : ty :=
  TObject [req "id" TString; req "title" TString; req "rent" TNumber; req "deposit" TNumber;
           req "propertyType" TString; req "furnishing" TString; req "amenities" (TArray TString);
           req "rating" TNumber; req "image" TString].

End AppTypes.

(** ** The documents the handlers write, against their declarations *)
Module TypeFacts.
Import Ty.

Definition member_ok (fs : fields) (m : string * bool * ty) : bool :=
  match lookup_field m.1.1 fs with Some x => has_type m.2 x | None => m.1.2 end.

Lemma has_type_object ms fs : has_type (TObject ms) (JObj fs) = forallb (member_ok fs) ms.
Proof.
  cbn [has_type].
  match goal with |- ?g ms = _ => assert (Hg : ∀ l, g l = forallb (member_ok fs) l) end.
  { induction l as [|[[k o] t] l IH]; [done |]. simpl. by rewrite IH. }
  apply Hg.
Qed.

(** An object fails its type as soon as one member present in it does. *)
Lemma has_type_member_false ms fs k o t x :
  (k, o, t) ∈ ms → lookup_field k fs = Some x → has_type t x = false → has_type (TObject ms) (JObj fs) = false.
Proof.
  intros Hin Hk Ht. rewrite has_type_object. apply not_true_iff_false. intros Hall.
  rewrite forallb_forall in Hall. specialize (Hall _ (proj1 (list_elem_of_In _ _) Hin)).
  unfold member_ok in Hall. simpl in Hall. by rewrite Hk, Ht in Hall.
Qed.

(** The documents [register] inserts never have their declared
    types: the user document stores [image: null] (and [phone: null]
    without a phone) where [User] declares optional strings, and the
    profiles store [null] in [college] and [companyName], declared
    optional strings of [StudentProfile] and [LandlordProfile]. *)
Theorem register_docs_untyped uid lower hashed name phone role now :
  has_type AuthTypes.User (JObj (Auth.new_user uid lower hashed name phone role now)) = false ∧
  has_type AuthTypes.StudentProfile (JObj (Auth.student_profile uid now)) = false ∧
  has_type AuthTypes.LandlordProfile (JObj (Auth.landlord_profile uid now)) = false.
Proof.
  split; [| split].
  - by apply (has_type_member_false _ _ "image" true TString JNull); [by do 6 right; left | |].
  - by apply (has_type_member_false _ _ "college" true TString JNull); [by right; left | |].
  - by apply (has_type_member_false _ _ "companyName" true TString JNull); [by right; left | |].
Qed.

(** No inquiry [POST] stores is a [PropertyInquiry]: the document
    has the status "PENDING" where the interface declares the lower-case
    statuses "pending" | "contacted" | "visited" | "closed". *)
Theorem inquiry_docs_untyped b pid p st now o :
  has_type AuthTypes.PropertyInquiry (JObj (("_id", JOid o) :: Inquiries.new_inquiry b pid p st now)) = false.
Proof.
  by apply (has_type_member_false _ _ "status" false (lits ["pending"; "contacted"; "visited"; "closed"])
                                   (JStr "PENDING")); [by do 9 right; left | |].
Qed.

End TypeFacts.
