(* ===== verification/App.v ===== *)
(** * The application: routes, the browser and the auth context

    [serve] is the routing of Next.js over [src/src/app/api]: a path and
    a method reach the handler that the path's [route.ts] exports, with
    the browser's [auth-token] cookie; a path with no [route.ts], or a
    method the file does not export, gets a page that is not JSON (404
    or 405).  [fetch] adds the browser: it sends the cookie, applies the
    [Set-Cookie] of the response, and may reject (network failure or the
    abort of a timeout), which the oracle [ok] decides.  [res.json()] of
    a page that is not JSON throws.

    [AuthClient] is [src/src/contexts/auth-context.tsx]: the context's
    state is [user] and [isLoading]; [refreshUser], [login], [register]
    and [logout] are its four operations, each a function of the world
    (server store and cookie jar), the state and the fetch outcome. *)

From S2P Require Import Prelude Json MongoDb Wishlist Auth Listing Properties Inquiries.
Open Scope string_scope.
Open Scope list_scope.
Open Scope un_scope.

Module App.

Inductive method := GET | POST | PUT | DELETE.

Record request := mkRequest { meth : method; path : string; query : params; req_body : json }.

(** What [fetch] resolves to: a JSON response, or a page that is not JSON. *)
Inductive reply := Reply (r : response) | NotJson (status : Z).

(** The server and the browser's cookie jar. *)
Record world := mkWorld { srv : store; jar : option token }.

(** The route files of [src/src/app/api]. *)
Definition api_paths : list string :=
  ["/api/auth/register"; "/api/auth/login"; "/api/auth/me"; "/api/properties"; "/api/inquiries"; "/api/wishlist"].

Section app.
Context `{RegexEngine} `{PasswordHasher}.
Variable env : option string.

Definition lift (p : store * response) : store * reply := (p.1, Reply p.2).

Definition serve (now : Z) (cookie : option token) (rq : request) (s : store) : store * reply :=
  let p := path rq in
  if String.eqb p "/api/auth/register" then
    match meth rq with POST => lift (Auth.handle_register env now (req_body rq) s) | _ => (s, NotJson 405) end
  else if String.eqb p "/api/auth/login" then
    match meth rq with POST => lift (Auth.handle_login env now (req_body rq) s) | _ => (s, NotJson 405) end
  else if String.eqb p "/api/auth/me" then
    match meth rq with
    | GET => lift (Auth.handle_me env now cookie s)
    | DELETE => (s, Reply Auth.logout)
    | _ => (s, NotJson 405)
    end
  else if String.eqb p "/api/properties" then
    match meth rq with
    | GET => lift (Listing.handle_GET (query rq) s)
    | POST => lift (Properties.handle_POST now (req_body rq) s)
    | PUT => lift (Properties.handle_PUT now (req_body rq) s)
    | DELETE => lift (Properties.handle_DELETE (query rq) s)
    end
  else if String.eqb p "/api/inquiries" then
    match meth rq with
    | GET => lift (Inquiries.handle_GET (query rq) s)
    | POST => lift (Inquiries.handle_POST now (req_body rq) s)
    | PUT => lift (Inquiries.handle_PUT now (req_body rq) s)
    | DELETE => lift (Inquiries.handle_DELETE now (query rq) s)
    end
  else if String.eqb p "/api/wishlist" then
    match meth rq with
    | GET => lift (Wishlist.handle_GET s)
    | POST => lift (Wishlist.handle_POST now (req_body rq) s)
    | PUT => lift (Wishlist.handle_PUT now (req_body rq) s)
    | DELETE => lift (Wishlist.handle_DELETE now (query rq) s)
    end
  else (s, NotJson 404).

(** The browser stores or clears the [auth-token] cookie a response sets. *)
Definition apply_cookie (j : option token) (rp : reply) : option token :=
  match rp with
  | Reply r => match set_cookie r with
               | Some c => if String.eqb (cookie_name c) "auth-token" then cookie_value c else j
               | None => j
               end
  | NotJson _ => j
  end.

(** [fetch(url, init)]: [None] when the promise rejects. *)
Definition fetch (ok : bool) (now : Z) (rq : request) (w : world) : world * option reply :=
  if ok then let '(s', rp) := serve now (jar w) rq (srv w) in (mkWorld s' (apply_cookie (jar w) rp), Some rp)
  else (w, None).

(** [await res.json()]: [None] when it throws. *)
Definition res_json (rp : reply) : option json :=
  match rp with Reply r => Some (body r) | NotJson _ => None end.

(** [fetch] then [res.json()], [None] if either throws. *)
Definition fetch_json (ok : bool) (now : Z) (rq : request) (w : world) : world * option json :=
  let '(w', rp) := fetch ok now rq w in (w', match rp with Some r => res_json r | None => None end).

End app.

(** ** [src/src/contexts/auth-context.tsx] *)
Module AuthClient.

Record state := mkState { user : option json; isLoading : bool }.

(** [useState(null)], [useState(false)] *)
Definition initial : state := mkState None false.

(** [{ success: true, message: data.message }] *)
Definition succeeded (data : json) : json := JObj ([("success", JBool true)] ++ Auth.opt_field "message" (get data "message")).

(** [{ success: false, message: data.message || fallback }] *)
Definition failed (data : option json) (fallback : string) : json :=
  JObj [("success", JBool false);
        ("message", match data with Some d => or_default (get d "message") (JStr fallback) | None => JStr fallback end)].

(** [data.success && data.user] *)
Definition signed_in (data : json) : option json :=
  if truthy_opt (get data "success") && truthy_opt (get data "user") then get data "user" else None.


Section client.
Context `{RegexEngine} `{PasswordHasher}.
Variable env : option string.

(** [refreshUser]: [ok] is [false] when the request is aborted after
    3 seconds or fails. *)
Definition refreshUser (ok : bool) (now : Z) (w : world) (st : state) : world * state :=
  let '(w', data) := fetch_json env ok now (mkRequest GET "/api/auth/me" [] JNull) w in
  (w', mkState (match data with Some d => signed_in d | None => None end) (isLoading st)).

Definition login (ok : bool) (now : Z) (email password : string) (w : world) (st : state) :
    world * state * json :=
  let '(w', data) := fetch_json env ok now
                       (mkRequest POST "/api/auth/login" [] (JObj [("email", JStr email); ("password", JStr password)])) w in
  match data with
  | Some d => match signed_in d with
              | Some u => (w', mkState (Some u) (isLoading st), succeeded d)
              | None => (w', st, failed (Some d) "Login failed")
              end
  | None => (w', st, failed None "Login failed")
  end.

Definition register (ok : bool) (now : Z) (name email password phone role : string) (w : world) (st : state) :
    world * state * json :=
  let b := JObj [("name", JStr name); ("email", JStr email); ("password", JStr password);
                 ("phone", JStr phone); ("role", JStr role)] in
  let '(w', data) := fetch_json env ok now (mkRequest POST "/api/auth/register" [] b) w in
  match data with
  | Some d => match signed_in d with
              | Some u => (w', mkState (Some u) (isLoading st), succeeded d)
              | None => (w', st, failed (Some d) "Registration failed")
              end
  | None => (w', st, failed None "Registration failed")
  end.

(** [logout]: the user is cleared only once the request resolves. *)
Definition logout (ok : bool) (now : Z) (w : world) (st : state) : world * state :=
  let '(w', rp) := fetch env ok now (mkRequest DELETE "/api/auth/me" [] JNull) w in
  match rp with Some _ => (w', mkState None (isLoading st)) | None => (w', st) end.

Definition isAuthenticated (st : state) : bool := bool_decide (is_Some (user st)).

End client.

(** ** A session through the context *)
Section session.
Context `{RegexEngine} `{PasswordHasher}.
Variable env : option string.

Lemma serve_register now c b s :
  serve env now c (mkRequest POST "/api/auth/register" [] b) s = lift (Auth.handle_register env now b s).
Proof. done. Qed.

Lemma serve_me now c s : serve env now c (mkRequest GET "/api/auth/me" [] JNull) s = lift (Auth.handle_me env now c s).
Proof. done. Qed.

(** Registering through the auth context and then refreshing the
    session, within the seven days of the token, leaves the context
    signed in as the same user: the one [register] answered, which is
    the one [/api/auth/me] finds with the cookie the registration set. *)
Theorem register_then_refresh w st now now' name email pw phone role :
  name ≠ "" → email ≠ "" → (6 ≤ String.length pw)%nat → (role = "student" ∨ role = "landlord") →
  no_match (matches (Auth.email_q email)) (docs Users (srv w)) →
  no_match (matches [QEq "id" (JStr (Auth.user_id_of now))]) (docs Users (srv w)) →
  (now ≤ now' < now + Auth.SEVEN_DAYS_S * 1000)%Z →
  let '(w1, st1, res) := register env true now name email pw phone role w st in
  let '(w2, st2) := refreshUser env true now' w1 st1 in
  get res "success" = Some (JBool true) ∧ is_Some (user st1) ∧ user st2 = user st1 ∧
  jar w1 = Some (Auth.reg_token env now (to_lower email) role) ∧ jar w2 = jar w1.
Proof.
  intros Hn He Hp Hr Hfree Hid Hnow.
  set (b := JObj [("name", JStr name); ("email", JStr email); ("password", JStr pw); ("phone", JStr phone);
                  ("role", JStr role)]).
  assert (Hv : Auth.reg_valid b (JStr name) email pw role).
  { unfold Auth.reg_valid. split_and!; try done. by apply Auth.truthy_str. }
  destruct (Auth.register_user_new env (srv w) now (to_lower email) (JStr name) pw (get b "phone") role Hfree Hr)
    as (s1 & Hreg & Hu & _).
  unfold register, fetch_json, fetch. rewrite serve_register. unfold Auth.handle_register, run.
  rewrite (Auth.register_validated env (srv w) now b (JStr name) email pw role Hv), Hreg.
  subst b. unfold signed_in. simpl in Hu |- *.
  set (d := Auth.reg_doc (db_next_oid (srv w)) now (to_lower email) pw (JStr name) (Some (JStr phone)) role).
  rewrite (Auth.me_found env s1 now' (Auth.reg_token env now (to_lower email) role)
             (JObj [("userId", JStr (Auth.user_id_of now)); ("email", JStr (to_lower email)); ("role", JStr role)]) d).
  - simpl. split_and!; done.
  - unfold Auth.reg_token, Auth.jwt_verify, Auth.jwt_sign. cbn. rewrite String.eqb_refl.
    by rewrite (proj2 (Z.ltb_lt _ _)) by lia.
  - cbn [docs]. rewrite Hu. apply find_middle with (l2 := []); [done |]. by apply matches_eq_self.
Qed.

End session.

Section witnesses.
#[local] Existing Instance literal_regex.
#[local] Existing Instance Auth.toy_hasher.

Lemma register_then_refresh_witness :
  let '(w1, st1, res) := register None true 1000 "Ann" "ann@uni.edu" "secret1" "" "student"
                           (mkWorld empty_store None) initial in
  let '(w2, st2) := refreshUser None true 2000 w1 st1 in
  get res "success" = Some (JBool true) ∧ is_Some (user st1) ∧ user st2 = user st1 ∧
  jar w1 = Some (Auth.reg_token None 1000 (to_lower "ann@uni.edu") "student") ∧ jar w2 = jar w1.
Proof.
  apply (register_then_refresh None (mkWorld empty_store None) initial 1000 2000 "Ann" "ann@uni.edu" "secret1" ""
           "student"); try discriminate; try decide_goal.
Defined.

End witnesses.
End AuthClient.

End App.
