(* ===== verification/Pages.v ===== *)
(** * The landlord's and the student's dashboard pages

    The client logic of four pages, over [App.fetch]:
    - [LandlordInquiries]: [src/src/app/dashboard/landlord/inquiries/page.tsx]
      (load the landlord's inquiries, change a status, schedule a visit,
      search and filter, the badges and the pending count);
    - [LandlordProperties]: [src/src/app/dashboard/landlord/properties/page.tsx]
      (load, delete, activate or deactivate a listing, search and filter);
    - [LandlordDashboard]: [src/src/app/dashboard/landlord/page.tsx];
    - [StudentDashboard]: [src/src/app/dashboard/student/page.tsx].
    A page's state is the record of its [useState] hooks; an event
    handler is a function of the world, the state and the fetch outcome.
    Values read from a response stay [json]: a page that reads a member
    of a value that is not an object throws, which is [None].  Rendering
    is not modelled. *)

From S2P Require Import Prelude Json MongoDb Wishlist Auth Listing Properties Inquiries App.
Open Scope string_scope.
Open Scope list_scope.
Open Scope un_scope.

Module Pages.
Import App.

(** [`${x}`] of [user?.id]: [undefined] prints as "undefined". *)
Definition interp (o : option string) : string := default "undefined" o.

(** [{ k: user?.id }] in [JSON.stringify]: an [undefined] member is left out. *)
Definition opt_str (k : string) (o : option string) : fields :=
  match o with Some v => [(k, JStr v)] | None => [] end.

(** [x.toLowerCase().includes(term.toLowerCase())]; [None] when [x] is
    not a string ([toLowerCase] of [undefined] or [null] throws). *)
Definition includes_ci (x : option json) (term : string) : option bool :=
  match x with Some (JStr s) => Some (contains (to_lower term) (to_lower s)) | _ => None end.

(** [a || b], each operand evaluated only when needed. *)
Definition or_else (a : option bool) (b : unit → option bool) : option bool :=
  match a with Some true => Some true | Some false => b tt | None => None end.

(** [array.filter(p)] for a predicate that may throw. *)
Fixpoint filter_opt {A} (p : A → option bool) (l : list A) : option (list A) :=
  match l with
  | [] => Some []
  | x :: l' => match p x, filter_opt p l' with
               | Some b, Some r => Some (if b then x :: r else r)
               | _, _ => None
               end
  end.

(** [l.filter((i) => i.status === s).length] *)
Definition count_status (l : list json) (s : string) : nat :=
  length (filter (fun i => bool_decide (get i "status" = Some (JStr s))) l).

(** The array a response member holds, when it is one.  The dashboards'
    [x || []] is [default [] (items x)]: the routes answer arrays, and a
    truthy member that is not one (which [||] would keep) is not
    modelled. *)
Definition items (v : option json) : option (list json) :=
  match v with Some (JArr l) => Some l | _ => None end.

(** ** [dashboard/landlord/inquiries/page.tsx] *)
Module LandlordInquiries.

(** [inquiries] is [None] once [setInquiries] was given a value that is
    not an array (then [.filter] and [.map] on it throw). *)
Record state := mkState {
  inquiries : option (list json); isLoading : bool; searchTerm : string; statusFilter : string;
  selectedInquiry : option json; scheduleDialogOpen : bool; scheduleDate : string; scheduleTime : string;
  notes : string; isUpdating : bool }.

Definition initial : state := mkState (Some []) true "" "all" None false "" "" "" false.

(** [statusOptions]: value and label (the colour classes are styling). *)
Definition statusOptions : list (string * string) :=
  [("PENDING", "Pending"); ("CONTACTED", "Contacted"); ("SCHEDULED", "Visit Scheduled"); ("VISITED", "Visited");
   ("RENTED", "Rented"); ("REJECTED", "Rejected"); ("CANCELLED", "Cancelled")].

(** The text of [getStatusBadge(status)]: [option?.label || status]. *)
Definition status_label (status : string) : string :=
  match List.find (fun o => String.eqb o.1 status) statusOptions with Some o => o.2 | None => status end.

(** [{ ...i, k: v, ... }] on an inquiry object. *)
Definition set_members (i : json) (kvs : fields) : json :=
  match i with JObj fs => JObj (foldl (fun acc kv => set_field kv.1 kv.2 acc) fs kvs) | _ => JObj kvs end.

(** [inquiries.map((i) => i.id === id ? {...i, ...kvs} : i)] *)
Definition update_where (l : list json) (id : option json) (kvs : fields) : list json :=
  map (fun i => if bool_decide (get i "id" = id) then set_members i kvs else i) l.

Section page.
Context `{RegexEngine} `{PasswordHasher}.
Variable env : option string.
(** [new Date(`${date}T${time}`).toISOString()]: [None] is the
    [RangeError] of an invalid date. *)
Variable iso_of : string → option string.

Definition fetchInquiries (ok : bool) (now : Z) (uid : option string) (w : world) (st : state) : world * state :=
  let '(w', data) := fetch_json env ok now (mkRequest GET "/api/inquiries" [("landlordId", interp uid)] JNull) w in
  let l := match data with
           | Some d => if truthy_opt (get d "success") then items (get d "inquiries") else inquiries st
           | None => inquiries st
           end in
  (w', mkState l false (searchTerm st) (statusFilter st) (selectedInquiry st) (scheduleDialogOpen st)
               (scheduleDate st) (scheduleTime st) (notes st) (isUpdating st)).

Definition with_inquiries (st : state) (l : option (list json)) : state :=
  mkState l (isLoading st) (searchTerm st) (statusFilter st) (selectedInquiry st) (scheduleDialogOpen st)
          (scheduleDate st) (scheduleTime st) (notes st) false.

(** [setInquiries(inquiries.map(f))]; the [map] of a value that is not
    an array throws, and the [catch] leaves the list as it was. *)
Definition map_inquiries (st : state) (f : list json → list json) : state :=
  with_inquiries st (match inquiries st with Some l => Some (f l) | None => None end).

Definition updateInquiryStatus (ok : bool) (now : Z) (uid : option string) (inquiryId newStatus : string)
    (w : world) (st : state) : world * state :=
  let b := JObj ([("id", JStr inquiryId)] ++ opt_str "userId" uid ++ [("status", JStr newStatus)]) in
  let '(w', data) := fetch_json env ok now (mkRequest PUT "/api/inquiries" [] b) w in
  match data with
  | Some d => if truthy_opt (get d "success")
              then (w', map_inquiries st (fun l => update_where l (Some (JStr inquiryId)) [("status", JStr newStatus)]))
              else (w', with_inquiries st (inquiries st))
  | None => (w', with_inquiries st (inquiries st))
  end.

Definition scheduleVisit (ok : bool) (now : Z) (uid : option string) (w : world) (st : state) : world * state :=
  match selectedInquiry st with
  | Some sel =>
      if String.eqb (scheduleDate st) "" || String.eqb (scheduleTime st) "" then (w, st)
      else
        match iso_of (scheduleDate st +:+ "T" +:+ scheduleTime st) with
        | Some iso =>
            let sid := get sel "id" in
            let b := JObj (Auth.opt_field "id" sid ++ opt_str "userId" uid ++
                           [("scheduledVisit", JStr iso); ("landlordNotes", JStr (notes st))]) in
            let '(w', data) := fetch_json env ok now (mkRequest PUT "/api/inquiries" [] b) w in
            match data with
            | Some d =>
                if truthy_opt (get d "success") then
                  match inquiries st with
                  | Some l =>
                      (w', mkState (Some (update_where l sid
                                            [("status", JStr "SCHEDULED"); ("scheduledVisit", JStr iso);
                                             ("landlordNotes", JStr (notes st))]))
                                   (isLoading st) (searchTerm st) (statusFilter st) None false "" "" "" false)
                  | None => (w', with_inquiries st None)
                  end
                else (w', with_inquiries st (inquiries st))
            | None => (w', with_inquiries st (inquiries st))
            end
        | None => (w, with_inquiries st (inquiries st))
        end
  | None => (w, st)
  end.

End page.

(** [filteredInquiries] *)
Definition filteredInquiries (st : state) : option (list json) :=
  inquiries st ≫= filter_opt (fun i =>
    match or_else (includes_ci (get i "studentName") (searchTerm st)) (fun _ =>
            or_else (match get i "property" with
                     | Some (JObj p) => includes_ci (lookup_field "title" p) (searchTerm st)
                     | Some JNull | None => Some false
                     | Some _ => includes_ci None (searchTerm st)
                     end) (fun _ => includes_ci (get i "studentEmail") (searchTerm st))) with
    | Some m => Some (m && (String.eqb (statusFilter st) "all" ||
                            bool_decide (get i "status" = Some (JStr (statusFilter st)))))
    | None => None
    end).

Definition pendingCount (st : state) : option nat := (fun l => count_status l "PENDING") <$> inquiries st.

End LandlordInquiries.

(** ** [dashboard/landlord/properties/page.tsx] *)
Module LandlordProperties.

(** [properties] is [None] once [setProperties] was given a value that is
    not an array. *)
Record state := mkState {
  properties : option (list json); isLoading : bool; searchTerm : string; statusFilter : string;
  deleteDialogOpen : bool; propertyToDelete : option json; isDeleting : bool }.

Definition initial : state := mkState (Some []) true "" "all" false None false.

Definition with_properties (st : state) (l : option (list json)) : state :=
  mkState l (isLoading st) (searchTerm st) (statusFilter st) (deleteDialogOpen st) (propertyToDelete st)
          (isDeleting st).

(** The text of [getStatusBadge(status)]. *)
Definition status_label (status : string) : string :=
  if String.eqb status "ACTIVE" then "Active"
  else if String.eqb status "INACTIVE" then "Inactive"
  else if String.eqb status "PENDING" then "Pending"
  else status.

(** [property.status === "ACTIVE" ? "INACTIVE" : "ACTIVE"] *)
Definition toggled (p : json) : string :=
  if bool_decide (get p "status" = Some (JStr "ACTIVE")) then "INACTIVE" else "ACTIVE".

Section page.
Context `{RegexEngine} `{PasswordHasher}.
Variable env : option string.

Definition fetchProperties (ok : bool) (now : Z) (uid : option string) (w : world) (st : state) : world * state :=
  let '(w', data) := fetch_json env ok now (mkRequest GET "/api/properties" [("landlordId", interp uid)] JNull) w in
  let l := match data with
           | Some d => if truthy_opt (get d "success") then items (get d "properties") else properties st
           | None => properties st
           end in
  (w', mkState l false (searchTerm st) (statusFilter st) (deleteDialogOpen st) (propertyToDelete st) (isDeleting st)).

Definition handleDeleteProperty (ok : bool) (now : Z) (uid : option string) (w : world) (st : state) : world * state :=
  match propertyToDelete st with
  | None => (w, st)
  | Some p =>
      let pid := match get p "id" with Some (JStr x) => x | _ => "undefined" end in
      let '(w', data) := fetch_json env ok now
                           (mkRequest DELETE "/api/properties" [("id", pid); ("landlordId", interp uid)] JNull) w in
      let l := match data with
               | Some d => if truthy_opt (get d "success")
                           then match properties st with
                                | Some l => Some (List.filter (fun q => negb (bool_decide (get q "id" = get p "id"))) l)
                                | None => None
                                end
                           else properties st
               | None => properties st
               end in
      (w', mkState l (isLoading st) (searchTerm st) (statusFilter st) false None false)
  end.

Definition togglePropertyStatus (ok : bool) (now : Z) (uid : option string) (p : json) (w : world) (st : state) :
    world * state :=
  let newStatus := toggled p in
  let b := JObj (Auth.opt_field "id" (get p "id") ++ opt_str "landlordId" uid ++ [("status", JStr newStatus)]) in
  let '(w', data) := fetch_json env ok now (mkRequest PUT "/api/properties" [] b) w in
  match data with
  | Some d => if truthy_opt (get d "success")
              then match properties st with
                   | Some l => (w', with_properties st (Some (LandlordInquiries.update_where l (get p "id")
                                                               [("status", JStr newStatus)])))
                   | None => (w', st)
                   end
              else (w', st)
  | None => (w', st)
  end.

End page.

(** [filteredProperties] *)
Definition filteredProperties (st : state) : option (list json) :=
  properties st ≫= filter_opt (fun p =>
    match or_else (includes_ci (get p "title") (searchTerm st)) (fun _ => includes_ci (get p "city") (searchTerm st)) with
    | Some m => Some (m && (String.eqb (statusFilter st) "all" ||
                            bool_decide (get p "status" = Some (JStr (statusFilter st)))))
    | None => None
    end).

End LandlordProperties.

(** ** [dashboard/landlord/page.tsx] *)
Module LandlordDashboard.

Record stats := mkStats {
  totalProperties : Z; activeListings : Z; totalViews : Z; totalInquiries : json; pendingInquiries : json;
  averageRating : json; monthlyRevenue : Z }.

Definition zero_stats : stats := mkStats 0 0 0 (JNum 0) (JNum 0) (JNum 0) 0.

Record state := mkState { st_stats : stats; recentInquiries : list json; properties : list json; loadingData : bool }.

Definition initial : state := mkState zero_stats [] [] true.

(** [p.k || 0] on an integer member (the sums below add [viewCount] and
    [rent], integers in the documents the handlers write). *)
Definition int_or0 (v : option json) : Z := match v with Some (JNum z) => z | _ => 0 end.

(** [x || 0] *)
Definition or_zero (v : option json) : json := or_default v (JNum 0).

(** [props.reduce((sum, p) => sum + (p.k || 0), 0)] *)
Definition sum_of (k : string) (l : list json) : Z := foldl (fun acc p => acc + int_or0 (get p k))%Z 0%Z l.

Definition stats_of (data : json) (props : list json) : stats :=
  mkStats (Z.of_nat (length props)) (Z.of_nat (count_status props "ACTIVE")) (sum_of "viewCount" props)
          (or_zero (get data "totalInquiries")) (or_zero (get data "pendingInquiries"))
          (or_zero (get data "averageRating")) (sum_of "rent" props).

Section page.
Context `{RegexEngine} `{PasswordHasher}.
Variable env : option string.

(** [fetchDashboardData]: two requests; a throw in either ends the
    [try] and leaves what was set before it. *)
Definition fetchDashboardData (ok1 ok2 : bool) (now : Z) (uid : string) (w : world) (st : state) : world * state :=
  let '(w1, d1) := fetch_json env ok1 now (mkRequest GET "/api/properties/landlord" [("userId", uid)] JNull) w in
  match d1 with
  | None => (w1, mkState (st_stats st) (recentInquiries st) (properties st) false)
  | Some pd =>
      let props := default [] (items (get pd "properties")) in
      let st1 := if truthy_opt (get pd "success") then mkState (stats_of pd props) (recentInquiries st) props false
                 else st in
      let '(w2, d2) := fetch_json env ok2 now
                         (mkRequest GET "/api/inquiries/landlord" [("userId", uid); ("limit", "5")] JNull) w1 in
      match d2 with
      | Some idata => if truthy_opt (get idata "success")
                      then (w2, mkState (st_stats st1) (default [] (items (get idata "inquiries"))) (properties st1) false)
                      else (w2, mkState (st_stats st1) (recentInquiries st1) (properties st1) false)
      | None => (w2, mkState (st_stats st1) (recentInquiries st1) (properties st1) false)
      end
  end.

End page.
End LandlordDashboard.

(** ** [dashboard/student/page.tsx] *)
Module StudentDashboard.

Record state := mkState { wishlist : list json; inquiries : list json; loadingData : bool }.

Definition initial : state := mkState [] [] true.

Section page.
Context `{RegexEngine} `{PasswordHasher}.
Variable env : option string.

Definition fetchData (ok1 ok2 : bool) (now : Z) (uid : string) (w : world) (st : state) : world * state :=
  let '(w1, d1) := fetch_json env ok1 now (mkRequest GET "/api/wishlist" [] JNull) w in
  match d1 with
  | None => (w1, mkState (wishlist st) (inquiries st) false)
  | Some wd =>
      let wl := default [] (items (get wd "propertyIds")) in
      let '(w2, d2) := fetch_json env ok2 now (mkRequest GET "/api/inquiries/student" [("userId", uid)] JNull) w1 in
      match d2 with
      | Some idata => if truthy_opt (get idata "success")
                      then (w2, mkState wl (default [] (items (get idata "inquiries"))) false)
                      else (w2, mkState wl (inquiries st) false)
      | None => (w2, mkState wl (inquiries st) false)
      end
  end.

End page.

(** [propertiesData.properties.filter((p) => wishlist.includes(p.id))]
    over the static listings file. *)
Definition wishlistedProperties (catalogue : list json) (st : state) : list json :=
  List.filter (fun p => match get p "id" with Some x => bool_decide (x ∈ wishlist st) | None => false end) catalogue.

(** [inquiries.filter((i) => i.status === "pending").length] *)
Definition pendingCount (st : state) : nat := count_status (inquiries st) "pending".

End StudentDashboard.

(** ** Lemmas *)

(** What [array.filter(p)] keeps, when no call of [p] throws. *)
Lemma filter_opt_spec {A} (p : A → option bool) l r :
  filter_opt p l = Some r → ∀ x, x ∈ r ↔ x ∈ l ∧ p x = Some true.
Proof.
  revert r. induction l as [|y l IH]; intros r; simpl.
  - intros [= <-] x. split; [intros Hx; by apply not_elem_of_nil in Hx | intros [Hx _]; by apply not_elem_of_nil in Hx].
  - destruct (p y) as [b|] eqn:Hy; [| done]. destruct (filter_opt p l) as [r'|]; [| done].
    intros [= <-] x. specialize (IH r' eq_refl x). destruct b; rewrite ?elem_of_cons, IH; naive_solver.
Qed.

(** ** The dashboards and the routes *)
Section dashboards.
Context `{RegexEngine} `{PasswordHasher}.
Variable env : option string.

(** A path with no route file answers a page that is not JSON, so
    [res.json()] throws, and nothing on the server changes. *)
Lemma fetch_json_unrouted ok now m p ps b w :
  ¬ p ∈ api_paths →
  fetch_json env ok now (mkRequest m p ps b) w = (w, None).
Proof.
  intros Hp. unfold fetch_json, fetch. destruct ok; [| done].
  unfold serve. cbn [path].
  repeat (rewrite (proj2 (String.eqb_neq _ _)) by (intros ->; apply Hp; unfold api_paths; repeat constructor)).
  by destruct w.
Qed.

(** C28. The two dashboards read routes that do not exist
    ([/api/properties/landlord], [/api/inquiries/landlord],
    [/api/inquiries/student]): whatever the server holds, the landlord's
    statistics stay at zero with no recent inquiry, and the student's
    list of inquiries stays empty. *)
Theorem dashboards_never_load ok1 ok2 now uid w :
  let '(w1, st1) := LandlordDashboard.fetchDashboardData env ok1 ok2 now uid w LandlordDashboard.initial in
  let '(w2, st2) := StudentDashboard.fetchData env ok1 ok2 now uid w StudentDashboard.initial in
  LandlordDashboard.st_stats st1 = LandlordDashboard.zero_stats ∧ LandlordDashboard.recentInquiries st1 = [] ∧
  w1 = w ∧ StudentDashboard.inquiries st2 = [].
Proof.
  unfold LandlordDashboard.fetchDashboardData, StudentDashboard.fetchData.
  rewrite fetch_json_unrouted by decide_goal.
  destruct (fetch_json env ok1 now (mkRequest GET "/api/wishlist" [] JNull) w) as [w1 [d|]]; [| done].
  rewrite fetch_json_unrouted by decide_goal. done.
Qed.

End dashboards.

(** ** The landlord's status change against the server *)
Section status_change.
Context `{RegexEngine} `{PasswordHasher}.
Variable env : option string.

Lemma serve_put_inquiries now c b s :
  serve env now c (mkRequest PUT "/api/inquiries" [] b) s = lift (Inquiries.handle_PUT now b s).
Proof. done. Qed.

(** When the landlord of an inquiry changes its status from the
    inquiries page and the request goes through, the page and the
    database agree: the page's list has the inquiry with the new status,
    and the server's document of that inquiry holds the same status. *)
Theorem landlord_status_change_agrees now u iid o inq newStatus w st l :
  iid ≠ "" → ObjectId.of_string iid = Some o →
  List.find (matches [QEq "_id" (JOid o)]) (docs Inquiries (srv w)) = Some inq →
  lookup_field "landlordId" inq = Some (JStr u) → newStatus ≠ "" →
  LandlordInquiries.inquiries st = Some l →
  let '(w', st') := LandlordInquiries.updateInquiryStatus env true now (Some u) iid newStatus w st in
  LandlordInquiries.inquiries st' =
    Some (LandlordInquiries.update_where l (Some (JStr iid)) [("status", JStr newStatus)]) ∧
  ∃ k inq', docs Inquiries (srv w) !! k = Some inq ∧ docs Inquiries (srv w') = <[k:=inq']> (docs Inquiries (srv w)) ∧
            lookup_field "status" inq' = Some (JStr newStatus).
Proof.
  intros Hne Ho Hf Hl Hs Hst.
  set (b := JObj ([("id", JStr iid)] ++ opt_str "userId" (Some u) ++ [("status", JStr newStatus)])).
  assert (Hparty : strict_eq (lookup_field "landlordId" inq) (get b "userId") ||
                   strict_eq (lookup_field "studentId" inq) (get b "userId") = true).
  { rewrite Hl. simpl. by rewrite String.eqb_refl. }
  destruct (Inquiries.PUT_party now b (srv w) iid o inq eq_refl Hne Ho Hf Hparty) as (k & inq' & Hk & Hset & Heq).
  unfold LandlordInquiries.updateInquiryStatus, fetch_json, fetch. rewrite serve_put_inquiries.
  fold b. rewrite Heq. cbn -[docs set_docs]. unfold LandlordInquiries.map_inquiries. rewrite Hst. split; [done |].
  exists k, inq'. split_and!; [done | apply docs_set_docs_eq |].
  apply (set_all_in inq (Inquiries.updates now b)); [apply Inquiries.updates_keys | | done | done].
  apply Inquiries.updates_status. simpl. split; [by apply Auth.truthy_str | done].
Qed.

End status_change.

Section witnesses.
#[local] Existing Instance literal_regex.
#[local] Existing Instance Auth.toy_hasher.

Lemma landlord_status_change_agrees_witness :
  let '(w', st') := LandlordInquiries.updateInquiryStatus None true 30 (Some (ObjectId.to_string 5))
                      (ObjectId.to_string 11) "CONTACTED" (mkWorld (Inquiries.inq_demo "PENDING") None)
                      LandlordInquiries.initial in
  LandlordInquiries.inquiries st' = Some (LandlordInquiries.update_where [] (Some (JStr (ObjectId.to_string 11)))
                                            [("status", JStr "CONTACTED")]) ∧
  ∃ k inq', docs Inquiries (Inquiries.inq_demo "PENDING") !! k = Some (Inquiries.old_inquiry "PENDING") ∧
    docs Inquiries (srv (LandlordInquiries.updateInquiryStatus None true 30 (Some (ObjectId.to_string 5))
                          (ObjectId.to_string 11) "CONTACTED" (mkWorld (Inquiries.inq_demo "PENDING") None)
                          LandlordInquiries.initial).1) = <[k:=inq']> (docs Inquiries (Inquiries.inq_demo "PENDING")) ∧
    lookup_field "status" inq' = Some (JStr "CONTACTED").
Proof.
  refine (landlord_status_change_agrees None 30 (ObjectId.to_string 5) (ObjectId.to_string 11) 11
            (Inquiries.old_inquiry "PENDING") "CONTACTED" (mkWorld (Inquiries.inq_demo "PENDING") None)
            LandlordInquiries.initial [] _ _ _ _ _ _); try discriminate; reflexivity.
Defined.

End witnesses.

End Pages.
