(* ===== verification/Forms.v ===== *)
(** * The add-property form of [src/src/app/dashboard/landlord/add-property/page.tsx]

    The form state is the object of [useState({...})]: a list of members
    with their values, since [updateFormData(field, value)] writes any
    member by name ([{ ...prev, [field]: value }] is [set_field]).
    [toggleAmenity], [addImageUrl] and [removeImage] update it; a value
    that is not of the type the code expects (an [amenities] that is not
    an array) makes the update throw, which is [None].

    [handleSubmit] checks the user, builds the request body
    [propertyData] ([{ ...formData, k: v, ... }]: the members the
    literal names overwrite those of [formData] in place and the new
    ones follow, as [set_field] does), posts it to [/api/properties]
    through [App.fetch_json], and sets [success] or [error].  A throw in
    the body (a [formData] member that is not a string where [split] or
    [toLowerCase] is called) is caught and sets the generic error.

    [parseInt] is [Json.parse_int] of the member's text; [parseFloat] is
    [parse_float] below, over a sign, digits and a decimal fraction (an
    exponent and [Infinity] are not read).  The redirect after two
    seconds ([setTimeout] then [router.push]) is not modelled. *)

From S2P Require Import Prelude Json MongoDb Auth Properties Utils App.
From Stdlib Require Import Ascii.
Open Scope string_scope.
Open Scope list_scope.
Open Scope un_scope.

Module AddProperty.
Import App.

Definition PROPERTY_TYPES : list (string * string) :=
  [("PG", "Paying Guest (PG)"); ("HOSTEL", "Hostel"); ("FLAT", "Flat/Apartment"); ("ROOM", "Single Room")].

Definition FURNISHING_OPTIONS : list (string * string) :=
  [("FULLY_FURNISHED", "Fully Furnished"); ("SEMI_FURNISHED", "Semi Furnished"); ("UNFURNISHED", "Unfurnished")].

Definition GENDER_OPTIONS : list (string * string) :=
  [("MALE", "Boys Only"); ("FEMALE", "Girls Only"); ("ANY", "Any Gender")].

Definition OCCUPANCY_OPTIONS : list (string * string) :=
  [("single", "Single"); ("double", "Double Sharing"); ("triple", "Triple Sharing"); ("quadruple", "Four Sharing");
   ("any", "Any")].

(** [AMENITIES]: id and label (the icon is rendering). *)
Definition AMENITIES : list (string * string) :=
  [("wifi", "WiFi"); ("parking", "Parking"); ("security", "24/7 Security"); ("mess", "Mess/Food");
   ("laundry", "Laundry"); ("tv", "TV"); ("ac", "AC"); ("geyser", "Geyser"); ("gym", "Gym");
   ("power_backup", "Power Backup"); ("water_purifier", "Water Purifier"); ("cctv", "CCTV")].

(** The initial [formData]. *)
Definition initial_form : fields :=
  [("title", JStr ""); ("description", JStr ""); ("propertyType", JStr ""); ("roomType", JStr "sharing");
   ("bhk", JStr "");
   ("address", JStr ""); ("city", JStr ""); ("state", JStr "West Bengal"); ("pincode", JStr "");
   ("landmark", JStr ""); ("latitude", JStr ""); ("longitude", JStr ""); ("nearbyColleges", JStr "");
   ("totalRooms", JStr ""); ("totalBeds", JStr ""); ("availableBeds", JStr ""); ("bedsPerRoom", JStr "");
   ("roomSize", JStr ""); ("bathrooms", JStr ""); ("floorNumber", JStr ""); ("totalFloors", JStr "");
   ("rent", JStr ""); ("deposit", JStr ""); ("maintenanceCharges", JStr ""); ("electricityCharges", JStr "separate");
   ("waterCharges", JStr "included"); ("foodIncluded", JBool false); ("foodCharges", JStr "");
   ("mealsPerDay", JStr "");
   ("genderPreference", JStr ""); ("occupancyType", JStr "double"); ("furnishing", JStr "");
   ("nonVegAllowed", JBool true); ("smokingAllowed", JBool false); ("drinkingAllowed", JBool false);
   ("petsAllowed", JBool false); ("visitorsAllowed", JBool true); ("oppositeSexAllowed", JBool false);
   ("gateClosingTime", JStr "");
   ("amenities", JArr []); ("furnishingDetails", JStr ""); ("availableFrom", JStr ""); ("minimumStay", JStr "6");
   ("noticePeriod", JStr "1"); ("images", JArr [])].

Record state := mkState { isSubmitting : bool; currentStep : Z; error : json; success : bool; formData : fields }.

Definition initial : state := mkState false 1 (JStr "") false initial_form.

Definition with_form (st : state) (f : fields) : state :=
  mkState (isSubmitting st) (currentStep st) (error st) (success st) f.

(** [updateFormData(field, value)] *)
Definition updateFormData (field : string) (value : json) (f : fields) : fields := set_field field value f.

(** [prev.k] when it is an array; [None] when [.includes], [.filter] or
    [.length] on it would throw. *)
Definition arr_member (k : string) (f : fields) : option (list json) :=
  match lookup_field k f with Some (JArr l) => Some l | _ => None end.

(** [toggleAmenity(amenityId)] *)
Definition toggleAmenity (amenityId : string) (f : fields) : option fields :=
  (fun l => set_field "amenities"
              (JArr (if bool_decide (JStr amenityId ∈ l)
                     then List.filter (fun a => negb (strict_eq (Some a) (Some (JStr amenityId)))) l
                     else l ++ [JStr amenityId])) f) <$> arr_member "amenities" f.

(** [addImageUrl], with the answer of [prompt] ([None] when cancelled). *)
Definition addImageUrl (url : option string) (f : fields) : option fields :=
  match url with
  | Some u => if String.eqb u "" then Some f
              else (fun l => set_field "images" (JArr (l ++ [JStr u])) f) <$> arr_member "images" f
  | None => Some f
  end.

(** [removeImage(index)] *)
Definition removeImage (index : nat) (f : fields) : option fields :=
  (fun l => set_field "images" (JArr (omap (fun '(i, x) => if Nat.eqb i index then None else Some x)
                                       (imap pair l))) f) <$> arr_member "images" f.

(** ** The request body *)

(** [/[a-z0-9]/] *)
Definition is_alnum (c : ascii) : bool := Utils.is_lower c || Utils.is_digit c.

(** [.replace(/[^a-z0-9]+/g, "-")]: [in_run] is set inside a run already
    replaced. *)
Fixpoint dash_runs (in_run : bool) (s : string) : string :=
  match s with
  | EmptyString => EmptyString
  | String c s' => if is_alnum c then String c (dash_runs false s')
                   else if in_run then dash_runs true s' else String "-" (dash_runs true s')
  end.

(** [.replace(/(^-|-$)/g, "")]: one dash at each end. *)
Definition strip_end_dash (s : string) : string :=
  if bool_decide (Utils.last_char s = Some "-"%char) then String.substring 0 (String.length s - 1) s else s.

Definition strip_dash_ends (s : string) : string :=
  strip_end_dash (match s with String "-" s' => s' | _ => s end).

(** The slug of [handleSubmit], from the title. *)
Definition title_slug (title : string) : string := strip_dash_ends (dash_runs false (to_lower title)).

(** [String.prototype.trim] *)
Fixpoint trim_end (s : string) : string :=
  match s with
  | EmptyString => EmptyString
  | String c s' => let r := trim_end s' in if is_ws c && String.eqb r "" then EmptyString else String c r
  end.

Definition js_trim (s : string) : string := trim_end (skip_ws s).

(** [s.split(",").map((c) => c.trim()).filter(Boolean)] *)
Definition split_list (s : string) : list json :=
  map JStr (List.filter (fun x => negb (String.eqb x "")) (map js_trim (js_split "," s))).

(** [parseInt(v)] of a form member: the member's text. *)
Definition js_parseInt (v : option json) : option Z :=
  match v with Some (JStr s) => parse_int s | Some (JNum z) => Some z | _ => None end.

(** [parseInt(v) || d] *)
Definition int_or (d : Z) (v : option json) : json :=
  match js_parseInt v with Some z => if Z.eqb z 0 then JNum d else JNum z | None => JNum d end.

(** The digits at the head of [s], their number and value. *)
Fixpoint dec_prefix (s : string) (n : nat) (acc : Z) : nat * Z * string :=
  match s with
  | String c s' => if Utils.is_digit c then dec_prefix s' (S n) (acc * 10 + Z.of_nat (nat_of_ascii c - 48))%Z
                   else (n, acc, s)
  | EmptyString => (n, acc, s)
  end.

(** [parseFloat(s)]: a sign, digits, then a decimal point and digits;
    [None] is [NaN]. *)
Definition parse_float (s : string) : option json :=
  let s := skip_ws s in
  let '(sign, s) := match s with
                    | String "-" s' => ((-1)%Z, s')
                    | String "+" s' => (1%Z, s')
                    | _ => (1%Z, s)
                    end in
  let '(n, ip, rest) := dec_prefix s 0 0 in
  let '(k, fp) := match rest with
                  | String "." r => let '(k, fp, _) := dec_prefix r 0 0 in (k, fp)
                  | _ => (0%nat, 0%Z)
                  end in
  if Nat.eqb (n + k) 0 then None
  else if Nat.eqb k 0 then Some (JNum (sign * ip))
  else Some (JDec (sign * (ip * 10 ^ Z.of_nat k + fp)) k).

(** [parseFloat(v) || d] *)
Definition float_or (d : json) (v : option json) : json :=
  match v with
  | Some (JStr s) => match parse_float s with Some x => if truthy x then x else d | None => d end
  | Some (JNum z) => if Z.eqb z 0 then d else JNum z
  | _ => d
  end.

(** The string members [toLowerCase] and [split] are called on. *)
Definition str_member (k : string) (f : fields) : option string :=
  match lookup_field k f with Some (JStr s) => Some s | _ => None end.

(** [images]: the URLs as image objects, or the placeholder. *)
Definition images_of (l : list json) : json :=
  match l with
  | [] => JArr [JObj [("url", JStr "https://images.unsplash.com/photo-1555854877-bab0e564b8d5?w=800");
                      ("isPrimary", JBool true); ("caption", JStr "Property")]]
  | _ => JArr (imap (fun i url => JObj [("url", url); ("isPrimary", JBool (Nat.eqb i 0)); ("caption", JStr "")]) l)
  end.

Definition member (k : string) (f : fields) : json := default JNull (lookup_field k f).

(** The members [propertyData] writes over [formData], in order. *)
Definition overrides (now : Z) (uid : json) (f : fields) : option fields :=
  title ← str_member "title" f;
  colleges ← str_member "nearbyColleges" f;
  details ← str_member "furnishingDetails" f;
  imgs ← arr_member "images" f;
  let food := truthy_opt (lookup_field "foodIncluded" f) in
  Some [("slug", JStr (title_slug title +:+ "-" +:+ Utils.z_string now)); ("landlordId", uid);
        ("bhk", if truthy_opt (lookup_field "bhk" f) then num_json (js_parseInt (lookup_field "bhk" f)) else JNull);
        ("totalRooms", int_or 1 (lookup_field "totalRooms" f)); ("totalBeds", int_or 1 (lookup_field "totalBeds" f));
        ("availableBeds", int_or 1 (lookup_field "availableBeds" f));
        ("bedsPerRoom", int_or 1 (lookup_field "bedsPerRoom" f)); ("bathrooms", int_or 1 (lookup_field "bathrooms" f));
        ("floorNumber", int_or 1 (lookup_field "floorNumber" f));
        ("totalFloors", int_or 1 (lookup_field "totalFloors" f)); ("rent", int_or 0 (lookup_field "rent" f));
        ("deposit", int_or 0 (lookup_field "deposit" f));
        ("maintenanceCharges", int_or 0 (lookup_field "maintenanceCharges" f));
        ("foodCharges", if food then int_or 0 (lookup_field "foodCharges" f) else JNull);
        ("mealsPerDay", if food then int_or 0 (lookup_field "mealsPerDay" f) else JNum 0);
        ("latitude", float_or (JDec 225 1) (lookup_field "latitude" f));
        ("longitude", float_or (JDec 884 1) (lookup_field "longitude" f));
        ("minimumStay", int_or 6 (lookup_field "minimumStay" f));
        ("noticePeriod", int_or 1 (lookup_field "noticePeriod" f));
        ("nearbyColleges", JArr (split_list colleges)); ("furnishingDetails", JArr (split_list details));
        ("images", images_of imgs);
        ("rules", JObj [("nonVegAllowed", member "nonVegAllowed" f); ("smokingAllowed", member "smokingAllowed" f);
                        ("drinkingAllowed", member "drinkingAllowed" f); ("petsAllowed", member "petsAllowed" f);
                        ("visitorsAllowed", member "visitorsAllowed" f);
                        ("oppositeSexAllowed", member "oppositeSexAllowed" f);
                        ("gateClosingTime", or_default (lookup_field "gateClosingTime" f) JNull)]);
        ("status", JStr "ACTIVE"); ("isVerified", JBool false); ("isFeatured", JBool false); ("viewCount", JNum 0)].

(** [{ ...f, k1: v1, ... }] *)
Definition spread (f kvs : fields) : fields := foldl (fun acc kv => set_field kv.1 kv.2 acc) f kvs.

(** [propertyData] *)
Definition propertyData (now : Z) (uid : json) (f : fields) : option fields := spread f <$> overrides now uid f.

Section submit.
Context `{RegexEngine} `{PasswordHasher}.
Variable env : option string.

Definition set_error (st : state) (e : json) : state := mkState (isSubmitting st) (currentStep st) e (success st) (formData st).

(** [handleSubmit]: the guards leave [isSubmitting] as it was; past them
    the [finally] clears it. *)
Definition handleSubmit (ok : bool) (now : Z) (user : option json) (w : world) (st : state) : world * state :=
  let st := set_error st (JStr "") in
  let uid := user ≫= fun u => get u "id" in
  if negb (truthy_opt uid) then (w, set_error st (JStr "You must be logged in to add a property"))
  else if negb (strict_eq (user ≫= fun u => get u "role") (Some (JStr "landlord"))) then
    (w, set_error st (JStr "Only landlords can add properties. Please register as a landlord."))
  else
    let done_ st' := mkState false (currentStep st') (error st') (success st') (formData st') in
    match propertyData now (default JNull uid) (formData st) with
    | None => (w, done_ (set_error st (JStr "Failed to add property. Please try again.")))
    | Some pd =>
        let '(w', data) := fetch_json env ok now (mkRequest POST "/api/properties" [] (JObj pd)) w in
        match data with
        | None => (w', done_ (set_error st (JStr "Failed to add property. Please try again.")))
        | Some d =>
            if truthy_opt (get d "success")
            then (w', done_ (mkState true (currentStep st) (error st) true (formData st)))
            else (w', done_ (set_error st (or_default (get d "message") (JStr "Failed to add property"))))
        end
    end.

End submit.

(** A form filled in by the landlord of [Properties.props_demo], whose
    account was registered at time 1000. *)
Definition filled_form : fields :=
  spread initial_form [("title", JStr "Cozy PG near Jadavpur"); ("description", JStr "Two beds");
                       ("propertyType", JStr "PG"); ("address", JStr "12 Raja SC Mullick Rd");
                       ("city", JStr "Kolkata"); ("rent", JStr "8000"); ("deposit", JStr "16000");
                       ("nearbyColleges", JStr "JU, IACS")].

Definition landlord_user : json := JObj [("id", JStr (Auth.user_id_of 1000)); ("role", JStr "landlord")].

(** ** Lemmas *)

Lemma lookup_field_app k l1 l2 :
  lookup_field k (l1 ++ l2) = match lookup_field k l1 with Some v => Some v | None => lookup_field k l2 end.
Proof. induction l1 as [|[k' v'] l1 IH]; simpl; [done |]. by case_decide. Qed.

(** A member of [{ ...f, k1: v1, ... }]: the last value the literal
    gives it, or else the one of [f]. *)
Lemma lookup_spread k f kvs :
  lookup_field k (spread f kvs) = match lookup_field k (rev kvs) with Some v => Some v | None => lookup_field k f end.
Proof.
  revert f. induction kvs as [|[k' v'] kvs IH]; intros f; [done |]. unfold spread in *. simpl.
  rewrite IH, lookup_field_app. destruct (lookup_field k (rev kvs)); [done |]. simpl.
  case_decide as Hk; [subst; apply lookup_set_field_eq | by apply lookup_set_field_ne].
Qed.

Lemma overrides_landlord now uid f kvs : overrides now uid f = Some kvs → lookup_field "landlordId" (rev kvs) = Some uid.
Proof.
  unfold overrides. destruct (str_member "title" f), (str_member "nearbyColleges" f),
    (str_member "furnishingDetails" f), (arr_member "images" f); intros Hk; try discriminate.
  by injection Hk as <-.
Qed.

Lemma propertyData_landlord now uid f pd :
  propertyData now uid f = Some pd → lookup_field "landlordId" pd = Some uid.
Proof.
  unfold propertyData. destruct (overrides now uid f) as [kvs|] eqn:Hk; intros Hpd; [| done].
  injection Hpd as <-. by rewrite lookup_spread, (overrides_landlord _ _ _ _ Hk).
Qed.

Lemma set_field_twice k v1 v2 f : set_field k v2 (set_field k v1 f) = set_field k v2 f.
Proof. induction f as [|[k' v'] f IH]; simpl; repeat (case_decide; simpl); congruence. Qed.

Lemma set_field_same k v f : lookup_field k f = Some v → set_field k v f = f.
Proof. induction f as [|[k' v'] f IH]; simpl; [done |]. case_decide; [congruence | intros; f_equal; auto]. Qed.

(** [prev.amenities.filter((a) => a !== id)] of [[...l, id]] with [id]
    not in [l] is [l]. *)
Lemma filter_out_snoc a l :
  JStr a ∉ l → List.filter (fun x => negb (strict_eq (Some x) (Some (JStr a)))) (l ++ [JStr a]) = l.
Proof.
  intros Ha. induction l as [|x l IH]; cbn -[strict_eq]; [by rewrite strict_eq_str_refl |].
  apply not_elem_of_cons in Ha as [Hx Ha].
  rewrite strict_eq_str_ne by congruence. cbn -[strict_eq]. by rewrite IH.
Qed.

(** Ticking an amenity the form does not list and ticking it again
    gives back the form as it was. *)
Theorem toggleAmenity_twice a f l :
  arr_member "amenities" f = Some l → JStr a ∉ l → (toggleAmenity a f ≫= toggleAmenity a) = Some f.
Proof.
  intros Hl Ha. unfold toggleAmenity at 2. rewrite Hl. cbn -[strict_eq]. rewrite bool_decide_eq_false_2 by done.
  unfold toggleAmenity, arr_member. rewrite lookup_set_field_eq. cbn -[strict_eq].
  rewrite bool_decide_eq_true_2 by (apply elem_of_app; right; by left).
  rewrite set_field_twice, filter_out_snoc by done. f_equal. apply set_field_same.
  unfold arr_member in Hl. by destruct (lookup_field "amenities" f) as [[]|]; simplify_eq.
Qed.

Section submit_facts.
Context `{RegexEngine} `{PasswordHasher}.
Variable env : option string.

Lemma serve_post_properties now c b s :
  serve env now c (mkRequest POST "/api/properties" [] b) s = lift (Properties.handle_POST now b s).
Proof. done. Qed.

(** C29. The add-property page never lists a property: the landlord id
    it sends is the account's [id], [user-<time>], which the server
    looks up as an [_id] and never finds, so whatever the form holds
    and whatever the fetch does, the database is left as it was and the
    page does not report success. *)
Theorem add_property_never_lists ok now t u w st :
  get u "id" = Some (JStr (Auth.user_id_of t)) → Forall has_oid (docs Users (srv w)) →
  let '(w', st') := handleSubmit env ok now (Some u) w st in srv w' = srv w ∧ success st' = success st.
Proof.
  intros Hid Hu. unfold handleSubmit. simpl. rewrite Hid.
  destruct (negb (truthy_opt _)); [done |]. destruct (negb (strict_eq _ _)); [done |]. simpl.
  destruct (propertyData now (JStr (Auth.user_id_of t)) (formData st)) as [pd|] eqn:Hpd; [| done].
  unfold fetch_json, fetch. destruct ok; [| done]. rewrite serve_post_properties.
  destruct (Properties.POST_user_id_landlord now (JObj pd) t (srv w)) as (r & -> & Hr);
    [discriminate | by apply propertyData_landlord in Hpd | done |].
  simpl. by rewrite Hr.
Qed.

End submit_facts.

Section witnesses.
#[local] Existing Instance literal_regex.
#[local] Existing Instance Auth.toy_hasher.

Lemma add_property_never_lists_witness :
  let '(w', st') := handleSubmit None true 3000 (Some landlord_user) (mkWorld Properties.props_demo None)
                      (with_form initial filled_form) in
  srv w' = Properties.props_demo ∧ success st' = false.
Proof.
  apply (add_property_never_lists None true 3000 1000 landlord_user (mkWorld Properties.props_demo None)
           (with_form initial filled_form)); [reflexivity |].
  repeat constructor; eexists; reflexivity.
Defined.

Lemma toggleAmenity_twice_witness : (toggleAmenity "wifi" initial_form ≫= toggleAmenity "wifi") = Some initial_form.
Proof. apply (toggleAmenity_twice "wifi" initial_form []); [reflexivity | apply not_elem_of_nil]. Defined.

End witnesses.

End AddProperty.
