(* ===== verification/PublicPages.v ===== *)
(** * The public listing pages

    - [Catalogue]: [src/src/app/properties/page.tsx].  The listings come
      from the static file [@/data/properties.json], which is not in the
      repository: it is the parameter [catalogue].  The page's state is
      its hooks; [filteredProperties] is its [useMemo]: the search, the
      location, the type, the price range and the gender filters, then
      [Array.prototype.sort] with the comparator of [sortBy].  The sort
      is stable (ES2019) and its comparators are differences of numeric
      keys, so its result is the stable sort by that key: [isort], an
      insertion sort that puts an element after the ones with an equal
      key.  Numbers are compared as rationals ([num_q]); a [rent] that is
      not a number (the file's rents are numbers) fails the price
      filter, as [undefined >= 0] does.
    - [WishlistPage]: [src/src/app/wishlist/page.tsx]: the wishlist the
      server holds and its two removals.
    - [DetailPage]: [src/src/app/properties/[slug]/page.tsx]: the
      listing found by its slug, its reviews, the wishlist button and
      the image carousel.
    - [dashboard_redirect]: [src/src/app/dashboard/page.tsx].

    [includes] on [wishlist] is modelled for an array, which is what the
    wishlist routes answer; the query string a page builds by
    interpolation is the parameter list it means (an id holding [&],
    [=] or [#] is not re-parsed). *)

From S2P Require Import Prelude Json MongoDb Wishlist Auth App Pages.
From Stdlib Require Import QArith Sorting.Sorted.
Open Scope string_scope.
Open Scope list_scope.
Open Scope un_scope.

(** ** A stable sort by a rational key *)
Section isort.
Context {A : Type} (key : A → Q).

(** Insert [x] after every element whose key is not greater. *)
Fixpoint insert_by (x : A) (l : list A) : list A :=
  match l with
  | [] => [x]
  | y :: l' => if Qle_bool (key y) (key x) then y :: insert_by x l' else x :: l
  end.

Definition isort (l : list A) : list A := foldl (fun acc x => insert_by x acc) [] l.

End isort.

Module Catalogue.
Import App Pages.

Inductive sort_option := relevance | price_low | price_high | rating | newest.

Record filters := mkFilters { propertyType : string; priceRange : Z * Z; gender : string }.

Record state := mkState {
  properties : list json; isLoading : bool; searchQuery : string; location : string; sortBy : sort_option;
  wishlist : json; flt : filters }.

Definition default_filters : filters := mkFilters "" (0, 50000)%Z "".

(** The hooks' initial values, from [searchParams.get("q")] and
    [searchParams.get("location")]. *)
Definition initial (q loc : option string) : state :=
  mkState [] true (default "" q) (default "" loc) relevance (JArr []) default_filters.

(** The timer of the mount effect: the listings file is loaded. *)
Definition load (catalogue : list json) (st : state) : state :=
  mkState catalogue false (searchQuery st) (location st) (sortBy st) (wishlist st) (flt st).

Definition with_wishlist (st : state) (v : json) : state :=
  mkState (properties st) (isLoading st) (searchQuery st) (location st) (sortBy st) v (flt st).

(** A number as a rational. *)
Definition num_q (v : json) : option Q :=
  match num_val v with Some (m, e) => Some (Qmake m (Z.to_pos (10 ^ Z.of_nat e))) | None => None end.

(** [p.k.toLowerCase().includes(q)] with [q] already in lower case;
    [None] when [p.k] is not a string. *)
Definition includes_lower (x : option json) (q : string) : option bool :=
  match x with Some (JStr s) => Some (contains q (to_lower s)) | _ => None end.

(** [p.rent >= lo && p.rent <= hi] *)
Definition in_price (r : Z * Z) (p : json) : bool :=
  match get p "rent" ≫= num_q with
  | Some x => Qle_bool (inject_Z r.1) x && Qle_bool x (inject_Z r.2)
  | None => false
  end.

(** The sort keys: [rent], and [averageRating || 0]. *)
Definition rent_key (p : json) : Q := default 0%Q (get p "rent" ≫= num_q).
Definition rating_key (p : json) : Q := default 0%Q (get p "averageRating" ≫= num_q).

(** The search: [title], [description], [city] or [address] contains
    [query]. *)
Definition search_match (query : string) (p : json) : option bool :=
  or_else (includes_lower (get p "title") query) (fun _ =>
  or_else (includes_lower (get p "description") query) (fun _ =>
  or_else (includes_lower (get p "city") query) (fun _ =>
          includes_lower (get p "address") query))).

Definition location_match (loc : string) (p : json) : option bool :=
  or_else (includes_lower (get p "city") loc) (fun _ => includes_lower (get p "address") loc).

(** [p.k === v] *)
Definition member_is (k v : string) (p : json) : bool := strict_eq (get p k) (Some (JStr v)).

(** [filteredProperties] *)
Definition filteredProperties (st : state) : option (list json) :=
  let r0 := properties st in
  r1 ← (if String.eqb (searchQuery st) "" then Some r0
        else filter_opt (search_match (to_lower (searchQuery st))) r0);
  r2 ← (if String.eqb (location st) "" then Some r1
        else filter_opt (location_match (to_lower (location st))) r1);
  let r3 := if String.eqb (propertyType (flt st)) "" then r2
            else List.filter (member_is "propertyType" (propertyType (flt st))) r2 in
  let r4 := List.filter (in_price (priceRange (flt st))) r3 in
  let r5 := if String.eqb (gender (flt st)) "" then r4
            else List.filter (member_is "genderPreference" (gender (flt st))) r4 in
  Some (match sortBy st with
        | price_low => isort rent_key r5
        | price_high => isort (fun p => - rent_key p)%Q r5
        | rating => isort (fun p => - rating_key p)%Q r5
        | _ => r5
        end).

(** [clearFilters] *)
Definition clearFilters (st : state) : state :=
  mkState (properties st) (isLoading st) "" "" (sortBy st) (wishlist st) default_filters.

Section page.
Context `{RegexEngine} `{PasswordHasher}.
Variable env : option string.

(** [fetchWishlist]: [setWishlist(data.propertyIds || [])]. *)
Definition fetchWishlist (ok : bool) (now : Z) (w : world) (st : state) : world * state :=
  let '(w', data) := fetch_json env ok now (mkRequest GET "/api/wishlist" [] JNull) w in
  match data with
  | Some d => (w', with_wishlist st (or_default (get d "propertyIds") (JArr [])))
  | None => (w', st)
  end.

(** [toggleWishlist(propertyId)] *)
Definition toggleWishlist (ok : bool) (now : Z) (propertyId : string) (w : world) (st : state) : world * state :=
  let '(w', data) := fetch_json env ok now
                       (mkRequest PUT "/api/wishlist" [] (JObj [("propertyId", JStr propertyId)])) w in
  match data with
  | Some d => (w', with_wishlist st (or_default (get d "propertyIds") (JArr [])))
  | None => (w', st)
  end.

End page.
End Catalogue.

Module WishlistPage.
Import App.

Record state := mkState { wishlist : json; isLoading : bool }.

Definition initial : state := mkState (JArr []) true.

Section page.
Context `{RegexEngine} `{PasswordHasher}.
Variable env : option string.

(** The answer's [propertyIds || []], or the list as it was when the
    request or [res.json()] throws. *)
Definition settle (data : option json) (st : state) : state :=
  match data with
  | Some d => mkState (or_default (get d "propertyIds") (JArr [])) (isLoading st)
  | None => st
  end.

Definition fetchWishlist (ok : bool) (now : Z) (w : world) (st : state) : world * state :=
  let '(w', data) := fetch_json env ok now (mkRequest GET "/api/wishlist" [] JNull) w in
  (w', mkState (wishlist (settle data st)) false).

Definition removeFromWishlist (ok : bool) (now : Z) (propertyId : string) (w : world) (st : state) :
    world * state :=
  let '(w', data) := fetch_json env ok now (mkRequest DELETE "/api/wishlist" [("propertyId", propertyId)] JNull) w in
  (w', settle data st).

Definition clearWishlist (ok : bool) (now : Z) (w : world) (st : state) : world * state :=
  let '(w', data) := fetch_json env ok now (mkRequest DELETE "/api/wishlist" [("clearAll", "true")] JNull) w in
  (w', settle data st).

End page.

(** [propertiesData.properties.filter((p) => wishlist.includes(p.id))];
    [None] when [wishlist] is not an array. *)
Definition wishlistedProperties (catalogue : list json) (st : state) : option (list json) :=
  match wishlist st with
  | JArr l => Some (List.filter (fun p => match get p "id" with Some x => bool_decide (x ∈ l) | None => false end)
                                catalogue)
  | _ => None
  end.

End WishlistPage.

(** ** [src/src/app/properties/[slug]/page.tsx] *)
Module DetailPage.
Import App.

Record state := mkState {
  property : option json; reviews : list json; isLoading : bool; currentImageIndex : Z; isWishlisted : option json }.

Definition initial : state := mkState None [] true 0 (Some (JBool false)).

(** [property.images.length]; [None] when [images] is not an array (the
    listings file gives every listing an array). *)
Definition images_len (p : json) : option Z :=
  match get p "images" with Some (JArr l) => Some (Z.of_nat (length l)) | _ => None end.

Definition with_index (st : state) (i : Z) : state :=
  mkState (property st) (reviews st) (isLoading st) i (isWishlisted st).

Definition with_flag (st : state) (v : option json) : state :=
  mkState (property st) (reviews st) (isLoading st) (currentImageIndex st) v.

(** The updaters: [prev === n - 1 ? 0 : prev + 1] and
    [prev === 0 ? n - 1 : prev - 1]. *)
Definition next_idx (n i : Z) : Z := if Z.eqb i (n - 1) then 0 else i + 1.
Definition prev_idx (n i : Z) : Z := if Z.eqb i 0 then n - 1 else i - 1.

(** [nextImage] and [prevImage]; [None] when the updater throws. *)
Definition nextImage (st : state) : option state :=
  match property st with
  | Some p => (fun n => with_index st (next_idx n (currentImageIndex st))) <$> images_len p
  | None => Some st
  end.

Definition prevImage (st : state) : option state :=
  match property st with
  | Some p => (fun n => with_index st (prev_idx n (currentImageIndex st))) <$> images_len p
  | None => Some st
  end.

Section page.
Context `{RegexEngine} `{PasswordHasher}.
Variable env : option string.

(** [fetchWishlist] of the effect: [wishlistIds.includes(found.id)]. *)
Definition fetchWishlist (ok : bool) (now : Z) (found : json) (w : world) (st : state) : world * state :=
  let '(w', data) := fetch_json env ok now (mkRequest GET "/api/wishlist" [] JNull) w in
  match data with
  | Some d => match or_default (get d "propertyIds") (JArr []), get found "id" with
              | JArr l, Some x => (w', with_flag st (Some (JBool (bool_decide (x ∈ l)))))
              | JArr _, None => (w', with_flag st (Some (JBool false)))
              | _, _ => (w', st)
              end
  | None => (w', st)
  end.

(** The effect on [params.slug]: the listing with that slug, its
    reviews, then the wishlist flag. *)
Definition mount (catalogue reviewsData : list json) (slug : string) (ok : bool) (now : Z) (w : world)
    (st : state) : world * state :=
  match List.find (fun p => strict_eq (get p "slug") (Some (JStr slug))) catalogue with
  | Some found =>
      let st1 := mkState (Some found) (List.filter (fun r => strict_eq (get r "propertyId") (get found "id")) reviewsData)
                         (isLoading st) (currentImageIndex st) (isWishlisted st) in
      let '(w', st2) := fetchWishlist ok now found w st1 in
      (w', mkState (property st2) (reviews st2) false (currentImageIndex st2) (isWishlisted st2))
  | None => (w, mkState (property st) (reviews st) false (currentImageIndex st) (isWishlisted st))
  end.

(** [toggleWishlist]: [setIsWishlisted(data.isInWishlist)]. *)
Definition toggleWishlist (ok : bool) (now : Z) (w : world) (st : state) : world * state :=
  match property st with
  | None => (w, st)
  | Some p =>
      let b := JObj (Auth.opt_field "propertyId" (get p "id")) in
      let '(w', data) := fetch_json env ok now (mkRequest PUT "/api/wishlist" [] b) w in
      match data with Some d => (w', with_flag st (get d "isInWishlist")) | None => (w', st) end
  end.

End page.
End DetailPage.

(** [src/src/app/dashboard/page.tsx]: where the effect sends the user,
    if anywhere. *)
Definition dashboard_redirect (isLoading isAuthenticated : bool) (user : option json) : option string :=
  if isLoading then None
  else if negb isAuthenticated then Some "/login"
  else if strict_eq (user ≫= fun u => get u "role") (Some (JStr "landlord")) then Some "/dashboard/landlord"
  else if strict_eq (user ≫= fun u => get u "role") (Some (JStr "student")) then Some "/dashboard/student"
  else None.

(** Three listings for concrete runs. *)
Definition cat_demo : list json :=
  [JObj [("id", JStr "a"); ("title", JStr "Sunny PG"); ("description", JStr "Near JU"); ("city", JStr "Kolkata");
         ("address", JStr "Jadavpur"); ("propertyType", JStr "PG"); ("rent", JNum 9000);
         ("genderPreference", JStr "ANY")];
   JObj [("id", JStr "b"); ("title", JStr "Hostel Blue"); ("description", JStr "Mess"); ("city", JStr "Kolkata");
         ("address", JStr "Salt Lake"); ("propertyType", JStr "HOSTEL"); ("rent", JNum 6000);
         ("genderPreference", JStr "MALE")];
   JObj [("id", JStr "c"); ("title", JStr "Flat"); ("description", JStr "2BHK"); ("city", JStr "Howrah");
         ("address", JStr "Shibpur"); ("propertyType", JStr "FLAT"); ("rent", JDec 75005 1);
         ("genderPreference", JStr "ANY")]].

Definition cat_state : Catalogue.state :=
  Catalogue.mkState cat_demo false "kolkata" "" Catalogue.price_low (JArr []) Catalogue.default_filters.

(** The page of listing [p1], with three images, on its last one. *)
Definition detail_state : DetailPage.state :=
  DetailPage.mkState (Some (JObj [("id", JStr "p1"); ("slug", JStr "sunny-pg"); ("images", JArr [JStr "a"; JStr "b"; JStr "c"])]))
                     [] false 2 (Some (JBool false)).

(** ** The sort *)
Section isort_facts.
Context {A : Type} (key : A → Q).

Let R (a b : A) : Prop := (key a <= key b)%Q.

Lemma insert_by_perm x l : insert_by key x l ≡ₚ x :: l.
Proof.
  induction l as [|y l IH]; simpl; [done |]. destruct (Qle_bool _ _); [| done].
  rewrite IH. by constructor.
Qed.

Lemma isort_perm l : isort key l ≡ₚ l.
Proof.
  unfold isort. rewrite <- (app_nil_l l) at 2. generalize (@nil A) as acc.
  induction l as [|x l IH]; intros acc; simpl; [by rewrite app_nil_r |].
  rewrite IH, insert_by_perm. simpl. apply Permutation_middle.
Qed.

Lemma insert_by_hd y x l : HdRel R y l → R y x → HdRel R y (insert_by key x l).
Proof.
  intros Hl Hx. destruct l as [|z l]; simpl; [by constructor |].
  destruct (Qle_bool _ _); constructor; [by inversion Hl | done].
Qed.

Lemma insert_by_sorted x l : Sorted R l → Sorted R (insert_by key x l).
Proof.
  induction 1 as [|y l Hl IH Hy]; simpl; [by repeat constructor |].
  destruct (Qle_bool (key y) (key x)) eqn:E.
  - constructor; [done |]. apply insert_by_hd; [done |]. by apply Qle_bool_iff.
  - constructor; [by constructor |]. constructor. unfold R.
    apply Qlt_le_weak, Qnot_le_lt. intros Hle. apply Qle_bool_iff in Hle. congruence.
Qed.

Lemma isort_sorted l : Sorted R (isort key l).
Proof.
  unfold isort. assert (Hacc : Sorted R []) by constructor. revert Hacc. generalize (@nil A) as acc.
  induction l as [|x l IH]; intros acc Hacc; simpl; [done |]. apply IH. by apply insert_by_sorted.
Qed.

End isort_facts.

Section catalogue_facts.
Import Catalogue.

(** A filter the page applies only when its input is not empty. *)
Lemma stage_opt (q : string) (f : json → option bool) l r :
  (if String.eqb q "" then Some l else Pages.filter_opt f l) = Some r →
  ∀ x, x ∈ r ↔ x ∈ l ∧ (q = "" ∨ f x = Some true).
Proof.
  destruct (String.eqb_spec q "") as [-> | Hq].
  - intros [= <-] x. naive_solver.
  - intros Hr x. rewrite (Pages.filter_opt_spec _ _ _ Hr x). naive_solver.
Qed.

Lemma stage_bool (q : string) (g : json → bool) l x :
  x ∈ (if String.eqb q "" then l else List.filter g l) ↔ x ∈ l ∧ (q = "" ∨ g x = true).
Proof.
  destruct (String.eqb_spec q "") as [-> | Hq]; [naive_solver |].
  rewrite !list_elem_of_In, filter_In. naive_solver.
Qed.

Lemma member_is_spec k v p : member_is k v p = true ↔ get p k = Some (JStr v).
Proof.
  unfold member_is. split; [| intros ->; apply strict_eq_str_refl].
  intros H. destruct (decide (get p k = Some (JStr v))) as [| Hne]; [done |].
  by rewrite strict_eq_str_ne in H.
Qed.

(** Sorted by "price: low to high", the page shows exactly the
    listings of the catalogue that pass the search, the location, the
    type, the price range and the gender filter, in non-decreasing rent. *)
Theorem catalogue_price_low st r :
  sortBy st = price_low → filteredProperties st = Some r →
  Sorted (λ a b, (rent_key a <= rent_key b)%Q) r ∧
  ∀ p, p ∈ r ↔ p ∈ properties st ∧
         (searchQuery st = "" ∨ search_match (to_lower (searchQuery st)) p = Some true) ∧
         (location st = "" ∨ location_match (to_lower (location st)) p = Some true) ∧
         (propertyType (flt st) = "" ∨ get p "propertyType" = Some (JStr (propertyType (flt st)))) ∧
         in_price (priceRange (flt st)) p = true ∧
         (gender (flt st) = "" ∨ get p "genderPreference" = Some (JStr (gender (flt st)))).
Proof.
  intros Hs. unfold filteredProperties. rewrite Hs.
  destruct (if String.eqb (searchQuery st) "" then _ else _) as [r1|] eqn:E1; [| done]. simpl.
  destruct (if String.eqb (location st) "" then _ else _) as [r2|] eqn:E2; [| done]. simpl.
  intros [= <-]. split; [apply isort_sorted |]. intros p.
  rewrite (isort_perm _ _), stage_bool, list_elem_of_In, filter_In, <- list_elem_of_In, stage_bool,
    (stage_opt _ _ _ _ E2), (stage_opt _ _ _ _ E1), !member_is_spec.
  naive_solver.
Qed.
End catalogue_facts.

Import App.

Section wishlist_page_facts.
Context `{RegexEngine} `{PasswordHasher}.
Variable env : option string.

Lemma serve_delete_wishlist now c ps s :
  serve env now c (mkRequest DELETE "/api/wishlist" ps JNull) s = lift (Wishlist.handle_DELETE now ps s).
Proof. done. Qed.

(** Removing a listing on the wishlist page, when the request goes
    through, leaves the page showing the list the server now holds,
    which is the former list without that id. *)
Theorem wishlist_page_remove_agrees now pid w st :
  Wishlist.wl_inv (srv w) → pid ≠ "" →
  let '(w', st') := WishlistPage.removeFromWishlist env true now pid w st in
  WishlistPage.wishlist st' = JArr (Wishlist.wishlist_ids (srv w')) ∧
  Wishlist.wishlist_ids (srv w') = remove_all (JStr pid) (Wishlist.wishlist_ids (srv w)).
Proof.
  intros Hi Hp. pose proof (Wishlist.DELETE_spec (srv w) now [("propertyId", pid)] pid Hi) as Hd.
  unfold WishlistPage.removeFromWishlist, fetch_json, fetch. rewrite serve_delete_wishlist.
  destruct (Wishlist.handle_DELETE now [("propertyId", pid)] (srv w)) as [s' r].
  destruct Hd as (_ & Hids & ->); [discriminate | done | done |]. by split.
Qed.

Lemma serve_put_wishlist now c b s :
  serve env now c (mkRequest PUT "/api/wishlist" [] b) s = lift (Wishlist.handle_PUT now b s).
Proof. done. Qed.

(** The heart button of a listing's page, when the request goes
    through, shows whether the listing is in the wishlist the server
    holds afterwards, and the server's list is the former one with the
    listing toggled. *)
Theorem detail_toggle_agrees now pid p w st :
  DetailPage.property st = Some p → get p "id" = Some (JStr pid) → pid ≠ "" → Wishlist.wl_inv (srv w) →
  let '(w', st') := DetailPage.toggleWishlist env true now w st in
  DetailPage.isWishlisted st' = Some (JBool (bool_decide (JStr pid ∈ Wishlist.wishlist_ids (srv w')))) ∧
  Wishlist.wishlist_ids (srv w') = Wishlist.toggle (JStr pid) (Wishlist.wishlist_ids (srv w)).
Proof.
  intros Hp Hid Hne Hi. unfold DetailPage.toggleWishlist. rewrite Hp, Hid. cbn [Auth.opt_field].
  unfold fetch_json, fetch. rewrite serve_put_wishlist.
  pose proof (Wishlist.PUT_spec (srv w) now (JObj [("propertyId", JStr pid)]) (JStr pid) Hi eq_refl) as Hs.
  destruct (Wishlist.handle_PUT now (JObj [("propertyId", JStr pid)]) (srv w)) as [s' r].
  destruct Hs as (_ & Hids & ->); [by apply Auth.truthy_str | by intros l [=] |]. by split.
Qed.

End wishlist_page_facts.

(** ** The listing page's image carousel and wishlist button *)
Section detail_facts.
Import DetailPage.

Lemma next_prev_idx n i : (1 ≤ n → 0 ≤ i < n → 0 ≤ next_idx n i < n ∧ prev_idx n (next_idx n i) = i)%Z.
Proof.
  intros. unfold next_idx, prev_idx. destruct (Z.eqb_spec i (n - 1)); simpl; [| destruct (Z.eqb_spec (i + 1) 0)];
    try destruct (Z.eqb_spec 0 0); split; lia.
Qed.

Lemma prev_next_idx n i : (1 ≤ n → 0 ≤ i < n → 0 ≤ prev_idx n i < n ∧ next_idx n (prev_idx n i) = i)%Z.
Proof.
  intros. unfold next_idx, prev_idx. destruct (Z.eqb_spec i 0); [destruct (Z.eqb_spec (n - 1) (n - 1)) |
    destruct (Z.eqb_spec (i - 1) (n - 1))]; split; lia.
Qed.

Lemma image_step st p n (f : Z → Z → Z) :
  property st = Some p → images_len p = Some n →
  match property st with
  | Some p => (fun n => with_index st (f n (currentImageIndex st))) <$> images_len p
  | None => Some st
  end = Some (with_index st (f n (currentImageIndex st))).
Proof. intros -> ->. done. Qed.

(** On a listing with [n ≥ 1] images, [nextImage] and [prevImage]
    keep the index in [0, n) and undo each other. *)
Theorem carousel_cycle st p n :
  property st = Some p → images_len p = Some n → (1 ≤ n)%Z → (0 ≤ currentImageIndex st < n)%Z →
  (∃ st', nextImage st = Some st' ∧ (0 ≤ currentImageIndex st' < n)%Z ∧ prevImage st' = Some st) ∧
  (∃ st', prevImage st = Some st' ∧ (0 ≤ currentImageIndex st' < n)%Z ∧ nextImage st' = Some st).
Proof.
  intros Hp Hn H1 Hi. destruct (next_prev_idx n _ H1 Hi) as [Hn1 Hn2]. destruct (prev_next_idx n _ H1 Hi) as [Hp1 Hp2].
  unfold nextImage, prevImage. split; eexists; (split; [by apply (image_step _ p) |]); (split; [done |]);
    (rewrite (image_step _ p n) by done); destruct st; simpl in *; unfold with_index; simpl; congruence.
Qed.
End detail_facts.

Section witnesses.
#[local] Existing Instance literal_regex.
#[local] Existing Instance Auth.toy_hasher.

Lemma catalogue_price_low_witness :
  Catalogue.filteredProperties cat_state = Some [nth 1 cat_demo JNull; nth 0 cat_demo JNull] ∧
  Sorted (λ a b, (Catalogue.rent_key a <= Catalogue.rent_key b)%Q) [nth 1 cat_demo JNull; nth 0 cat_demo JNull].
Proof.
  split; [reflexivity |].
  refine (proj1 (catalogue_price_low cat_state _ eq_refl eq_refl)).
Defined.

Lemma wishlist_page_remove_agrees_witness :
  let '(w', st') := WishlistPage.removeFromWishlist None true 3 "p1" (mkWorld Wishlist.demo None)
                      WishlistPage.initial in
  WishlistPage.wishlist st' = JArr (Wishlist.wishlist_ids (srv w')) ∧
  Wishlist.wishlist_ids (srv w') = remove_all (JStr "p1") (Wishlist.wishlist_ids Wishlist.demo).
Proof.
  apply (wishlist_page_remove_agrees None 3 "p1" (mkWorld Wishlist.demo None) WishlistPage.initial);
    [apply (bool_decide_unpack _); vm_compute; reflexivity | discriminate].
Defined.

Lemma carousel_cycle_witness :
  (∃ st', DetailPage.nextImage detail_state = Some st' ∧ (0 ≤ DetailPage.currentImageIndex st' < 3)%Z ∧
          DetailPage.prevImage st' = Some detail_state) ∧
  (∃ st', DetailPage.prevImage detail_state = Some st' ∧ (0 ≤ DetailPage.currentImageIndex st' < 3)%Z ∧
          DetailPage.nextImage st' = Some detail_state).
Proof. apply (carousel_cycle detail_state _ 3 eq_refl); [reflexivity | lia | simpl; lia]. Defined.

Lemma detail_toggle_agrees_witness :
  let '(w', st') := DetailPage.toggleWishlist None true 3 (mkWorld Wishlist.demo None) detail_state in
  DetailPage.isWishlisted st' = Some (JBool (bool_decide (JStr "p1" ∈ Wishlist.wishlist_ids (srv w')))) ∧
  Wishlist.wishlist_ids (srv w') = Wishlist.toggle (JStr "p1") (Wishlist.wishlist_ids Wishlist.demo).
Proof.
  apply (detail_toggle_agrees None 3 "p1" _ (mkWorld Wishlist.demo None) detail_state eq_refl);
    [reflexivity | discriminate | apply (bool_decide_unpack _); vm_compute; reflexivity].
Defined.

End witnesses.
