(* ===== verification/Home.v ===== *)
(** * The home page, the roommates page and the property card

    - [HomePage]: [src/src/app/page.tsx]: [handleSearch] pushes
      [/properties?q=<encodeURIComponent(searchQuery)>], read back by the
      properties page with [searchParams.get("q")] ([PublicPages]).
    - [Roommates]: [src/src/app/roommates/page.tsx]: the filters over the
      static file [@/data/roommates.json], a parameter (it is not in the
      repository).
    - [PropertyCard]: [src/src/components/property/property-card.tsx]:
      the heart button and the image the card shows.
    - [Header]: [src/src/components/layout/header.tsx]: the initials of
      the avatar and [handleLogout].

    [UrlCodec] is the browser's part, written from the WHATWG and
    ECMAScript definitions: [encodeURIComponent] (UTF-8, upper-case
    hexadecimal) on one-byte code units, and [URLSearchParams.get]
    (split at [&] and the first [=], [+] read as a space,
    percent-decoding, UTF-8 decoding).  A decoded text that is not
    UTF-8, or holds a code point above U+00FF, is [None]: the browser
    substitutes U+FFFD, which one-byte strings cannot hold. *)

From S2P Require Import Prelude Json MongoDb Utils Auth App Forms Pages PublicPages.
From Stdlib Require Import Ascii.
Open Scope string_scope.
Open Scope list_scope.
Open Scope un_scope.

Module UrlCodec.

Definition upper_hex (d : N) : ascii := if (d <? 10)%N then ascii_of_N (48 + d) else ascii_of_N (55 + d).

(** [%XX] of a byte. *)
Definition pct (b : N) : string := String "%" (String (upper_hex (b / 16)) (String (upper_hex (b mod 16)) "")).

(** The characters [encodeURIComponent] leaves as they are:
    [A-Z a-z 0-9 - _ . ! ~ * ' ( )]. *)
Definition unreserved (c : ascii) : bool :=
  let n := nat_of_ascii c in
  (Nat.leb 65 n && Nat.leb n 90) || (Nat.leb 97 n && Nat.leb n 122) || (Nat.leb 48 n && Nat.leb n 57) ||
  existsb (Nat.eqb n) [45; 95; 46; 33; 126; 42; 39; 40; 41].

Definition encode_char (c : ascii) : string :=
  if unreserved c then String c ""
  else let n := N_of_ascii c in
       if (n <? 128)%N then pct n else pct (192 + n / 64) +:+ pct (128 + n mod 64).

Fixpoint encodeURIComponent (s : string) : string :=
  match s with EmptyString => "" | String c s' => encode_char c +:+ encodeURIComponent s' end.

(** Percent-decoding of [application/x-www-form-urlencoded]: [+] is a
    space, [%XX] a byte, and a [%] without two hexadecimal digits stays. *)
Fixpoint pct_decode (s : string) : string :=
  match s with
  | EmptyString => EmptyString
  | String "+" s' => String " " (pct_decode s')
  | String "%" s' =>
      match s' with
      | String h1 (String h2 rest) =>
          match ObjectId.hex_val h1, ObjectId.hex_val h2 with
          | Some d1, Some d2 => String (ascii_of_N (d1 * 16 + d2)) (pct_decode rest)
          | _, _ => String "%" (pct_decode s')
          end
      | _ => String "%" (pct_decode s')
      end
  | String c s' => String c (pct_decode s')
  end.

(** UTF-8 decoding into one-byte code units. *)
Fixpoint utf8_decode (s : string) : option string :=
  match s with
  | EmptyString => Some EmptyString
  | String c s' =>
      let n := N_of_ascii c in
      if (n <? 128)%N then String c <$> utf8_decode s'
      else if (n =? 194)%N || (n =? 195)%N then
        match s' with
        | String c2 s'' =>
            let m := N_of_ascii c2 in
            if (128 <=? m)%N && (m <? 192)%N
            then String (ascii_of_N ((n - 192) * 64 + (m - 128))) <$> utf8_decode s''
            else None
        | EmptyString => None
        end
      else None
  end.

Definition form_decode (s : string) : option string := utf8_decode (pct_decode s).

(** The text before the first [sep], and the rest after it if any. *)
Fixpoint split_first (sep : ascii) (s : string) : string * option string :=
  match s with
  | EmptyString => (EmptyString, None)
  | String c s' =>
      if Ascii.eqb c sep then (EmptyString, Some s')
      else let '(a, b) := split_first sep s' in (String c a, b)
  end.

(** [new URLSearchParams(query).get(k)]. *)
Fixpoint params_get (k : string) (pieces : list string) : option string :=
  match pieces with
  | [] => None
  | p :: ps =>
      if String.eqb p "" then params_get k ps
      else let '(name, value) := split_first "=" p in
           if bool_decide (form_decode name = Some k) then form_decode (default "" value) else params_get k ps
  end.

(** [searchParams.get(k)] on the page a URL leads to. *)
Definition query_get (k : string) (url : string) : option string :=
  match (split_first "?" url).2 with Some q => params_get k (js_split "&" q) | None => None end.

End UrlCodec.

Module HomePage.

(** [handleSearch]: the route pushed. *)
Definition handleSearch (searchQuery : string) : string :=
  if negb (String.eqb (AddProperty.js_trim searchQuery) "")
  then "/properties?q=" +:+ UrlCodec.encodeURIComponent searchQuery
  else "/properties".

(** [propertiesData.properties.slice(0, 6)] *)
Definition featuredProperties (catalogue : list json) : list json := take 6 catalogue.

End HomePage.

Module Roommates.
Import Pages PublicPages.Catalogue.

Record state := mkState { searchQuery : string; cityFilter : string; genderFilter : string }.

Definition initial : state := mkState "" "" "".

(** [filteredRoommates] *)
Definition filteredRoommates (roommates : list json) (st : state) : option (list json) :=
  r1 ← (if String.eqb (searchQuery st) "" then Some roommates
        else let q := to_lower (searchQuery st) in
             filter_opt (fun r => or_else (includes_lower (get r "name") q) (fun _ =>
                                  or_else (includes_lower (get r "college") q) (fun _ =>
                                  or_else (includes_lower (get r "course") q) (fun _ =>
                                          includes_lower (get r "city") q)))) roommates);
  let r2 := if String.eqb (cityFilter st) "" || String.eqb (cityFilter st) "all" then r1
            else List.filter (fun r => strict_eq (get r "city") (Some (JStr (cityFilter st)))) r1 in
  Some (if String.eqb (genderFilter st) "" || String.eqb (genderFilter st) "all" then r2
        else List.filter (fun r => strict_eq (get r "gender") (Some (JStr (genderFilter st)))) r2).

(** [Array.from(new Set(roommates.map((r) => r.city)))]: first
    occurrences, in order ([undefined] is [None]). *)
Fixpoint dedup (seen : list (option json)) (l : list (option json)) : list (option json) :=
  match l with
  | [] => []
  | x :: l' => if bool_decide (x ∈ seen) then dedup seen l' else x :: dedup (x :: seen) l'
  end.

Definition cities (roommates : list json) : list (option json) := dedup [] (map (fun r => get r "city") roommates).

End Roommates.

Module PropertyCard.

Record state := mkState { isLiked : bool; imageError : bool }.

Definition initial (isWishlisted : bool) : state := mkState isWishlisted false.

(** [handleWishlistClick]: the new state and the id passed to
    [onWishlistToggle], if the parent gave one. *)
Definition handleWishlistClick (hasCallback : bool) (id : string) (st : state) : state * option string :=
  (mkState (negb (isLiked st)) (imageError st), if hasCallback then Some id else None).

(** [images.find((img) => img.isPrimary)?.url || images[0]?.url] *)
Definition primaryImage (images : list json) : option json :=
  let first_primary := List.find (fun i => truthy_opt (get i "isPrimary")) images in
  match first_primary ≫= fun i => get i "url" with
  | Some u => if truthy u then Some u else head images ≫= fun i => get i "url"
  | None => head images ≫= fun i => get i "url"
  end.

End PropertyCard.

Module Header.
Import App.

(** [getInitials] of the header: [.slice(0, 2)] where [utils.ts] has
    [.substring(0, 2)], the same on these arguments. *)
Definition getInitials (name : string) : string :=
  Utils.substring0 (Utils.to_upper (String.concat "" (map Utils.first_char (js_split " " name)))) 2.

Section header.
Context `{RegexEngine} `{PasswordHasher}.
Variable env : option string.

(** [handleLogout]: [await logout()], which catches its own errors, then
    [router.push("/")]. *)
Definition handleLogout (ok : bool) (now : Z) (w : world) (st : AuthClient.state) : world * AuthClient.state * string :=
  let '(w', st') := AuthClient.logout env ok now w st in (w', st', "/").

End header.
End Header.

(** ** The search text from the home page to the properties page *)
Section search_link.
Import UrlCodec.

(** One character: its encoding decodes back to it, whatever follows. *)
Lemma form_decode_chunk c X :
  utf8_decode (pct_decode (encode_char c +:+ X)) = String c <$> utf8_decode (pct_decode X).
Proof. destruct c as [[] [] [] [] [] [] [] []]; reflexivity. Qed.

Lemma form_decode_encode s : form_decode (encodeURIComponent s) = Some s.
Proof.
  unfold form_decode. induction s as [|c s IH]; [done |]. simpl. by rewrite form_decode_chunk, IH.
Qed.

Lemma encode_char_no_sep c : Utils.all_chars (Utils.not_char "&") (encode_char c) = true.
Proof. destruct c as [[] [] [] [] [] [] [] []]; reflexivity. Qed.

Lemma encode_no_amp s : Utils.all_chars (Utils.not_char "&") (encodeURIComponent s) = true.
Proof. induction s as [|c s IH]; [done |]. simpl. by rewrite Utils.all_chars_app, encode_char_no_sep, IH. Qed.

(** C36. A search typed on the home page reaches the properties page as
    typed: the query string [handleSearch] builds gives back, through
    [searchParams.get("q")], the text itself, which becomes the
    search page's [searchQuery]. *)
Theorem search_roundtrip q :
  AddProperty.js_trim q ≠ "" →
  query_get "q" (HomePage.handleSearch q) = Some q ∧
  Catalogue.searchQuery (Catalogue.initial (query_get "q" (HomePage.handleSearch q)) None) = q.
Proof.
  intros Hq. assert (Hg : query_get "q" (HomePage.handleSearch q) = Some q).
  { unfold HomePage.handleSearch. rewrite (proj2 (String.eqb_neq _ _) Hq). simpl.
    unfold query_get. simpl. rewrite Utils.js_split_nosep by (simpl; apply encode_no_amp).
    simpl. apply form_decode_encode. }
  split; [done |]. by rewrite Hg.
Qed.

End search_link.

Lemma search_roundtrip_witness :
  UrlCodec.query_get "q" (HomePage.handleSearch "PG near IIT & JU=2") = Some "PG near IIT & JU=2" ∧
  Catalogue.searchQuery (Catalogue.initial (UrlCodec.query_get "q" (HomePage.handleSearch "PG near IIT & JU=2")) None)
  = "PG near IIT & JU=2".
Proof. apply search_roundtrip. discriminate. Defined.
