(* ===== verification/Html.v ===== *)
(** * Rendered views, and where their links lead

    - [Html]: a rendered React tree, [El tag attrs kids] or [Txt s], in a
      small exception monad ([frag], [None] when rendering throws, as
      React does on [undefined.x] or on an object given as a child).
      Class names, keys, styling props and event handlers other than the
      ones named are left out: the view model keeps the structure, the
      texts, the links and the images.  [Locale] is the [Intl] formatting
      ([toLocaleString], [toLocaleDateString]) the pages call, which the
      model does not fix.
    - [Site]: the pages of [src/src/app] (its [page.tsx] files) as the
      App Router matches a path against them, and the links a view holds.
    The lemmas show which links a fragment can render, compositionally:
    [links_in P f] (every link satisfies [P]) and [links_to h f] (a link
    to [h] is there), with a hint database [views] that takes them
    through a render. *)

From S2P Require Import Prelude Json Utils Home.
From Stdlib Require Import Ascii.
Open Scope string_scope.
Open Scope list_scope.
Open Scope un_scope.

Module Html.

Inductive node :=
| El (tag : string) (attrs : list (string * string)) (kids : list node)
| Txt (s : string).

(** The nodes an expression renders; [None] when it throws. *)
Abbreviation frag := (option (list node)).

Definition E (tag : string) (attrs : list (string * string)) (kids : list frag) : frag :=
  (fun ks => [El tag attrs (concat ks)]) <$> mapM id kids.
Definition T (s : string) : frag := Some [Txt s].
Definition none : frag := Some [].
Definition icon (name : string) : frag := E name [] [].
(** The double quote character, as text. *)
Definition dq : string := String (Ascii.ascii_of_nat 34) "".
Definition link (href : string) (kids : list frag) : frag := E "Link" [("href", href)] kids.

(** [{l.map(f)}] *)
Definition each {A} (l : list A) (f : A → frag) : frag := (fun ls => concat ls) <$> mapM f l.

(** [<>...</>]: the children of a fragment, in place. *)
Definition F (kids : list frag) : frag := each kids id.

(** [m * 10^-e] without trailing zeros. *)
Fixpoint norm_dec (m : Z) (e : nat) : Z * nat :=
  match e with
  | O => (m, O)
  | S e' => if Z.eqb (m mod 10) 0 then norm_dec (m / 10) e' else (m, e)
  end.

Definition pad_left (k : nat) (s : string) : string := String.concat "" (repeat "0" (k - String.length s)) +:+ s.

(** [String(x)] of the decimal [m * 10^-e], in the positional notation
    JavaScript uses between [1e-6] and [1e21]. *)
Definition dec_text (m : Z) (e : nat) : string :=
  let '(m', e') := norm_dec m e in
  if Nat.eqb e' 0 then pretty m'
  else let a := Z.abs m' in let p := (10 ^ Z.of_nat e')%Z in
       (if Z.ltb m' 0 then "-" else "") +:+ pretty (a / p)%Z +:+ "." +:+ pad_left e' (pretty (a mod p)%Z).

(** The text React renders for a child value: nothing for [null],
    [undefined] and booleans, the elements of an array in order, and an
    error for an object (an ObjectId or a [Date] among them). *)
Fixpoint child_text (v : json) : option string :=
  match v with
  | JNull | JBool _ => Some ""
  | JNum z => Some (pretty z)
  | JDec m e => Some (dec_text m e)
  | JStr s => Some s
  | JArr l => String.concat "" <$> mapM child_text l
  | _ => None
  end.

Definition V (v : option json) : frag :=
  match v with None => none | Some j => (fun s => [Txt s]) <$> child_text j end.

(** [v.k] read by a render: [null.k] throws, a primitive has none of the
    members the pages read. *)
Definition mem (v : json) (k : string) : option (option json) :=
  match v with JObj fs => Some (lookup_field k fs) | JNull => None | _ => Some None end.

(** [o?.k] *)
Definition opt_mem (o : option json) (k : string) : option (option json) :=
  match o with None | Some JNull => Some None | Some v => mem v k end.

(** [v[0]]: [null[0]] and [undefined[0]] throw. *)
Definition index0 (o : option json) : option (option json) :=
  match o with
  | None | Some JNull => None
  | Some (JArr l) => Some (head l)
  | Some (JObj fs) => Some (lookup_field "0" fs)
  | Some (JStr (String c _)) => Some (Some (JStr (String c "")))
  | Some _ => Some None
  end.

(** [`${v}`] of a value of a parsed JSON document or of a route's
    answer; a [Date] is written by [date_string]. *)
Fixpoint str_of (date_string : json → string) (v : json) : string :=
  match v with
  | JNull => "null"
  | JBool b => if b then "true" else "false"
  | JNum z => pretty z
  | JDec m e => dec_text m e
  | JStr s => s
  | JOid o => ObjectId.to_string o
  | JArr l => String.concat "," (map (fun x => match x with JNull => "" | _ => str_of date_string x end) l)
  | JObj _ => "[object Object]"
  | JTime _ | JDateOf _ => date_string v
  end.

(** The [Intl] and [Date] formatting the pages call. *)
Class Locale := {
  toLocaleString : json → string;            (** [n.toLocaleString()] *)
  toLocaleDateString : option json → string; (** [new Date(v).toLocaleDateString()] *)
  dateString : json → string                 (** [String(date)] *)
}.

Section with_locale.
Context `{Locale}.

Definition interp (o : option json) : string := match o with None => "undefined" | Some v => str_of dateString v end.

(** [a || "d"] where a string is expected. *)
Definition or_str (o : option json) (d : string) : string :=
  match o with Some v => if truthy v then str_of dateString v else d | None => d end.

(** A string attribute: React leaves out [undefined] and [null]. *)
Definition attr_opt (k : string) (o : option json) : list (string * string) :=
  match o with None | Some JNull => [] | Some v => [(k, str_of dateString v)] end.

(** [x.toLocaleString()]: [undefined] and [null] throw. *)
Definition locale_num (o : option json) : frag :=
  match o with None | Some JNull => None | Some v => T (toLocaleString v) end.

End with_locale.

(** The value of attribute [k] of an element. *)
Definition attr_of (k : string) (a : list (string * string)) : option string :=
  snd <$> List.find (fun kv => String.eqb kv.1 k) a.

(** The values of attribute [k] in a tree, in document order. *)
Fixpoint attr_vals (k : string) (n : node) : list string :=
  match n with
  | El _ a ks => option_list (attr_of k a) ++ concat (map (attr_vals k) ks)
  | Txt _ => []
  end.

Abbreviation href_of := (attr_of "href").
Abbreviation hrefs := (attr_vals "href").

Fixpoint texts (n : node) : list string :=
  match n with El _ _ ks => concat (map texts ks) | Txt s => [s] end.

(** The values of attribute [k] in a fragment, none when it throws. *)
Definition frag_attrs (k : string) (f : frag) : list string := from_option (fun ns => concat (map (attr_vals k) ns)) [] f.
Abbreviation frag_hrefs := (frag_attrs "href").

(** Every value of attribute [k] a fragment renders, when it renders,
    satisfies [P]; for [href], every link. *)
Definition attrs_in (k : string) (P : string → Prop) (f : frag) : Prop :=
  ∀ ns, f = Some ns → Forall P (concat (map (attr_vals k) ns)).
Abbreviation links_in := (attrs_in "href").

(** A fragment that renders holds an attribute [k] of value [v]; for
    [href], a link to [v]. *)
Definition attr_to (k v : string) (f : frag) : Prop := ∀ ns, f = Some ns → v ∈ concat (map (attr_vals k) ns).
Abbreviation links_to := (attr_to "href").

End Html.

Module Site.

Inductive seg := Lit (s : string) | Dyn.

(** The [page.tsx] files of [src/src/app]: [properties/[slug]] is the
    one dynamic segment. *)
Definition pages : list (list seg) :=
  [[]; [Lit "properties"]; [Lit "properties"; Dyn]; [Lit "roommates"]; [Lit "wishlist"]; [Lit "dashboard"];
   [Lit "dashboard"; Lit "landlord"]; [Lit "dashboard"; Lit "landlord"; Lit "add-property"];
   [Lit "dashboard"; Lit "landlord"; Lit "inquiries"]; [Lit "dashboard"; Lit "landlord"; Lit "properties"];
   [Lit "dashboard"; Lit "student"]].

Fixpoint seg_match (p : list seg) (s : list string) : bool :=
  match p, s with
  | [], [] => true
  | Lit a :: p', b :: s' => String.eqb a b && seg_match p' s'
  | Dyn :: p', _ :: s' => seg_match p' s'
  | _, _ => false
  end.

(** The path of a link: before [?] and [#], split at [/], empty
    segments dropped. *)
Definition path_segments (href : string) : list string :=
  List.filter (fun s => negb (String.eqb s ""))
    (js_split "/" (UrlCodec.split_first "?" (UrlCodec.split_first "#" href).1).1).

Definition external (href : string) : bool :=
  String.prefix "http://" href || String.prefix "https://" href || String.prefix "mailto:" href ||
  String.prefix "tel:" href.

(** A link some page of the application answers (other than the 404 page). *)
Definition served (href : string) : bool :=
  external href || existsb (fun p => seg_match p (path_segments href)) pages.

Definition dead_links (l : list string) : list string := List.filter (fun h => negb (served h)) l.

End Site.


(** Values for concrete renders. *)
Module Demo.
Import Html.

(** Numbers written as [String] writes them, dates as their ISO text. *)
#[export] Instance plain_locale : Locale := {|
  toLocaleString := str_of (fun _ => "");
  toLocaleDateString := fun o => match o with Some (JStr s) => s | _ => "Invalid Date" end;
  dateString := fun _ => "" |}.

Definition listing (id slug title city ty : string) (rent : Z) : json :=
  JObj [("id", JStr id); ("slug", JStr slug); ("title", JStr title); ("city", JStr city); ("propertyType", JStr ty);
        ("rent", JNum rent); ("averageRating", JDec 45 1);
        ("images", JArr [JObj [("url", JStr ("/img/" +:+ slug +:+ ".jpg")); ("isPrimary", JBool true)]])].

Definition catalogue : list json :=
  [listing "p1" "sunny-pg-jadavpur" "Sunny PG" "Kolkata" "PG" 9000;
   listing "p2" "hostel-blue" "Hostel Blue" "Kolkata" "HOSTEL" 6000;
   listing "p3" "flat-2bhk-howrah" "Flat" "Howrah" "FLAT" 15000].

Definition student : json :=
  JObj [("id", JStr "user-1000"); ("name", JStr "Asha Roy"); ("email", JStr "asha@uni.edu"); ("role", JStr "student")].

Definition landlord : json :=
  JObj [("id", JStr "user-2000"); ("name", JStr "Ravi Sen"); ("email", JStr "ravi@uni.edu"); ("role", JStr "landlord")].

End Demo.

(** ** Lemmas: the attributes and links of a fragment *)
Section links.
Import Html.
Context (k : string).

Lemma attr_vals_concat (ls : list (list node)) :
  concat (map (attr_vals k) (concat ls)) = concat (map (fun l => concat (map (attr_vals k) l)) ls).
Proof. induction ls as [|l ls IH]; [done |]. simpl. by rewrite map_app, concat_app, IH. Qed.

Lemma E_Some t a ks ns :
  E t a ks = Some ns → ∃ ls, Forall2 (λ c l, c = Some l) ks ls ∧ ns = [El t a (concat ls)].
Proof.
  unfold E. destruct (mapM id ks) as [ls|] eqn:Hm; intros; simplify_eq/=.
  exists ls. split; [by apply mapM_Some_1 in Hm | done].
Qed.

Lemma E_attr_vals t a ks ls :
  Forall2 (λ c l, c = Some l) ks ls →
  concat (map (attr_vals k) [El t a (concat ls)]) = option_list (attr_of k a) ++ concat (map (fun l => concat (map (attr_vals k) l)) ls).
Proof. intros _. simpl. by rewrite app_nil_r, attr_vals_concat. Qed.

Context (p : string → bool).

Lemma links_in_E t a ks :
  from_option p true (attr_of k a) = true → Forall (attrs_in k (λ h, p h = true)) ks →
  attrs_in k (λ h, p h = true) (E t a ks).
Proof.
  intros Ha Hks ns (ls & Hl & ->)%E_Some. rewrite (E_attr_vals t a ks ls Hl). apply Forall_app; split.
  - destruct (attr_of k a); simpl in *; by constructor.
  - induction Hl as [|c l ks' ls' Hc _ IH]; [constructor |]. apply Forall_cons in Hks as [Hk' Hks].
    simpl. apply Forall_app. split; [by apply Hk' | by apply IH].
Qed.

Lemma links_in_T s : attrs_in k (λ h, p h = true) (T s).
Proof. intros ns [= <-]. simpl. constructor. Qed.

Lemma links_in_none : attrs_in k (λ h, p h = true) none.
Proof. intros ns [= <-]. constructor. Qed.

Lemma links_in_fail : attrs_in k (λ h, p h = true) None.
Proof. by intros ns. Qed.

Lemma links_in_V v : attrs_in k (λ h, p h = true) (V v).
Proof. intros ns. unfold V, none. destruct v as [j|]; simpl; [destruct (child_text j); simpl |]; intros; simplify_eq/=; constructor. Qed.

Lemma links_in_if (b : bool) f g :
  attrs_in k (λ h, p h = true) f → attrs_in k (λ h, p h = true) g → attrs_in k (λ h, p h = true) (if b then f else g).
Proof. by destruct b. Qed.

Lemma links_in_bind {A} (m : option A) (g : A → frag) :
  (∀ x, m = Some x → attrs_in k (λ h, p h = true) (g x)) → attrs_in k (λ h, p h = true) (m ≫= g).
Proof. intros Hk ns. destruct m as [x|]; simpl; [by apply Hk | done]. Qed.

Lemma links_in_each {A} (l : list A) (f : A → frag) :
  (∀ x, x ∈ l → attrs_in k (λ h, p h = true) (f x)) → attrs_in k (λ h, p h = true) (each l f).
Proof.
  intros Hf ns. unfold each. destruct (mapM f l) as [ls|] eqn:Hm; intros; simplify_eq/=.
  apply mapM_Some_1 in Hm. induction Hm as [|x l' l0 ls' Hx _ IH]; simpl; [constructor |].
  rewrite map_app, concat_app. apply Forall_app. split.
  - apply (Hf x); [by left | done].
  - apply IH. intros y Hy. apply Hf. by right.
Qed.

(** [each] over a list given element by element. *)
Lemma links_in_each_list {A} (l : list A) (f : A → frag) :
  Forall (λ x, attrs_in k (λ h, p h = true) (f x)) l → attrs_in k (λ h, p h = true) (each l f).
Proof. rewrite Forall_forall. apply links_in_each. Qed.

Lemma links_in_locale_num `{Locale} o : attrs_in k (λ h, p h = true) (locale_num o).
Proof. destruct o as [[]|]; simpl; try apply links_in_fail; apply links_in_T. Qed.

Lemma links_to_E_here h t a ks : attr_of k a = Some h → attr_to k h (E t a ks).
Proof. intros Ha ns (ls & Hl & ->)%E_Some. rewrite (E_attr_vals t a ks ls Hl), Ha. by left. Qed.

Lemma links_to_E h t a ks c : c ∈ ks → attr_to k h c → attr_to k h (E t a ks).
Proof.
  intros Hk Hh ns (ls & Hl & ->)%E_Some. rewrite (E_attr_vals t a ks ls Hl). apply elem_of_app. right.
  induction Hl as [|k' l ks' ls' Hk' _ IH]; [by apply not_elem_of_nil in Hk |].
  simpl. apply elem_of_app. apply elem_of_cons in Hk as [-> | Hk]; [left; by apply Hh | right; by apply IH].
Qed.

Lemma links_to_each {A} h (l : list A) (f : A → frag) x : x ∈ l → attr_to k h (f x) → attr_to k h (each l f).
Proof.
  intros Hx Hh ns. unfold each. destruct (mapM f l) as [ls|] eqn:Hm; simpl; intros Hns; [| discriminate].
  injection Hns as <-. apply mapM_Some_1 in Hm. induction Hm as [|y l' l0 ls' Hy _ IH]; [by apply not_elem_of_nil in Hx |].
  simpl. rewrite map_app, concat_app. apply elem_of_app.
  apply elem_of_cons in Hx as [-> | Hx]; [left; by apply Hh | right; by apply IH].
Qed.

Lemma attrs_in_impl (P Q : string → Prop) f : (∀ x, P x → Q x) → attrs_in k P f → attrs_in k Q f.
Proof. intros HPQ Hf ns Hns. eapply Forall_impl; [by apply Hf | done]. Qed.

Lemma mem_get v m x : mem v m = Some x → x = get v m.
Proof. destruct v; simpl; congruence. Qed.

Lemma mem_of_get v m x : get v m = Some x → mem v m = Some (Some x).
Proof. destruct v; simpl; congruence. Qed.

Lemma links_to_bind {A} h (m : option A) (g : A → frag) :
  (∀ x, m = Some x → attr_to k h (g x)) → attr_to k h (m ≫= g).
Proof. intros Hk ns. destruct m as [x|]; simpl; [by apply Hk | done]. Qed.

End links.

(** ** Lemmas: when a fragment renders *)
Section renders.
Import Html.

Lemma renders_E t a ks : Forall is_Some ks → is_Some (E t a ks).
Proof. intros Hks. apply fmap_is_Some, mapM_is_Some_2. by eapply Forall_impl. Qed.

Lemma renders_each {A} (l : list A) (f : A → frag) : (∀ x, x ∈ l → is_Some (f x)) → is_Some (each l f).
Proof. intros Hf. apply fmap_is_Some, mapM_is_Some_2, Forall_forall. done. Qed.

Lemma renders_bind {A} (m : option A) (g : A → frag) x : m = Some x → is_Some (g x) → is_Some (m ≫= g).
Proof. by intros ->. Qed.

Lemma renders_V_str s : is_Some (V (Some (JStr s))).
Proof. by eexists. Qed.

(** [s.split(c)[0]] is a string. *)
Lemma js_split_head c s : ∃ w, head (js_split c s) = Some w.
Proof.
  destruct s as [|a s]; simpl; [eauto |]. case_match; [eauto |]. destruct (js_split c s); eauto.
Qed.

(** The nodes a rendered element holds, for [attr_to]. *)
Lemma attr_to_Some k h f : attr_to k h f → is_Some f → ∃ ns, f = Some ns ∧ h ∈ concat (map (attr_vals k) ns).
Proof. intros Hh [ns Hns]. exists ns. split; [done |]. by apply Hh. Qed.

End renders.

(** ** Lemmas: the pages a link reaches *)
Section site_links.
Import Utils.

Lemma split_first_none c s : all_chars (not_char c) s = true → UrlCodec.split_first c s = (s, None).
Proof.
  induction s as [|d s IH]; [done |]. simpl. unfold not_char at 1.
  intros [Hd Hs]%andb_prop. apply negb_true_iff in Hd. by rewrite Hd, IH.
Qed.

Lemma slug_char_plain c : slug_char c = true → not_char "/" c && not_char "?" c && not_char "#" c = true.
Proof. intros H. destruct c as [[] [] [] [] [] [] [] []]; try discriminate H; reflexivity. Qed.

Lemma split_first_app c a s :
  all_chars (not_char c) a = true →
  UrlCodec.split_first c (a +:+ s) = ((a +:+ (UrlCodec.split_first c s).1), (UrlCodec.split_first c s).2).
Proof.
  induction a as [|d a IH]; [intros _; change ("" +:+ s) with s; by destruct (UrlCodec.split_first c s) |].
  simpl. unfold not_char at 1. intros [Hd Ha]%andb_prop. apply negb_true_iff in Hd. rewrite Hd, IH by done. by destruct (UrlCodec.split_first c s).
Qed.

(** The link [/properties/<slug>] of a card reaches the detail page. *)
Lemma path_detail s :
  all_chars slug_char s = true →
  Site.path_segments ("/properties/" +:+ s) = "properties" :: (if String.eqb s "" then [] else [s]).
Proof.
  intros Hs.
  assert (Hn : ∀ c, c = "/"%char ∨ c = "?"%char ∨ c = "#"%char → all_chars (not_char c) s = true).
  { intros c Hc. apply (all_chars_impl slug_char); [| done]. intros d Hd%slug_char_plain.
    repeat (apply andb_prop in Hd as [Hd ?]); destruct Hc as [-> | [-> | ->]]; done. }
  unfold Site.path_segments. rewrite (split_first_none "#" ("/properties/" +:+ s)) by (simpl; apply Hn; auto).
  cbn [fst]. rewrite (split_first_none "?" ("/properties/" +:+ s)) by (simpl; apply Hn; auto). simpl.
  rewrite js_split_nosep by (apply Hn; auto). by destruct s.
Qed.

Lemma served_detail s : all_chars slug_char s = true → Site.served ("/properties/" +:+ s) = true.
Proof.
  intros Hs. unfold Site.served. rewrite path_detail by done.
  apply orb_true_iff. right. by destruct s.
Qed.

End site_links.

Create HintDb views discriminated.

(** Takes [links_in] through a render; the page's own lemmas for the
    parts that hold data-dependent links are in [views]. *)
Ltac links_in_auto :=
  repeat match goal with
  | |- Forall _ [] => constructor
  | |- Forall _ (_ :: _) => constructor
  | |- Html.attrs_in _ _ (if _ then _ else _) => apply links_in_if
  | |- Html.attrs_in _ _ (_ ≫= _) => apply links_in_bind; intros ??
  | |- Html.attrs_in _ _ (Html.each (_ :: _) _) => apply links_in_each_list
  | |- Html.attrs_in _ _ (Html.each _ _) => apply links_in_each; intros ??
  | |- Html.attrs_in _ _ (Html.F _) =>
      let x := fresh "x" in let Hx := fresh "Hx" in
      apply links_in_each; intros x Hx; repeat (apply elem_of_cons in Hx as [-> | Hx]);
      [.. | by apply not_elem_of_nil in Hx]; cbn [id]
  | |- Html.attrs_in _ _ (Html.T _) => apply links_in_T
  | |- Html.attrs_in _ _ Html.none => apply links_in_none
  | |- Html.attrs_in _ _ (Html.V _) => apply links_in_V
  | |- Html.attrs_in _ _ None => apply links_in_fail
  | |- Html.attrs_in _ _ (Html.locale_num _) => apply links_in_locale_num
  | |- Forall _ _ => assumption
  | |- Html.attrs_in _ _ _ => solve [eauto with views]
  | |- Html.attrs_in _ _ _ =>
      apply links_in_E; [solve [reflexivity | unfold Html.attr_of, Html.attr_opt; simpl; repeat case_match; reflexivity] |]
  end.

(** Finds the path to a link through a render, backtracking over the
    children of each element. *)
Ltac pick_elem := apply list_elem_of_here + (apply list_elem_of_further; pick_elem).

(** Shows that a render does not throw, given the facts in context. *)
Ltac renders_auto :=
  repeat match goal with
  | |- Forall _ [] => constructor
  | |- Forall _ (_ :: _) => constructor
  | |- is_Some (Some _) => by eexists
  | |- is_Some (Html.E _ _ _) => apply renders_E
  | |- is_Some (Html.link _ _) => apply renders_E
  | |- is_Some (Html.F _) =>
      let x := fresh "x" in let Hx := fresh "Hx" in
      apply renders_each; intros x Hx; repeat (apply elem_of_cons in Hx as [-> | Hx]);
      [.. | by apply not_elem_of_nil in Hx]; cbn [id]
  | |- is_Some (Html.each _ _) =>
      let x := fresh "x" in let Hx := fresh "Hx" in
      apply renders_each; intros x Hx; repeat (apply elem_of_cons in Hx as [-> | Hx]);
      [.. | by apply not_elem_of_nil in Hx]
  | |- is_Some (Some ?x ≫= ?g) => apply (renders_bind (Some x) g x eq_refl)
  | |- is_Some (Html.V (Some (JStr _))) => apply renders_V_str
  | |- is_Some (Html.V (JStr <$> head (js_split ?c ?s))) =>
      let w := fresh "w" in destruct (js_split_head c s) as [w ->]; apply renders_V_str
  | |- is_Some _ => solve [eexists; reflexivity]
  end.

Ltac links_to_auto :=
  match goal with
  | |- Html.attr_to _ _ (_ ≫= _) => apply links_to_bind; intros ??; links_to_auto
  | |- Html.attr_to _ _ (Html.F _) => eapply links_to_each; [pick_elem | cbn [id]; links_to_auto]
  | |- Html.attr_to _ _ _ => apply links_to_E_here; reflexivity
  | |- Html.attr_to _ _ _ => eapply links_to_E; [pick_elem | links_to_auto]
  end.
