(* ===== verification/StudentView.v ===== *)
(** * The student dashboard as rendered

    [StudentDashboardView] is the render of
    [src/src/app/dashboard/student/page.tsx] (lines 94-503), over the
    state of [Pages.StudentDashboard] and the session of [App.AuthClient];
    [redirect] is its first effect (lines 46-52).  The theorems say which
    pages its links reach: all of them but the inquiries and settings
    pages of the sidebar, which the application does not have. *)

From S2P Require Import Prelude Json Utils Inquiries App Pages Home Html.
From Stdlib Require Import Ascii.
Open Scope string_scope.
Open Scope list_scope.
Open Scope un_scope.

Module StudentDashboardView.
Import Html Pages.StudentDashboard.

Section view.
Context `{Locale}.

(** The redirect effect: [/login] for a visitor, the landlord dashboard
    for any user whose role is not ["student"]. *)
Definition redirect (isLoading : bool) (user : option json) : option string :=
  if negb isLoading && negb (bool_decide (is_Some user)) then Some "/login"
  else if negb isLoading && negb (strict_eq (user ≫= fun u => get u "role") (Some (JStr "student")))
  then Some "/dashboard/landlord"
  else None.

(** [property.images[0]?.url || "/placeholder.jpg"] *)
Definition image_src (p : json) : option string :=
  imgs ← mem p "images"; i ← index0 imgs; u ← opt_mem i "url"; Some (or_str u "/placeholder.jpg").

(** The picture, title and city of a property card, and its link. *)
Definition card (p : json) (bottom : list frag) : frag :=
  slug ← mem p "slug"; src ← image_src p; title ← mem p "title"; city ← mem p "city";
  link ("/properties/" +:+ interp slug)
    [E "div" [] [E "div" [] [E "Image" ([("src", src)] ++ attr_opt "alt" title) []];
                 E "div" [] [E "h4" [] [V title]; E "div" [] [icon "MapPin"; V city]; E "div" [] bottom]]].

Definition rent_span (p : json) : frag :=
  rent ← mem p "rent"; E "span" [] [T "₹"; locale_num rent].

(** A saved property: the rent and the rating. *)
Definition saved_card (p : json) : frag :=
  rating ← mem p "averageRating";
  card p [rent_span p; E "div" [] [icon "Star"; E "span" [] [V rating]]].

(** A recommended property: the rent and the type. *)
Definition recommended_card (p : json) : frag :=
  ty ← mem p "propertyType";
  card p [rent_span p; E "Badge" [("variant", "secondary")] [V ty]].

Definition sidebar (user : option json) (st : state) : frag :=
  name ← opt_mem user "name"; email ← opt_mem user "email";
  E "aside" [] [E "div" [] [
    E "div" [] [link "/" [E "div" [] [icon "Home"]; E "span" [] [T "UniNest"]]];
    E "nav" [] [
      link "/dashboard/student" [icon "LayoutDashboard"; T "Dashboard"];
      link "/properties" [icon "Search"; T "Browse Properties"];
      link "/wishlist" [icon "Heart"; T "Saved Properties";
        if (0 <? length (wishlist st))%nat
        then E "Badge" [("variant", "secondary")] [T (pretty (length (wishlist st)))] else none];
      link "/dashboard/student/inquiries" [icon "MessageSquare"; T "My Inquiries"];
      link "/roommates" [icon "User"; T "Find Roommates"];
      link "/dashboard/student/settings" [icon "Settings"; T "Settings"]];
    E "div" [] [E "div" [] [E "div" [] [icon "GraduationCap"]; E "div" [] [E "p" [] [V name]; E "p" [] [V email]]];
                E "Button" [("variant", "outline"); ("onClick", "handleLogout")] [icon "LogOut"; T "Sign Out"]]]].

(** [user?.name?.split(" ")[0]]: [split] of a value that is not a
    string throws. *)
Definition first_name (user : option json) : frag :=
  name ← opt_mem user "name";
  match name with
  | None | Some JNull => none
  | Some (JStr s) => V (JStr <$> head (js_split " "%char s))
  | Some _ => None
  end.

Definition header (user : option json) : frag :=
  E "header" [] [E "div" [] [
    E "div" [] [E "h1" [] [T "Dashboard"]; E "p" [] [T "Welcome back, "; first_name user; T "!"]];
    E "div" [] [E "Button" [("variant", "outline")] [icon "Bell"];
                link "/properties" [E "Button" [] [icon "Search"; T "Find Property"]]]]].

Definition stat (title ic : string) (value : frag) (caption : list frag) : frag :=
  E "Card" [] [E "CardHeader" [] [E "CardTitle" [] [T title]; icon ic];
               E "CardContent" [] [E "div" [] [value]; E "p" [] caption]].

Definition stats (st : state) : frag :=
  E "div" [] [
    stat "Saved Properties" "Heart" (T (pretty (length (wishlist st)))) [T "properties in wishlist"];
    stat "Inquiries Sent" "MessageSquare" (T (pretty (length (inquiries st))))
      [T (pretty (pendingCount st)); T " "; T "pending"];
    stat "Properties Viewed" "Eye" (T "24") [T "this month"];
    stat "Scheduled Visits" "Calendar" (T "0") [T "upcoming visits"]].

Definition spinner : frag := E "div" [] [icon "Loader2"].

Definition saved (catalogue : list json) (st : state) : frag :=
  E "Card" [] [
    E "CardHeader" [] [E "div" [] [E "CardTitle" [] [T "Saved Properties"];
                                   E "CardDescription" [] [T "Properties you've added to wishlist"]];
                       link "/wishlist" [E "Button" [("variant", "outline")] [T "View All"; icon "ChevronRight"]]];
    E "CardContent" [] [
      if loadingData st then spinner
      else if Nat.eqb (length (wishlistedProperties catalogue st)) 0 then
        E "div" [] [icon "Heart"; E "h3" [] [T "No saved properties"];
                    E "p" [] [T "Start exploring and save properties you like"];
                    link "/properties" [E "Button" [] [icon "Search"; T "Browse Properties"]]]
      else E "div" [] [each (take 4 (wishlistedProperties catalogue st)) saved_card]]].

Definition recommended (catalogue : list json) : frag :=
  E "Card" [] [E "CardHeader" [] [E "CardTitle" [] [T "Recommended For You"];
                                  E "CardDescription" [] [T "Based on your preferences"]];
               E "CardContent" [] [E "div" [] [each (take 4 catalogue) recommended_card]]].

(** [variant] of an inquiry's badge. *)
Definition badge_variant (status : option json) : string :=
  if strict_eq status (Some (JStr "contacted")) then "default"
  else if strict_eq status (Some (JStr "pending")) then "secondary" else "outline".

Definition inquiry_item (i : json) : frag :=
  title ← mem i "propertyTitle"; status ← mem i "status"; created ← mem i "createdAt";
  E "div" [] [E "div" [] [E "p" [] [V title]; E "Badge" [("variant", badge_variant status)] [V status]];
              E "p" [] [icon "Clock"; T (toLocaleDateString created)]].

Definition my_inquiries (st : state) : frag :=
  E "Card" [] [
    E "CardHeader" [] [E "CardTitle" [] [T "My Inquiries"]; E "CardDescription" [] [T "Status of your property inquiries"]];
    E "CardContent" [] [
      if loadingData st then spinner
      else if Nat.eqb (length (inquiries st)) 0 then
        E "div" [] [icon "MessageSquare"; E "p" [] [T "No inquiries yet. Contact landlords to get started!"]]
      else E "div" [] [each (take 5 (inquiries st)) inquiry_item]]].

Definition action (href ic label : string) : frag :=
  link href [E "Button" [("variant", "outline")] [icon ic; T label]].

Definition quick_actions : frag :=
  E "Card" [] [E "CardHeader" [] [E "CardTitle" [] [T "Quick Actions"]];
               E "CardContent" [] [action "/properties" "Search" "Search Properties";
                                   action "/properties?view=map" "MapPin" "View on Map";
                                   action "/roommates" "User" "Find Roommates";
                                   action "/dashboard/student/settings" "Settings" "Edit Profile"]].

(** The page: a spinner while the session loads, then the sidebar and the
    main column. *)
Definition render (isLoading : bool) (user : option json) (catalogue : list json) (st : state) : frag :=
  if isLoading then E "div" [] [icon "Loader2"]
  else E "div" [] [
    sidebar user st;
    E "main" [] [header user;
      E "div" [] [stats st;
        E "div" [] [E "div" [] [saved catalogue st; recommended catalogue];
                    E "div" [] [my_inquiries st; quick_actions]]]]].

End view.

(** A listing whose [slug] is a slug ([Utils.is_slug]), as [slugify]
    makes them. *)
Definition slug_ok (p : json) : Prop := ∃ s, get p "slug" = Some (JStr s) ∧ Utils.is_slug s = true.

(** The sidebar's links to pages the application does not have. *)
Definition student_dead : list string := ["/dashboard/student/inquiries"; "/dashboard/student/settings"].

(** ** Lemmas *)
Section facts.
Context `{Locale}.
Context (ok : string → bool) (Hok : ∀ h, Site.served h = true → ok h = true).

Lemma card_links q bottom :
  slug_ok q → Forall (links_in (λ h, ok h = true)) bottom → links_in (λ h, ok h = true) (card q bottom).
Proof.
  intros (s & Hs & Hsl) Hb. unfold card.
  assert (Hm : mem q "slug" = Some (Some (JStr s))) by (destruct q; simpl in *; congruence).
  rewrite Hm. simpl. do 3 (apply links_in_bind; intros ??). apply links_in_E.
  - apply Hok, served_detail. unfold Utils.is_slug in Hsl. by repeat apply andb_prop in Hsl as [Hsl _].
  - links_in_auto.
Qed.

Lemma saved_card_links q : slug_ok q → links_in (λ h, ok h = true) (saved_card q).
Proof. intros Hq. unfold saved_card. apply links_in_bind; intros ??. apply card_links; [done |]. unfold rent_span. links_in_auto. Qed.

Lemma recommended_card_links q : slug_ok q → links_in (λ h, ok h = true) (recommended_card q).
Proof. intros Hq. unfold recommended_card. apply links_in_bind; intros ??. apply card_links; [done |]. unfold rent_span. links_in_auto. Qed.

Lemma student_first_name_links user : links_in (λ h, ok h = true) (first_name user).
Proof. unfold first_name. apply links_in_bind; intros [[]|] ?; links_in_auto. Qed.

End facts.

#[export] Hint Resolve student_first_name_links : views.

Lemma slug_ok_saved catalogue st x :
  Forall slug_ok catalogue → x ∈ take 4 (wishlistedProperties catalogue st) → slug_ok x.
Proof. intros Hc Hx%elem_of_take_l%elem_of_List_filter. by eapply Forall_forall. Qed.

Lemma slug_ok_recommended catalogue x : Forall slug_ok catalogue → x ∈ take 4 catalogue → slug_ok x.
Proof. intros Hc Hx%elem_of_take_l. by eapply Forall_forall. Qed.

(** ** Properties *)
Section properties.
Context `{Locale}.

(** C10. Where the student dashboard leads: once the session has loaded,
    every link it renders reaches a page of the application, a listing's
    card reaching the detail page when the listings have slugs, except the
    sidebar's "My Inquiries" and "Settings" links and the "Edit Profile"
    action, whose pages do not exist: the page renders both dead links. *)
Theorem student_dashboard_links user catalogue st :
  Forall slug_ok catalogue →
  links_in (λ h, Site.served h || bool_decide (h ∈ student_dead) = true) (render false user catalogue st) ∧
  links_to "/dashboard/student/inquiries" (render false user catalogue st) ∧
  links_to "/dashboard/student/settings" (render false user catalogue st).
Proof.
  intros Hc. split_and!.
  - unfold render, sidebar, header, stats, stat, saved, recommended, my_inquiries, quick_actions, action, spinner,
      inquiry_item.
    links_in_auto.
    + apply saved_card_links; [intros h ->; done | by eapply slug_ok_saved].
    + apply recommended_card_links; [intros h ->; done | by eapply slug_ok_recommended].
  - unfold render, sidebar. links_to_auto.
  - unfold render, sidebar. links_to_auto.
Qed.

End properties.

(** C13. The dashboard compares statuses in lower case (["pending"],
    ["contacted"]) while the inquiry routes store the upper-case workflow
    names: over inquiries whose statuses are the routes', the "Inquiries
    Sent" card counts 0 pending and every status badge is drawn in the
    neutral "outline" variant. *)
Theorem student_statuses_never_match st :
  Forall (λ i, ∃ s, get i "status" = Some (JStr (Inquiries.status_name s))) (inquiries st) →
  pendingCount st = 0%nat ∧ Forall (λ i, badge_variant (get i "status") = "outline") (inquiries st).
Proof.
  intros Hs. split.
  - unfold pendingCount, Pages.count_status.
    induction Hs as [|i l [s Hi] _ IH]; [done |]. cbn -[get]. rewrite Hi. by destruct s.
  - eapply Forall_impl; [exact Hs |]. intros i [s ->]. by destruct s.
Qed.

Import Demo.

Lemma student_dashboard_links_witness :
  Forall slug_ok Demo.catalogue ∧
  links_to "/dashboard/student/settings"
    (render false (Some Demo.student) Demo.catalogue (mkState [JStr "p2"] [] false)) ∧
  Site.dead_links (frag_hrefs (render false (Some Demo.student) Demo.catalogue (mkState [JStr "p2"] [] false)))
  = ["/dashboard/student/inquiries"; "/dashboard/student/settings"; "/dashboard/student/settings"].
Proof.
  assert (Hc : Forall slug_ok Demo.catalogue) by (repeat constructor; eexists; split; reflexivity).
  split_and!; [done | apply (student_dashboard_links (Some Demo.student) Demo.catalogue _ Hc) | reflexivity].
Defined.

Lemma student_statuses_never_match_witness :
  Forall (λ i, ∃ s, get i "status" = Some (JStr (Inquiries.status_name s)))
    [JObj [("status", JStr "PENDING")]; JObj [("status", JStr "CONTACTED")]] ∧
  pendingCount (mkState [] [JObj [("status", JStr "PENDING")]; JObj [("status", JStr "CONTACTED")]] false) = 0%nat.
Proof.
  assert (H : Forall (λ i, ∃ s, get i "status" = Some (JStr (Inquiries.status_name s)))
                [JObj [("status", JStr "PENDING")]; JObj [("status", JStr "CONTACTED")]]).
  { repeat constructor; [exists Inquiries.PENDING | exists Inquiries.CONTACTED]; reflexivity. }
  split; [done |]. apply (student_statuses_never_match (mkState [] _ false) H).
Defined.

End StudentDashboardView.
