(* ===== verification/LandlordView.v ===== *)
(** * The landlord dashboard as rendered

    [LandlordDashboardView] is the render of
    [src/src/app/dashboard/landlord/page.tsx] (lines 129-487), over the
    state of [Pages.LandlordDashboard] and the session of
    [App.AuthClient]; [redirect] is its first effect (lines 62-68).  The
    theorems say which pages its links reach: all but the settings page
    of the sidebar and of the quick actions, which the application does
    not have. *)

From S2P Require Import Prelude Json Utils App Pages Home Html.
From Stdlib Require Import Ascii.
Open Scope string_scope.
Open Scope list_scope.
Open Scope un_scope.

Module LandlordDashboardView.
Import Html Pages.LandlordDashboard.

Section view.
Context `{Locale}.
(** [s > 0] for a string [s]: [ToNumber] of a string is not modelled. *)
Variable str_gt0 : string → bool.

(** The redirect effect: [/login] for a visitor, the student dashboard
    for any user whose role is not ["landlord"]. *)
Definition redirect (isLoading : bool) (user : option json) : option string :=
  if negb isLoading && negb (bool_decide (is_Some user)) then Some "/login"
  else if negb isLoading && negb (strict_eq (user ≫= fun u => get u "role") (Some (JStr "landlord")))
  then Some "/dashboard/student"
  else None.

(** [v > 0] on a value of a route's answer ([JSON.parse] gives no
    ObjectId and no [Date]); an array compares by its text. *)
Definition gt0 (v : json) : bool :=
  match v with
  | JNum z => Z.ltb 0 z
  | JDec m _ => Z.ltb 0 m
  | JBool b => b
  | JStr s => str_gt0 s
  | JArr _ => str_gt0 (str_of dateString v)
  | _ => false
  end.

Definition first_name (user : option json) : frag :=
  name ← opt_mem user "name";
  match name with
  | None | Some JNull => none
  | Some (JStr s) => V (JStr <$> head (js_split " "%char s))
  | Some _ => None
  end.

Definition sidebar (user : option json) (st : state) : frag :=
  name ← opt_mem user "name"; email ← opt_mem user "email";
  E "aside" [] [E "div" [] [
    E "div" [] [link "/" [E "div" [] [icon "Home"]; E "span" [] [T "UniNest"]]];
    E "nav" [] [
      link "/dashboard/landlord" [icon "LayoutDashboard"; T "Dashboard"];
      link "/dashboard/landlord/properties" [icon "Building2"; T "My Properties"];
      link "/dashboard/landlord/add-property" [icon "Plus"; T "Add Property"];
      link "/dashboard/landlord/inquiries" [icon "MessageSquare"; T "Inquiries";
        if gt0 (pendingInquiries (st_stats st)) then E "Badge" [] [V (Some (pendingInquiries (st_stats st)))] else none];
      link "/dashboard/landlord/settings" [icon "Settings"; T "Settings"]];
    E "div" [] [E "div" [] [E "div" [] [icon "Building2"]; E "div" [] [E "p" [] [V name]; E "p" [] [V email]]];
                E "Button" [("variant", "outline"); ("onClick", "handleLogout")] [icon "LogOut"; T "Sign Out"]]]].

Definition header (user : option json) : frag :=
  E "header" [] [E "div" [] [
    E "div" [] [E "h1" [] [T "Dashboard"]; E "p" [] [T "Welcome back, "; first_name user; T "!"]];
    E "div" [] [E "Button" [("variant", "outline")] [icon "Bell"];
                link "/dashboard/landlord/add-property" [E "Button" [] [icon "Plus"; T "Add Property"]]]]].

Definition stat (title ic : string) (value : list frag) (caption : list frag) : frag :=
  E "Card" [] [E "CardHeader" [] [E "CardTitle" [] [T title]; icon ic];
               E "CardContent" [] [E "div" [] value; E "p" [] caption]].

Definition stats_grid (s : stats) : frag :=
  E "div" [] [
    stat "Total Properties" "Building2" [T (pretty (totalProperties s))]
      [T (pretty (activeListings s)); T " active listings"];
    stat "Total Views" "Eye" [T (toLocaleString (JNum (totalViews s)))] [icon "TrendingUp"; T "+12% from last month"];
    stat "Inquiries" "MessageSquare" [V (Some (totalInquiries s))] [V (Some (pendingInquiries s)); T " pending response"];
    stat "Potential Revenue" "IndianRupee" [T "₹"; T (toLocaleString (JNum (monthlyRevenue s)))] [T "per month"]].

Definition spinner : frag := E "div" [] [icon "Loader2"].

(** [property.images?.[0]?.url] *)
Definition image_url (p : json) : option (option json) :=
  imgs ← mem p "images";
  i ← (match imgs with None | Some JNull => Some None | _ => index0 imgs end);
  opt_mem i "url".

(** [x?.toLocaleString()] *)
Definition opt_locale_num (o : option json) : frag :=
  match o with None | Some JNull => none | Some v => T (toLocaleString v) end.

Definition property_item (p : json) : frag :=
  url ← image_url p; title ← mem p "title"; city ← mem p "city"; rent ← mem p "rent";
  status ← mem p "status"; views ← mem p "viewCount";
  E "div" [] [
    E "div" [] [if truthy_opt url then E "img" ([("src", interp url)] ++ attr_opt "alt" title) [] else icon "Building2"];
    E "div" [] [E "h4" [] [V title]; E "p" [] [V city; T " • ₹"; opt_locale_num rent; T "/mo"]];
    E "div" [] [E "Badge" [("variant", if strict_eq status (Some (JStr "ACTIVE")) then "default" else "secondary")] [V status];
                E "div" [] [icon "Eye"; V (Some (or_default views (JNum 0)))]]].

Definition my_properties (st : state) : frag :=
  E "Card" [] [
    E "CardHeader" [] [E "div" [] [E "CardTitle" [] [T "My Properties"]; E "CardDescription" [] [T "Manage your property listings"]];
                       link "/dashboard/landlord/properties" [E "Button" [("variant", "outline")] [T "View All"; icon "ChevronRight"]]];
    E "CardContent" [] [
      if loadingData st then spinner
      else if Nat.eqb (length (properties st)) 0 then
        E "div" [] [icon "Building2"; E "h3" [] [T "No properties yet"];
                    E "p" [] [T "Start by adding your first property listing"];
                    link "/dashboard/landlord/add-property" [E "Button" [] [icon "Plus"; T "Add Property"]]]
      else E "div" [] [each (take 5 (properties st)) property_item]]].

Definition inquiry_item (i : json) : frag :=
  name ← mem i "studentName"; status ← mem i "status"; message ← mem i "message"; created ← mem i "createdAt";
  E "div" [] [E "div" [] [E "p" [] [V name];
                          E "Badge" [("variant", if strict_eq status (Some (JStr "pending")) then "default" else "secondary")]
                            [V status]];
              E "p" [] [V message]; E "p" [] [T (toLocaleDateString created)]].

Definition recent_inquiries (st : state) : frag :=
  E "Card" [] [
    E "CardHeader" [] [E "CardTitle" [] [T "Recent Inquiries"]; E "CardDescription" [] [T "Latest messages from students"]];
    E "CardContent" [] [
      if loadingData st then spinner
      else if Nat.eqb (length (recentInquiries st)) 0 then
        E "div" [] [icon "MessageSquare"; E "p" [] [T "No inquiries yet"]]
      else E "div" [] [each (recentInquiries st) inquiry_item]]].

Definition action (href ic label : string) : frag :=
  link href [E "Button" [("variant", "outline")] [icon ic; T label]].

Definition quick_actions : frag :=
  E "Card" [] [E "CardHeader" [] [E "CardTitle" [] [T "Quick Actions"]];
               E "CardContent" [] [action "/dashboard/landlord/add-property" "Plus" "Add New Property";
                                   action "/dashboard/landlord/properties" "List" "Manage Listings";
                                   action "/dashboard/landlord/settings" "Settings" "Account Settings"]].

Definition render (isLoading : bool) (user : option json) (st : state) : frag :=
  if isLoading then E "div" [] [icon "Loader2"]
  else E "div" [] [
    sidebar user st;
    E "main" [] [header user;
      E "div" [] [stats_grid (st_stats st);
        E "div" [] [E "div" [] [my_properties st];
                    E "div" [] [recent_inquiries st; quick_actions]]]]].

End view.

Definition landlord_dead : list string := ["/dashboard/landlord/settings"].

(** ** Lemmas *)
Section facts.
Context `{Locale} (str_gt0 : string → bool) (ok : string → bool).

Lemma landlord_first_name_links user : links_in (λ h, ok h = true) (first_name user).
Proof. unfold first_name. apply links_in_bind; intros [[]|] ?; links_in_auto. Qed.

Lemma landlord_opt_locale_num_links o : links_in (λ h, ok h = true) (opt_locale_num o).
Proof. unfold opt_locale_num. destruct o as [[]|]; links_in_auto. Qed.

End facts.

#[export] Hint Resolve landlord_first_name_links landlord_opt_locale_num_links : views.

(** ** Properties *)
Section properties.
Context `{Locale} (str_gt0 : string → bool).

(** C14. Where the landlord dashboard leads: once the session has loaded,
    every link it renders reaches a page of the application except the
    sidebar's "Settings" and the "Account Settings" action, both
    [/dashboard/landlord/settings], which the page always renders and
    the application does not have. *)
Theorem landlord_dashboard_links user st :
  links_in (λ h, Site.served h || bool_decide (h ∈ landlord_dead) = true) (render str_gt0 false user st) ∧
  links_to "/dashboard/landlord/settings" (render str_gt0 false user st).
Proof.
  split.
  - unfold render, sidebar, header, stats_grid, stat, my_properties, property_item, recent_inquiries, inquiry_item,
      quick_actions, action, spinner.
    links_in_auto.
  - unfold render, sidebar. links_to_auto.
Qed.

End properties.

Section witnesses.
#[local] Existing Instance Demo.plain_locale.

(** A landlord whose dashboard has loaded with no listing nor inquiry:
    the page renders, and with it the dead settings link. *)
Lemma landlord_dashboard_links_witness :
  is_Some (render (λ _, false) false (Some Demo.landlord) (mkState zero_stats [] [] false)) ∧
  links_to "/dashboard/landlord/settings" (render (λ _, false) false (Some Demo.landlord) (mkState zero_stats [] [] false)).
Proof.
  split; [vm_compute; by eexists |].
  exact (proj2 (landlord_dashboard_links (λ _, false) (Some Demo.landlord) (mkState zero_stats [] [] false))).
Defined.
End witnesses.
End LandlordDashboardView.
