(* ===== verification/MyPropertiesView.v ===== *)
(** * The landlord's listings page as rendered

    [LandlordPropertiesView] is the render of
    [src/src/app/dashboard/landlord/properties/page.tsx] (lines 172-674)
    over the state of [Pages.LandlordProperties] and the page's
    [viewMode] hook ("grid" or "list", line 90): the header, the search
    and status filters, the four counters, a card per listing that
    [filteredProperties] keeps, in the grid or the list layout, and the
    delete dialog.  The theorems say where its links lead: each card's
    "Edit" links go to [/dashboard/landlord/edit-property/<id>], a page
    the application does not have. *)

From S2P Require Import Prelude Json Utils App Pages Home Html.
From Stdlib Require Import Ascii.
Open Scope string_scope.
Open Scope list_scope.
Open Scope un_scope.

Module LandlordPropertiesView.
Import Html Pages.LandlordProperties.

Section view.
Context `{Locale}.

(** [getStatusBadge(status)] *)
Definition getStatusBadge (status : option json) : frag :=
  if strict_eq status (Some (JStr "ACTIVE")) then E "Badge" [] [icon "CheckCircle2"; T "Active"]
  else if strict_eq status (Some (JStr "INACTIVE")) then E "Badge" [] [icon "EyeOff"; T "Inactive"]
  else if strict_eq status (Some (JStr "PENDING")) then E "Badge" [] [icon "Clock"; T "Pending"]
  else E "Badge" [("variant", "secondary")] [V status].

Definition placeholder : string := "https://images.unsplash.com/photo-1555854877-bab0e564b8d5?w=400".

(** [property.images?.[0]?.url || placeholder] *)
Definition image_src (p : json) : option string :=
  imgs ← mem p "images";
  i ← (match imgs with None | Some JNull => Some None | _ => index0 imgs end);
  u ← opt_mem i "url"; Some (or_str u placeholder).

Definition edit_href (id : option json) : string := "/dashboard/landlord/edit-property/" +:+ interp id.

(** The menu of a card: view, edit, activate or deactivate, delete. *)
Definition menu (trigger : string) (p : json) : frag :=
  slug ← mem p "slug"; id ← mem p "id"; status ← mem p "status";
  E "DropdownMenu" [] [
    E "Button" [("variant", trigger)] [icon "MoreVertical"];
    E "DropdownMenuContent" [] [
      E "DropdownMenuItem" [] [link ("/properties/" +:+ interp slug) [icon "Eye"; T "View"]];
      E "DropdownMenuItem" [] [link (edit_href id) [icon "Edit"; T "Edit"]];
      E "DropdownMenuItem" [("onClick", "togglePropertyStatus")]
        (if strict_eq status (Some (JStr "ACTIVE")) then [icon "EyeOff"; T "Deactivate"] else [icon "Eye"; T "Activate"]);
      E "DropdownMenuItem" [("onClick", "confirmDelete")] [icon "Trash2"; T "Delete"]]].

(** The gender badge. *)
Definition gender_text (g : option json) : string :=
  if strict_eq g (Some (JStr "MALE")) then "Boys" else if strict_eq g (Some (JStr "FEMALE")) then "Girls" else "Any".

Definition grid_card (p : json) : frag :=
  src ← image_src p; title ← mem p "title"; status ← mem p "status"; verified ← mem p "isVerified";
  featured ← mem p "isFeatured"; ty ← mem p "propertyType"; g ← mem p "genderPreference"; city ← mem p "city";
  avail ← mem p "availableBeds"; total ← mem p "totalBeds"; baths ← mem p "bathrooms"; views ← mem p "viewCount";
  inqs ← mem p "inquiryCount"; rent ← mem p "rent"; id ← mem p "id";
  E "Card" [] [
    E "div" [] [
      E "img" ([("src", src)] ++ attr_opt "alt" title) [];
      E "div" [] [getStatusBadge status;
                  if truthy_opt verified then E "Badge" [] [T "Verified"] else V verified;
                  if truthy_opt featured then E "Badge" [] [T "Featured"] else V featured];
      menu "secondary" p];
    E "CardContent" [] [
      E "div" [] [E "Badge" [("variant", "secondary")] [V ty]; E "Badge" [("variant", "outline")] [T (gender_text g)]];
      E "h3" [] [V title];
      E "p" [] [icon "MapPin"; V city];
      E "div" [] [E "span" [] [icon "Bed"; V avail; T "/"; V total]; E "span" [] [icon "Bath"; V baths];
                  E "span" [] [icon "Eye"; V (Some (or_default views (JNum 0)))];
                  E "span" [] [icon "MessageSquare"; V (Some (or_default inqs (JNum 0)))]];
      E "div" [] [E "div" [] [E "span" [] [T "₹"; locale_num rent]; E "span" [] [T "/month"]];
                  link (edit_href id) [E "Button" [("variant", "outline")] [icon "Edit"; T "Edit"]]]]].

Definition list_card (p : json) : frag :=
  src ← image_src p; title ← mem p "title"; status ← mem p "status"; ty ← mem p "propertyType";
  address ← mem p "address"; city ← mem p "city"; avail ← mem p "availableBeds"; total ← mem p "totalBeds";
  views ← mem p "viewCount"; inqs ← mem p "inquiryCount"; rent ← mem p "rent"; id ← mem p "id";
  E "Card" [] [E "div" [] [
    E "div" [] [E "img" ([("src", src)] ++ attr_opt "alt" title) []];
    E "CardContent" [] [
      E "div" [] [E "div" [] [E "div" [] [getStatusBadge status; E "Badge" [("variant", "secondary")] [V ty]];
                              menu "ghost" p];
                  E "h3" [] [V title];
                  E "p" [] [icon "MapPin"; V address; T ", "; V city]];
      E "div" [] [E "div" [] [E "span" [] [icon "Bed"; V avail; T "/"; V total; T " beds"];
                              E "span" [] [icon "Eye"; V (Some (or_default views (JNum 0))); T " views"];
                              E "span" [] [icon "MessageSquare"; V (Some (or_default inqs (JNum 0))); T " inquiries"]];
                  E "div" [] [E "span" [] [T "₹"; locale_num rent; T "/mo"];
                              link (edit_href id) [E "Button" [] [T "Edit"]]]]]]].

Definition header : frag :=
  E "header" [] [E "div" [] [E "div" [] [
    E "div" [] [link "/dashboard/landlord" [E "Button" [("variant", "ghost")] [icon "ArrowLeft"]];
                E "div" [] [E "h1" [] [T "My Properties"]; E "p" [] [T "Manage your property listings"]]];
    link "/dashboard/landlord/add-property" [E "Button" [] [icon "Plus"; T "Add Property"]]]]].

Definition filters (viewMode : string) (st : state) : frag :=
  E "div" [] [
    E "div" [] [E "div" [] [icon "Search"; E "Input" [("placeholder", "Search properties..."); ("value", searchTerm st)] []];
                E "Select" [("value", statusFilter st)] [
                  E "SelectTrigger" [] [icon "Filter"; E "SelectValue" [("placeholder", "Status")] []];
                  E "SelectContent" [] [E "SelectItem" [("value", "all")] [T "All Status"];
                                        E "SelectItem" [("value", "ACTIVE")] [T "Active"];
                                        E "SelectItem" [("value", "INACTIVE")] [T "Inactive"];
                                        E "SelectItem" [("value", "PENDING")] [T "Pending"]]]];
    E "div" [] [E "Button" [("variant", if String.eqb viewMode "grid" then "secondary" else "ghost")] [icon "LayoutGrid"];
                E "Button" [("variant", if String.eqb viewMode "list" then "secondary" else "ghost")] [icon "List"]]].

Definition counter (ic : string) (value : string) (label : string) : frag :=
  E "Card" [] [E "CardContent" [] [E "div" [] [E "div" [] [icon ic]; E "div" [] [E "p" [] [T value]; E "p" [] [T label]]]]].

Definition counters (l : list json) : frag :=
  E "div" [] [counter "Building2" (pretty (length l)) "Total";
              counter "CheckCircle2" (pretty (Pages.count_status l "ACTIVE")) "Active";
              counter "Eye" (pretty (Pages.LandlordDashboard.sum_of "viewCount" l)) "Total Views";
              counter "MessageSquare" (pretty (Pages.LandlordDashboard.sum_of "inquiryCount" l)) "Inquiries"].

Definition listing (viewMode : string) (l fl : list json) : frag :=
  if Nat.eqb (length fl) 0 then
    E "Card" [] [E "CardContent" [] [
      icon "Building2"; E "h3" [] [T "No properties found"];
      E "p" [] [T (if Nat.eqb (length l) 0 then "You haven't added any properties yet." else "No properties match your filters.")];
      if Nat.eqb (length l) 0 then link "/dashboard/landlord/add-property" [E "Button" [] [icon "Plus"; T "Add Your First Property"]]
      else none]]
  else if String.eqb viewMode "grid" then E "div" [] [each fl grid_card]
  else E "div" [] [each fl list_card].

Definition delete_dialog (st : state) : frag :=
  if deleteDialogOpen st then
    title ← opt_mem (propertyToDelete st) "title";
    E "AlertDialogContent" [] [
      E "AlertDialogHeader" [] [E "AlertDialogTitle" [] [T "Delete Property"];
        E "AlertDialogDescription" [] [T ("Are you sure you want to delete " +:+ dq); V title;
                                        T (dq +:+ "? This action cannot be undone.")]];
      E "AlertDialogFooter" [] [E "AlertDialogCancel" [] [T "Cancel"];
        E "AlertDialogAction" [("onClick", "handleDeleteProperty")]
          (if isDeleting st then [icon "Loader2"; T "Deleting..."] else [T "Delete"])]]
  else none.

(** The page: [filteredProperties] is computed first, so a listing it
    cannot filter makes the render throw, spinner included. *)
Definition render (authLoading : bool) (viewMode : string) (st : state) : frag :=
  fl ← filteredProperties st; l ← properties st;
  if authLoading || isLoading st then E "div" [] [icon "Loader2"]
  else E "div" [] [header; E "div" [] [filters viewMode st; counters l; listing viewMode l fl]; delete_dialog st].

End view.

(** The setters the page's controls call, apart from the handlers of
    [Pages.LandlordProperties]: the search box, the status select, the
    view buttons ([setViewMode("grid")], [setViewMode("list")]: the
    mode, a string, is kept beside [Pages.LandlordProperties.state]),
    the menu item opening the delete dialog, and the dialog's
    [onOpenChange]. *)
Inductive ui_event :=
| SetSearchTerm (v : string) | SetStatusFilter (v : string) | SetViewMode (m : string)
| AskDelete (property : json)           (** [setPropertyToDelete(property); setDeleteDialogOpen(true)] *)
| SetDeleteDialogOpen (b : bool).

Definition ui_step (ev : ui_event) (st : state) (viewMode : string) : state * string :=
  let 'mkState ps ld term filter open del deleting := st in
  match ev with
  | SetSearchTerm v => (mkState ps ld v filter open del deleting, viewMode)
  | SetStatusFilter v => (mkState ps ld term v open del deleting, viewMode)
  | SetViewMode m => (st, m)
  | AskDelete p => (mkState ps ld term filter true (Some p) deleting, viewMode)
  | SetDeleteDialogOpen b => (mkState ps ld term filter b del deleting, viewMode)
  end.

(** ** Lemmas *)

Section facts.
Context `{Locale}.

(** No page answers [/dashboard/landlord/edit-property/<anything>]. *)
Lemma edit_never_served id : Site.served (edit_href id) = false.
Proof.
  unfold edit_href, Site.served, Site.path_segments.
  rewrite (split_first_app "#" "/dashboard/landlord/edit-property/") by reflexivity. cbn [fst].
  rewrite (split_first_app "?" "/dashboard/landlord/edit-property/") by reflexivity. simpl.
  reflexivity.
Qed.

Lemma menu_edit trigger p : links_to (edit_href (get p "id")) (menu trigger p).
Proof.
  unfold menu. do 2 (apply links_to_bind; intros ??). match goal with Hm : mem _ "id" = Some _ |- _ => apply mem_get in Hm as -> end.
  apply links_to_bind; intros ??. links_to_auto.
Qed.

Lemma grid_card_edit p : links_to (edit_href (get p "id")) (grid_card p).
Proof.
  unfold grid_card. do 15 (apply links_to_bind; intros ??). match goal with Hm : mem _ "id" = Some _ |- _ => apply mem_get in Hm as -> end. links_to_auto.
Qed.

Lemma list_card_edit p : links_to (edit_href (get p "id")) (list_card p).
Proof.
  unfold list_card. do 12 (apply links_to_bind; intros ??). match goal with Hm : mem _ "id" = Some _ |- _ => apply mem_get in Hm as -> end. links_to_auto.
Qed.

End facts.

(** ** Properties *)
Section properties.
Context `{Locale}.

(** C15. The "Edit" links of the landlord's listings page lead nowhere:
    every listing the page shows, in either layout, has an "Edit" link
    to [/dashboard/landlord/edit-property/<id>], and no page of the
    application answers that path, whatever the id. *)
Theorem my_properties_edit_dead viewMode st fl p :
  isLoading st = false → filteredProperties st = Some fl → p ∈ fl →
  links_to (edit_href (get p "id")) (render false viewMode st) ∧ Site.served (edit_href (get p "id")) = false.
Proof.
  intros Hl Hf Hp. split; [| apply edit_never_served].
  unfold render. rewrite Hf. simpl. apply links_to_bind; intros l _. rewrite Hl. simpl.
  eapply links_to_E; [apply list_elem_of_further, list_elem_of_here |].
  eapply links_to_E; [apply list_elem_of_further, list_elem_of_further, list_elem_of_here |].
  unfold listing. destruct fl as [|q fl']; [by apply not_elem_of_nil in Hp |]. simpl.
  destruct (String.eqb viewMode "grid"); (eapply links_to_E; [apply list_elem_of_here |]);
    (eapply links_to_each; [exact Hp |]); [apply grid_card_edit | apply list_card_edit].
Qed.

End properties.

Import Demo.

Lemma my_properties_edit_dead_witness :
  filteredProperties (mkState (Some catalogue) false "" "all" false None false) = Some catalogue ∧
  links_to "/dashboard/landlord/edit-property/p1" (render false "grid" (mkState (Some catalogue) false "" "all" false None false)) ∧
  Site.served "/dashboard/landlord/edit-property/p1" = false ∧
  Site.dead_links (frag_hrefs (render false "list" (mkState (Some catalogue) false "" "all" false None false))) =
  ["/dashboard/landlord/edit-property/p1"; "/dashboard/landlord/edit-property/p1";
   "/dashboard/landlord/edit-property/p2"; "/dashboard/landlord/edit-property/p2";
   "/dashboard/landlord/edit-property/p3"; "/dashboard/landlord/edit-property/p3"].
Proof.
  destruct (my_properties_edit_dead "grid" (mkState (Some catalogue) false "" "all" false None false) catalogue
              (listing "p1" "sunny-pg-jadavpur" "Sunny PG" "Kolkata" "PG" 9000) eq_refl eq_refl
              (list_elem_of_here _ _)) as [Hl Hs].
  split_and!; [reflexivity | exact Hl | exact Hs | reflexivity].
Defined.

End LandlordPropertiesView.
