(* ===== verification/InquiriesView.v ===== *)
(** * The landlord's inquiries page as rendered

    [LandlordInquiriesView] is the render of
    [src/src/app/dashboard/landlord/inquiries/page.tsx] (lines 212-644)
    over the state of [Pages.LandlordInquiries]: the header with the
    count of new inquiries, the search and status filters, four
    counters, a card per inquiry [filteredInquiries] keeps, with the
    actions its status offers, and the schedule dialog.  A button that
    changes a status carries the status it sets ([status]); the buttons
    that open the schedule dialog lead to [scheduleVisit], which sets
    SCHEDULED.  The two [Intl] formats of lines 221-237 are parameters.

    The theorems compare the actions with the spec's workflow
    ([Inquiries.status_step]). *)

From S2P Require Import Prelude Json Utils Inquiries App Pages Home Html.
From Stdlib Require Import Ascii.
Open Scope string_scope.
Open Scope list_scope.
Open Scope un_scope.

Module LandlordInquiriesView.
Import Html Pages.LandlordInquiries.

Section view.
Context `{Locale}.
(** [formatDate] and [formatDateTime]: [en-IN] formats. *)
Variables formatDate formatDateTime : option json → string.
(** [new Date().toISOString().split("T")[0]] *)
Variable today : string.

(** [getStatusBadge(status)]: [option?.label || status]. *)
Definition getStatusBadge (status : option json) : frag :=
  match List.find (fun o => strict_eq (Some (JStr o.1)) status) statusOptions with
  | Some o => E "Badge" [] [T o.2]
  | None => E "Badge" [] [V status]
  end.

Definition disabled (b : bool) : list (string * string) := if b then [("disabled", "")] else [].

Definition set_status (isUpdating : bool) (variant : string) (t ic label : string) : frag :=
  E "Button" ([("variant", variant); ("onClick", "updateInquiryStatus"); ("status", t)] ++ disabled isUpdating) [icon ic; T label].

Definition open_schedule (variant ic label : string) : frag :=
  E "Button" [("variant", variant); ("onClick", "openScheduleDialog")] [icon ic; T label].

(** The action bar of a card (lines 460-546). *)
Definition action_bar (isUpdating : bool) (i : json) : frag :=
  status ← mem i "status"; email ← mem i "studentEmail"; phone ← mem i "studentPhone";
  E "div" [] [
    if strict_eq status (Some (JStr "PENDING")) then
      F [set_status isUpdating "default" "CONTACTED" "Phone" "Mark Contacted";
                       open_schedule "outline" "CalendarPlus" "Schedule Visit";
                       set_status isUpdating "outline" "REJECTED" "XCircle" "Reject"]
    else none;
    if strict_eq status (Some (JStr "CONTACTED")) then open_schedule "default" "CalendarPlus" "Schedule Visit" else none;
    if strict_eq status (Some (JStr "SCHEDULED")) then
      F [set_status isUpdating "default" "VISITED" "CheckCircle2" "Mark Visited";
                       open_schedule "outline" "Calendar" "Reschedule"]
    else none;
    if strict_eq status (Some (JStr "VISITED")) then set_status isUpdating "default" "RENTED" "CheckCircle2" "Mark as Rented"
    else none;
    E "a" [("href", "mailto:" +:+ interp email)] [E "Button" [("variant", "ghost")] [icon "Mail"; T "Email"]];
    if truthy_opt phone then E "a" [("href", "tel:" +:+ interp phone)] [E "Button" [("variant", "ghost")] [icon "Phone"; T "Call"]]
    else V phone].

Definition thumb : string := "https://images.unsplash.com/photo-1555854877-bab0e564b8d5?w=100".

(** [{inquiry.property && (...)}] (lines 378-404). *)
Definition property_info (pr : option json) : frag :=
  match pr with
  | Some v =>
      if truthy v then
        img ← mem v "image"; title ← mem v "title"; slug ← mem v "slug"; city ← mem v "city"; rent ← mem v "rent";
        E "div" [] [E "img" ([("src", or_str img thumb)] ++ attr_opt "alt" title) [];
                    E "div" [] [link ("/properties/" +:+ interp slug) [E "h4" [] [V title]];
                                E "p" [] [icon "MapPin"; V city];
                                E "p" [] [T "₹"; locale_num rent; T "/mo"]]]
      else V pr
  | None => none
  end.

Definition inquiry_card (isUpdating : bool) (i : json) : frag :=
  pr ← mem i "property"; name ← mem i "studentName"; email ← mem i "studentEmail"; phone ← mem i "studentPhone";
  status ← mem i "status"; created ← mem i "createdAt"; message ← mem i "message"; movein ← mem i "preferredMoveIn";
  visit ← mem i "scheduledVisit";
  E "Card" [] [E "CardContent" [] [E "div" [] [
    property_info pr;
    E "div" [] [
      E "div" [] [
        E "div" [] [E "div" [] [icon "User"];
                    E "div" [] [E "h3" [] [V name];
                                E "div" [] [E "span" [] [icon "Mail"; V email];
                                            if truthy_opt phone then E "span" [] [icon "Phone"; V phone] else V phone]]];
        E "div" [] [getStatusBadge status; E "span" [] [T (formatDate created)]]];
      E "p" [] [T dq; V message; T dq];
      if truthy_opt movein then E "p" [] [icon "Calendar"; T "Preferred move-in:"; T " "; T (formatDate movein)] else V movein;
      if truthy_opt visit then E "div" [] [icon "CalendarPlus"; T "Visit scheduled:"; T " "; T (formatDateTime visit)]
      else V visit;
      action_bar isUpdating i]]]].

Definition header (pendingCount : nat) : frag :=
  E "header" [] [E "div" [] [E "div" [] [
    link "/dashboard/landlord" [E "Button" [("variant", "ghost")] [icon "ArrowLeft"]];
    E "div" [] [E "h1" [] [T "Inquiries";
                           if (0 <? pendingCount)%nat then E "Badge" [] [T (pretty pendingCount); T " new"] else none];
                E "p" [] [T "Manage inquiries from potential tenants"]]]]].

Definition filters (st : state) : frag :=
  E "div" [] [
    E "div" [] [icon "Search"; E "Input" [("placeholder", "Search by name, email or property..."); ("value", searchTerm st)] []];
    E "Select" [("value", statusFilter st)] [
      E "SelectTrigger" [] [icon "Filter"; E "SelectValue" [("placeholder", "Filter by status")] []];
      E "SelectContent" [] [E "SelectItem" [("value", "all")] [T "All Status"];
                            each statusOptions (fun o => E "SelectItem" [("value", o.1)] [T o.2])]]].

Definition counter (value label : string) : frag :=
  E "Card" [] [E "CardContent" [] [E "div" [] [E "p" [] [T value]; E "p" [] [T label]]]].

Definition counters (l : list json) (pendingCount : nat) : frag :=
  E "div" [] [counter (pretty (length l)) "Total"; counter (pretty pendingCount) "Pending";
              counter (pretty (Pages.count_status l "SCHEDULED")) "Scheduled"; counter (pretty (Pages.count_status l "RENTED")) "Rented"].

Definition listing (isUpdating : bool) (l fl : list json) : frag :=
  if Nat.eqb (length fl) 0 then
    E "Card" [] [E "CardContent" [] [icon "MessageSquare"; E "h3" [] [T "No inquiries found"];
      E "p" [] [T (if Nat.eqb (length l) 0 then "You haven't received any inquiries yet." else "No inquiries match your filters.")]]]
  else E "div" [] [each fl (inquiry_card isUpdating)].

Definition schedule_dialog (st : state) : frag :=
  if scheduleDialogOpen st then
    name ← opt_mem (selectedInquiry st) "studentName";
    E "DialogContent" [] [
      E "DialogHeader" [] [E "DialogTitle" [] [T "Schedule Property Visit"];
        E "DialogDescription" [] [T "Schedule a visit for "; V name; T " to view the property."]];
      E "div" [] [
        E "div" [] [E "div" [] [E "label" [] [T "Date"]; E "Input" [("type", "date"); ("value", scheduleDate st); ("min", today)] []];
                    E "div" [] [E "label" [] [T "Time"]; E "Input" [("type", "time"); ("value", scheduleTime st)] []]];
        E "div" [] [E "label" [] [T "Notes (optional)"];
                    E "Textarea" [("placeholder", "Any notes for this visit..."); ("value", notes st)] []]];
      E "DialogFooter" [] [
        E "Button" [("variant", "outline"); ("onClick", "closeScheduleDialog")] [T "Cancel"];
        E "Button" ([("onClick", "scheduleVisit")] ++
                    disabled (String.eqb (scheduleDate st) "" || String.eqb (scheduleTime st) "" || isUpdating st))
          (if isUpdating st then [icon "Loader2"; T "Scheduling..."] else [T "Schedule Visit"])]]
  else none.

(** The page: [filteredInquiries] and [pendingCount] are computed first. *)
Definition render (authLoading : bool) (st : state) : frag :=
  fl ← filteredInquiries st; pc ← pendingCount st; l ← inquiries st;
  if authLoading || isLoading st then E "div" [] [icon "Loader2"]
  else E "div" [] [header pc; E "div" [] [filters st; counters l pc; listing (isUpdating st) l fl]; schedule_dialog st].

End view.

(** The setters the page's controls call, apart from the handlers of
    [Pages.LandlordInquiries]: the search box, the status select, the
    buttons opening the schedule dialog, and the dialog's fields. *)
Inductive ui_event :=
| SetSearchTerm (v : string) | SetStatusFilter (v : string)
| OpenSchedule (inquiry : json)          (** [setSelectedInquiry(inquiry); setScheduleDialogOpen(true)] *)
| SetScheduleDialogOpen (b : bool) | SetScheduleDate (v : string) | SetScheduleTime (v : string) | SetNotes (v : string).

Definition ui_step (ev : ui_event) (st : state) : state :=
  let 'mkState inq ld term filter sel open date time nts upd := st in
  match ev with
  | SetSearchTerm v => mkState inq ld v filter sel open date time nts upd
  | SetStatusFilter v => mkState inq ld term v sel open date time nts upd
  | OpenSchedule i => mkState inq ld term filter (Some i) true date time nts upd
  | SetScheduleDialogOpen b => mkState inq ld term filter sel b date time nts upd
  | SetScheduleDate v => mkState inq ld term filter sel open v time nts upd
  | SetScheduleTime v => mkState inq ld term filter sel open date v nts upd
  | SetNotes v => mkState inq ld term filter sel open date time v upd
  end.

(** The statuses the spec's workflow allows after [s]. *)
Definition workflow_next (s : Inquiries.status) : list Inquiries.status :=
  match s with
  | Inquiries.PENDING => [Inquiries.CONTACTED; Inquiries.REJECTED; Inquiries.CANCELLED]
  | Inquiries.CONTACTED => [Inquiries.SCHEDULED]
  | Inquiries.SCHEDULED => [Inquiries.VISITED]
  | Inquiries.VISITED => [Inquiries.RENTED]
  | _ => []
  end.

(** The statuses from which the page offers the schedule dialog. *)
Definition schedulable (s : Inquiries.status) : bool :=
  match s with Inquiries.PENDING | Inquiries.CONTACTED | Inquiries.SCHEDULED => true | _ => false end.

(** ** Lemmas *)

Lemma workflow_next_spec s s' : s' ∈ workflow_next s ↔ Inquiries.status_step s s'.
Proof.
  split.
  - destruct s; simpl; intros Hs; repeat (apply elem_of_cons in Hs as [-> | Hs]);
      try (by apply not_elem_of_nil in Hs); constructor.
  - intros []; simpl; set_solver.
Qed.

(** The statuses named in a workflow step. *)
Lemma workflow_name s t :
  existsb (fun s' => String.eqb (Inquiries.status_name s') t) (workflow_next s) = true →
  ∃ s', t = Inquiries.status_name s' ∧ Inquiries.status_step s s'.
Proof.
  intros (s' & Hin & Heq)%existsb_exists. apply String.eqb_eq in Heq.
  exists s'. split; [done |]. apply workflow_next_spec. by apply list_elem_of_In.
Qed.

Section facts.
Context `{Locale}.

Lemma mem_status i s :
  get i "status" = Some (JStr (Inquiries.status_name s)) → mem i "status" = Some (Some (JStr (Inquiries.status_name s))).
Proof. destruct i; simpl; congruence. Qed.

End facts.

(** ** Properties *)
Section properties.
Context `{Locale}.

(** C16. The actions the landlord's inquiries page offers against the
    spec's workflow: every status a button of an inquiry's card sets is
    a step of the workflow from the inquiry's status, but the buttons
    that open the schedule dialog, which sets SCHEDULED, are offered on
    PENDING inquiries too, where the workflow has no step to SCHEDULED,
    and on SCHEDULED ones (a reschedule). *)
Theorem inquiry_actions_workflow isUpdating i s :
  get i "status" = Some (JStr (Inquiries.status_name s)) →
  attrs_in "status" (λ t, ∃ s', t = Inquiries.status_name s' ∧ Inquiries.status_step s s') (action_bar isUpdating i) ∧
  attrs_in "onClick" (λ h, h = "openScheduleDialog" → s ∈ [Inquiries.PENDING; Inquiries.CONTACTED; Inquiries.SCHEDULED])
    (action_bar isUpdating i) ∧
  (s = Inquiries.PENDING → attr_to "onClick" "openScheduleDialog" (action_bar isUpdating i)) ∧
  ¬ Inquiries.status_step Inquiries.PENDING Inquiries.SCHEDULED.
Proof.
  intros Hs. unfold action_bar. rewrite (mem_status i s Hs). split_and!.
  - eapply attrs_in_impl; [apply workflow_name |].
    destruct s; simpl; unfold set_status, open_schedule; links_in_auto.
  - eapply (attrs_in_impl _ (λ h, negb (String.eqb h "openScheduleDialog") || schedulable s = true)).
    { intros h Hh ->. destruct s; simpl in Hh; try discriminate; set_solver. }
    destruct s; simpl; unfold set_status, open_schedule; links_in_auto.
  - intros ->. simpl. links_to_auto.
  - inversion 1.
Qed.

End properties.

Import Demo.

Lemma inquiry_actions_workflow_witness :
  get (JObj [("id", JStr "q1"); ("status", JStr "PENDING"); ("studentEmail", JStr "asha@uni.edu")]) "status"
    = Some (JStr (Inquiries.status_name Inquiries.PENDING)) ∧
  attr_to "onClick" "openScheduleDialog"
    (action_bar false (JObj [("id", JStr "q1"); ("status", JStr "PENDING"); ("studentEmail", JStr "asha@uni.edu")])) ∧
  frag_attrs "status" (action_bar false (JObj [("id", JStr "q1"); ("status", JStr "PENDING"); ("studentEmail", JStr "asha@uni.edu")]))
    = ["CONTACTED"; "REJECTED"].
Proof.
  destruct (inquiry_actions_workflow false (JObj [("id", JStr "q1"); ("status", JStr "PENDING"); ("studentEmail", JStr "asha@uni.edu")])
              Inquiries.PENDING eq_refl) as (_ & _ & Hs & _).
  split_and!; [reflexivity | by apply Hs | reflexivity].
Defined.

End LandlordInquiriesView.
