(* ===== verification/DetailView.v ===== *)
(** * A listing's page as rendered

    [DetailPageView] is the render of
    [src/src/app/properties/[slug]/page.tsx] (lines 130-690) over the
    state of [PublicPages.DetailPage]: the skeleton while loading, the
    not-found message, then the gallery with its arrows, indicators and
    thumbnails, the title block, the four tabs (only the active one is
    mounted; the active tab is the [Tabs] component's own state, a
    parameter), the pricing, owner and safety cards.  [selectImage] is
    the handler of an indicator or a thumbnail.

    The theorem is an invariant of the gallery: from the page as mounted,
    whatever the visitor clicks among the gallery's buttons, the index
    stays among the listing's images, so the main image is one of
    them. *)

From S2P Require Import Prelude Json Utils App PublicPages Home Html.
From stdpp Require Import relations.
From Stdlib Require Import Ascii.
Open Scope string_scope.
Open Scope list_scope.
Open Scope un_scope.

Module DetailPageView.
Import Html DetailPage.

(** [amenityIcons]: the icon of each amenity. *)
Definition amenityIcons : list (string * string) :=
  [("WiFi", "Wifi"); ("Air Conditioning", "Wind"); ("Parking", "Car"); ("Gym", "Dumbbell");
   ("Food Included", "Utensils"); ("24/7 Security", "Shield"); ("Power Backup", "Zap"); ("Geyser", "Droplet");
   ("TV", "Tv"); ("Study Room", "BookOpen")].

(** [setCurrentImageIndex(idx)] of an indicator or a thumbnail. *)
Definition selectImage (idx : Z) (st : state) : state := with_index st idx.

Section view.
Context `{Locale}.
(** [s > 0] for a string [s]: [ToNumber] of a string is not modelled. *)
Variable str_gt0 : string → bool.

(** [{amenityIcons[amenity] || <Check />}]: an inherited member of
    [Object.prototype] is a function, which React renders as nothing, or
    for [__proto__] an object, which it refuses. *)
Definition amenity_icon (amenity : option json) : frag :=
  match amenity with
  | Some (JStr a) =>
      match Utils.record_get amenityIcons a with
      | Some (Utils.VStr ic) => icon ic
      | Some (Utils.VProto m) => if String.eqb m "__proto__" then None else none
      | None => icon "Check"
      end
  | _ => icon "Check"
  end.

(** An array read by [.map], [.slice] or [.length > 0]: anything else throws. *)
Definition arr_of (o : option json) : option (list json) := match o with Some (JArr l) => Some l | _ => None end.

(** [v > 0] on a value of the listings file. *)
Definition gt0 (o : option json) : bool :=
  match o with
  | Some (JNum z) => Z.ltb 0 z
  | Some (JDec m _) => Z.ltb 0 m
  | Some (JBool b) => b
  | Some (JStr s) => str_gt0 s
  | _ => false
  end.

(** [s.charAt(0)]: [charAt] of a value that is not a string throws. *)
Definition charAt0 (o : option json) : frag :=
  match o with Some (JStr s) => T (String.substring 0 1 s) | _ => None end.

Definition skeleton : frag :=
  E "div" [] [E "Skeleton" [] [];
              E "div" [] [E "div" [] [E "Skeleton" [] []; E "Skeleton" [] []; E "Skeleton" [] []];
                          E "div" [] [E "Skeleton" [] []]]].

Definition not_found : frag :=
  E "div" [] [E "h1" [] [T "Property Not Found"];
              E "p" [] [T "The property you're looking for doesn't exist or has been removed."];
              E "Button" [("onClick", "router.push(/properties)")] [T "Browse All Properties"]].

(** The gallery (lines 176-240): the image at [currentImageIndex], the
    arrows when there is more than one image, an indicator per image,
    the badges and the heart. *)
Definition gallery (p : json) (st : state) : frag :=
  imgs ← mem p "images" ≫= arr_of; title ← mem p "title"; verified ← mem p "isVerified"; featured ← mem p "isFeatured";
  let i := currentImageIndex st in
  url ← (match imgs !! Z.to_nat i with
         | Some img => if Z.leb 0 i then opt_mem (Some img) "url" else Some None
         | None => Some None
         end);
  E "div" [] [
    E "Image" (attr_opt "src" url ++ attr_opt "alt" title) [];
    if (1 <? length imgs)%nat
    then F [E "button" [("onClick", "prevImage")] [icon "ChevronLeft"]; E "button" [("onClick", "nextImage")] [icon "ChevronRight"]]
    else none;
    E "div" [] [each (seq 0 (length imgs)) (fun idx =>
      E "button" [("onClick", "selectImage"); ("index", pretty idx);
                  ("current", if Z.eqb (Z.of_nat idx) i then "true" else "false")] [])];
    E "div" [] [if truthy_opt verified then E "Badge" [] [icon "BadgeCheck"; T "Verified"] else V verified;
                if truthy_opt featured then E "Badge" [] [T "Featured"] else V featured];
    E "div" [] [E "button" [("onClick", "toggleWishlist")]
                  [E "Heart" [("filled", if truthy_opt (isWishlisted st) then "true" else "false")] []];
                E "button" [] [icon "Share2"]]].

(** The thumbnails (lines 243-263), when there is more than one image. *)
Definition thumbnails (p : json) (st : state) : frag :=
  imgs ← mem p "images" ≫= arr_of; title ← mem p "title";
  if (1 <? length imgs)%nat then
    E "div" [] [each (imap (fun idx img => (idx, img)) imgs) (fun '(idx, img) =>
      u ← mem img "url";
      E "button" [("onClick", "selectImage"); ("index", pretty idx);
                  ("current", if Z.eqb (Z.of_nat idx) (currentImageIndex st) then "true" else "false")]
        [E "Image" (attr_opt "src" u ++ [("alt", interp title +:+ " - " +:+ pretty (S idx))]) []])]
  else none.

(** [property.genderPreference === "MALE" ? ... ] *)
Definition gender_text (g : option json) : string :=
  if strict_eq g (Some (JStr "MALE")) then "Boys Only" else if strict_eq g (Some (JStr "FEMALE")) then "Girls Only" else "Co-ed".

Definition title_block (p : json) : frag :=
  title ← mem p "title"; address ← mem p "address"; city ← mem p "city"; state_ ← mem p "state";
  rating ← mem p "averageRating"; count ← mem p "reviewCount"; ty ← mem p "propertyType";
  g ← mem p "genderPreference"; from ← mem p "availableFrom";
  E "div" [] [
    E "div" [] [E "div" [] [E "h1" [] [V title];
                            E "div" [] [icon "MapPin"; E "span" [] [V address; T ", "; V city; T ", "; V state_]]];
                E "div" [] [icon "Star"; E "span" [] [V rating]; E "span" [] [T "("; V count; T ")"]]];
    E "div" [] [E "Badge" [("variant", "secondary")] [icon "Home"; V ty];
                E "Badge" [("variant", "secondary")] [icon "Users"; T (gender_text g)];
                E "Badge" [("variant", "secondary")] [icon "Calendar"; T "Available from"; T " "; T (toLocaleDateString from)]]].

Definition rule (label : string) (v : option json) : frag :=
  E "li" [] [if truthy_opt v then icon "Check" else E "span" [] [T "✗"];
             E "span" [] [T label; T " "; T (if truthy_opt v then "Allowed" else "Not Allowed")]].

Definition overview (p : json) : frag :=
  desc ← mem p "description"; amen ← mem p "amenities" ≫= arr_of; nonveg ← mem p "nonVegAllowed";
  smoking ← mem p "smokingAllowed"; visitors ← mem p "visitorsAllowed"; gate ← mem p "gateClosingTime";
  E "TabsContent" [("value", "overview")] [
    E "div" [] [E "h3" [] [T "About this property"]; E "p" [] [V desc]];
    E "div" [] [E "h3" [] [T "Property Highlights"];
                E "div" [] [each (take 6 amen) (fun a => E "div" [] [amenity_icon (Some a); E "span" [] [V (Some a)]])]];
    E "div" [] [E "h3" [] [T "House Rules"];
                E "ul" [] [rule "Non-Veg" nonveg; rule "Smoking" smoking; rule "Visitors" visitors;
                           E "li" [] [icon "Clock"; E "span" [] [T "Gate closes at "; V gate]]]]].

Definition amenities_tab (p : json) : frag :=
  amen ← mem p "amenities" ≫= arr_of;
  E "TabsContent" [("value", "amenities")] [
    E "div" [] [each amen (fun a => E "div" [] [amenity_icon (Some a); E "span" [] [V (Some a)]])]].

Definition location_tab (p : json) : frag :=
  address ← mem p "address"; city ← mem p "city"; landmark ← mem p "landmark"; colleges ← mem p "nearbyColleges" ≫= arr_of;
  E "TabsContent" [("value", "location")] [
    E "div" [] [E "div" [] [icon "MapPin"; E "p" [] [T "Map integration coming soon"];
                            E "p" [] [V address; T ", "; V city];
                            if truthy_opt landmark then E "p" [] [T "Near: "; V landmark] else V landmark]];
    E "div" [] [E "h3" [] [T "Nearby Colleges"];
                E "div" [] [each colleges (fun c => E "div" [] [E "div" [] [E "div" [] [icon "BookOpen"]; E "span" [] [V (Some c)]]])]]].

(** [{xs.length > 0 && (...)}] over the pros or the cons of a review. *)
Definition pros_cons (label : string) (o : option json) : frag :=
  l ← arr_of o;
  if (0 <? length l)%nat
  then E "div" [] [E "p" [] [T label]; E "div" [] [each l (fun x => E "Badge" [("variant", "secondary")] [V (Some x)])]]
  else none.

Definition review_card (r : json) : frag :=
  img ← mem r "userImage"; name ← mem r "userName"; stay ← mem r "stayDuration"; rating ← mem r "overallRating";
  title ← mem r "title"; content ← mem r "content"; pros ← mem r "pros"; cons ← mem r "cons";
  created ← mem r "createdAt"; verified ← mem r "isVerified";
  E "Card" [] [E "CardContent" [] [E "div" [] [
    E "Avatar" [] [E "AvatarImage" (attr_opt "src" img) []; E "AvatarFallback" [] [charAt0 name]];
    E "div" [] [
      E "div" [] [E "div" [] [E "p" [] [V name]; E "p" [] [T "Stayed for "; V stay; T " months"]];
                  E "div" [] [icon "Star"; E "span" [] [V rating]]];
      E "h4" [] [V title]; E "p" [] [V content];
      pros_cons "Pros:" pros; pros_cons "Cons:" cons;
      E "div" [] [E "span" [] [T (toLocaleDateString created)];
                  if truthy_opt verified then E "Badge" [("variant", "outline")] [icon "BadgeCheck"; T "Verified Stay"]
                  else V verified]]]]].

Definition reviews_tab (st : state) : frag :=
  E "TabsContent" [("value", "reviews")] [
    if Nat.eqb (length (reviews st)) 0 then E "div" [] [E "p" [] [T "No reviews yet for this property."]]
    else E "div" [] [each (reviews st) review_card]].

(** The tabs: the list, then the content of the active tab [tab]. *)
Definition tabs (tab : string) (p : json) (st : state) : frag :=
  E "Tabs" [("defaultValue", "overview")] [
    E "TabsList" [] [E "TabsTrigger" [("value", "overview")] [T "Overview"];
                     E "TabsTrigger" [("value", "amenities")] [T "Amenities"];
                     E "TabsTrigger" [("value", "location")] [T "Location"];
                     E "TabsTrigger" [("value", "reviews")] [T "Reviews ("; T (pretty (length (reviews st))); T ")"]];
    if String.eqb tab "overview" then overview p
    else if String.eqb tab "amenities" then amenities_tab p
    else if String.eqb tab "location" then location_tab p
    else if String.eqb tab "reviews" then reviews_tab st
    else none].

Definition pricing (p : json) : frag :=
  rent ← mem p "rent"; deposit ← mem p "deposit"; maint ← mem p "maintenanceCharges";
  elec ← mem p "electricityCharges"; water ← mem p "waterCharges"; from ← mem p "availableFrom";
  E "Card" [] [
    E "CardHeader" [] [E "CardTitle" [] [E "span" [] [T "₹"; locale_num rent]; E "span" [] [T "/month"]]];
    E "CardContent" [] [
      E "div" [] [E "div" [] [E "span" [] [T "Security Deposit"]; E "span" [] [T "₹"; locale_num deposit]];
                  if gt0 maint then E "div" [] [E "span" [] [T "Maintenance"]; E "span" [] [T "₹"; locale_num maint; T "/month"]]
                  else none;
                  E "div" [] [E "span" [] [T "Electricity"]; E "span" [] [V elec]];
                  E "div" [] [E "span" [] [T "Water"]; E "span" [] [V water]]];
      E "Separator" [] [];
      E "div" [] [icon "Clock"; E "span" [] [T "Available from"; T " "; T (toLocaleDateString from)]];
      E "Button" [] [icon "Calendar"; T "Schedule Visit"];
      E "Button" [("variant", "outline")] [icon "MessageCircle"; T "Send Message"]]].

Definition owner_card (p : json) : frag :=
  owner ← mem p "owner"; img ← opt_mem owner "image"; name ← opt_mem owner "name";
  verified ← opt_mem owner "isVerified"; rt ← opt_mem owner "responseTime"; phone ← opt_mem owner "phone";
  match owner with None | Some JNull => None | _ =>
  E "Card" [] [
    E "CardHeader" [] [E "CardTitle" [] [T "Property Owner"]];
    E "CardContent" [] [
      E "div" [] [E "Avatar" [] [E "AvatarImage" (attr_opt "src" img) []; E "AvatarFallback" [] [charAt0 name]];
                  E "div" [] [E "div" [] [E "p" [] [V name]; if truthy_opt verified then icon "BadgeCheck" else V verified];
                              E "p" [] [T "Responds in ~"; V rt; T " mins"]]];
      E "div" [] [E "Button" [("variant", "outline")] [icon "Phone"; V phone]]]]
  end.

Definition safety_tip : frag :=
  E "Card" [] [E "CardContent" [] [E "div" [] [icon "Shield";
    E "div" [] [E "p" [] [T "Safety Tip"];
                E "p" [] [T "Always visit the property before making any payment. Never transfer money without proper documentation."]]]]].

Definition render (tab : string) (st : state) : frag :=
  if isLoading st then skeleton
  else match property st with
  | None => not_found
  | Some p =>
      E "div" [] [
        E "div" [] [E "Button" [("variant", "ghost"); ("onClick", "router.back()")] [icon "ArrowLeft"; T "Back to listings"]];
        E "div" [] [E "div" [] [
          E "div" [] [gallery p st; thumbnails p st; title_block p; E "Separator" [] []; tabs tab p st];
          E "div" [] [E "div" [] [pricing p; owner_card p; safety_tip]]]]]
  end.

End view.

(** The gallery's buttons: the arrows and a button per image. *)
Inductive gallery_step (n : Z) : state → state → Prop :=
| click_next st st' : nextImage st = Some st' → gallery_step n st st'
| click_prev st st' : prevImage st = Some st' → gallery_step n st st'
| click_select st idx : (0 ≤ idx < n)%Z → gallery_step n st (selectImage idx st).

(** A listing with two images, as the API returns it. *)
Definition demo_images : list json :=
  [JObj [("url", JStr "/img/sunny-1.jpg"); ("isPrimary", JBool true)]; JObj [("url", JStr "/img/sunny-2.jpg")]].
Definition demo_listing : json :=
  JObj [("id", JStr "p1"); ("slug", JStr "sunny-pg"); ("title", JStr "Sunny PG"); ("images", JArr demo_images)].

(** ** Lemmas *)

Lemma gallery_step_inv n st st' p :
  property st = Some p → images_len p = Some n → (1 ≤ n)%Z → (0 ≤ currentImageIndex st < n)%Z →
  gallery_step n st st' → property st' = Some p ∧ (0 ≤ currentImageIndex st' < n)%Z.
Proof.
  intros Hp Hn H1 Hi Hs. destruct Hs as [st st' Hs | st st' Hs | st idx Hidx].
  - unfold nextImage in Hs. rewrite (image_step _ p n) in Hs by done. injection Hs as <-.
    destruct st; simpl in *. split; [done |]. by apply next_prev_idx.
  - unfold prevImage in Hs. rewrite (image_step _ p n) in Hs by done. injection Hs as <-.
    destruct st; simpl in *. split; [done |]. by apply prev_next_idx.
  - destruct st; simpl in *. done.
Qed.

Lemma gallery_reach n st0 st p :
  property st0 = Some p → images_len p = Some n → (1 ≤ n)%Z → (0 ≤ currentImageIndex st0 < n)%Z →
  rtc (gallery_step n) st0 st → property st = Some p ∧ (0 ≤ currentImageIndex st < n)%Z.
Proof.
  intros Hp Hn H1 Hi Hr. revert Hp Hi. induction Hr as [x | x y z Hxy _ IH]; intros Hp Hi; [done |].
  destruct (gallery_step_inv n x y p Hp Hn H1 Hi Hxy) as [Hp' Hi']. by apply IH.
Qed.

Section facts.
Context `{Locale}.

Lemma gallery_src p st imgs img u :
  get p "images" = Some (JArr imgs) → (0 ≤ currentImageIndex st)%Z → imgs !! Z.to_nat (currentImageIndex st) = Some img →
  get img "url" = Some (JStr u) → attr_to "src" u (gallery p st).
Proof.
  intros Himgs Hi Himg Hu. unfold gallery.
  rewrite (mem_of_get _ _ _ Himgs). simpl. do 3 (apply links_to_bind; intros ? _).
  apply links_to_bind; intros url Hurl.
  rewrite Himg, (proj2 (Z.leb_le _ _) Hi) in Hurl.
  apply mem_of_get in Hu. destruct img; try discriminate; simpl in Hu, Hurl; rewrite Hu in Hurl.
  injection Hurl as <-. links_to_auto.
Qed.

End facts.

(** ** Properties *)
Section properties.
Context `{Locale}.

(** C17. The gallery of a listing's page: from the page as mounted on a
    listing with images, each with a [url], whatever the visitor clicks
    among the gallery's arrows, indicators and thumbnails, the listing
    stays and the index stays among its images, so the main image the
    page renders is the one at that index. *)
Theorem detail_gallery_shows_image st0 st p imgs :
  property st0 = Some p → get p "images" = Some (JArr imgs) → imgs ≠ [] → currentImageIndex st0 = 0%Z →
  Forall (λ img, ∃ u, get img "url" = Some (JStr u)) imgs →
  rtc (gallery_step (Z.of_nat (length imgs))) st0 st →
  property st = Some p ∧
  ∃ img u, imgs !! Z.to_nat (currentImageIndex st) = Some img ∧ get img "url" = Some (JStr u) ∧
           attr_to "src" u (gallery p st).
Proof.
  intros Hp Himgs Hne H0 Hurl Hr.
  assert (Hn : images_len p = Some (Z.of_nat (length imgs))) by (unfold images_len; by rewrite Himgs).
  assert (H1 : (1 ≤ Z.of_nat (length imgs))%Z) by (destruct imgs; [done | simpl; lia]).
  destruct (gallery_reach _ st0 st p Hp Hn H1 ltac:(rewrite H0; lia) Hr) as [Hp' Hi].
  split; [done |].
  destruct (lookup_lt_is_Some_2 imgs (Z.to_nat (currentImageIndex st))) as [img Himg]; [lia |].
  destruct (proj1 (Forall_forall _ _) Hurl img (list_elem_of_lookup_2 _ _ _ Himg)) as [u Hu].
  exists img, u. split_and!; [done | done |]. eapply gallery_src; [exact Himgs | lia | exact Himg | exact Hu].
Qed.

End properties.

Import Html.Demo.

Lemma detail_gallery_shows_image_witness :
  let st0 := mkState (Some demo_listing) [] false 0 (Some (JBool false)) in
  property (selectImage 1 st0) = Some demo_listing ∧
  ∃ img u, demo_images !! Z.to_nat (currentImageIndex (selectImage 1 st0)) = Some img ∧
           get img "url" = Some (JStr u) ∧ attr_to "src" u (gallery demo_listing (selectImage 1 st0)).
Proof.
  intros st0. apply (detail_gallery_shows_image st0 (selectImage 1 st0) demo_listing demo_images);
    [reflexivity | reflexivity | discriminate | reflexivity
    | repeat constructor; eexists; reflexivity | apply rtc_once, click_select; simpl; lia].
Defined.

End DetailPageView.
