(* ===== verification/LayoutView.v ===== *)
(** * The frame of every page: header, footer and root layout

    [SiteHeaderView] is the render of [src/src/components/layout/header.tsx]
    over the session of [App.AuthClient], the path [usePathname] gives
    and the header's own state [isMobileMenuOpen], with its handlers;
    [SiteFooterView] is [src/src/components/layout/footer.tsx], static
    but for the year; [RootLayoutView] is [src/src/app/layout.tsx],
    which puts every page between the two.  The theorems say where the
    frame's links lead: the header's sign-in, sign-up and settings links
    and twenty of the footer's links reach no page, and the layout
    carries the footer's onto every page that renders.  The header's
    theorems also show that it renders, so their links are on screen. *)

From S2P Require Import Prelude Json MongoDb Utils Auth App Home Html.
From Stdlib Require Import Ascii.
Open Scope string_scope.
Open Scope list_scope.
Open Scope un_scope.

Module SiteHeaderView.
Import Html App.

(** [navItems]: the link, the label and the icon of each entry. *)
Definition navItems : list (string * string * string) :=
  [("/", "Home", "Home"); ("/properties", "Properties", "Building"); ("/properties?view=map", "Map", "Map");
   ("/roommates", "Roommates", "Users"); ("/wishlist", "Wishlist", "Heart")].

(** [user?.role === "landlord" ? "/dashboard/landlord" : "/dashboard/student"] *)
Definition dashboardLink (user : option json) : string :=
  if strict_eq (user ≫= fun u => get u "role") (Some (JStr "landlord")) then "/dashboard/landlord"
  else "/dashboard/student".

(** [pathname === item.href ? "secondary" : "ghost"] *)
Definition nav_variant (pathname href : string) : string :=
  if String.eqb pathname href then "secondary" else "ghost".

(** [setIsMobileMenuOpen(!isMobileMenuOpen)] of the menu button. *)
Definition toggleMobileMenu (isMobileMenuOpen : bool) : bool := negb isMobileMenuOpen.

(** [onClick={() => setIsMobileMenuOpen(false)}] of the menu's links. *)
Definition closeMobileMenu (isMobileMenuOpen : bool) : bool := false.

Section handlers.
Context `{RegexEngine} `{PasswordHasher}.
Variable env : option string.

(** The menu's "Log out": [handleLogout()] is not awaited, so the menu
    closes at once and the logout resolves after. *)
Definition mobileLogout (ok : bool) (now : Z) (w : world) (st : AuthClient.state) (isMobileMenuOpen : bool) :
    world * AuthClient.state * string * bool :=
  let '(w', st', route) := Header.handleLogout env ok now w st in (w', st', route, closeMobileMenu isMobileMenuOpen).

End handlers.

Section view.
Context `{Locale}.

(** [user.name], whose [.split] throws unless it is a string. *)
Definition name_of (u : json) : option string :=
  match mem u "name" with Some (Some (JStr s)) => Some s | _ => None end.

(** [getInitials(user.name)] *)
Definition initials (u : json) : frag := s ← name_of u; T (Header.getInitials s).

(** [user.name.split(" ")[0]] *)
Definition first_word (u : json) : frag := s ← name_of u; V (JStr <$> head (js_split " "%char s)).

(** [user.role === "landlord" ? "Property Owner" : "Student"] *)
Definition role_text (u : json) : string :=
  if strict_eq (get u "role") (Some (JStr "landlord")) then "Property Owner" else "Student".

Definition desktop_item (pathname : string) (item : string * string * string) : frag :=
  let '(h, l, i) := item in
  link h [E "Button" [("variant", nav_variant pathname h); ("size", "sm")] [icon i; T l]].

(** The account menu of a signed-in user. *)
Definition dropdown (user : option json) (u : json) : frag :=
  avatar ← mem u "avatar"; name ← mem u "name"; email ← mem u "email";
  E "DropdownMenu" [] [
    E "DropdownMenuTrigger" [] [E "Button" [("variant", "ghost")] [
      E "Avatar" [] [E "AvatarImage" (attr_opt "src" avatar) []; E "AvatarFallback" [] [initials u]];
      E "span" [] [first_word u]; icon "ChevronDown"]];
    E "DropdownMenuContent" [] [
      E "DropdownMenuLabel" [] [E "div" [] [E "p" [] [V name]; E "p" [] [V email]; E "p" [] [T (role_text u)]]];
      E "DropdownMenuSeparator" [] [];
      E "DropdownMenuItem" [] [link (dashboardLink user) [icon "LayoutDashboard"; T "Dashboard"]];
      E "DropdownMenuItem" [] [link "/wishlist" [icon "Heart"; T "Wishlist"]];
      E "DropdownMenuItem" [] [link (dashboardLink user +:+ "/settings") [icon "Settings"; T "Settings"]];
      E "DropdownMenuSeparator" [] [];
      E "DropdownMenuItem" [("onClick", "handleLogout")] [icon "LogOut"; T "Log out"]]].

Definition guest_links : frag :=
  E "div" [] [link "/login" [E "Button" [("variant", "ghost"); ("size", "sm")] [T "Log in"]];
              link "/register" [E "Button" [("size", "sm")] [T "Sign up"]]].

(** [isLoading ? <Loader2 /> : isAuthenticated && user ? ... : ...] *)
Definition auth_section (st : AuthClient.state) : frag :=
  if AuthClient.isLoading st then icon "Loader2"
  else match AuthClient.user st with
       | Some u => if AuthClient.isAuthenticated st && truthy u then dropdown (AuthClient.user st) u else guest_links
       | None => guest_links
       end.

Definition mobile_item (pathname : string) (item : string * string * string) : frag :=
  let '(h, l, i) := item in
  E "Link" [("href", h); ("onClick", "closeMobileMenu")] [E "Button" [("variant", nav_variant pathname h)] [icon i; T l]].

Definition mobile_user (user : option json) (u : json) : frag :=
  avatar ← mem u "avatar"; name ← mem u "name";
  F [E "div" [] [E "Avatar" [] [E "AvatarImage" (attr_opt "src" avatar) []; E "AvatarFallback" [] [initials u]];
                 E "div" [] [E "p" [] [V name]; E "p" [] [T (role_text u)]]];
     E "Link" [("href", dashboardLink user); ("onClick", "closeMobileMenu")]
       [E "Button" [("variant", "ghost")] [icon "LayoutDashboard"; T "Dashboard"]];
     E "Link" [("href", dashboardLink user +:+ "/settings"); ("onClick", "closeMobileMenu")]
       [E "Button" [("variant", "ghost")] [icon "Settings"; T "Settings"]];
     E "Button" [("variant", "ghost"); ("onClick", "mobileLogout")] [icon "LogOut"; T "Log out"]].

Definition mobile_guest : frag :=
  F [E "Link" [("href", "/login"); ("onClick", "closeMobileMenu")] [E "Button" [("variant", "ghost")] [icon "LogIn"; T "Log in"]];
     E "Link" [("href", "/register"); ("onClick", "closeMobileMenu")] [E "Button" [] [icon "User"; T "Sign up"]]].

(** The mobile menu: it does not wait for the session to load. *)
Definition mobile_menu (pathname : string) (st : AuthClient.state) (isMobileMenuOpen : bool) : frag :=
  if isMobileMenuOpen then
    E "div" [] [E "nav" [] [
      each navItems (mobile_item pathname); E "div" [] [];
      match AuthClient.user st with
      | Some u => if AuthClient.isAuthenticated st && truthy u then mobile_user (AuthClient.user st) u else mobile_guest
      | None => mobile_guest
      end]]
  else none.

Definition render (pathname : string) (st : AuthClient.state) (isMobileMenuOpen : bool) : frag :=
  E "header" [] [
    E "div" [] [
      link "/" [E "div" [] [icon "Home"]; E "span" [] [T "UniNest"]];
      E "nav" [] [each navItems (desktop_item pathname)];
      E "div" [] [
        link "/properties" [E "Button" [("size", "sm"); ("variant", "outline")] [icon "Search"; T "Find Housing"]];
        auth_section st;
        E "Button" [("variant", "ghost"); ("onClick", "toggleMobileMenu")] [icon (if isMobileMenuOpen then "X" else "Menu")]]];
    mobile_menu pathname st isMobileMenuOpen].

End view.

(** The links of the header that no page serves: the application has no
    sign-in, sign-up or settings page. *)
Definition header_dead : list string :=
  ["/login"; "/register"; "/dashboard/landlord/settings"; "/dashboard/student/settings"].

End SiteHeaderView.

Module SiteFooterView.
Import Html.

(** [footerLinks]: the label and the link of each entry, by column. *)
Definition company : list (string * string) :=
  [("About Us", "/about"); ("How It Works", "/how-it-works"); ("Careers", "/careers"); ("Press", "/press");
   ("Blog", "/blog")].
Definition forStudents : list (string * string) :=
  [("Search Properties", "/properties"); ("Find Roommates", "/roommates"); ("Area Guides", "/areas");
   ("Moving Tips", "/guides/moving"); ("Rental Guide", "/guides/rental")].
Definition forLandlords : list (string * string) :=
  [("List Property", "/properties/new"); ("Pricing", "/pricing"); ("Resources", "/resources");
   ("Success Stories", "/success-stories"); ("FAQ", "/faq")].
Definition support : list (string * string) :=
  [("Help Center", "/help"); ("Contact Us", "/contact"); ("Safety", "/safety"); ("Report Issue", "/report");
   ("Community Guidelines", "/guidelines")].

(** [socialLinks]: the icon, the link and the label. *)
Definition socialLinks : list (string * string * string) :=
  [("Facebook", "https://facebook.com", "Facebook"); ("Twitter", "https://twitter.com", "Twitter");
   ("Instagram", "https://instagram.com", "Instagram"); ("Linkedin", "https://linkedin.com", "LinkedIn")].

Definition brand : frag :=
  E "div" [] [
    link "/" [E "div" [] [icon "Home"]; E "span" [] [T "UniNest"]];
    E "p" [] [T "Find your perfect home near college. UniNest connects students with verified properties and trustworthy landlords."];
    E "div" [] [E "div" [] [icon "Mail"; E "span" [] [T "support@uninest.com"]];
                E "div" [] [icon "Phone"; E "span" [] [T "+91 98765 43210"]];
                E "div" [] [icon "MapPin"; E "span" [] [T "Mumbai, India"]]];
    E "div" [] [each socialLinks (fun '(i, h, l) =>
      E "a" [("href", h); ("target", "_blank"); ("rel", "noopener noreferrer"); ("aria-label", l)] [icon i])]].

(** A column: its title, then [links.map((link) => <li><Link/></li>)]. *)
Definition column (title : string) (links : list (string * string)) : frag :=
  E "div" [] [E "h3" [] [T title];
              E "ul" [] [each links (fun '(l, h) => E "li" [] [link h [T l]])]].

(** The footer; [year] is [new Date().getFullYear()]. *)
Definition render (year : Z) : frag :=
  E "footer" [] [E "div" [] [
    E "div" [] [brand; column "Company" company; column "For Students" forStudents;
                column "For Landlords" forLandlords; column "Support" support];
    E "Separator" [] [];
    E "div" [] [E "p" [] [T "© "; T (pretty year); T " UniNest. All rights reserved."];
                E "div" [] [link "/privacy" [T "Privacy Policy"]; link "/terms" [T "Terms of Service"];
                            link "/cookies" [T "Cookie Policy"]]]]].

(** The footer's links that no page serves. *)
Definition footer_dead : list string :=
  ["/about"; "/how-it-works"; "/careers"; "/press"; "/blog"; "/areas"; "/guides/moving"; "/guides/rental";
   "/pricing"; "/resources"; "/success-stories"; "/faq"; "/help"; "/contact"; "/safety"; "/report";
   "/guidelines"; "/privacy"; "/terms"; "/cookies"].

End SiteFooterView.

Module RootLayoutView.
Import Html.

(** [RootLayout]: the page [children] between the header and the
    footer, inside the providers. *)
Definition render (header children footer : frag) : frag :=
  E "html" [("lang", "en")] [E "body" [] [E "Providers" [] [
    E "div" [] [header; E "main" [] [children]; footer]]]].

(** Every page as the App Router serves it. *)
Definition page `{Locale} (pathname : string) (st : App.AuthClient.state) (isMobileMenuOpen : bool) (year : Z)
    (children : frag) : frag :=
  render (SiteHeaderView.render pathname st isMobileMenuOpen) children (SiteFooterView.render year).

End RootLayoutView.

(** ** Lemmas *)
Module LayoutFacts.
Import Html App SiteHeaderView.

Lemma dashboardLink_cases u : dashboardLink u = "/dashboard/landlord" ∨ dashboardLink u = "/dashboard/student".
Proof. unfold dashboardLink. case_match; auto. Qed.

Ltac elem_cases Hx := repeat (apply elem_of_cons in Hx as [-> | Hx]); [.. | by apply not_elem_of_nil in Hx].

Section header.
Context `{Locale}.

Lemma header_links_in pathname st o :
  links_in (λ h, Site.served h || bool_decide (h ∈ header_dead) = true) (SiteHeaderView.render pathname st o).
Proof.
  unfold SiteHeaderView.render, auth_section, dropdown, guest_links, mobile_menu, mobile_user, mobile_guest, link.
  destruct st as [user load]; cbn [AuthClient.user AuthClient.isLoading].
  destruct (dashboardLink_cases user) as [-> | ->]; destruct user; links_in_auto;
  repeat match goal with Hx : _ ∈ navItems |- _ => elem_cases Hx end;
  unfold initials, first_word; simpl; links_in_auto.
Qed.

Lemma header_renders_user pathname st o u n e :
  AuthClient.user st = Some u → AuthClient.isLoading st = false →
  get u "name" = Some (JStr n) → get u "email" = Some (JStr e) → is_Some (SiteHeaderView.render pathname st o).
Proof.
  intros Hu Hl Hn He. destruct st as [user load]; simpl in Hu, Hl; subst.
  destruct u as [| | | | | | | | | fs]; try discriminate. simpl in Hn, He.
  unfold SiteHeaderView.render, auth_section, dropdown, mobile_menu, mobile_user, initials, first_word, name_of.
  simpl. rewrite Hn, He. destruct o; renders_auto.
Qed.

Lemma header_renders_guest pathname st o :
  AuthClient.user st = None → is_Some (SiteHeaderView.render pathname st o).
Proof.
  intros Hu. destruct st as [user load]; simpl in Hu; subst.
  unfold SiteHeaderView.render, auth_section, mobile_menu. destruct load, o; simpl; renders_auto.
Qed.

End header.

Section layout.
Context `{Locale}.

(** The links of a page in the layout: the header's, the page's, the
    footer's, in this order. *)
Lemma page_hrefs pathname st o year children ns :
  RootLayoutView.page pathname st o year children = Some ns →
  ∃ hs cs fs, SiteHeaderView.render pathname st o = Some hs ∧ children = Some cs ∧ SiteFooterView.render year = Some fs ∧
    concat (map hrefs ns) = concat (map hrefs hs) ++ concat (map hrefs cs) ++ concat (map hrefs fs).
Proof.
  unfold RootLayoutView.page, RootLayoutView.render, E.
  destruct (SiteHeaderView.render pathname st o) as [hs|], children as [cs|],
    (SiteFooterView.render year) as [fs|]; simpl; try discriminate.
  intros [= <-]. exists hs, cs, fs. split_and!; [done..|]. simpl.
  rewrite ?app_nil_r, !map_app, !concat_app. simpl. by rewrite ?app_nil_r.
Qed.

Lemma footer_links year fs :
  SiteFooterView.render year = Some fs →
  Forall (λ h, h ∈ concat (map hrefs fs) ∧ Site.served h = false) SiteFooterView.footer_dead ∧
  "/properties/new" ∈ concat (map hrefs fs).
Proof. intros Hf. vm_compute in Hf. injection Hf as <-. apply (bool_decide_unpack _). vm_compute. reflexivity. Qed.

End layout.

(** ** Properties *)
Section properties.
Context `{Locale}.

(** C20. The application has no sign-in and no sign-up page: to a visitor,
    once the session has loaded, the header renders, its only links that
    reach no page are among [header_dead], and its "Log in" and "Sign up"
    links, [/login] and [/register], reach no page. *)
Theorem header_guest_sign_in_dead pathname st o :
  AuthClient.user st = None → AuthClient.isLoading st = false →
  ∃ ns, SiteHeaderView.render pathname st o = Some ns ∧
    Forall (λ h, Site.served h || bool_decide (h ∈ header_dead) = true) (concat (map hrefs ns)) ∧
    "/login" ∈ concat (map hrefs ns) ∧ "/register" ∈ concat (map hrefs ns) ∧
    Site.served "/login" = false ∧ Site.served "/register" = false.
Proof.
  intros Hu Hl.
  assert (Hto : ∀ h, h = "/login" ∨ h = "/register" → links_to h (SiteHeaderView.render pathname st o)).
  { intros h Hh. destruct st as [user load]; simpl in Hu, Hl; subst.
    unfold SiteHeaderView.render, auth_section, guest_links. destruct Hh as [-> | ->]; links_to_auto. }
  destruct (header_renders_guest pathname st o Hu) as [ns Hns].
  exists ns. split_and!; [done | by apply (header_links_in pathname st o) | by apply Hto; auto | by apply Hto; auto
    | reflexivity | reflexivity].
Qed.

(** A signed-in user whose name and email are strings gets a header
    with a "Settings" link to the settings page of their dashboard,
    which the application does not have. *)
Theorem header_settings_dead pathname st o u n e :
  AuthClient.user st = Some u → AuthClient.isLoading st = false →
  get u "name" = Some (JStr n) → get u "email" = Some (JStr e) →
  ∃ ns, SiteHeaderView.render pathname st o = Some ns ∧
    dashboardLink (Some u) +:+ "/settings" ∈ concat (map hrefs ns) ∧
    Site.served (dashboardLink (Some u) +:+ "/settings") = false.
Proof.
  intros Hu Hl Hn He.
  destruct (header_renders_user pathname st o u n e Hu Hl Hn He) as [ns Hns].
  exists ns. split_and!; [done | | by destruct (dashboardLink_cases (Some u)) as [-> | ->]].
  enough (Hto : links_to (dashboardLink (Some u) +:+ "/settings") (SiteHeaderView.render pathname st o)) by auto.
  destruct st as [user load]; simpl in Hu, Hl; subst.
  destruct u; try discriminate.
  unfold SiteHeaderView.render, auth_section, dropdown. simpl. links_to_auto.
Qed.

(** Every page of the application, as the root layout renders it,
    holds the footer's twenty links to pages the application does not
    have, and its "List Property" link, [/properties/new], which the
    listing page answers as the listing of slug [new], not the
    add-property form. *)
Theorem layout_footer_dead pathname st o year children ns :
  RootLayoutView.page pathname st o year children = Some ns →
  Forall (λ h, h ∈ concat (map hrefs ns) ∧ Site.served h = false) SiteFooterView.footer_dead ∧
  "/properties/new" ∈ concat (map hrefs ns) ∧
  Site.path_segments "/properties/new" = ["properties"; "new"] ∧
  Site.seg_match [Site.Lit "properties"; Site.Dyn] (Site.path_segments "/properties/new") = true.
Proof.
  intros Hp. destruct (page_hrefs _ _ _ _ _ _ Hp) as (hs & cs & fs & _ & _ & Hf & ->).
  destruct (footer_links year fs Hf) as [Hd Hn]. split_and!; [| by set_solver | reflexivity | reflexivity].
  eapply Forall_impl; [exact Hd |]. intros h [Hh Hs]. split; [set_solver | done].
Qed.

End properties.

Import Html.Demo.

Lemma header_guest_sign_in_dead_witness :
  ∃ ns, SiteHeaderView.render "/" (AuthClient.mkState None false) false = Some ns ∧
    Forall (λ h, Site.served h || bool_decide (h ∈ header_dead) = true) (concat (map hrefs ns)) ∧
    "/login" ∈ concat (map hrefs ns) ∧ "/register" ∈ concat (map hrefs ns) ∧
    Site.served "/login" = false ∧ Site.served "/register" = false.
Proof. apply (header_guest_sign_in_dead "/" (AuthClient.mkState None false) false); reflexivity. Defined.

Lemma header_settings_dead_witness :
  ∃ ns, SiteHeaderView.render "/wishlist" (AuthClient.mkState (Some student) false) true = Some ns ∧
    dashboardLink (Some student) +:+ "/settings" ∈ concat (map hrefs ns) ∧
    Site.served (dashboardLink (Some student) +:+ "/settings") = false.
Proof.
  apply (header_settings_dead "/wishlist" (AuthClient.mkState (Some student) false) true student
           "Asha Roy" "asha@uni.edu"); reflexivity.
Defined.

Lemma layout_footer_dead_witness :
  ∃ ns, RootLayoutView.page "/" (AuthClient.mkState None false) false 2026 (Some []) = Some ns ∧
    Forall (λ h, h ∈ concat (map hrefs ns) ∧ Site.served h = false) SiteFooterView.footer_dead ∧
    "/properties/new" ∈ concat (map hrefs ns) ∧
    Site.path_segments "/properties/new" = ["properties"; "new"] ∧
    Site.seg_match [Site.Lit "properties"; Site.Dyn] (Site.path_segments "/properties/new") = true.
Proof.
  eexists. split; [reflexivity |].
  apply (layout_footer_dead "/" (AuthClient.mkState None false) false 2026 (Some [])). reflexivity.
Defined.

End LayoutFacts.
