(* ===== verification/PropertyCardView.v ===== *)
(** * The listing card as rendered

    [PropertyCardView] is the render of
    [src/src/components/property/property-card.tsx] over the card's
    state [Home.PropertyCard.state] ([isLiked], [imageError]), with the
    image's [onError] handler: the link to the listing's page, the
    image or its placeholder, the badges, the price and rating row, the
    location, the beds and the deposit.  The price and distance
    formats ([Intl]) and [toFixed(1)] are parameters.  The lemmas show
    that the card links to the listing's page and that a rating of [0]
    is rendered as a bare "0" beside the price. *)

From S2P Require Import Prelude Json Utils Home Html.
From Stdlib Require Import Ascii.
Open Scope string_scope.
Open Scope list_scope.
Open Scope un_scope.

Module PropertyCardView.
Import Html PropertyCard.

(** [onError={() => setImageError(true)}] *)
Definition onImageError (st : state) : state := mkState (isLiked st) true.

(** A value of a [Record<string, string>] lookup as a child: an
    inherited member of [Object.prototype] is a function, which React
    renders as nothing, or for [__proto__] an object, which it refuses. *)
Definition val_frag (v : Utils.jsval) : frag :=
  match v with Utils.VStr s => T s | Utils.VProto m => if String.eqb m "__proto__" then None else none end.

Section view.
Context `{Locale}.
(** [formatPrice(v)], [formatDistance(v)]: [Intl] formats. *)
Variable formatPrice formatDistance : option json → string.
(** [v.toFixed(1)]: [None] when [v] has no [toFixed] (it throws). *)
Variable toFixed1 : json → option string.
(** [v > 0] for a value that is not a number. *)
Variable other_gt0 : json → bool.

Definition gt0 (v : json) : bool :=
  match v with JNum z => Z.ltb 0 z | JDec m _ => Z.ltb 0 m | _ => other_gt0 v end.

(** [labels[k] || d(k)], the key being [String(k)]. *)
Definition label_frag (labels : list (string * string)) (d : option json → frag) (o : option json) : frag :=
  match Utils.record_get labels (interp o) with
  | Some v => if Utils.truthy_val v then val_frag v else d o
  | None => d o
  end.

(** [getPropertyTypeLabel(type)]: the label, else the value itself. *)
Definition type_label (o : option json) : frag := label_frag Utils.property_type_labels V o.

(** [getGenderLabel(gender)]: the label, else "Any Gender". *)
Definition gender_label (o : option json) : frag := label_frag Utils.gender_labels (fun _ => T "Any Gender") o.

(** [{primaryImage && !imageError ? <Image/> : <div>No image</div>}] *)
Definition image (st : state) (primary title : option json) : frag :=
  if truthy_opt primary && negb (imageError st)
  then E "Image" ([("src", interp primary)] ++ attr_opt "alt" title ++ [("onError", "onImageError")]) []
  else E "div" [] [E "span" [] [T "No image"]].

(** [{property.averageRating && property.averageRating > 0 && (...)}]:
    a falsy rating is rendered itself, so [0] shows as "0". *)
Definition rating (r count : option json) : frag :=
  match r with
  | Some v =>
      if truthy v then
        if gt0 v then
          E "div" [] [icon "Star"; E "span" [] [(fun s => [Txt s]) <$> toFixed1 v];
                      E "span" [] [T "("; V count; T ")"]]
        else none
      else V r
  | None => none
  end.

(** [{showDistance && property.distance && (...)}] *)
Definition distance (showDistance : bool) (d : option json) : frag :=
  if showDistance then if truthy_opt d then E "span" [] [T (formatDistance d)] else V d else none.

Definition price_row (rent r count : option json) : frag :=
  E "div" [] [E "div" [] [E "span" [] [T (formatPrice rent)]; E "span" [] [T "/month"]]; rating r count].

Definition render (st : state) (showDistance : bool) (p : json) : frag :=
  images ← mem p "images";
  imgs ← (match images with Some (JArr l) => Some l | _ => None end);
  slug ← mem p "slug"; title ← mem p "title"; verified ← mem p "isVerified"; featured ← mem p "isFeatured";
  ty ← mem p "propertyType"; rent ← mem p "rent"; r ← mem p "averageRating"; count ← mem p "reviewCount";
  address ← mem p "address"; city ← mem p "city"; d ← mem p "distance"; avail ← mem p "availableBeds";
  total ← mem p "totalBeds"; g ← mem p "genderPreference"; deposit ← mem p "deposit";
  link ("/properties/" +:+ interp slug) [E "Card" [] [
    E "div" [] [
      image st (primaryImage imgs) title;
      E "div" [] [if truthy_opt verified then E "Badge" [("variant", "success")] [icon "Shield"; T "Verified"] else V verified;
                  if truthy_opt featured then E "Badge" [("variant", "warning")] [icon "Sparkles"; T "Featured"] else V featured];
      E "Button" [("variant", "ghost"); ("onClick", "handleWishlistClick"); ("liked", if isLiked st then "true" else "false")]
        [E "Heart" [("filled", if isLiked st then "true" else "false")] []];
      E "Badge" [("variant", "secondary")] [type_label ty]];
    E "CardContent" [] [
      price_row rent r count;
      E "h3" [] [V title];
      E "div" [] [icon "MapPin"; E "span" [] [V address; T ", "; V city]; distance showDistance d];
      E "div" [] [E "div" [] [icon "Bed"; E "span" [] [V avail; T "/"; V total; T " Beds"]];
                  E "div" [] [E "Badge" [("variant", "outline")] [gender_label g]]];
      E "div" [] [E "span" [] [T "Deposit:"]; E "span" [] [T (formatPrice deposit)]]]]].

End view.

(** [PropertyCardSkeleton] *)
Definition skeleton : frag :=
  E "Card" [] [E "div" [] []; E "CardContent" [] [E "div" [] []; E "div" [] []; E "div" [] [];
                                                 E "div" [] [E "div" [] []; E "div" [] []]]].

(** ** Lemmas *)
Section facts.
Context `{Locale} (formatPrice formatDistance : option json → string) (toFixed1 : json → option string)
        (other_gt0 : json → bool).

(** The card's one link is the listing's page: every property of
    that link holds of all the card's links. *)
Lemma property_card_links (q : string → bool) st sd p s :
  mem p "slug" = Some s → q ("/properties/" +:+ interp s) = true →
  links_in (λ h, q h = true) (render formatPrice formatDistance toFixed1 other_gt0 st sd p).
Proof.
  intros Hs Hq. unfold render. do 2 (apply links_in_bind; intros ??).
  apply links_in_bind; intros sl Hsl. rewrite Hs in Hsl. injection Hsl as <-.
  do 14 (apply links_in_bind; intros ??). unfold link. apply links_in_E; [exact Hq |].
  unfold image, type_label, gender_label, label_frag, price_row, rating, distance, val_frag.
  links_in_auto; repeat case_match; links_in_auto.
  all: intros ns Hns; apply fmap_Some in Hns as (? & _ & ->); constructor.
Qed.

(** A rating of [0] is rendered as a bare "0" after the price; a
    missing rating renders nothing there. *)
Lemma price_row_zero rent count :
  price_row formatPrice toFixed1 other_gt0 rent (Some (JNum 0)) count =
  Some [El "div" [] [El "div" [] [El "span" [] [Txt (formatPrice rent)]; El "span" [] [Txt "/month"]]; Txt "0"]] ∧
  price_row formatPrice toFixed1 other_gt0 rent None count =
  Some [El "div" [] [El "div" [] [El "span" [] [Txt (formatPrice rent)]; El "span" [] [Txt "/month"]]]].
Proof. split; reflexivity. Qed.

End facts.
End PropertyCardView.
