(* ===== verification/WishlistView.v ===== *)
(** * The wishlist page as rendered

    [WishlistPageView] is the render of [src/src/app/wishlist/page.tsx]
    (lines 69-205) over the state of [PublicPages.WishlistPage] and the
    listings file: the skeleton while loading, the count of saved
    listings with "Clear All", the empty message, or a card per saved
    listing with its remove button.  The lemma says where its links
    lead: the properties page and the pages of the listings it shows. *)

From S2P Require Import Prelude Json Utils PublicPages Home Html.
From Stdlib Require Import Ascii.
Open Scope string_scope.
Open Scope list_scope.
Open Scope un_scope.

Module WishlistPageView.
Import Html WishlistPage.

(** The skeleton while [isLoading] (lines 69-82). *)
Definition skeleton : frag :=
  E "div" [] [E "div" [] [E "div" [] []; E "div" [] [each [1; 2; 3]%Z (fun _ => E "div" [] [])]]].

Section view.
Context `{Locale}.

(** [property.images[0]?.url || "/placeholder.jpg"] *)
Definition image_src (p : json) : option string :=
  first ← mem p "images" ≫= index0; url ← opt_mem first "url"; Some (or_str url "/placeholder.jpg").

(** [{property.averageRating && (...)}]: a falsy rating is rendered
    itself, so [0] shows as "0". *)
Definition rating (r : option json) : frag :=
  if truthy_opt r then E "div" [] [icon "Star"; E "span" [] [V r]] else V r.

(** A saved listing's card (lines 128-199). *)
Definition card (p : json) : frag :=
  src ← image_src p; slug ← mem p "slug"; title ← mem p "title"; verified ← mem p "isVerified";
  id ← mem p "id"; rent ← mem p "rent"; address ← mem p "address"; city ← mem p "city";
  ty ← mem p "propertyType"; r ← mem p "averageRating";
  E "Card" [] [
    E "div" [] [
      link ("/properties/" +:+ interp slug) [E "div" [] [E "Image" ([("src", src)] ++ attr_opt "alt" title) []]];
      E "div" [] [if truthy_opt verified then E "Badge" [] [icon "BadgeCheck"; T "Verified"] else V verified];
      E "button" [("onClick", "removeFromWishlist"); ("propertyId", interp id)] [icon "Heart"];
      E "div" [] [E "span" [] [T "₹"; locale_num rent]; E "span" [] [T "/month"]]];
    E "CardContent" [] [
      link ("/properties/" +:+ interp slug) [E "h3" [] [V title]];
      E "div" [] [icon "MapPin"; E "span" [] [V address; T ", "; V city]];
      E "div" [] [E "Badge" [("variant", "secondary")] [V ty]; rating r]]].

Definition header (props : list json) : frag :=
  E "div" [] [
    E "div" [] [E "h1" [] [icon "Heart"; T "My Wishlist"];
                E "p" [] [T (pretty (length props)); T " saved properties"]];
    if (0 <? length props)%nat
    then E "Button" [("variant", "outline"); ("onClick", "clearWishlist")] [icon "Trash2"; T "Clear All"]
    else none].

Definition empty : frag :=
  E "div" [] [E "div" [] [icon "Heart"]; E "h2" [] [T "Your wishlist is empty"];
              E "p" [] [T "Start saving properties you like by clicking the heart icon"];
              link "/properties" [E "Button" [] [icon "Home"; T "Browse Properties"]]].

Definition render (catalogue : list json) (st : state) : frag :=
  if isLoading st then skeleton
  else
    props ← wishlistedProperties catalogue st;
    E "div" [] [E "div" [] [
      header props;
      if Nat.eqb (length props) 0 then empty else E "div" [] [each props card]]].

End view.

(** ** Lemmas *)
Section facts.
Context `{Locale}.

(** Every link of the page is the properties page or the page of a
    listing of the file: whatever holds of those holds of all. *)
Lemma wishlist_links (q : string → bool) catalogue st :
  q "/properties" = true →
  (∀ p s, p ∈ catalogue → mem p "slug" = Some s → q ("/properties/" +:+ interp s) = true) →
  links_in (λ h, q h = true) (render catalogue st).
Proof.
  intros Hq Hs. unfold render, skeleton. case_match; [links_in_auto |].
  apply links_in_bind; intros props Hp. unfold wishlistedProperties in Hp.
  case_match; simplify_eq. unfold header, empty, link. links_in_auto.
  - apply links_in_E; [exact Hq | links_in_auto].
  - match goal with H' : _ ∈ List.filter _ _ |- _ => pose proof (elem_of_List_filter _ _ _ H') as Hx end.
    unfold card. apply links_in_bind; intros ??. apply links_in_bind; intros sl Hsl.
    pose proof (Hs _ _ Hx Hsl) as Hq'. do 8 (apply links_in_bind; intros ??). unfold link, rating.
    links_in_auto; (apply links_in_E; [exact Hq' | links_in_auto]).
Qed.

End facts.
End WishlistPageView.
