(* ===== verification/CatalogueView.v ===== *)
(** * The properties page as rendered

    [PropertiesPageView] is the render of [src/src/app/properties/page.tsx]
    (lines 185-535) over the state of [PublicPages.Catalogue] and the
    page's display state ([viewMode], [selectedPropertyId]), with the
    handlers of its inputs, selects and view buttons and the effect
    that reads [?view=map].  The theorems are about the selects: their
    type options other than "PG" name no type a listing can have, and
    their "all" options filter on the string "all", so choosing them
    empties the list. *)

From S2P Require Import Prelude Json MongoDb Utils Pages PublicPages Home Html WishlistView.
From Stdlib Require Import Ascii QArith.
Open Scope string_scope.
Open Scope list_scope.
Open Scope un_scope.

Module PropertiesPageView.
Import Html Catalogue.

Inductive view_mode := grid | list_view | map.

(** [viewMode] and [selectedPropertyId]. *)
Record ui := mkUI { viewMode : view_mode; selectedPropertyId : option json }.

Definition initial_ui : ui := mkUI grid None.

(** The effect on [searchParams]: [view === "map"] selects the map. *)
Definition view_effect (view : option string) (u : ui) : ui :=
  if bool_decide (view = Some "map") then mkUI map (selectedPropertyId u) else u.

Definition setViewMode (m : view_mode) (u : ui) : ui := mkUI m (selectedPropertyId u).

(** [setSelectedPropertyId(property.id)] of a card beside the map. *)
Definition selectProperty (id : option json) (u : ui) : ui := mkUI (viewMode u) id.

(** The search and location inputs. *)
Definition setSearchQuery (v : string) (st : state) : state :=
  mkState (properties st) (isLoading st) v (location st) (sortBy st) (wishlist st) (flt st).
Definition setLocation (v : string) (st : state) : state :=
  mkState (properties st) (isLoading st) (searchQuery st) v (sortBy st) (wishlist st) (flt st).

(** [setFilters((prev) => ({ ...prev, propertyType: value }))] *)
Definition setPropertyType (v : string) (st : state) : state :=
  mkState (properties st) (isLoading st) (searchQuery st) (location st) (sortBy st) (wishlist st)
          (mkFilters v (priceRange (flt st)) (gender (flt st))).

(** [setFilters((prev) => ({ ...prev, gender: value }))] *)
Definition setGender (v : string) (st : state) : state :=
  mkState (properties st) (isLoading st) (searchQuery st) (location st) (sortBy st) (wishlist st)
          (mkFilters (propertyType (flt st)) (priceRange (flt st)) v).

Definition setSortBy (s : sort_option) (st : state) : state :=
  mkState (properties st) (isLoading st) (searchQuery st) (location st) s (wishlist st) (flt st).

(** The values of the type select (lines 224-228) and of the gender
    select (lines 243-246). *)
Definition type_options : list string := ["all"; "PG"; "Hostel"; "Flat"; "Room"].
Definition gender_options : list string := ["all"; "MALE"; "FEMALE"; "ANY"].

(** [xs.includes(x)]: an array by membership, a string by substring;
    anything else has no [includes] and throws. *)
Definition includes (xs : option json) (x : option json) : option bool :=
  match xs, x with
  | Some (JArr l), Some v => Some (bool_decide (v ∈ l))
  | Some (JArr _), None => Some false
  | Some (JStr s), Some (JStr t) => Some (contains t s)
  | _, _ => None
  end.

Section view.
Context `{Locale}.

(** [genderPreference === "MALE" ? "Boys" : ... === "FEMALE" ? "Girls" : "Co-ed"] *)
Definition gender_text (g : option json) : string :=
  if strict_eq g (Some (JStr "MALE")) then "Boys" else if strict_eq g (Some (JStr "FEMALE")) then "Girls" else "Co-ed".

Definition search_header (st : state) (u : ui) (count : nat) : frag :=
  E "div" [] [E "div" [] [
    E "div" [] [
      E "div" [] [icon "Search"; E "Input" [("placeholder", "Search by name, area, or description..."); ("value", searchQuery st);
                                           ("onChange", "setSearchQuery")] []];
      E "div" [] [icon "MapPin"; E "Input" [("placeholder", "City or area..."); ("value", location st);
                                           ("onChange", "setLocation")] []];
      E "Select" [("value", propertyType (flt st)); ("onValueChange", "setPropertyType")]
        [each type_options (fun v => E "SelectItem" [("value", v)] [])];
      E "Select" [("value", gender (flt st)); ("onValueChange", "setGender")]
        [each gender_options (fun v => E "SelectItem" [("value", v)] [])]];
    E "div" [] [
      E "p" [] [T (if isLoading st then "Searching..." else pretty count +:+ " properties found")];
      E "div" [] [
        E "Select" [("onValueChange", "setSortBy")]
          [each ["relevance"; "price-low"; "price-high"; "rating"] (fun v => E "SelectItem" [("value", v)] [])];
        E "div" [] [
          E "Button" [("variant", match viewMode u with grid => "secondary" | _ => "ghost" end); ("onClick", "setViewMode(grid)")] [icon "Grid3X3"];
          E "Button" [("variant", match viewMode u with list_view => "secondary" | _ => "ghost" end); ("onClick", "setViewMode(list)")] [icon "List"];
          E "Button" [("variant", match viewMode u with map => "secondary" | _ => "ghost" end); ("onClick", "setViewMode(map)")] [icon "Map"]]]]]].

(** [[...Array(6)].map(...)] of skeletons. *)
Definition skeleton : frag :=
  E "div" [] [each (seq 0 6) (fun _ => E "div" [] [E "Skeleton" [] []; E "div" [] [E "Skeleton" [] []; E "Skeleton" [] []; E "Skeleton" [] []]])].

Definition empty : frag :=
  E "div" [] [E "div" [] [icon "Search"]; E "h3" [] [T "No properties found"];
              E "p" [] [T "Try adjusting your search or filters to find more results."];
              E "Button" [("onClick", "clearFilters")] [T "Clear all filters"]].

(** A card beside the map (lines 350-405). *)
Definition map_card (u : ui) (p : json) : frag :=
  src ← WishlistPageView.image_src p; id ← mem p "id"; title ← mem p "title"; slug ← mem p "slug";
  address ← mem p "address"; rent ← mem p "rent"; ty ← mem p "propertyType"; g ← mem p "genderPreference";
  r ← mem p "averageRating";
  E "Card" [("onClick", "selectProperty"); ("selected", if strict_eq (selectedPropertyId u) id then "true" else "false")] [
    E "div" [] [
      E "div" [] [E "Image" ([("src", src)] ++ attr_opt "alt" title) []];
      E "CardContent" [] [
        link ("/properties/" +:+ interp slug) [E "h3" [] [V title]];
        E "div" [] [icon "MapPin"; E "span" [] [V address]];
        E "div" [] [E "span" [] [T "₹"; locale_num rent]; E "Badge" [("variant", "secondary")] [V ty]];
        E "div" [] [E "Badge" [("variant", "outline")] [T (gender_text g)]; WishlistPageView.rating r]]]].

Definition map_view (u : ui) (ps : list json) : frag :=
  E "div" [] [E "div" [] [E "PropertyMap" (attr_opt "selectedPropertyId" (selectedPropertyId u)) []];
              E "div" [] [each ps (map_card u)]].

(** [{property.amenities.includes(a) && (...)}] *)
Definition amenity (amenities : option json) (a label ic : string) : frag :=
  includes amenities (Some (JStr a)) ≫= fun b : bool =>
  if b then E "div" [] [icon ic; E "span" [] [T label]] else none.

(** A card of the grid or the list (lines 418-528). *)
Definition grid_card (st : state) (p : json) : frag :=
  src ← WishlistPageView.image_src p; id ← mem p "id"; title ← mem p "title"; slug ← mem p "slug";
  verified ← mem p "isVerified"; featured ← mem p "isFeatured"; rent ← mem p "rent"; address ← mem p "address";
  city ← mem p "city"; ty ← mem p "propertyType"; g ← mem p "genderPreference"; r ← mem p "averageRating";
  amenities ← mem p "amenities"; includes (Some (wishlist st)) id ≫= fun liked : bool =>
  E "Card" [] [
    E "div" [] [
      link ("/properties/" +:+ interp slug) [E "div" [] [E "Image" ([("src", src)] ++ attr_opt "alt" title) []]];
      E "div" [] [if truthy_opt verified then E "Badge" [] [icon "BadgeCheck"; T "Verified"] else V verified;
                  if truthy_opt featured then E "Badge" [] [T "Featured"] else V featured];
      E "button" [("onClick", "toggleWishlist"); ("propertyId", interp id)]
        [E "Heart" [("filled", if liked then "true" else "false")] []];
      E "div" [] [E "span" [] [T "₹"; locale_num rent]; E "span" [] [T "/month"]]];
    E "CardContent" [] [
      link ("/properties/" +:+ interp slug) [E "h3" [] [V title]];
      E "div" [] [icon "MapPin"; E "span" [] [V address; T ", "; V city]];
      E "div" [] [E "Badge" [("variant", "secondary")] [V ty]; E "Badge" [("variant", "outline")] [T (gender_text g)];
                  WishlistPageView.rating r];
      E "div" [] [amenity amenities "wifi" "WiFi" "Wifi"; amenity amenities "parking" "Parking" "Car";
                  amenity amenities "security" "Security" "Shield"]]].

Definition render (st : state) (u : ui) : frag :=
  ps ← filteredProperties st;
  E "div" [] [
    search_header st u (length ps);
    E "div" [] [
      if isLoading st then skeleton
      else if Nat.eqb (length ps) 0 then empty
      else match viewMode u with
           | map => map_view u ps
           | m => E "div" [("layout", match m with grid => "grid" | _ => "list" end)] [each ps (grid_card st)]
           end]].

End view.

(** Two listings as the add-property form stores them. *)
Definition demo_catalogue : list json :=
  [JObj [("id", JStr "p1"); ("slug", JStr "green-hostel"); ("title", JStr "Green Hostel"); ("propertyType", JStr "HOSTEL");
         ("genderPreference", JStr "MALE"); ("rent", JNum 6000)];
   JObj [("id", JStr "p2"); ("slug", JStr "sunny-pg"); ("title", JStr "Sunny PG"); ("propertyType", JStr "PG");
         ("genderPreference", JStr "ANY"); ("rent", JNum 9000)]].

Definition demo_state : state := mkState demo_catalogue false "" "" relevance (JArr []) default_filters.

(** ** Lemmas *)

(** What [filteredProperties] keeps: listings of the page that have the
    selected type and gender, when these are set. *)
Lemma filtered_members st ps p :
  filteredProperties st = Some ps → p ∈ ps →
  p ∈ properties st ∧
  (propertyType (flt st) = "" ∨ member_is "propertyType" (propertyType (flt st)) p = true) ∧
  (gender (flt st) = "" ∨ member_is "genderPreference" (gender (flt st)) p = true).
Proof.
  unfold filteredProperties. intros Hf Hp.
  destruct (if String.eqb (searchQuery st) "" then _ else _) as [r1|] eqn:H1; [| done]. simpl in Hf.
  destruct (if String.eqb (location st) "" then _ else _) as [r2|] eqn:H2; [| done]. simpl in Hf.
  injection Hf as <-.
  assert (Hr1 : ∀ x, x ∈ r1 → x ∈ properties st).
  { intros x Hx. destruct (String.eqb (searchQuery st) ""); simplify_eq;
    [done | by apply (Pages.filter_opt_spec _ _ _ H1)]. }
  assert (Hr2 : ∀ x, x ∈ r2 → x ∈ r1).
  { intros x Hx. destruct (String.eqb (location st) ""); simplify_eq;
    [done | by apply (Pages.filter_opt_spec _ _ _ H2)]. }
  assert (Hp5 : p ∈ (let r3 := if String.eqb (propertyType (flt st)) "" then r2
                               else List.filter (member_is "propertyType" (propertyType (flt st))) r2 in
                     let r4 := List.filter (in_price (priceRange (flt st))) r3 in
                     if String.eqb (gender (flt st)) "" then r4
                     else List.filter (member_is "genderPreference" (gender (flt st))) r4)).
  { destruct (sortBy st); try done; by rewrite isort_perm in Hp. }
  clear Hp. simpl in Hp5.
  destruct (String.eqb (gender (flt st)) "") eqn:Hg;
    [| apply elem_of_List_filter_iff in Hp5 as [Hp5 Hpg]];
    apply elem_of_List_filter_iff in Hp5 as [Hp5 _];
    (destruct (String.eqb (propertyType (flt st)) "") eqn:Ht;
      [| apply elem_of_List_filter_iff in Hp5 as [Hp5 Hpt]]);
    split_and!; try (by apply Hr1, Hr2); try (left; by apply String.eqb_eq); by right.
Qed.

(** ** Properties *)

(** C23. The selects of the properties page: on a page whose listings
    have the types and genders of the form's option lists, choosing "All
    Types", "Hostel", "Flat" or "Room" in the type select, or "All" in
    the gender select, leaves no listing: the values filtered on are
    ["all"] and mixed-case names, which no listing has; "PG" is the
    only type option that can match. *)
Theorem catalogue_selects_empty st :
  Forall (λ p, ∃ t g, get p "propertyType" = Some (JStr t) ∧ t ∈ Utils.propertyTypes.*1 ∧
                      get p "genderPreference" = Some (JStr g) ∧ g ∈ Utils.genderOptions.*1) (properties st) →
  (∀ v ps, v ∈ type_options → v ≠ "PG" → filteredProperties (setPropertyType v st) = Some ps → ps = []) ∧
  (∀ ps, filteredProperties (setGender "all" st) = Some ps → ps = []).
Proof.
  intros Hall. split.
  - intros v ps Hv Hpg Hf. apply elem_of_nil_inv. intros p Hp.
    destruct (filtered_members _ _ _ Hf Hp) as (Hin & [Ht | Ht] & _); simpl in *.
    + subst. set_solver.
    + rewrite Forall_forall in Hall. destruct (Hall p Hin) as (t & g & Hpt & Htl & _).
      unfold member_is in Ht. rewrite Hpt in Ht. apply strict_eq_str_inv in Ht. simplify_eq. set_solver.
  - intros ps Hf. apply elem_of_nil_inv. intros p Hp.
    destruct (filtered_members _ _ _ Hf Hp) as (Hin & _ & [Hg | Hg]); simpl in *; [done |].
    rewrite Forall_forall in Hall. destruct (Hall p Hin) as (t & g & _ & _ & Hpg & Hgl).
    unfold member_is in Hg. rewrite Hpg in Hg. apply strict_eq_str_inv in Hg. simplify_eq. set_solver.
Qed.

Lemma catalogue_selects_empty_witness :
  (∀ v ps, v ∈ type_options → v ≠ "PG" → filteredProperties (setPropertyType v demo_state) = Some ps → ps = []) ∧
  (∀ ps, filteredProperties (setGender "all" demo_state) = Some ps → ps = []).
Proof.
  apply (catalogue_selects_empty demo_state).
  repeat constructor; eexists _, _; split_and!; try reflexivity; apply (bool_decide_unpack _); reflexivity.
Defined.

End PropertiesPageView.
