(* ===== verification/HomeView.v ===== *)
(** * The home page as rendered

    [HomePageView] is the render of [src/src/app/page.tsx] (lines
    119-572) with its input's handlers, over the search text and the
    listings file: the hero with the search bar, the "Popular" links and
    the stats, the features, the first six listings, the popular
    cities, the three steps, the testimonials and the final links.  The
    theorem says where its links lead: every one reaches a page, and the
    popular searches and cities open the properties page already
    filtered on their text. *)

From S2P Require Import Prelude Json MongoDb Utils Forms PublicPages Home Html WishlistView.
From Stdlib Require Import Ascii.
Open Scope string_scope.
Open Scope list_scope.
Open Scope un_scope.

Module HomePageView.
Import Html HomePage UrlCodec.

(** [features]: icon, title and description (the colour is styling). *)
Definition features : list (string * string * string) :=
  [("Shield", "100% Verified", "Every property is personally verified by our team");
   ("MapPin", "Near Your College", "Find accommodation within walking distance");
   ("Users", "Find Roommates", "Connect with like-minded students");
   ("Zap", "Instant Booking", "Schedule visits and book in minutes")].

(** [stats]: value, label and icon. *)
Definition stats : list (string * string * string) :=
  [("10K+", "Properties", "Building"); ("50K+", "Students", "Users"); ("100+", "Cities", "MapPin");
   ("4.8", "Rating", "Star")].

(** [popularCities]: name, image and count. *)
Definition popularCities : list (string * string * Z) :=
  [("Delhi", "https://images.unsplash.com/photo-1587474260584-136574528ed5?w=400", 2500);
   ("Kolkata", "https://images.unsplash.com/photo-1558431382-27e303142255?w=400", 1200);
   ("Bangalore", "https://images.unsplash.com/photo-1596176530529-78163a4f7af2?w=400", 2800);
   ("Mumbai", "https://images.unsplash.com/photo-1570168007204-dfb528c6958f?w=400", 3200);
   ("Pune", "https://images.unsplash.com/photo-1567157577867-05ccb1388e66?w=400", 1500);
   ("Chennai", "https://images.unsplash.com/photo-1582510003544-4d00b7f74220?w=400", 1200)]%Z.

(** The "Popular:" searches (lines 205-210). *)
Definition popularSearches : list string := ["Heritage IT Kolkata"; "IIT Delhi"; "BITS Pilani"; "Christ University"].

(** The three steps (lines 425-443): number, icon, title, text. *)
Definition steps : list (Z * string * string * string) :=
  [(1, "Search", "Search", "Enter your college or preferred location");
   (2, "Building", "Compare", "Filter by price, amenities & preferences");
   (3, "CheckCircle", "Book", "Schedule visits and secure your place")]%Z.

(** The testimonials (lines 484-502): name, college, text, rating. *)
Definition testimonials : list (string * string * string * nat) :=
  [("Priya S.", "IIT Delhi", "Found a perfect PG within my budget. The verified listings gave me confidence!", 5%nat);
   ("Rahul V.", "BITS Pilani", "The roommate finder helped me connect with great flatmates. Highly recommend!", 5%nat);
   ("Ananya P.", "Mumbai Univ", "Super easy to use! Booked my hostel in just 2 days. Amazing platform.", 5%nat)].

(** [onChange={(e) => setSearchQuery(e.target.value)}] *)
Definition setSearchQuery (v : string) (searchQuery : string) : string := v.

(** [handleKeyPress]: Enter searches, the route pushed. *)
Definition handleKeyPress (key : string) (searchQuery : string) : option string :=
  if String.eqb key "Enter" then Some (handleSearch searchQuery) else None.

(** The link of a popular search and of a popular city. *)
Definition search_href (item : string) : string := "/properties?q=" +:+ encodeURIComponent item.
Definition city_href (name : string) : string := "/properties?location=" +:+ to_lower name.

Section view.
Context `{Locale}.

Definition hero (searchQuery : string) : frag :=
  E "section" [] [E "div" [] [
    E "div" [] [
      E "Badge" [] [icon "Sparkles"; T "#1 Student Housing Platform"];
      E "h1" [] [T "Find Your"; E "span" [] [E "span" [] [T "Perfect"]]; E "br" [] []; T "Home Near College"];
      E "p" [] [T "Discover verified PGs, hostels & flats. Connect with trusted landlords. Find compatible roommates. All in one place."];
      E "div" [] [
        E "div" [] [icon "Search"; E "Input" [("placeholder", "Search by college, city, or area...");
                                             ("value", searchQuery); ("onChange", "setSearchQuery");
                                             ("onKeyPress", "handleKeyPress")] []];
        E "Button" [("size", "lg"); ("onClick", "handleSearch")] [T "Search"; icon "ArrowRight"]];
      E "div" [] [E "span" [] [T "Popular:"]; each popularSearches (fun item => link (search_href item) [T item])]];
    E "div" [] [
      E "div" [] [each stats (fun '(v, l, i) => E "div" [] [E "div" [] [E "div" [] [icon i];
                                                            E "div" [] [E "div" [] [T v]; E "div" [] [T l]]]])];
      E "div" [] [E "div" [] [icon "BadgeCheck"; E "span" [] [T "100% Verified"]]]]]].

Definition features_section : frag :=
  E "section" [] [E "div" [] [
    E "div" [] [E "Badge" [("variant", "outline")] [T "Why UniNest?"]; E "h2" [] [T "Everything You Need in One Place"]];
    E "div" [] [each features (fun '(i, t, d) =>
      E "Card" [] [E "CardContent" [] [E "div" [] [icon i]; E "h3" [] [T t]; E "p" [] [T d]]])]]].

(** A featured listing (lines 318-364): its rating is shown as it is. *)
Definition featured_card (p : json) : frag :=
  src ← WishlistPageView.image_src p; slug ← mem p "slug"; title ← mem p "title"; verified ← mem p "isVerified";
  rent ← mem p "rent"; city ← mem p "city"; ty ← mem p "propertyType"; r ← mem p "averageRating";
  link ("/properties/" +:+ interp slug) [E "Card" [] [
    E "div" [] [
      E "Image" ([("src", src)] ++ attr_opt "alt" title) [];
      E "div" [] [if truthy_opt verified then E "Badge" [] [icon "BadgeCheck"; T "Verified"] else V verified];
      E "div" [] [E "div" [] [E "span" [] [T "₹"; locale_num rent]; E "span" [] [T "/month"]]]];
    E "CardContent" [] [
      E "h3" [] [V title];
      E "div" [] [icon "MapPin"; E "span" [] [V city]];
      E "div" [] [E "Badge" [("variant", "secondary")] [V ty]; E "div" [] [icon "Star"; E "span" [] [V r]]]]]].

Definition featured_section (catalogue : list json) : frag :=
  E "section" [] [E "div" [] [
    E "div" [] [E "div" [] [E "Badge" [("variant", "outline")] [T "Featured"]; E "h2" [] [T "Popular Properties"]];
                link "/properties" [E "Button" [("variant", "outline")] [T "View All"; icon "ChevronRight"]]];
    E "div" [] [each (featuredProperties catalogue) featured_card]]].

Definition cities_section : frag :=
  E "section" [] [E "div" [] [
    E "div" [] [E "Badge" [("variant", "outline")] [T "Explore"]; E "h2" [] [T "Popular Cities"];
                E "p" [] [T "Find properties in top student destinations"]];
    E "div" [] [each popularCities (fun '(n, img, k) =>
      link (city_href n) [E "Card" [] [E "div" [] [
        E "Image" [("src", img); ("alt", n)] [];
        E "div" [] [E "h3" [] [T n]; E "p" [] [T (pretty k); T "+ properties"]]]]])]]].

Definition steps_section : frag :=
  E "section" [] [E "div" [] [
    E "div" [] [E "Badge" [] [T "How It Works"]; E "h2" [] [T "Find Your Home in 3 Steps"]];
    E "div" [] [each steps (fun '(n, i, t, d) =>
      E "div" [] [E "div" [] [E "div" [] [icon i]; E "div" [] [T (pretty n)]]; E "h3" [] [T t]; E "p" [] [T d]])];
    E "div" [] [link "/properties" [E "Button" [("size", "lg"); ("variant", "secondary")] [T "Start Searching"; icon "ArrowRight"]]]]].

Definition testimonials_section : frag :=
  E "section" [] [E "div" [] [
    E "div" [] [E "Badge" [("variant", "outline")] [T "Reviews"]; E "h2" [] [T "What Students Say"]];
    E "div" [] [each testimonials (fun '(n, c, t, r) =>
      E "Card" [] [E "CardContent" [] [
        E "div" [] [each (seq 0 r) (fun _ => icon "Star")];
        E "p" [] [T "“"; T t; T "”"];
        E "div" [] [E "div" [] [T (String.substring 0 1 n)]; E "div" [] [E "p" [] [T n]; E "p" [] [T c]]]]])]]].

Definition cta_section : frag :=
  E "section" [] [E "div" [] [E "Card" [] [E "CardContent" [] [
    E "h2" [] [T "Ready to Find Your New Home?"];
    E "p" [] [T "Join 50,000+ students who found their perfect accommodation through UniNest"];
    E "div" [] [link "/properties" [E "Button" [("size", "lg"); ("variant", "secondary")] [icon "Search"; T "Browse Properties"]];
                link "/properties?view=map" [E "Button" [("size", "lg"); ("variant", "outline")] [icon "MapPin"; T "Explore on Map"]]]]]]].

Definition render (catalogue : list json) (searchQuery : string) : frag :=
  E "div" [] [hero searchQuery; features_section; featured_section catalogue; cities_section; steps_section;
              testimonials_section; cta_section].

End view.

(** ** Lemmas *)
Section facts.
Context `{Locale}.

Lemma featured_card_links (q : string → bool) p s :
  mem p "slug" = Some s → q ("/properties/" +:+ interp s) = true → links_in (λ h, q h = true) (featured_card p).
Proof.
  intros Hs Hq. unfold featured_card. apply links_in_bind; intros ??.
  apply links_in_bind; intros sl Hsl. rewrite Hs in Hsl. injection Hsl as <-.
  do 6 (apply links_in_bind; intros ??). unfold link. apply links_in_E; [exact Hq |]. links_in_auto.
Qed.

(** The popular searches and cities, read back by the properties page. *)
Lemma popular_queries :
  Forall (λ item, query_get "q" (search_href item) = Some item ∧ query_get "location" (search_href item) = None)
    popularSearches ∧
  Forall (λ c, query_get "q" (city_href c.1.1) = None ∧ query_get "location" (city_href c.1.1) = Some (to_lower c.1.1))
    popularCities.
Proof. split; repeat constructor. Qed.

End facts.

(** ** Properties *)
Section properties.
Context `{Locale}.

(** C24. Where the home page leads: when the first six listings of the
    file have plain slugs, every link of the page reaches a page of the
    application, and each "Popular:" search and each popular city opens
    the properties page with its search text, or the city in lower case
    as its location, and nothing else. *)
Theorem home_links catalogue q :
  Forall (λ p, ∃ s, mem p "slug" = Some (Some (JStr s)) ∧ Utils.all_chars Utils.slug_char s = true)
    (featuredProperties catalogue) →
  links_in (λ h, Site.served h = true) (render catalogue q) ∧
  Forall (λ item, Catalogue.initial (query_get "q" (search_href item)) (query_get "location" (search_href item))
                  = Catalogue.initial (Some item) None) popularSearches ∧
  Forall (λ c, Catalogue.initial (query_get "q" (city_href c.1.1)) (query_get "location" (city_href c.1.1))
               = Catalogue.initial None (Some (to_lower c.1.1))) popularCities.
Proof.
  intros Hslugs. destruct popular_queries as [Hq Hc]. split_and!.
  - unfold render, hero, features_section, featured_section, cities_section, steps_section, testimonials_section,
      cta_section, popularSearches, stats, features, popularCities, steps, testimonials, link.
    links_in_auto. rewrite Forall_forall in Hslugs.
    match goal with Hx : _ ∈ featuredProperties _ |- _ => destruct (Hslugs _ Hx) as (s & Hs & Hok) end.
    apply (featured_card_links _ _ _ Hs). by apply served_detail.
  - eapply Forall_impl; [exact Hq |]. by intros item [-> ->].
  - eapply Forall_impl; [exact Hc |]. by intros c [-> ->].
Qed.

End properties.

Import Html.Demo.

Lemma home_links_witness :
  links_in (λ h, Site.served h = true) (render catalogue "") ∧
  Forall (λ item, Catalogue.initial (query_get "q" (search_href item)) (query_get "location" (search_href item))
                  = Catalogue.initial (Some item) None) popularSearches ∧
  Forall (λ c, Catalogue.initial (query_get "q" (city_href c.1.1)) (query_get "location" (city_href c.1.1))
               = Catalogue.initial None (Some (to_lower c.1.1))) popularCities.
Proof. apply home_links. repeat constructor; eexists; split; reflexivity. Defined.

End HomePageView.
