(* ===== verification/AddPropertyView.v ===== *)
(** * The add-property form as rendered, and the events it fires

    [AddPropertyView] is the render of
    [src/src/app/dashboard/landlord/add-property/page.tsx] (lines
    310-1039) over [Forms.AddProperty.state]: the loader while the
    session loads, the success card, then the form's eight cards and its
    buttons.  Each control is bound to one member of [formData]: it
    shows [formData[field]] and its handler calls
    [updateFormData(field, ...)] with the text of an input, the value of
    a select or the boolean of a checkbox; the amenity buttons call
    [toggleAmenity], the image buttons [addImageUrl] and [removeImage].
    [event] names these handlers, [step] runs one on [formData], and
    [fires] reads the events a landlord can fire off the render of the
    current form ([shown]), so [rtc form_step initial_form] is the set
    of forms the page can reach.  [render_wired] shows that every
    [updateFormData] handler of the render is on a field of
    [text_fields] or [check_fields].

    The theorems: [formData] keeps the type its [useState] literal
    declares (lines 101-159) under every event the form fires, and the
    page renders every such form without throwing ([render_ok]); no
    control writes [latitude] or [longitude], so every listing the form
    submits is placed at the fallback point (22.5, 88.4). *)

From S2P Require Import Prelude Json MongoDb Utils Types Forms Html.
From stdpp Require Import relations.
From Stdlib Require Import Ascii.
Open Scope string_scope.
Open Scope list_scope.
Open Scope un_scope.

Module AddPropertyView.
Import Html AddProperty.

(** The handler name of a control bound to [field]. *)
Definition handler (field : string) : string := "updateFormData:" +:+ field.

(** The boolean rules (lines 882-889): id and label. *)
Definition RULES : list (string * string) :=
  [("nonVegAllowed", "Non-veg Allowed"); ("smokingAllowed", "Smoking Allowed");
   ("drinkingAllowed", "Drinking Allowed"); ("petsAllowed", "Pets Allowed");
   ("visitorsAllowed", "Visitors Allowed"); ("oppositeSexAllowed", "Opposite Sex Visitors")].

Section view.
Context `{Locale}.

(** [<Input value={formData[field]} onChange=... />] with its other
    props ([type], [min], [placeholder], [required]). *)
Definition input (field : string) (props : list (string * string)) (f : fields) : frag :=
  E "Input" ([("onChange", handler field)] ++ props ++ attr_opt "value" (lookup_field field f)) [].

(** The same with [id={field}], as every input but the food ones has. *)
Definition input_id (field : string) (props : list (string * string)) (f : fields) : frag :=
  input field (("id", field) :: props) f.

Definition textarea (field : string) (props : list (string * string)) (f : fields) : frag :=
  E "Textarea" ([("id", field); ("onChange", handler field)] ++ props ++ attr_opt "value" (lookup_field field f)) [].

(** [<Label>] then the control. *)
Definition labelled (label : string) (control : frag) : frag := E "div" [] [E "Label" [] [T label]; control].

(** [<Select value={formData[field]} onValueChange=...>] over options. *)
Definition select (field : string) (options : list (string * string)) (f : fields) : frag :=
  E "Select" ([("onValueChange", handler field)] ++ attr_opt "value" (lookup_field field f))
    [E "SelectContent" [] [each options (fun '(v, l) => E "SelectItem" [("value", v)] [T l])]].

(** [<Checkbox checked={formData[field]} onCheckedChange=... />] *)
Definition checkbox (field : string) (f : fields) : frag :=
  E "Checkbox" ([("id", field); ("onCheckedChange", handler field)] ++ attr_opt "checked" (lookup_field field f)) [].

(** A card: its title with an icon, its description, its content. *)
Definition card (title : string) (icn desc : option string) (body : list frag) : frag :=
  E "Card" [] [E "CardHeader" [] [E "CardTitle" [] [from_option icon none icn; T title];
                                  from_option (fun d => E "CardDescription" [] [T d]) none desc];
               E "CardContent" [] body].

Definition basic_info (f : fields) : frag :=
  card "Basic Information" (Some "Building2") (Some "Provide basic details about your property") [
    labelled "Property Title *" (input_id "title" [("placeholder", "e.g., Boys PG Near Heritage Institute"); ("required", "true")] f);
    labelled "Description *" (textarea "description" [("placeholder", "Describe your property, facilities, nearby locations..."); ("rows", "4"); ("required", "true")] f);
    E "div" [] [
      labelled "Property Type *" (select "propertyType" PROPERTY_TYPES f);
      labelled "Gender Preference *" (select "genderPreference" GENDER_OPTIONS f);
      if strict_eq (lookup_field "propertyType" f) (Some (JStr "FLAT"))
      then labelled "BHK" (select "bhk" [("1", "1 BHK"); ("2", "2 BHK"); ("3", "3 BHK"); ("4", "4 BHK")] f)
      else none]].

Definition location (f : fields) : frag :=
  card "Location" (Some "MapPin") (Some "Where is your property located?") [
    labelled "Full Address *" (input_id "address" [("placeholder", "Street address, area"); ("required", "true")] f);
    E "div" [] [
      labelled "City *" (input_id "city" [("placeholder", "Kolkata"); ("required", "true")] f);
      labelled "State" (input_id "state" [] f);
      labelled "Pincode *" (input_id "pincode" [("placeholder", "700001"); ("required", "true")] f)];
    labelled "Landmark" (input_id "landmark" [("placeholder", "Near Heritage Institute, opposite SBI Bank")] f);
    labelled "Nearby Colleges (comma separated)"
      (input_id "nearbyColleges" [("placeholder", "Heritage Institute, Techno India, NSHM")] f)].

Definition num (min : string) : list (string * string) := [("type", "number"); ("min", min)].

(** The furnishing details box of the room card. *)
Definition furnishing_details (f : fields) : frag :=
  labelled "Furnishing Details (comma separated)"
    (input_id "furnishingDetails" [("placeholder", "Bed, Mattress, Study Table, Chair, Cupboard, Fan")] f).

Definition room_details (f : fields) : frag :=
  card "Room Details" (Some "Bed") None [
    E "div" [] [
      labelled "Total Rooms" (input_id "totalRooms" (num "1") f);
      labelled "Total Beds" (input_id "totalBeds" (num "1") f);
      labelled "Available Beds *" (input_id "availableBeds" (num "0" ++ [("required", "true")]) f);
      labelled "Beds/Room" (input_id "bedsPerRoom" (num "1") f)];
    E "div" [] [
      labelled "Room Size" (input_id "roomSize" [("placeholder", "120 sq ft")] f);
      labelled "Bathrooms" (input_id "bathrooms" (num "1") f);
      labelled "Floor" (input_id "floorNumber" (num "0") f);
      labelled "Total Floors" (input_id "totalFloors" (num "1") f)];
    E "div" [] [
      labelled "Occupancy Type" (select "occupancyType" OCCUPANCY_OPTIONS f);
      labelled "Furnishing" (select "furnishing" FURNISHING_OPTIONS f)];
    furnishing_details f].

Definition pricing (f : fields) : frag :=
  card "Pricing" (Some "IndianRupee") None [
    E "div" [] [
      labelled "Monthly Rent (₹) *" (input_id "rent" (num "0" ++ [("placeholder", "6500"); ("required", "true")]) f);
      labelled "Security Deposit (₹) *" (input_id "deposit" (num "0" ++ [("placeholder", "13000"); ("required", "true")]) f);
      labelled "Maintenance (₹/month)" (input_id "maintenanceCharges" (num "0" ++ [("placeholder", "500")]) f)];
    E "div" [] [
      labelled "Electricity Charges" (select "electricityCharges" [("included", "Included in Rent"); ("separate", "Separate (As per usage)")] f);
      labelled "Water Charges" (select "waterCharges" [("included", "Included in Rent"); ("separate", "Separate")] f)];
    E "div" [] [
      checkbox "foodIncluded" f;
      E "Label" [] [T "Food/Meals Included"];
      if truthy_opt (lookup_field "foodIncluded" f)
      then E "div" [] [input "foodCharges" [("type", "number"); ("placeholder", "Food charges")] f;
                       input "mealsPerDay" [("type", "number"); ("placeholder", "Meals/day")] f]
      else V (lookup_field "foodIncluded" f)]].

Definition amenities_card (f : fields) : frag :=
  amenities ← arr_member "amenities" f;
  card "Amenities" None (Some "Select available amenities") [
    E "div" [] [each AMENITIES (fun '(id, label) =>
      let on := bool_decide (JStr id ∈ amenities) in
      E "button" [("type", "button"); ("onClick", "toggleAmenity:" +:+ id); ("selected", if on then "true" else "false")]
        [E "span" [] [T label]; if on then icon "Check" else none])]].

Definition rules_card (f : fields) : frag :=
  card "House Rules" None None [
    E "div" [] [each RULES (fun '(id, label) => E "div" [] [checkbox id f; E "Label" [] [T label]])];
    labelled "Gate Closing Time" (input_id "gateClosingTime" [("type", "time")] f)].

Definition images_card (f : fields) : frag :=
  images ← arr_member "images" f;
  card "Property Images" (Some "ImagePlus") (Some "Add image URLs for your property") [
    E "div" [] [
      each (imap pair images) (fun '(index, url) =>
        E "div" [] [E "img" (attr_opt "src" (Some url) ++ [("alt", "Property " +:+ pretty (S index))]) [];
                    E "button" [("type", "button"); ("onClick", "removeImage:" +:+ pretty index)] [icon "X"];
                    if Nat.eqb index 0 then E "span" [] [T "Primary"] else none]);
      E "button" [("type", "button"); ("onClick", "addImageUrl")] [icon "ImagePlus"; E "span" [] [T "Add Image URL"]]]].

Definition availability (f : fields) : frag :=
  card "Availability" None None [
    E "div" [] [
      labelled "Available From" (input_id "availableFrom" [("type", "date")] f);
      labelled "Minimum Stay (months)" (input_id "minimumStay" (num "1") f);
      labelled "Notice Period (months)" (input_id "noticePeriod" (num "1") f)]].

Definition buttons (isSubmitting : bool) : frag :=
  E "div" [] [
    link "/dashboard/landlord" [E "Button" [("variant", "outline"); ("type", "button")] [T "Cancel"]];
    E "Button" [("type", "submit"); ("disabled", if isSubmitting then "true" else "false")]
      [if isSubmitting then F [icon "Loader2"; T "Adding Property..."] else T "Add Property"]].

Definition success_card : frag :=
  E "div" [] [E "Card" [] [E "CardContent" [] [
    E "div" [] [icon "Check"]; E "h2" [] [T "Property Added!"];
    E "p" [] [T "Your property has been successfully listed. Redirecting to your properties..."]; icon "Loader2"]]].

Definition render (authLoading : bool) (st : state) : frag :=
  if authLoading then E "div" [] [icon "Loader2"]
  else if success st then success_card
  else
    let f := formData st in
    E "div" [] [
      E "header" [] [E "div" [] [E "div" [] [
        link "/dashboard/landlord" [E "Button" [("variant", "ghost")] [icon "ArrowLeft"]];
        E "div" [] [E "h1" [] [T "Add New Property"]; E "p" [] [T "Fill in the details to list your property"]]]]];
      E "div" [] [
        if truthy (error st) then E "div" [] [V (Some (error st))] else V (Some (error st));
        E "form" [("onSubmit", "handleSubmit")] [
          basic_info f; location f; room_details f; pricing f; amenities_card f; rules_card f; images_card f;
          availability f; buttons (isSubmitting st)]]].

End view.

(** ** The handlers the form installs *)

(** What the render binds to [updateFormData]: the inputs, the textarea
    and the selects write a string, the checkboxes a boolean. *)
Definition text_fields : list string :=
  ["title"; "description"; "propertyType"; "genderPreference"; "bhk"; "address"; "city"; "state"; "pincode";
   "landmark"; "nearbyColleges"; "totalRooms"; "totalBeds"; "availableBeds"; "bedsPerRoom"; "roomSize";
   "bathrooms"; "floorNumber"; "totalFloors"; "occupancyType"; "furnishing"; "furnishingDetails"; "rent";
   "deposit"; "maintenanceCharges"; "electricityCharges"; "waterCharges"; "foodCharges"; "mealsPerDay";
   "gateClosingTime"; "availableFrom"; "minimumStay"; "noticePeriod"].
Definition check_fields : list string := "foodIncluded" :: RULES.*1.

(** One handler run by the visitor: [onChange] or [onValueChange] with
    the control's text, [onCheckedChange] with its state (a click gives a
    boolean), an amenity button, the image buttons ([prompt]'s answer). *)
Inductive event :=
| Change (field value : string)
| Checked (field : string) (checked : bool)
| Toggle (amenityId : string)
| AddImage (url : option string)
| RemoveImage (index : nat).

Definition step (ev : event) (f : fields) : option fields :=
  match ev with
  | Change k v => Some (updateFormData k (JStr v) f)
  | Checked k b => Some (updateFormData k (JBool b) f)
  | Toggle a => toggleAmenity a f
  | AddImage u => addImageUrl u f
  | RemoveImage i => removeImage i f
  end.

(** The fields [updateFormData] is called on with a string or a
    boolean: what an event writes when its control is one of these. *)
Definition wired_event (ev : event) : Prop :=
  match ev with
  | Change k _ => k ∈ text_fields
  | Checked k _ => k ∈ check_fields
  | _ => True
  end.

(** The handlers bound to [updateFormData] for the given fields. *)
Definition wired (fs : list string) (h : string) : bool := bool_decide (h ∈ handler <$> fs).

(** The form as the landlord fills it in: loaded, not submitted. *)
Definition shown `{Locale} (f : fields) : frag := render false (with_form initial f).

(** The events the controls of the shown form fire: a handler of the
    render, for the control's field, amenity or image. *)
Definition fires `{Locale} (f : fields) (ev : event) : Prop :=
  let on k := frag_attrs k (shown f) in
  match ev with
  | Change k _ => handler k ∈ on "onChange" ∨ handler k ∈ on "onValueChange"
  | Checked k _ => handler k ∈ on "onCheckedChange"
  | Toggle a => ("toggleAmenity:" +:+ a) ∈ on "onClick"
  | AddImage _ => "addImageUrl" ∈ on "onClick"
  | RemoveImage i => ("removeImage:" +:+ pretty i) ∈ on "onClick"
  end.

(** One event of the shown form and the [formData] it leaves. *)
Definition form_step `{Locale} (f f' : fields) : Prop := ∃ ev, fires f ev ∧ step ev f = Some f'.

(** ** The declared type of [formData] *)

(** The type TypeScript gives a member of the [useState] literal: a
    string literal is a [string], a boolean a [boolean], and the two
    [[] as string[]] are [string[]]. *)
Definition literal_type (v : json) : Ty.ty :=
  match v with JStr _ => Ty.TString | JBool _ => Ty.TBoolean | JArr _ => Ty.TArray Ty.TString | _ => Ty.TUnknown end.

Definition formDataType : Ty.ty := Ty.TObject (map (fun '(k, v) => Ty.req k (literal_type v)) initial_form).

Definition typed (f : fields) : bool := Ty.has_type formDataType (JObj f).

Definition loc_blank (f : fields) : Prop :=
  lookup_field "latitude" f = Some (JStr "") ∧ lookup_field "longitude" f = Some (JStr "").

(** A run of events from a form. *)
Definition run (evs : list event) (f : fields) : option fields := foldl (λ o ev, o ≫= step ev) (Some f) evs.

(** The landlord types a title, ticks WiFi and adds a photo. *)
Definition demo_form : fields :=
  default initial_form (run [Change "title" "Sunrise PG"; Toggle "wifi"; AddImage (Some "https://img.example/1.jpg")]
                            initial_form).

(** ** Lemmas *)

(** Decides a membership of the evaluated render. *)
Ltac fires_compute := cbn [fires]; apply (bool_decide_unpack _); vm_compute; reflexivity.

Lemma lookup_field_In fs k v : NoDup fs.*1 → In (k, v) fs → lookup_field k fs = Some v.
Proof.
  induction fs as [|[k' v'] fs IH]; simpl; [done |]. intros Hnd Hin. apply NoDup_cons in Hnd as [Hk Hnd].
  destruct Hin as [Heq | Hin]; [injection Heq as -> ->; by case_decide |].
  case_decide as Hkk; [subst | by apply IH]. exfalso. apply Hk.
  apply list_elem_of_fmap. exists (k', v). split; [done | by apply list_elem_of_In].
Qed.

Lemma initial_keys : NoDup initial_form.*1.
Proof. apply (bool_decide_unpack _). vm_compute. reflexivity. Qed.

Lemma text_fields_str : Forall (λ k, ∃ s, lookup_field k initial_form = Some (JStr s)) text_fields.
Proof. repeat constructor; eexists; reflexivity. Qed.

Lemma check_fields_bool : Forall (λ k, ∃ b, lookup_field k initial_form = Some (JBool b)) check_fields.
Proof. repeat constructor; eexists; reflexivity. Qed.

Lemma arr_typed l : Forall (λ x, Ty.has_type Ty.TString x = true) l → Ty.has_type (Ty.TArray Ty.TString) (JArr l) = true.
Proof. intros Hl. simpl. apply forallb_forall. intros x Hx. rewrite Forall_forall in Hl. by apply Hl, list_elem_of_In. Qed.

Lemma Forall_List_filter {A} (P : A → Prop) (g : A → bool) l : Forall P l → Forall P (List.filter g l).
Proof. rewrite !Forall_forall. intros Hl x Hx. by apply Hl, (elem_of_List_filter g). Qed.

(** Writing a member with a value of its declared type keeps the form typed. *)
Lemma typed_set_field f k v :
  typed f = true → (∀ v0, lookup_field k initial_form = Some v0 → Ty.has_type (literal_type v0) v = true) →
  typed (set_field k v f) = true.
Proof.
  unfold typed, formDataType. rewrite !TypeFacts.has_type_object, !forallb_forall.
  intros Hf Hk m Hm. specialize (Hf m Hm). apply in_map_iff in Hm as ([k' v'] & <- & Hin).
  unfold TypeFacts.member_ok, Ty.req in *. cbn [fst snd] in *. destruct (decide (k' = k)) as [-> | Hne].
  - rewrite lookup_set_field_eq. apply Hk. apply lookup_field_In; [apply initial_keys | done].
  - by rewrite lookup_set_field_ne by congruence.
Qed.

(** The two arrays of a typed form are arrays of strings. *)
Lemma typed_arr k f :
  k = "amenities" ∨ k = "images" → typed f = true →
  ∃ l, arr_member k f = Some l ∧ Forall (λ x, Ty.has_type Ty.TString x = true) l.
Proof.
  intros Hk Hf. unfold typed, formDataType in Hf. rewrite TypeFacts.has_type_object, forallb_forall in Hf.
  assert (Hm : In (Ty.req k (Ty.TArray Ty.TString)) (map (fun '(k, v) => Ty.req k (literal_type v)) initial_form)).
  { apply in_map_iff. exists (k, JArr []). split; [done |].
    destruct Hk as [-> | ->]; simpl; repeat ((left; reflexivity) || right). }
  specialize (Hf _ Hm). unfold TypeFacts.member_ok in Hf. simpl in Hf. unfold arr_member.
  destruct (lookup_field k f) as [[] |]; try discriminate. eexists; split; [done |].
  apply Forall_forall. intros x Hx. simpl in Hf. rewrite forallb_forall in Hf. by apply Hf, list_elem_of_In.
Qed.

Lemma typed_set_arr k f l :
  k = "amenities" ∨ k = "images" → typed f = true → Forall (λ x, Ty.has_type Ty.TString x = true) l →
  typed (set_field k (JArr l) f) = true.
Proof.
  intros Hk Hf Hl. apply typed_set_field; [done |]. intros v0 Hv0.
  destruct Hk as [-> | ->]; vm_compute in Hv0; injection Hv0 as <-; by apply arr_typed.
Qed.

Lemma removeImage_sub i l : Forall (λ x, Ty.has_type Ty.TString x = true) l →
  Forall (λ x, Ty.has_type Ty.TString x = true) (omap (fun '(j, x) => if Nat.eqb j i then None else Some x) (imap pair l)).
Proof.
  rewrite !Forall_forall. intros Hl x Hx. apply list_elem_of_omap in Hx as ([j y] & Hjy & Hx).
  apply elem_of_lookup_imap in Hjy as (j' & y' & [= -> ->] & Hy). destruct (Nat.eqb j' i); simplify_eq.
  by apply Hl, (list_elem_of_lookup_2 _ j').
Qed.

(** Every handler the form installs runs on a typed form without
    throwing and gives a typed form. *)
Lemma step_typed ev f : wired_event ev → typed f = true → ∃ f', step ev f = Some f' ∧ typed f' = true.
Proof.
  intros Hev Hf. destruct ev as [k v | k b | a | u | i]; simpl in *.
  - eexists; split; [done |]. apply typed_set_field; [done |]. intros v0 Hv0.
    pose proof text_fields_str as Hts. rewrite Forall_forall in Hts. destruct (Hts k Hev) as [s0 Hs0].
    rewrite Hs0 in Hv0. by injection Hv0 as <-.
  - eexists; split; [done |]. apply typed_set_field; [done |]. intros v0 Hv0.
    pose proof check_fields_bool as Hts. rewrite Forall_forall in Hts. destruct (Hts k Hev) as [b0 Hb0].
    rewrite Hb0 in Hv0. by injection Hv0 as <-.
  - destruct (typed_arr "amenities" f) as (l & Hl & Hs); [by left | done |].
    unfold toggleAmenity. rewrite Hl. eexists; split; [done |]. apply typed_set_arr; [by left | done |].
    case_bool_decide; [by apply Forall_List_filter | apply Forall_app; split; [done | by repeat constructor]].
  - destruct (typed_arr "images" f) as (l & Hl & Hs); [by right | done |].
    unfold addImageUrl. destruct u as [u |]; [| by eexists]. destruct (String.eqb u ""); [by eexists |].
    rewrite Hl. eexists; split; [done |]. apply typed_set_arr; [by right | done |].
    apply Forall_app; split; [done | by repeat constructor].
  - destruct (typed_arr "images" f) as (l & Hl & Hs); [by right | done |].
    unfold removeImage. rewrite Hl. eexists; split; [done |]. apply typed_set_arr; [by right | done |].
    by apply removeImage_sub.
Qed.

(** A handler leaves every member it is not wired to unchanged. *)
Lemma step_frame ev f f' k :
  wired_event ev → step ev f = Some f' → k ∉ text_fields → k ∉ check_fields → k ≠ "amenities" → k ≠ "images" →
  lookup_field k f' = lookup_field k f.
Proof.
  intros Hev Hs Ht Hc Ha Hi. destruct ev as [k' v | k' b | a | u | j]; simpl in Hev, Hs.
  - injection Hs as <-. apply lookup_set_field_ne. by intros ->.
  - injection Hs as <-. apply lookup_set_field_ne. by intros ->.
  - unfold toggleAmenity in Hs. apply fmap_Some in Hs as (? & _ & ->). by apply lookup_set_field_ne.
  - unfold addImageUrl in Hs. destruct u as [u |]; [destruct (String.eqb u "") |]; simplify_eq; try done.
    apply fmap_Some in Hs as (? & _ & ->). by apply lookup_set_field_ne.
  - unfold removeImage in Hs. apply fmap_Some in Hs as (? & _ & ->). by apply lookup_set_field_ne.
Qed.

(** ** The form renders *)
Section renders.
Context `{Locale}.

(** [renders_auto], opening the pairs [each] binds and the conditions. *)
Ltac form_renders :=
  repeat progress (renders_auto; try match goal with
    | |- is_Some (if ?b then _ else _) => destruct b
    | |- is_Some (match ?x with pair _ _ => _ end) => destruct x
    end).

Lemma lookup_field_Some_In fs k v : lookup_field k fs = Some v → In (k, v) fs.
Proof.
  induction fs as [|[k' v'] fs IH]; simpl; [done |]. case_decide; [intros [= <-]; subst; by left |].
  intros Hk. right. by apply IH.
Qed.

(** A member of a typed form has the type of its initial value. *)
Lemma typed_member f k v0 :
  typed f = true → lookup_field k initial_form = Some v0 →
  ∃ v, lookup_field k f = Some v ∧ Ty.has_type (literal_type v0) v = true.
Proof.
  unfold typed, formDataType. rewrite TypeFacts.has_type_object, forallb_forall. intros Hf Hk.
  assert (Hin : In (Ty.req k (literal_type v0)) (map (fun '(k, v) => Ty.req k (literal_type v)) initial_form)).
  { apply in_map_iff. exists (k, v0). split; [done |]. by apply lookup_field_Some_In. }
  specialize (Hf _ Hin). unfold TypeFacts.member_ok, Ty.req in Hf. cbn [fst snd] in Hf.
  destruct (lookup_field k f) as [v |]; [by exists v | done].
Qed.

Lemma basic_info_renders f : is_Some (basic_info f).
Proof. unfold basic_info, card, labelled, input_id, input, textarea, select, PROPERTY_TYPES, GENDER_OPTIONS. form_renders. Qed.

Lemma location_renders f : is_Some (location f).
Proof. unfold location, card, labelled, input_id, input. form_renders. Qed.

Lemma room_details_renders f : is_Some (room_details f).
Proof.
  unfold room_details, furnishing_details, card, labelled, input_id, input, select, num, OCCUPANCY_OPTIONS,
    FURNISHING_OPTIONS.
  form_renders.
Qed.

Lemma pricing_renders f b : lookup_field "foodIncluded" f = Some (JBool b) → is_Some (pricing f).
Proof. intros Hb. unfold pricing, card, labelled, input_id, input, select, checkbox, num. rewrite Hb. form_renders. Qed.

Lemma amenities_renders f l : arr_member "amenities" f = Some l → is_Some (amenities_card f).
Proof. intros Hl. unfold amenities_card, card. rewrite Hl. unfold AMENITIES. form_renders. Qed.

Lemma rules_renders f : is_Some (rules_card f).
Proof. unfold rules_card, card, labelled, input_id, input, checkbox, RULES. form_renders. Qed.

Lemma images_renders f l : arr_member "images" f = Some l → is_Some (images_card f).
Proof.
  intros Hl. unfold images_card, card. rewrite Hl. form_renders.
  apply renders_each. intros [i u] _. form_renders.
Qed.

Lemma availability_renders f : is_Some (availability f).
Proof. unfold availability, card, labelled, input_id, input, num. form_renders. Qed.

Lemma buttons_renders b : is_Some (buttons b).
Proof. unfold buttons, link. form_renders. Qed.

(** The page renders, without throwing, every typed form whose error
    message is a string. *)
Lemma render_ok authLoading st :
  typed (formData st) = true → (∃ s, error st = JStr s) → is_Some (render authLoading st).
Proof.
  intros Hf [s Hs]. unfold render. destruct authLoading; [form_renders |].
  destruct (success st); [unfold success_card; form_renders |].
  destruct (typed_member _ "foodIncluded" (JBool false) Hf eq_refl) as ([] & Hb & Ht); try discriminate.
  destruct (typed_arr "amenities" _ (or_introl eq_refl) Hf) as (la & Hla & _).
  destruct (typed_arr "images" _ (or_intror eq_refl) Hf) as (li & Hli & _).
  rewrite Hs. unfold link. apply renders_E. repeat constructor; form_renders.
  all: match goal with
  | |- is_Some (basic_info _) => apply basic_info_renders
  | |- is_Some (location _) => apply location_renders
  | |- is_Some (room_details _) => apply room_details_renders
  | |- is_Some (pricing _) => by eapply pricing_renders
  | |- is_Some (amenities_card _) => by eapply amenities_renders
  | |- is_Some (rules_card _) => apply rules_renders
  | |- is_Some (images_card _) => by eapply images_renders
  | |- is_Some (availability _) => apply availability_renders
  | |- is_Some (buttons _) => apply buttons_renders
  end.
Qed.

End renders.

(** The render installs [updateFormData] only on the fields [event]
    covers: an [onChange] or [onValueChange] on a field of
    [text_fields], an [onCheckedChange] on one of [check_fields]. *)
Section shown.
Context `{Locale}.

(** [links_in_auto], opening the pairs [each] binds. *)
Ltac wired_auto :=
  repeat progress (links_in_auto;
    try match goal with |- attrs_in _ _ (match ?x with pair _ _ => _ end) => destruct x end).

Lemma render_wired authLoading st :
  attrs_in "onChange" (λ h, wired text_fields h = true) (render authLoading st) ∧
  attrs_in "onValueChange" (λ h, wired text_fields h = true) (render authLoading st) ∧
  attrs_in "onCheckedChange" (λ h, wired check_fields h = true) (render authLoading st).
Proof.
  unfold render, success_card, basic_info, location, room_details, furnishing_details, pricing, amenities_card, rules_card,
    images_card, availability, buttons, card, labelled, input_id, input, textarea, select, checkbox, link, RULES.
  cbn [from_option]. split; [| split]; wired_auto.
Qed.

Lemma frag_attrs_in k P fr h : attrs_in k P fr → h ∈ frag_attrs k fr → P h.
Proof.
  intros Hf Hh. destruct fr as [ns |]; simpl in Hh; [| by apply not_elem_of_nil in Hh].
  specialize (Hf ns eq_refl). rewrite Forall_forall in Hf. by apply Hf.
Qed.

Lemma wired_handler fs k : wired fs (handler k) = true → k ∈ fs.
Proof.
  unfold wired. rewrite bool_decide_eq_true. intros (k' & Hk & Hin)%list_elem_of_fmap.
  unfold handler in Hk. simpl in Hk. by simplify_eq.
Qed.

(** An event of the shown form writes a string to a field of
    [text_fields] or a boolean to one of [check_fields]. *)
Lemma fires_wired f ev : fires f ev → wired_event ev.
Proof.
  destruct (render_wired false (with_form initial f)) as (H1 & H2 & H3).
  destruct ev; cbn [fires wired_event]; try done.
  - intros [Hh | Hh]; apply wired_handler; [exact (frag_attrs_in _ _ _ _ H1 Hh) | exact (frag_attrs_in _ _ _ _ H2 Hh)].
  - intros Hh. apply wired_handler. exact (frag_attrs_in _ _ _ _ H3 Hh).
Qed.

Lemma initial_typed : typed initial_form = true.
Proof. vm_compute. reflexivity. Qed.

(** Invariants of [formData] along any run of the form. *)
Section reach.
Variable P : fields → Prop.
Hypothesis HP : ∀ f f', form_step f f' → P f → P f'.

Lemma reach_inv f f' : rtc form_step f f' → P f → P f'.
Proof. induction 1; eauto. Qed.
End reach.

(** No control of the form is wired to the coordinates. *)
Lemma location_unwired k :
  k = "latitude" ∨ k = "longitude" → (k ∉ text_fields) ∧ (k ∉ check_fields) ∧ k ≠ "amenities" ∧ k ≠ "images".
Proof.
  intros [-> | ->]; (split; [| split; [| split]]); try discriminate;
    apply (bool_decide_unpack _); vm_compute; reflexivity.
Qed.

Lemma loc_blank_step f f' : form_step f f' → loc_blank f → loc_blank f'.
Proof.
  intros (ev & Hev%fires_wired & Hs) [Hla Hlo].
  destruct (location_unwired "latitude") as (? & ? & ? & ?); [by left |].
  destruct (location_unwired "longitude") as (? & ? & ? & ?); [by right |].
  split; [rewrite <- Hla | rewrite <- Hlo]; by eapply step_frame.
Qed.

(** The coordinates [propertyData] writes: [parseFloat(...) || default]. *)
Lemma overrides_location now uid f kvs :
  overrides now uid f = Some kvs →
  lookup_field "latitude" (rev kvs) = Some (float_or (JDec 225 1) (lookup_field "latitude" f)) ∧
  lookup_field "longitude" (rev kvs) = Some (float_or (JDec 884 1) (lookup_field "longitude" f)).
Proof.
  unfold overrides. destruct (str_member "title" f), (str_member "nearbyColleges" f),
    (str_member "furnishingDetails" f), (arr_member "images" f); intros Hk; try discriminate.
  injection Hk as <-. split; reflexivity.
Qed.

(** C18. Type preservation of the add-property form: the initial
    [formData] has the type its literal declares (every member a string,
    a boolean or an array of strings), and along any sequence of events
    from it (a text input, a select, a checkbox, an amenity toggle, an
    image added or removed) [formData] keeps that type, the page renders
    it without throwing, and each handler the page installs runs on it
    without throwing. *)
Theorem formData_well_typed f :
  rtc form_step initial_form f →
  typed f = true ∧ is_Some (shown f) ∧ ∀ ev, fires f ev → ∃ f', step ev f = Some f' ∧ typed f' = true.
Proof.
  intros Hr. assert (Hf : typed f = true).
  { refine (reach_inv (λ g, typed g = true) _ _ _ Hr initial_typed).
    intros g g' (ev & Hev%fires_wired & Hs) Hg. destruct (step_typed ev g Hev Hg) as (? & Hs' & ?). by simplify_eq. }
  split_and!; [done | unfold shown; apply render_ok; [exact Hf | by eexists] |].
  intros ev Hev%fires_wired. by apply step_typed.
Qed.

(** C19. The form has no control for the coordinates, so [latitude] and
    [longitude] stay "" whatever the landlord does, and every listing
    the page submits is placed at the fallback point (22.5, 88.4). *)
Theorem add_property_default_location now uid f pd :
  rtc form_step initial_form f → propertyData now uid f = Some pd →
  lookup_field "latitude" pd = Some (JDec 225 1) ∧ lookup_field "longitude" pd = Some (JDec 884 1).
Proof.
  intros Hr Hpd. destruct (reach_inv loc_blank loc_blank_step _ _ Hr) as [Hla Hlo]; [split; reflexivity |].
  unfold propertyData in Hpd. destruct (overrides now uid f) as [kvs |] eqn:Hk; [| done].
  injection Hpd as <-. rewrite !lookup_spread. destruct (overrides_location _ _ _ _ Hk) as [-> ->].
  rewrite Hla, Hlo. split; reflexivity.
Qed.

End shown.

(** ** Witnesses *)

#[local] Existing Instance Html.Demo.plain_locale.

Lemma demo_reach : rtc form_step initial_form demo_form.
Proof.
  eapply rtc_l; [exists (Change "title" "Sunrise PG"); split; [left; fires_compute | reflexivity] |].
  eapply rtc_l; [exists (Toggle "wifi"); split; [fires_compute | reflexivity] |].
  eapply rtc_l; [exists (AddImage (Some "https://img.example/1.jpg")); split; [fires_compute | reflexivity] |].
  apply rtc_refl.
Qed.

Lemma formData_well_typed_witness :
  typed demo_form = true ∧ ∃ f', step (RemoveImage 0) demo_form = Some f' ∧ typed f' = true.
Proof.
  destruct (formData_well_typed demo_form demo_reach) as (Ht & _ & Hs). split; [exact Ht |].
  apply Hs. fires_compute.
Defined.

Lemma add_property_default_location_witness :
  ∃ pd, propertyData 1700000000000 (JStr "landlord1") demo_form = Some pd ∧
        lookup_field "latitude" pd = Some (JDec 225 1) ∧ lookup_field "longitude" pd = Some (JDec 884 1).
Proof.
  eexists; split; [reflexivity |].
  apply (add_property_default_location 1700000000000 (JStr "landlord1") demo_form); [exact demo_reach | reflexivity].
Defined.

End AddPropertyView.
