(* ===== verification/Validations.v ===== *)
(** * Form schemas of [src/src/lib/validations.ts]

    The file declares its schemas with the [zod] library.  [Zod] below
    is the part of that library the schemas use, written as a parser
    over [json]: string checks ([min], [max], [email], [regex]), number
    bounds, enums, booleans, dates, arrays, [optional], [default],
    objects (unknown keys stripped) and object-level [refine].  It keeps
    zod's three outcomes: a value parses [Valid], [Dirty] (a check failed
    but parsing went on, so later checks and refinements still run) or
    [Aborted] (a wrong type; the enclosing object aborts too and its
    refinements are skipped).  The issues collected are those of every
    field.  The e-mail pattern of the library is the class [EmailRegex].

    [Schemas] holds the fourteen schemas of the file, field by field. *)

From S2P Require Import Prelude Json MongoDb Utils Auth.
From Stdlib Require Import Ascii.
Open Scope string_scope.
Open Scope list_scope.
Open Scope un_scope.

Module Zod.

Inductive str_check :=
| SMin (n : nat) (msg : option string)
| SMax (n : nat) (msg : option string)
| SEmail (msg : option string)
| SRegex (re : string → bool) (msg : option string).

Inductive num_check := NMin (z : Z) (msg : option string) | NMax (z : Z) (msg : option string).

Inductive schema :=
| ZString (cs : list str_check)
| ZNumber (cs : list num_check)
| ZBoolean
| ZDate
| ZEnum (opts : list string)
| ZArray (s : schema)
| ZOptional (s : schema)
| ZDefault (s : schema) (d : json)
| ZObject (shape : list (string * schema))
| ZRefine (s : schema) (check : json → bool) (msg : string) (path : list string).

Inductive code := InvalidType | TooSmall | TooBig | InvalidString | InvalidEnum | Custom.

Inductive path_elem := PKey (k : string) | PIdx (i : nat).

Record issue := mkIssue { i_path : list path_elem; i_code : code; i_msg : option string }.

Inductive status := Valid | Dirty | Aborted.

(** The worse of two outcomes ([mergeObject], [mergeArray]). *)
Definition join (a b : status) : status :=
  match a, b with
  | Aborted, _ | _, Aborted => Aborted
  | Dirty, _ | _, Dirty => Dirty
  | Valid, Valid => Valid
  end.

Class EmailRegex := email_test : string → bool.

Section parse.
Context {EM : EmailRegex}.

Definition str_issue (path : list path_elem) (x : string) (c : str_check) : list issue :=
  match c with
  | SMin n m => if Nat.leb n (String.length x) then [] else [mkIssue path TooSmall m]
  | SMax n m => if Nat.leb (String.length x) n then [] else [mkIssue path TooBig m]
  | SEmail m => if email_test x then [] else [mkIssue path InvalidString m]
  | SRegex re m => if re x then [] else [mkIssue path InvalidString m]
  end.

(** [x >= z] for a number [m / 10^e]. *)
Definition num_ge (m : Z) (e : nat) (z : Z) : bool := Z.leb (z * 10 ^ Z.of_nat e) m.
Definition num_le (m : Z) (e : nat) (z : Z) : bool := Z.leb m (z * 10 ^ Z.of_nat e).

Definition num_issue (path : list path_elem) (m : Z) (e : nat) (c : num_check) : list issue :=
  match c with
  | NMin z msg => if num_ge m e z then [] else [mkIssue path TooSmall msg]
  | NMax z msg => if num_le m e z then [] else [mkIssue path TooBig msg]
  end.

Definition checked (iss : list issue) (v : option json) : list issue * status * option json :=
  (iss, match iss with [] => Valid | _ => Dirty end, v).

Definition invalid (path : list path_elem) (c : code) : list issue * status * option json :=
  ([mkIssue path c None], Aborted, None).

(** [schema._parse] on the value at [path]; [None] is [undefined]. *)
Fixpoint parse (s : schema) (path : list path_elem) (v : option json) {struct s} : list issue * status * option json :=
  match s with
  | ZString cs =>
      match v with
      | Some (JStr x) => checked (List.concat (map (str_issue path x) cs)) v
      | _ => invalid path InvalidType
      end
  | ZNumber cs =>
      match (match v with Some x => num_val x | None => None end) with
      | Some (m, e) => checked (List.concat (map (num_issue path m e) cs)) v
      | None => invalid path InvalidType
      end
  | ZBoolean => match v with Some (JBool _) => ([], Valid, v) | _ => invalid path InvalidType end
  | ZDate => match v with Some (JTime _) => ([], Valid, v) | _ => invalid path InvalidType end
  | ZEnum opts =>
      match v with
      | Some (JStr x) => if existsb (String.eqb x) opts then ([], Valid, v) else invalid path InvalidEnum
      | _ => invalid path InvalidType
      end
  | ZArray s' =>
      match v with
      | Some (JArr l) =>
          let rs := imap (fun i x => parse s' (path ++ [PIdx i]) (Some x)) l in
          (List.concat (map (fun r => r.1.1) rs), foldr join Valid (map (fun r => r.1.2) rs),
           Some (JArr (map (fun r => default JNull r.2) rs)))
      | _ => invalid path InvalidType
      end
  | ZOptional s' => match v with None => ([], Valid, None) | Some _ => parse s' path v end
  | ZDefault s' d => parse s' path (match v with None => Some d | Some _ => v end)
  | ZObject shape =>
      match v with
      | Some (JObj fs) =>
          let fix go (sh : list (string * schema)) : list issue * status * fields :=
            match sh with
            | [] => ([], Valid, [])
            | (k, sk) :: sh' =>
                let '(iss, st, out) := parse sk (path ++ [PKey k]) (lookup_field k fs) in
                let '(iss', st', outs) := go sh' in
                (iss ++ iss', join st st', match out with Some x => (k, x) :: outs | None => outs end)
            end in
          let '(iss, st, outs) := go shape in (iss, st, Some (JObj outs))
      | _ => invalid path InvalidType
      end
  | ZRefine s' chk msg p =>
      let '(iss, st, out) := parse s' path v in
      match st with
      | Aborted => (iss, Aborted, out)
      | _ => if chk (default JNull out) then (iss, st, out)
             else (iss ++ [mkIssue (path ++ map PKey p) Custom (Some msg)], Dirty, out)
      end
  end.

(** [schema.safeParse(v)]: the data when nothing was reported, the
    issues otherwise. *)
Definition safe_parse (s : schema) (v : json) : list issue + json :=
  match parse s [] (Some v) with
  | (_, Valid, out) => inr (default JNull out)
  | (iss, _, _) => inl iss
  end.

(** The loop over the shape of [ZObject], as a function of its own. *)
Fixpoint parse_fields (path : list path_elem) (fs : fields) (sh : list (string * schema)) :
    list issue * status * fields :=
  match sh with
  | [] => ([], Valid, [])
  | (k, sk) :: sh' =>
      let '(iss, st, out) := parse sk (path ++ [PKey k]) (lookup_field k fs) in
      let '(iss', st', outs) := parse_fields path fs sh' in
      (iss ++ iss', join st st', match out with Some x => (k, x) :: outs | None => outs end)
  end.

End parse.

End Zod.

Module Schemas.
Import Zod Utils.

(** The regular expressions of the schemas. *)
Fixpoint any_char (p : ascii → bool) (s : string) : bool :=
  match s with EmptyString => false | String c s' => p c || any_char p s' end.

(** [/[A-Z]/], [/[a-z]/], [/[0-9]/] *)
Definition has_upper := any_char is_upper.
Definition has_lower := any_char is_lower.
Definition has_digit := any_char is_digit.

(** [/^\d{6}$/] *)
Definition six_digits (s : string) : bool := Nat.eqb (String.length s) 6 && all_chars is_digit s.

(** [data.password === data.confirmPassword] *)
Definition passwords_match (d : json) : bool := strict_eq (get d "password") (get d "confirmPassword").

(** The object of [registerSchema], before its [refine]. *)
Definition register_shape : list (string * schema) := [
    ("name", ZString [SMin 2 (Some "Name must be at least 2 characters")]);
    ("email", ZString [SEmail (Some "Invalid email address")]);
    ("password", ZString [SMin 8 (Some "Password must be at least 8 characters");
                          SRegex has_upper (Some "Password must contain at least one uppercase letter");
                          SRegex has_lower (Some "Password must contain at least one lowercase letter");
                          SRegex has_digit (Some "Password must contain at least one number")]);
    ("confirmPassword", ZString []);
    ("role", ZEnum ["STUDENT"; "LANDLORD"]);
    ("phone", ZOptional (ZString [SRegex isValidPhone (Some "Invalid phone number")]))].

Definition registerSchema : schema :=
  ZRefine (ZObject register_shape) passwords_match "Passwords don't match" ["confirmPassword"].

Definition loginSchema : schema :=
  ZObject [("email", ZString [SEmail (Some "Invalid email address")]);
           ("password", ZString [SMin 1 (Some "Password is required")])].

Definition forgotPasswordSchema : schema := ZObject [("email", ZString [SEmail (Some "Invalid email address")])].

Definition resetPasswordSchema : schema :=
  ZRefine (ZObject [
    ("password", ZString [SMin 8 (Some "Password must be at least 8 characters");
                          SRegex has_upper (Some "Password must contain at least one uppercase letter");
                          SRegex has_lower (Some "Password must contain at least one lowercase letter");
                          SRegex has_digit (Some "Password must contain at least one number")]);
    ("confirmPassword", ZString [])])
  passwords_match "Passwords don't match" ["confirmPassword"].

Definition studentProfileSchema : schema :=
  ZObject [
    ("studentId", ZOptional (ZString []));
    ("collegeName", ZString [SMin 2 (Some "College name is required")]);
    ("course", ZOptional (ZString []));
    ("yearOfStudy", ZOptional (ZNumber [NMin 1 None; NMax 6 None]));
    ("graduationYear", ZOptional (ZNumber [NMin 2024 None; NMax 2035 None]));
    ("gender", ZEnum ["MALE"; "FEMALE"; "OTHER"]);
    ("dateOfBirth", ZOptional ZDate);
    ("preferredAreas", ZOptional (ZArray (ZString [])));
    ("budgetMin", ZOptional (ZNumber [NMin 0 None]));
    ("budgetMax", ZOptional (ZNumber [NMin 0 None]));
    ("moveInDate", ZOptional ZDate);
    ("emergencyName", ZOptional (ZString []));
    ("emergencyPhone", ZOptional (ZString []));
    ("emergencyRelation", ZOptional (ZString []))].

Definition landlordProfileSchema : schema :=
  ZObject [
    ("businessName", ZOptional (ZString []));
    ("businessType", ZEnum ["individual"; "company"; "agent"]);
    ("gstNumber", ZOptional (ZString []));
    ("panNumber", ZOptional (ZString []));
    ("autoReply", ZDefault ZBoolean (JBool false));
    ("autoReplyMessage", ZOptional (ZString []))].

Definition charges : list string := ["included"; "separate"; "shared"].

Definition propertySchema : schema :=
  ZObject [
    ("title", ZString [SMin 10 (Some "Title must be at least 10 characters"); SMax 100 (Some "Title too long")]);
    ("description", ZString [SMin 50 (Some "Description must be at least 50 characters");
                             SMax 2000 (Some "Description too long")]);
    ("propertyType", ZEnum ["PG"; "HOSTEL"; "FLAT"; "APARTMENT"; "ROOM"; "SHARED_ROOM"; "HOUSE"; "VILLA"]);
    ("address", ZString [SMin 10 (Some "Address is required")]);
    ("addressLine2", ZOptional (ZString []));
    ("city", ZString [SMin 2 (Some "City is required")]);
    ("state", ZString [SMin 2 (Some "State is required")]);
    ("pincode", ZString [SRegex six_digits (Some "Invalid pincode")]);
    ("latitude", ZOptional (ZNumber []));
    ("longitude", ZOptional (ZNumber []));
    ("landmark", ZOptional (ZString []));
    ("nearbyColleges", ZOptional (ZArray (ZString [])));
    ("totalBeds", ZNumber [NMin 1 (Some "At least 1 bed required")]);
    ("availableBeds", ZNumber [NMin 0 None]);
    ("totalRooms", ZNumber [NMin 1 None]);
    ("bathrooms", ZNumber [NMin 1 None]);
    ("floorNumber", ZOptional (ZNumber []));
    ("totalFloors", ZOptional (ZNumber []));
    ("propertyAge", ZOptional (ZNumber []));
    ("carpetArea", ZOptional (ZNumber []));
    ("rent", ZNumber [NMin 100 (Some "Rent must be at least ₹100")]);
    ("deposit", ZNumber [NMin 0 None]);
    ("maintenanceCharges", ZDefault (ZNumber [NMin 0 None]) (JNum 0));
    ("electricityCharges", ZDefault (ZEnum charges) (JStr "separate"));
    ("waterCharges", ZDefault (ZEnum charges) (JStr "included"));
    ("otherCharges", ZDefault (ZNumber [NMin 0 None]) (JNum 0));
    ("otherChargesDetails", ZOptional (ZString []));
    ("genderPreference", ZDefault (ZEnum ["MALE"; "FEMALE"; "OTHER"; "ANY"]) (JStr "ANY"));
    ("occupancyType", ZDefault (ZString []) (JStr "any"));
    ("preferredTenants", ZOptional (ZArray (ZString [])));
    ("furnishing", ZDefault (ZEnum ["FULLY_FURNISHED"; "SEMI_FURNISHED"; "UNFURNISHED"]) (JStr "SEMI_FURNISHED"));
    ("nonVegAllowed", ZDefault ZBoolean (JBool true));
    ("smokingAllowed", ZDefault ZBoolean (JBool false));
    ("drinkingAllowed", ZDefault ZBoolean (JBool false));
    ("petsAllowed", ZDefault ZBoolean (JBool false));
    ("visitorsAllowed", ZDefault ZBoolean (JBool true));
    ("gateClosingTime", ZOptional (ZString []));
    ("additionalRules", ZOptional (ZArray (ZString [])));
    ("availableFrom", ZDate);
    ("minimumStay", ZDefault (ZNumber [NMin 1 None]) (JNum 1));
    ("noticePeriod", ZDefault (ZNumber [NMin 1 None]) (JNum 1));
    ("amenityIds", ZOptional (ZArray (ZString [])))].

Definition rating : schema := ZNumber [NMin 1 None; NMax 5 None].

Definition reviewSchema : schema :=
  ZObject [
    ("propertyId", ZString []);
    ("overallRating", rating);
    ("cleanlinessRating", ZOptional rating);
    ("locationRating", ZOptional rating);
    ("valueRating", ZOptional rating);
    ("ownerRating", ZOptional rating);
    ("safetyRating", ZOptional rating);
    ("amenitiesRating", ZOptional rating);
    ("title", ZOptional (ZString [SMax 100 None]));
    ("content", ZString [SMin 20 (Some "Review must be at least 20 characters"); SMax 1000 None]);
    ("pros", ZOptional (ZArray (ZString [])));
    ("cons", ZOptional (ZArray (ZString [])));
    ("stayDuration", ZOptional (ZNumber []));
    ("stayPeriod", ZOptional (ZString []))].

Definition messageSchema : schema :=
  ZObject [("receiverId", ZString []);
           ("content", ZString [SMin 1 (Some "Message cannot be empty"); SMax 1000 None]);
           ("propertyId", ZOptional (ZString []))].

Definition visitRequestSchema : schema :=
  ZObject [("propertyId", ZString []); ("preferredDate", ZDate); ("preferredTime", ZString []);
           ("alternateDate", ZOptional ZDate); ("alternateTime", ZOptional (ZString []));
           ("visitorMessage", ZOptional (ZString [SMax 500 None]))].

Definition searchSchema : schema :=
  ZObject [
    ("query", ZOptional (ZString [])); ("city", ZOptional (ZString []));
    ("propertyType", ZOptional (ZArray (ZString [])));
    ("minRent", ZOptional (ZNumber [])); ("maxRent", ZOptional (ZNumber []));
    ("gender", ZOptional (ZEnum ["MALE"; "FEMALE"; "ANY"]));
    ("furnishing", ZOptional (ZArray (ZString []))); ("amenities", ZOptional (ZArray (ZString [])));
    ("occupancyType", ZOptional (ZString [])); ("nearCollege", ZOptional (ZString []));
    ("latitude", ZOptional (ZNumber [])); ("longitude", ZOptional (ZNumber []));
    ("radius", ZOptional (ZNumber []));
    ("sortBy", ZOptional (ZEnum ["relevance"; "price_low"; "price_high"; "newest"; "rating"]));
    ("page", ZDefault (ZNumber [NMin 1 None]) (JNum 1));
    ("limit", ZDefault (ZNumber [NMin 1 None; NMax 50 None]) (JNum 20))].

Definition roommateProfileSchema : schema :=
  ZObject [
    ("isLookingForRoommate", ZBoolean);
    ("hasProperty", ZDefault ZBoolean (JBool false));
    ("propertyDetails", ZOptional (ZString []));
    ("bio", ZOptional (ZString [SMax 500 None]));
    ("interests", ZOptional (ZArray (ZString [])));
    ("languages", ZOptional (ZArray (ZString [])));
    ("occupation", ZOptional (ZString []));
    ("preferredGender", ZDefault (ZEnum ["MALE"; "FEMALE"; "OTHER"; "ANY"]) (JStr "ANY"));
    ("preferredAgeMin", ZOptional (ZNumber [NMin 18 None]));
    ("preferredAgeMax", ZOptional (ZNumber [NMax 50 None]));
    ("preferredBudget", ZOptional (ZNumber []));
    ("preferredArea", ZOptional (ZString []))].

Definition reportSchema : schema :=
  ZObject [
    ("type", ZEnum ["FAKE_LISTING"; "MISLEADING_INFO"; "INAPPROPRIATE_CONTENT"; "SCAM"; "HARASSMENT"; "SPAM";
                    "OTHER"]);
    ("propertyId", ZOptional (ZString []));
    ("reportedUserId", ZOptional (ZString []));
    ("reason", ZString [SMin 20 (Some "Please provide more details"); SMax 1000 None]);
    ("evidence", ZOptional (ZArray (ZString [])))].

Definition contactSchema : schema :=
  ZObject [("name", ZString [SMin 2 None]); ("email", ZString [SEmail None]); ("subject", ZString [SMin 5 None]);
           ("message", ZString [SMin 20 None; SMax 1000 None])].

(** A registration body in the form the schema asks for, for concrete runs. *)
Definition strong_body : json :=
  JObj [("name", JStr "Ann"); ("email", JStr "ann@uni.edu"); ("password", JStr "Secret12");
        ("confirmPassword", JStr "Secret12"); ("role", JStr "STUDENT")].

End Schemas.

(** ** The parser's lemmas *)
Module ZodFacts.
Import Zod.


Lemma join_aborted_r a : join a Aborted = Aborted.
Proof. by destruct a. Qed.

Lemma join_valid a b : join a b = Valid ↔ a = Valid ∧ b = Valid.
Proof. destruct a, b; naive_solver. Qed.

Section lemmas.
Context {EM : EmailRegex}.

Lemma parse_object path fs sh :
  parse (ZObject sh) path (Some (JObj fs)) =
  let '(iss, st, outs) := parse_fields path fs sh in (iss, st, Some (JObj outs)).
Proof.
  cbn [parse].
  match goal with |- context [?g sh] => assert (Hg : ∀ l, g l = parse_fields path fs l) end.
  { induction l as [|[k sk] l IH]; [done |]. simpl. by rewrite IH. }
  by rewrite Hg.
Qed.

Lemma parse_fields_aborted path fs sh k sk iss o :
  (k, sk) ∈ sh → parse sk (path ++ [PKey k]) (lookup_field k fs) = (iss, Aborted, o) →
  ∃ iss' o', parse_fields path fs sh = (iss', Aborted, o') ∧ iss ⊆ iss'.
Proof.
  intros Hin Hp. induction sh as [|[k' sk'] sh IH]; [by apply not_elem_of_nil in Hin |]. simpl.
  apply elem_of_cons in Hin as [[= -> ->] | Hin].
  - rewrite Hp. destruct (parse_fields path fs sh) as [[i' s'] o'']. do 2 eexists. split; [reflexivity | set_solver].
  - destruct (IH Hin) as (i' & o' & -> & Hsub).
    destruct (parse sk' _ _) as [[i1 s1] o1]. rewrite join_aborted_r. do 2 eexists. split; [done | set_solver].
Qed.

Lemma parse_fields_keys path fs sh iss st outs k :
  parse_fields path fs sh = (iss, st, outs) → k ∉ sh.*1 → lookup_field k outs = None.
Proof.
  revert iss st outs. induction sh as [|[k' sk'] sh IH]; intros iss st outs; simpl; [by intros [= _ _ <-] |].
  destruct (parse sk' _ _) as [[i1 s1] o1]. destruct (parse_fields path fs sh) as [[i2 s2] o2].
  intros [= _ _ <-] Hk. apply not_elem_of_cons in Hk as [Hk Hk'].
  destruct o1; simpl; [rewrite decide_False by done |]; by eapply IH.
Qed.

Lemma parse_fields_valid path fs sh iss outs k sk :
  parse_fields path fs sh = (iss, Valid, outs) → NoDup sh.*1 → (k, sk) ∈ sh →
  ∃ i o, parse sk (path ++ [PKey k]) (lookup_field k fs) = (i, Valid, o) ∧ lookup_field k outs = o.
Proof.
  revert iss outs. induction sh as [|[k' sk'] sh IH]; intros iss outs; simpl; [by intros _ _ ?%not_elem_of_nil |].
  destruct (parse sk' _ _) as [[i1 s1] o1] eqn:E1. destruct (parse_fields path fs sh) as [[i2 s2] o2] eqn:E2.
  intros [= _ Hj <-] Hnd Hin. apply join_valid in Hj as [-> ->]. apply NoDup_cons in Hnd as [Hk' Hnd].
  apply elem_of_cons in Hin as [[= -> ->] | Hin].
  - exists i1, o1. split; [done |]. destruct o1; simpl; [by rewrite decide_True |]. by eapply parse_fields_keys.
  - destruct (IH _ _ eq_refl Hnd Hin) as (i & o & Hp & Hl). exists i, o. split; [done |].
    assert (k ≠ k') by (intros ->; apply Hk', list_elem_of_fmap; by exists (k', sk)).
    destruct o1; simpl; [by rewrite decide_False |]. done.
Qed.

Lemma parse_string_valid cs path v iss o :
  parse (ZString cs) path v = (iss, Valid, o) →
  ∃ x, v = Some (JStr x) ∧ o = v ∧ Forall (λ c, str_issue path x c = []) cs.
Proof.
  destruct v as [[]|]; simpl; try discriminate. unfold checked.
  destruct (concat _) eqn:E; [| discriminate]. intros [= _ <-]. eexists. split; [done | split; [done |]].
  apply Forall_forall. intros c Hc. clear -E Hc.
  induction cs as [|c' cs IH]; simpl in *; [set_solver |]. apply app_nil in E as [E1 E2].
  apply elem_of_cons in Hc as [-> | Hc]; [done | by apply IH].
Qed.

Lemma parse_refine s chk msg p path v :
  parse (ZRefine s chk msg p) path v =
  let '(iss, st, out) := parse s path v in
  match st with
  | Aborted => (iss, Aborted, out)
  | _ => if chk (default JNull out) then (iss, st, out)
         else (iss ++ [mkIssue (path ++ map PKey p) Custom (Some msg)], Dirty, out)
  end.
Proof. done. Qed.

Lemma str_issue_min path x n m : str_issue path x (SMin n m) = [] ↔ (n ≤ String.length x)%nat.
Proof. simpl. destruct (Nat.leb_spec n (String.length x)); naive_solver lia. Qed.

Lemma str_issue_regex path x re m : str_issue path x (SRegex re m) = [] ↔ re x = true.
Proof. simpl. destruct (re x); naive_solver. Qed.

Lemma parse_enum_valid opts path v iss o :
  parse (ZEnum opts) path v = (iss, Valid, o) → ∃ x, v = Some (JStr x) ∧ x ∈ opts.
Proof.
  destruct v as [[]|]; simpl; try discriminate. destruct (existsb _ _) eqn:E; [| discriminate].
  intros _. eexists. split; [done |]. apply existsb_exists in E as (y & Hy & Ey).
  apply String.eqb_eq in Ey as ->. by apply list_elem_of_In.
Qed.

Lemma safe_parse_inr s v d :
  safe_parse s v = inr d → ∃ iss o, parse s [] (Some v) = (iss, Valid, o) ∧ d = default JNull o.
Proof.
  unfold safe_parse. destruct (parse s [] (Some v)) as [[iss []] o]; intros; simplify_eq; by do 2 eexists.
Qed.

End lemmas.

End ZodFacts.

(** ** What the register schema accepts *)
Module SchemaFacts.
Import Zod ZodFacts Schemas.

(** A key of a concrete shape. *)
Ltac in_shape := repeat (apply elem_of_cons; first [left; reflexivity | right]).

Section register.
Context {EM : EmailRegex}.

(** No body the register route validates passes [registerSchema]:
    the route requires the role "student" or "landlord" and the schema
    the enum "STUDENT" | "LANDLORD", so the role alone reports an
    [invalid_enum_value] issue, whatever the other fields. *)
Theorem registerSchema_rejects_route b n e p r :
  Auth.reg_valid b n e p r →
  ∃ iss, safe_parse registerSchema b = inl iss ∧ mkIssue [PKey "role"] InvalidEnum None ∈ iss.
Proof.
  intros (_ & _ & _ & _ & _ & _ & Hr & Hrole).
  destruct b as [| | | | | | | | |fs]; try discriminate. cbn [get] in Hr.
  unfold safe_parse, registerSchema. rewrite parse_refine, parse_object.
  assert (Hrole' : parse (ZEnum ["STUDENT"; "LANDLORD"]) ([] ++ [PKey "role"]) (lookup_field "role" fs) =
                   invalid [PKey "role"] InvalidEnum) by (rewrite Hr; by destruct Hrole as [-> | ->]).
  edestruct (parse_fields_aborted [] fs) as (iss & o & -> & Hsub); [| exact Hrole' |]; [in_shape |].
  eexists. split; [reflexivity |]. apply Hsub. by left.
Qed.

(** What [registerSchema] accepts: a password of at least eight
    characters with an upper-case letter, a lower-case letter and a
    digit, equal to [confirmPassword], and the role "STUDENT" or
    "LANDLORD" (the route asks for six characters and lower-case roles). *)
Theorem registerSchema_accepts b d :
  safe_parse registerSchema b = inr d →
  ∃ p r, get b "password" = Some (JStr p) ∧ get b "confirmPassword" = Some (JStr p) ∧
         (8 ≤ String.length p)%nat ∧ has_upper p = true ∧ has_lower p = true ∧ has_digit p = true ∧
         get b "role" = Some (JStr r) ∧ r ∈ ["STUDENT"; "LANDLORD"].
Proof.
  intros (iss & o & Hp & _)%safe_parse_inr.
  destruct b as [| | | | | | | | |fs]; try discriminate. cbn [get].
  unfold registerSchema in Hp. rewrite parse_refine, parse_object in Hp.
  destruct (parse_fields _ fs _) as [[i st] outs] eqn:Ef.
  destruct st; try discriminate; destruct (passwords_match _) eqn:Em; try discriminate.
  assert (Hnd : NoDup (register_shape.*1)) by decide_goal.
  destruct (parse_fields_valid _ _ _ _ _ "password" _ Ef Hnd ltac:(in_shape)) as (i1 & o1 & Hp1 & Hl1).
  apply parse_string_valid in Hp1 as (x & Hx & -> & Hc).
  destruct (parse_fields_valid _ _ _ _ _ "confirmPassword" _ Ef Hnd ltac:(in_shape)) as (i2 & o2 & Hp2 & Hl2).
  apply parse_string_valid in Hp2 as (y & Hy & -> & _).
  destruct (parse_fields_valid _ _ _ _ _ "role" _ Ef Hnd ltac:(in_shape)) as (i3 & o3 & Hp3 & _).
  apply parse_enum_valid in Hp3 as (r & Hr & Hr').
  unfold passwords_match in Em. simpl in Em. rewrite Hl1, Hl2, Hx, Hy in Em.
  apply String.eqb_eq in Em as <-.
  rewrite !Forall_cons in Hc. destruct Hc as (H8 & Hu & Hlo & Hd & _).
  rewrite str_issue_min in H8. rewrite str_issue_regex in Hu, Hlo, Hd.
  exists x, r. by repeat split.
Qed.

End register.

Section witnesses.
#[local] Instance email_demo : EmailRegex := Utils.isValidEmail.

Lemma registerSchema_rejects_route_witness :
  Auth.reg_valid Auth.ann_body (JStr "Ann") "Ann@Uni.edu" "secret1" "student" ∧
  ∃ iss, safe_parse registerSchema Auth.ann_body = inl iss ∧ mkIssue [PKey "role"] InvalidEnum None ∈ iss.
Proof.
  split; [decide_goal |].
  apply (registerSchema_rejects_route _ (JStr "Ann") "Ann@Uni.edu" "secret1" "student"). decide_goal.
Defined.

Lemma registerSchema_accepts_witness :
  ∃ p r, get strong_body "password" = Some (JStr p) ∧ get strong_body "confirmPassword" = Some (JStr p) ∧
         (8 ≤ String.length p)%nat ∧ has_upper p = true ∧ has_lower p = true ∧ has_digit p = true ∧
         get strong_body "role" = Some (JStr r) ∧ r ∈ ["STUDENT"; "LANDLORD"].
Proof.
  apply (registerSchema_accepts strong_body
           (JObj [("name", JStr "Ann"); ("email", JStr "ann@uni.edu"); ("password", JStr "Secret12");
                  ("confirmPassword", JStr "Secret12"); ("role", JStr "STUDENT")])).
  vm_compute. reflexivity.
Defined.

End witnesses.
End SchemaFacts.
