(* ===== verification/Filters.v ===== *)
(** * The search filter panel of [src/src/components/search/search-filters.tsx]

    A controlled component: it receives [filters] (a [SearchFilters]
    object of [src/src/types/index.ts]) and reports every change through
    [onFiltersChange].  No page of the repository mounts it; its
    contract is that of any controlled component, whose parent stores
    the object it is given.  An event handler runs with the props of the
    render that created it: every [updateFilter] call of one handler
    spreads the same [filters].  A handler is therefore the list of the
    objects it passes to [onFiltersChange], in order, and a parent that
    keeps the last object it was given ([setFilters(f)] with a value, as
    React applies the calls of one event in order) holds [after].

    [{ ...filters, [key]: undefined }] is modelled as removing [key]:
    the component and the type only ever read members. *)

From S2P Require Import Prelude Json.
Open Scope string_scope.
Open Scope list_scope.
Open Scope un_scope.

Module SearchFiltersPanel.

(** [amenitiesList] and [sortOptions] (value, label). *)
Definition amenitiesList : list (string * string) :=
  [("wifi", "WiFi"); ("ac", "AC"); ("parking", "Parking"); ("laundry", "Laundry"); ("security", "Security");
   ("cctv", "CCTV"); ("gym", "Gym"); ("power_backup", "Power Backup"); ("water_purifier", "Water Purifier");
   ("mess", "Mess/Kitchen"); ("tv", "TV"); ("refrigerator", "Refrigerator")].

Definition sortOptions : list (string * string) :=
  [("relevance", "Most Relevant"); ("price_low", "Price: Low to High"); ("price_high", "Price: High to Low");
   ("newest", "Newest First"); ("rating", "Highest Rated")].

(** The component's own state: the slider's [priceRange]. *)
Record local := mkLocal { isFiltersOpen : bool; priceRange : Z * Z }.

(** [useState([filters.minRent || 0, filters.maxRent || 50000])] *)
Definition num_or (v : option json) (d : Z) : Z :=
  match v with Some (JNum z) => if Z.eqb z 0 then d else z | _ => d end.

Definition initial_local (filters : fields) : local :=
  mkLocal false (num_or (lookup_field "minRent" filters) 0, num_or (lookup_field "maxRent" filters) 50000)%Z.

(** [updateFilter(key, value)]: the object passed to [onFiltersChange]. *)
Definition updateFilter (filters : fields) (key : string) (value : option json) : fields :=
  match value with Some v => set_field key v filters | None => drop_field key filters end.

(** [current.includes(x) ? current.filter((t) => t !== x) : [...current, x]]
    with [current = filters.k || []]; [None] when it is not an array. *)
Definition toggled_list (filters : fields) (k x : string) : option json :=
  match or_default (lookup_field k filters) (JArr []) with
  | JArr l => Some (JArr (if bool_decide (JStr x ∈ l)
                          then List.filter (fun t => negb (strict_eq (Some t) (Some (JStr x)))) l
                          else l ++ [JStr x]))
  | _ => None
  end.

(** A handler: the objects it passes to [onFiltersChange], in order;
    [None] when it throws before calling it. *)
Definition handler := option (list fields).

Definition toggle_member (k : string) (filters : fields) (x : string) : handler :=
  (fun v => [updateFilter filters k (Some v)]) <$> toggled_list filters k x.

Definition togglePropertyType := toggle_member "propertyType".
Definition toggleAmenity := toggle_member "amenities".
Definition toggleFurnishing := toggle_member "furnishing".

(** [clearFilters]: [onFiltersChange({})], and the slider is reset. *)
Definition clearFilters (l : local) : handler * local := (Some [[]], mkLocal (isFiltersOpen l) (0, 50000)%Z).

(** The slider's [onValueChange([a, b])]. *)
Definition onPriceChange (filters : fields) (a b : Z) (l : local) : handler * local :=
  (Some [updateFilter filters "minRent" (Some (JNum a)); updateFilter filters "maxRent" (Some (JNum b))],
   mkLocal (isFiltersOpen l) (a, b)).

(** The [X] of the price badge. *)
Definition clearPrice (filters : fields) (l : local) : handler * local :=
  (Some [updateFilter filters "minRent" None; updateFilter filters "maxRent" None], mkLocal (isFiltersOpen l) (0, 50000)%Z).

(** A gender badge: [filters.gender === v ? undefined : v]. *)
Definition toggleGender (filters : fields) (v : string) : handler :=
  Some [updateFilter filters "gender"
          (if strict_eq (lookup_field "gender" filters) (Some (JStr v)) then None else Some (JStr v))].

(** The search box, the city, the college and the sort select. *)
Definition setText (filters : fields) (key value : string) : handler := Some [updateFilter filters key (Some (JStr value))].

(** [x?.length || 0] *)
Definition len_or0 (v : option json) : Z :=
  match v with Some (JArr l) => Z.of_nat (length l) | Some (JStr s) => Z.of_nat (String.length s) | _ => 0 end.

(** [activeFiltersCount] *)
Definition activeFiltersCount (filters : fields) : Z :=
  len_or0 (lookup_field "propertyType" filters) + len_or0 (lookup_field "furnishing" filters) +
  len_or0 (lookup_field "amenities" filters) + (if truthy_opt (lookup_field "gender" filters) then 1 else 0) +
  (if truthy_opt (lookup_field "minRent" filters) || truthy_opt (lookup_field "maxRent" filters) then 1 else 0).

(** What a parent that stores the object it is given holds after a
    handler. *)
Definition after (parent : fields) (h : handler) : fields :=
  match h with Some calls => default parent (last calls) | None => parent end.

(** ** Properties *)

(** Moving the price slider to [[a, b]] shows [[a, b]] but leaves the
    parent with the minimum rent it had: both [updateFilter] calls spread
    the same [filters], and the second, which sets [maxRent], replaces
    the first.  Clearing the price badge likewise keeps [minRent]. *)
Theorem price_slider_drops_min parent a b l :
  let '(h, l') := onPriceChange parent a b l in
  priceRange l' = (a, b) ∧ lookup_field "maxRent" (after parent h) = Some (JNum b) ∧
  lookup_field "minRent" (after parent h) = lookup_field "minRent" parent ∧
  let '(h2, _) := clearPrice parent l in
  lookup_field "maxRent" (after parent h2) = None ∧ lookup_field "minRent" (after parent h2) = lookup_field "minRent" parent.
Proof.
  simpl. split_and!; [done | apply lookup_set_field_eq | by apply lookup_set_field_ne |
    apply lookup_drop_field_eq | by apply lookup_drop_field_ne].
Qed.

End SearchFiltersPanel.
