(* ===== verification/FiltersView.v ===== *)
(** * The search filter panel as rendered

    [SearchFiltersView] is the render of
    [src/src/components/search/search-filters.tsx] (lines 119-424) over
    the [filters] prop and the panel's own state
    [Filters.SearchFiltersPanel.local]: the search box, the city select,
    the filter dialog (price slider, type, gender and furnishing badges,
    amenity checkboxes, college box), the search button, the row of
    active filters with their remove buttons, and the sort select.  Each
    handler is an attribute naming it; [event] lists them and [step]
    runs one, giving the objects passed to [onFiltersChange] and the
    next local state, from [Filters.SearchFiltersPanel].  [formatPrice]
    ([Intl]) is a parameter.

    The theorems: the checkbox of an amenity shows whether the filters
    hold it, and after a click on it a parent that stores the object it
    is given re-renders the box flipped; the price badge of the active
    filters shows the parent's filters, not the slider, so after the
    slider moves it still shows the old minimum. *)

From S2P Require Import Prelude Json Utils Filters Html CatalogueView.
Open Scope string_scope.
Open Scope list_scope.
Open Scope un_scope.

Module SearchFiltersView.
Import Html SearchFiltersPanel.

(** The city select's items (lines 143-150). *)
Definition cities : list (string * string) :=
  [("all", "All Cities"); ("mumbai", "Mumbai"); ("delhi", "Delhi"); ("bangalore", "Bangalore");
   ("hyderabad", "Hyderabad"); ("chennai", "Chennai"); ("pune", "Pune"); ("kolkata", "Kolkata")].

(** [filters.k?.includes(x)]: [undefined] when the member is absent or
    [null], else [includes], which throws on a value without it. *)
Definition opt_includes (o : option json) (x : string) : option (option bool) :=
  match o with None | Some JNull => Some None | _ => Some <$> PropertiesPageView.includes o (Some (JStr x)) end.

(** [filters.k?.map(f)]: nothing for [undefined] and [null]; a value
    that is not an array has no [map] and throws. *)
Definition opt_each (o : option json) (f : json → frag) : frag :=
  match o with None | Some JNull => none | Some (JArr l) => each l f | Some _ => None end.

(** [options.find((t) => t.value === v)?.label] as a child. *)
Definition find_label (options : list (string * string)) (v : json) : frag :=
  match List.find (fun '(k, _) => strict_eq (Some (JStr k)) (Some v)) options with Some (_, l) => T l | None => none end.

Section view.
Context `{Locale}.
(** [formatPrice(v)] *)
Variable formatPrice : json → string.

(** A select bound to a member, with its items. *)
Definition select (key : string) (value : string) (placeholder : string) (trigger : list frag)
    (items : list (string * string)) : frag :=
  E "Select" [("value", value); ("onValueChange", "updateFilter:" +:+ key)]
    [E "SelectTrigger" [] (trigger ++ [E "SelectValue" [("placeholder", placeholder)] []]);
     E "SelectContent" [] [each items (fun '(v, l) => E "SelectItem" [("value", v)] [T l])]].

(** A badge of the type or furnishing section: [default] when the
    filters hold its value. *)
Definition toggle_badge (key name : string) (filters : fields) (item : string * string) : frag :=
  let '(v, l) := item in
  on ← opt_includes (lookup_field key filters) v;
  E "Badge" [("variant", if default false on then "default" else "outline"); ("onClick", name +:+ ":" +:+ v)] [T l].

Definition gender_badge (filters : fields) (item : string * string) : frag :=
  let '(v, l) := item in
  E "Badge" [("variant", if strict_eq (lookup_field "gender" filters) (Some (JStr v)) then "default" else "outline");
             ("onClick", "toggleGender:" +:+ v)] [T l].

(** An amenity's checkbox: [checked] is left out when it is [undefined]. *)
Definition amenity_box (filters : fields) (item : string * string) : frag :=
  let '(id, l) := item in
  on ← opt_includes (lookup_field "amenities" filters) id;
  E "div" [] [E "Checkbox" ([("id", id)] ++ from_option (fun b : bool => [("checked", if b then "true" else "false")]) [] on ++
                            [("onCheckedChange", "toggleAmenity:" +:+ id)]) [];
              E "Label" [("htmlFor", id)] [T l]].

Definition section (title : string) (body : frag) : frag := E "div" [] [E "Label" [] [T title]; body].

Definition price_section (l : local) : frag :=
  let '(a, b) := priceRange l in
  E "div" [] [E "Label" [] [T "Price Range"];
              E "Slider" [("value", Utils.z_string a +:+ "," +:+ Utils.z_string b); ("min", "0"); ("max", "100000");
                          ("step", "1000"); ("onValueChange", "onPriceChange")] [];
              E "div" [] [E "span" [] [T (formatPrice (JNum a))]; E "span" [] [T (formatPrice (JNum b))]]].

(** The college box of the dialog. *)
Definition college_section (filters : fields) : frag :=
  section "Near College/University"
    (E "Input" [("placeholder", "Enter college name..."); ("value", or_str (lookup_field "nearCollege" filters) "");
                ("onChange", "updateFilter:nearCollege")] []).

(** "Cancel", and "Apply Filters", which closes the dialog and calls
    [onSearch]. *)
Definition dialog_buttons : frag :=
  E "div" [] [E "Button" [("variant", "outline"); ("onClick", "closeFilters")] [T "Cancel"];
              E "Button" [("onClick", "applyFilters")] [T "Apply Filters"]].

(** The dialog's content, rendered while it is open. *)
Definition dialog_content (filters : fields) (l : local) : frag :=
  let count := activeFiltersCount filters in
  E "DialogContent" [] [
    E "DialogHeader" [] [E "DialogTitle" [] [T "Filters";
      if Z.ltb 0 count then E "Button" [("variant", "ghost"); ("size", "sm"); ("onClick", "clearFilters")] [T "Clear All"]
      else none]];
    E "div" [] [
      price_section l; E "Separator" [] [];
      section "Property Type" (E "div" [] [each Utils.propertyTypes (toggle_badge "propertyType" "togglePropertyType" filters)]);
      E "Separator" [] [];
      section "Gender Preference" (E "div" [] [each Utils.genderOptions (gender_badge filters)]);
      E "Separator" [] [];
      section "Furnishing" (E "div" [] [each Utils.furnishingTypes (toggle_badge "furnishing" "toggleFurnishing" filters)]);
      E "Separator" [] [];
      section "Amenities" (E "div" [] [each amenitiesList (amenity_box filters)]);
      E "Separator" [] [];
      college_section filters];
    dialog_buttons].

(** [<Dialog open={isFiltersOpen}>]: the trigger with the count, and
    the content while open. *)
Definition dialog (filters : fields) (l : local) : frag :=
  let count := activeFiltersCount filters in
  E "Dialog" [("open", if isFiltersOpen l then "true" else "false"); ("onOpenChange", "setIsFiltersOpen")] [
    E "DialogTrigger" [] [E "Button" [("variant", "outline")] [icon "SlidersHorizontal"; T "Filters";
      if Z.ltb 0 count then E "Badge" [("variant", "secondary")] [T (Utils.z_string count)] else none]];
    if isFiltersOpen l then dialog_content filters l else none].

(** A badge of the active filters with its [X]. *)
Definition active_badge (label : frag) (onClick : string) : frag :=
  E "Badge" [("variant", "secondary")] [label; E "X" [("onClick", onClick)] []].

(** [{(filters.minRent || filters.maxRent) && (...)}] *)
Definition price_badge (filters : fields) : frag :=
  let mn := lookup_field "minRent" filters in
  let mx := lookup_field "maxRent" filters in
  if truthy_opt mn || truthy_opt mx then
    active_badge (F [T (formatPrice (or_default mn (JNum 0))); T " -"; T " "; T (formatPrice (or_default mx (JNum 100000)))])
      "clearPrice"
  else V mx.

(** The row of active filters (lines 349-397). *)
Definition active_filters (filters : fields) : frag :=
  if Z.ltb 0 (activeFiltersCount filters) then
    E "div" [] [
      E "span" [] [T "Active filters:"];
      opt_each (lookup_field "propertyType" filters)
        (fun t => active_badge (find_label Utils.propertyTypes t) ("togglePropertyType:" +:+ interp (Some t)));
      if truthy_opt (lookup_field "gender" filters) then
        active_badge (default none (find_label Utils.genderOptions <$> lookup_field "gender" filters)) "clearGender"
      else V (lookup_field "gender" filters);
      opt_each (lookup_field "furnishing" filters)
        (fun f => active_badge (find_label Utils.furnishingTypes f) ("toggleFurnishing:" +:+ interp (Some f)));
      price_badge filters;
      E "Button" [("variant", "ghost"); ("size", "sm"); ("onClick", "clearFilters")] [T "Clear all"]]
  else none.

(** The search box. *)
Definition search_box (filters : fields) : frag :=
  E "div" [] [E "Input" [("placeholder", "Search by location, college, or property name...");
                         ("value", or_str (lookup_field "query" filters) ""); ("onChange", "updateFilter:query")]
                [icon "Search"]].

Definition search_button : frag := E "Button" [("onClick", "onSearch")] [T "Search"].

(** The sort row under the filters. *)
Definition sort_row (filters : fields) : frag :=
  E "div" [] [E "p" [] [T "Showing results for your search"];
              select "sortBy" (or_str (lookup_field "sortBy" filters) "relevance") "Sort by" [] sortOptions].

Definition render (filters : fields) (l : local) : frag :=
  E "div" [] [
    E "div" [] [
      search_box filters;
      E "div" [] [
        select "city" (or_str (lookup_field "city" filters) "") "Select City" [icon "MapPin"] cities;
        dialog filters l;
        search_button]];
    active_filters filters;
    sort_row filters].

End view.

(** ** The handlers *)

(** The panel's handlers, by the control that runs them. *)
Inductive event :=
| Query (value : string)            (** the search box *)
| City (value : string)             (** the city select *)
| College (value : string)          (** the college box *)
| SortBy (value : string)           (** the sort select *)
| TypeBadge (value : string)        (** a type badge, or the [X] of an active one *)
| GenderBadge (value : string)      (** a gender badge *)
| FurnishingBadge (value : string)  (** a furnishing badge, or the [X] of an active one *)
| AmenityBox (id : string)          (** an amenity's checkbox *)
| Slider (a b : Z)                  (** the price slider *)
| ClearAll                          (** "Clear All" and "Clear all" *)
| ClearPrice                        (** the [X] of the price badge *)
| ClearGender                       (** the [X] of the gender badge *)
| SetOpen (b : bool)                (** [onOpenChange], the trigger *)
| Close                             (** "Cancel", and "Apply Filters" before [onSearch()] *)
| Search.                           (** the search button: [onSearch] *)

(** The objects passed to [onFiltersChange] and the next local state. *)
Definition step (ev : event) (filters : fields) (l : local) : handler * local :=
  match ev with
  | Query v => (setText filters "query" v, l)
  | City v => (setText filters "city" v, l)
  | College v => (setText filters "nearCollege" v, l)
  | SortBy v => (setText filters "sortBy" v, l)
  | TypeBadge v => (togglePropertyType filters v, l)
  | GenderBadge v => (toggleGender filters v, l)
  | FurnishingBadge v => (toggleFurnishing filters v, l)
  | AmenityBox id => (toggleAmenity filters id, l)
  | Slider a b => onPriceChange filters a b l
  | ClearAll => clearFilters l
  | ClearPrice => clearPrice filters l
  | ClearGender => (Some [updateFilter filters "gender" None], l)
  | SetOpen b => (Some [], mkLocal b (priceRange l))
  | Close => (Some [], mkLocal false (priceRange l))
  | Search => (Some [], l)
  end.

(** ** Theorems *)

Section facts.
Context `{Locale} (formatPrice : json → string).

Lemma toggled_elem l x :
  JStr x ∈ (if bool_decide (JStr x ∈ l) then List.filter (λ t, negb (strict_eq (Some t) (Some (JStr x)))) l
            else l ++ [JStr x]) ↔ JStr x ∉ l.
Proof.
  case_bool_decide as Hx; split; try done.
  - rewrite elem_of_List_filter_iff, strict_eq_str_refl. by intros [_ ?].
  - intros _. apply elem_of_app. right. by left.
Qed.

(** The checkbox of an amenity when the filters hold an array. *)
Lemma amenity_box_arr filters l id label :
  lookup_field "amenities" filters = Some (JArr l) →
  amenity_box filters (id, label) =
  Some [El "div" [] [El "Checkbox" [("id", id); ("checked", if bool_decide (JStr id ∈ l) then "true" else "false");
                                    ("onCheckedChange", "toggleAmenity:" +:+ id)] [];
                     El "Label" [("htmlFor", id)] [Txt label]]].
Proof. intros Hl. unfold amenity_box. rewrite Hl. reflexivity. Qed.

(** The checkbox of an amenity shows whether the filters hold it, and
    after a click on it a parent that stores the object it is given
    renders it flipped. *)
Theorem amenity_box_flips filters l id label lc :
  lookup_field "amenities" filters = Some (JArr l) →
  let box (b : bool) := Some [El "div" [] [El "Checkbox" [("id", id); ("checked", if b then "true" else "false");
                                                       ("onCheckedChange", "toggleAmenity:" +:+ id)] [];
                                           El "Label" [("htmlFor", id)] [Txt label]]] in
  amenity_box filters (id, label) = box (bool_decide (JStr id ∈ l)) ∧
  amenity_box (after filters (step (AmenityBox id) filters lc).1) (id, label) = box (negb (bool_decide (JStr id ∈ l))).
Proof.
  intros Hl box. split; [by apply amenity_box_arr |].
  assert (Hafter : after filters (step (AmenityBox id) filters lc).1 =
    set_field "amenities" (JArr (if bool_decide (JStr id ∈ l)
                                 then List.filter (λ t, negb (strict_eq (Some t) (Some (JStr id)))) l
                                 else l ++ [JStr id])) filters).
  { simpl. unfold toggleAmenity, toggle_member, toggled_list. by rewrite Hl. }
  rewrite Hafter, (amenity_box_arr _ _ _ _ (lookup_set_field_eq _ _ _)).
  by rewrite (bool_decide_ext _ _ (toggled_elem l id)), bool_decide_not.
Qed.

(** C30. The price badge of the active filters reads the parent's
    filters, not the slider: after the slider is moved to [[a, b]]
    ([b] not 0) the slider shows [[a, b]], but the parent, handed two
    objects that both spread the old filters, keeps its old [minRent],
    and the badge shows that old minimum (or 0) up to [b]. *)
Theorem slider_badge_stale filters a b lc :
  b ≠ 0%Z →
  let '(h, lc') := step (Slider a b) filters lc in
  priceRange lc' = (a, b) ∧
  lookup_field "minRent" (after filters h) = lookup_field "minRent" filters ∧
  price_badge formatPrice (after filters h) =
  active_badge (F [T (formatPrice (or_default (lookup_field "minRent" filters) (JNum 0))); T " -"; T " ";
                   T (formatPrice (JNum b))]) "clearPrice".
Proof.
  intros Hb. simpl. unfold price_badge. rewrite lookup_set_field_eq, lookup_set_field_ne by discriminate.
  split_and!; [done | done |]. simpl. rewrite (proj2 (Z.eqb_neq b 0) Hb), orb_true_r. reflexivity.
Qed.

End facts.

(** ** Witnesses *)

Lemma amenity_box_flips_witness :
  lookup_field "amenities" [("amenities", JArr [JStr "wifi"])] = Some (JArr [JStr "wifi"]) ∧
  amenity_box [("amenities", JArr [JStr "wifi"])] ("wifi", "WiFi") =
    Some [El "div" [] [El "Checkbox" [("id", "wifi"); ("checked", "true"); ("onCheckedChange", "toggleAmenity:wifi")] [];
                       El "Label" [("htmlFor", "wifi")] [Txt "WiFi"]]].
Proof.
  split; [reflexivity |].
  exact (proj1 (amenity_box_flips [("amenities", JArr [JStr "wifi"])] [JStr "wifi"] "wifi" "WiFi"
                  (initial_local []) eq_refl)).
Defined.

Lemma slider_badge_stale_witness :
  (20000 ≠ 0)%Z ∧
  price_badge (fun v => "Rs " +:+ Utils.z_string (match v with JNum z => z | _ => 0 end)%Z)
    (after [("minRent", JNum 3000)] (step (Slider 5000 20000) [("minRent", JNum 3000)] (initial_local [])).1) =
  active_badge (F [T "Rs 3000"; T " -"; T " "; T "Rs 20000"]) "clearPrice".
Proof.
  split; [lia |].
  exact (proj2 (proj2 (slider_badge_stale (fun v => "Rs " +:+ Utils.z_string (match v with JNum z => z | _ => 0 end)%Z)
                         [("minRent", JNum 3000)] 5000 20000 (initial_local []) ltac:(lia)))).
Defined.

End SearchFiltersView.
