(* ===== verification/RoommatesView.v ===== *)
(** * The roommates page as rendered

    [RoommatesPageView] is the render of [src/src/app/roommates/page.tsx]
    over [Home.Roommates.state] ([searchQuery], [cityFilter],
    [genderFilter]) and the static file [@/data/roommates.json] (a
    parameter): the header, the search box and the two selects, the
    count, and a [RoommateCard] per roommate the filters keep.  [step]
    runs the three setters.  [toLocaleString] and
    [toLocaleDateString] are the class [Html.Locale].

    The theorem: the city select offers each city of the file once
    ([dedup] is [new Set]), and choosing the city of any roommate (a
    city that is neither "" nor "all") keeps that roommate and only
    roommates of that city, with the search box empty and the gender
    open. *)

From S2P Require Import Prelude Json Pages PublicPages Home Html DetailView.
Open Scope string_scope.
Open Scope list_scope.
Open Scope un_scope.

Module RoommatesPageView.
Import Html Roommates.

(** The three setters of the filters. *)
Inductive event := SetSearchQuery (v : string) | SetCityFilter (v : string) | SetGenderFilter (v : string).

Definition step (ev : event) (st : state) : state :=
  match ev with
  | SetSearchQuery v => mkState v (cityFilter st) (genderFilter st)
  | SetCityFilter v => mkState (searchQuery st) v (genderFilter st)
  | SetGenderFilter v => mkState (searchQuery st) (cityFilter st) v
  end.

(** [o.k] on a member read without [?.]: [undefined.k] and [null.k]
    throw. *)
Definition dot (o : option json) (k : string) : option (option json) :=
  match o with None => None | Some v => mem v k end.

Section view.
Context `{Locale}.

(** [RoommateCard] (lines 153-259). *)
Definition card (r : json) : frag :=
  image ← mem r "image"; name ← mem r "name"; verified ← mem r "isVerified"; age ← mem r "age";
  college ← mem r "college"; course ← mem r "course"; year ← mem r "year"; city ← mem r "city";
  budget ← mem r "budget"; mn ← dot budget "min"; mx ← dot budget "max"; move ← mem r "moveInDate";
  about ← mem r "about"; life ← mem r "lifestyle"; sleep ← dot life "sleepSchedule";
  food ← dot life "foodPreference"; smoking ← dot life "smoking"; interests ← mem r "interests";
  ints ← DetailPageView.arr_of interests;
  E "Card" [] [E "CardContent" [] [
    E "div" [] [
      E "div" [] [E "Image" (attr_opt "src" image ++ attr_opt "alt" name ++ [("width", "80"); ("height", "80")]) [];
                  if truthy_opt verified then E "div" [] [icon "BadgeCheck"] else V verified];
      E "div" [] [E "div" [] [E "h3" [] [V name]; E "span" [] [T "("; V age; T ")"]];
                  E "div" [] [icon "GraduationCap"; E "span" [] [V college]];
                  E "p" [] [V course; T " • "; V year]]];
    E "div" [] [E "div" [] [icon "MapPin"; E "span" [] [V city]];
                E "div" [] [icon "IndianRupee"; E "span" [] [locale_num mn; T " -"; T " "; locale_num mx]]];
    E "div" [] [icon "Calendar"; E "span" [] [T "Looking from "; T (toLocaleDateString move)]];
    E "p" [] [V about];
    E "div" [] [
      E "Badge" [("variant", "outline")]
        [if strict_eq sleep (Some (JStr "Night Owl")) then icon "Moon" else icon "Sun"; V sleep];
      E "Badge" [("variant", "outline")] [V food];
      if strict_eq smoking (Some (JStr "Non-smoker"))
      then E "Badge" [("variant", "outline")] [icon "Cigarette"; T "Non-smoker"] else none];
    E "div" [] [
      each (take 4 ints) (fun i => E "Badge" [("variant", "secondary")] [V (Some i)]);
      if (4 <? length ints)%nat then E "Badge" [("variant", "secondary")] [T "+"; T (pretty (length ints - 4))]
      else none];
    E "Button" [] [icon "MessageCircle"; T "Connect"]]].

(** [<Select value onValueChange>] with a trigger and its items. *)
Definition select (value handler placeholder : string) (items : list frag) : frag :=
  E "Select" [("value", value); ("onValueChange", handler)]
    [E "SelectTrigger" [] [E "SelectValue" [("placeholder", placeholder)] []]; E "SelectContent" [] items].

Definition empty : frag :=
  E "div" [] [E "div" [] [icon "Users"]; E "h3" [] [T "No roommates found"];
              E "p" [] [T "Try adjusting your filters to find more results."]].

(** [RoommatesPage] (lines 34-151). *)
Definition render (roommates : list json) (st : state) : frag :=
  filtered ← filteredRoommates roommates st;
  E "div" [] [
    E "div" [] [E "div" [] [E "h1" [] [T "Find Your Perfect Roommate"];
      E "p" [] [T "Connect with verified students looking for roommates near your college"]]];
    E "div" [] [E "div" [] [
      E "div" [] [
        E "div" [] [icon "Search"; E "Input" [("placeholder", "Search by name, college, or course...");
                                              ("value", searchQuery st); ("onChange", "setSearchQuery")] []];
        select (cityFilter st) "setCityFilter" "City"
          [E "SelectItem" [("value", "all")] [T "All Cities"];
           each (cities roommates) (fun c => E "SelectItem" (attr_opt "value" c) [V c])];
        select (genderFilter st) "setGenderFilter" "Gender"
          [E "SelectItem" [("value", "all")] [T "All"]; E "SelectItem" [("value", "male")] [T "Male"];
           E "SelectItem" [("value", "female")] [T "Female"]]];
      E "p" [] [T (pretty (length filtered)); T " roommates found"]]];
    E "div" [] [if Nat.eqb (length filtered) 0 then empty else E "div" [] [each filtered card]]].

End view.

Definition demo_roommates : list json :=
  [JObj [("name", JStr "Asha"); ("city", JStr "Kolkata"); ("gender", JStr "female")];
   JObj [("name", JStr "Ravi"); ("city", JStr "Pune"); ("gender", JStr "male")];
   JObj [("name", JStr "Meera"); ("city", JStr "Kolkata"); ("gender", JStr "female")]].

(** ** Theorems *)

(** [new Set]: the first occurrences of the elements not yet seen. *)
Lemma dedup_elem seen l x : x ∈ dedup seen l ↔ x ∈ l ∧ x ∉ seen.
Proof.
  revert seen. induction l as [|y l IH]; intros seen; simpl.
  - split; [by intros ?%not_elem_of_nil | intros [?%not_elem_of_nil _]; done].
  - case_bool_decide as Hy.
    + rewrite IH, elem_of_cons. split.
      * intros [? ?]. split; [by right | done].
      * intros [[-> | ?] ?]; [contradiction | by split].
    + rewrite elem_of_cons, IH, elem_of_cons, elem_of_cons. split.
      * intros [-> | (? & Hn)].
        -- split; [by left | done].
        -- split; [by right | intros ?; apply Hn; by right].
      * intros [[-> | ?] Hn]; [by left |]. destruct (decide (x = y)) as [-> | ?]; [by left |].
        right. split; [done | by intros [? | ?]].
Qed.

Lemma dedup_NoDup seen l : NoDup (dedup seen l).
Proof.
  revert seen. induction l as [|y l IH]; intros seen; simpl; [constructor |].
  case_bool_decide; [done |]. constructor; [| done].
  rewrite dedup_elem, elem_of_cons. naive_solver.
Qed.

(** The city select of the roommates page offers every city of the
    file, each once, and choosing the city of a roommate (unless it is
    the empty string or "all", the values the page reads as no filter)
    keeps that roommate, and only roommates of that city, when the
    search box is empty and the gender is open. *)
Theorem roommates_city_select roommates r s :
  r ∈ roommates → get r "city" = Some (JStr s) → s ≠ "" → s ≠ "all" →
  Some (JStr s) ∈ cities roommates ∧ NoDup (cities roommates) ∧
  ∃ kept, filteredRoommates roommates (step (SetCityFilter s) initial) = Some kept ∧
          r ∈ kept ∧ Forall (λ x, get x "city" = Some (JStr s)) kept.
Proof.
  intros Hr Hc Hs Hall. split_and!.
  - unfold cities. rewrite dedup_elem. split; [| apply not_elem_of_nil].
    apply list_elem_of_fmap. by exists r.
  - apply dedup_NoDup.
  - eexists; split.
    + unfold filteredRoommates. simpl. rewrite (proj2 (String.eqb_neq s "") Hs), (proj2 (String.eqb_neq s "all") Hall).
      reflexivity.
    + split.
      * apply elem_of_List_filter_iff. by rewrite Hc, strict_eq_str_refl.
      * apply Forall_forall. intros x (_ & Hx)%elem_of_List_filter_iff. by apply strict_eq_str_Some.
Qed.

(** ** Witnesses *)

Lemma roommates_city_select_witness :
  ∃ kept, filteredRoommates demo_roommates (step (SetCityFilter "Kolkata") initial) = Some kept ∧
          JObj [("name", JStr "Meera"); ("city", JStr "Kolkata"); ("gender", JStr "female")] ∈ kept.
Proof.
  destruct (roommates_city_select demo_roommates
              (JObj [("name", JStr "Meera"); ("city", JStr "Kolkata"); ("gender", JStr "female")]) "Kolkata")
    as (_ & _ & kept & Hk & Hr & _); [by do 2 right; left | reflexivity | discriminate | discriminate |].
  exists kept. split; [exact Hk | exact Hr].
Defined.

End RoommatesPageView.
