(* ===== verification/MapView.v ===== *)
(** * The map of the properties page

    [PropertyMapView] models [src/src/components/map/property-map.tsx]:
    the two marker icons, [MapUpdater]'s effect as the command it gives
    the Leaflet map ([setView] or [fitBounds]), and [PropertyMap]'s
    render, a placeholder until its mount effect has run, then the map
    container with a marker per listing, highlighted when it is the
    selected one, and its popup.  Leaflet itself (tiles, projection,
    the map object) is not modelled: a command is the call the effect
    makes.

    The theorems: when the selected id is the id of a listing of the
    list (ids unique), the effect centres the map on that listing at
    zoom 15, and its marker is the one drawn with the highlighted icon;
    every link of the map goes to the page of a listing of the list. *)

From S2P Require Import Prelude Json Html.
From Stdlib Require Import Ascii.
Open Scope string_scope.
Open Scope list_scope.
Open Scope un_scope.

Module PropertyMapView.
Import Html.

(** [new L.Icon({...})] *)
Record leaflet_icon := mkIcon {
  iconUrl : string; iconRetinaUrl : option string; shadowUrl : string;
  iconSize : Z * Z; iconAnchor : Z * Z; popupAnchor : Z * Z; shadowSize : Z * Z }.

Definition customIcon : leaflet_icon :=
  mkIcon "https://unpkg.com/leaflet@1.9.4/dist/images/marker-icon.png"
    (Some "https://unpkg.com/leaflet@1.9.4/dist/images/marker-icon-2x.png")
    "https://unpkg.com/leaflet@1.9.4/dist/images/marker-shadow.png" (25, 41)%Z (12, 41)%Z (1, -34)%Z (41, 41)%Z.

Definition highlightedIcon : leaflet_icon :=
  mkIcon "https://raw.githubusercontent.com/pointhi/leaflet-color-markers/master/img/marker-icon-2x-red.png" None
    "https://unpkg.com/leaflet@1.9.4/dist/images/marker-shadow.png" (25, 41)%Z (12, 41)%Z (1, -34)%Z (41, 41)%Z.

(** A point as the component reads it: [[p.latitude, p.longitude]]. *)
Definition point := (option json * option json)%type.

(** What [MapUpdater]'s effect asks of the map. *)
Inductive map_cmd :=
| SetView (center : point) (zoom : Z)
| FitBounds (points : list point) (padding : Z * Z).

(** [array.find(p)] for a predicate that may throw. *)
Fixpoint find_opt {A} (P : A → option bool) (l : list A) : option (option A) :=
  match l with
  | [] => Some None
  | x :: l' => P x ≫= fun b : bool => if b then Some (Some x) else find_opt P l'
  end.

Definition coords (p : json) : option point :=
  lat ← mem p "latitude"; lng ← mem p "longitude"; Some (lat, lng).

(** The effect of [MapUpdater] (lines 66-87): no command for an empty
    list, the selected listing at zoom 15, a single listing at zoom 14,
    else the bounds of all with a padding of 50. *)
Definition mapUpdater (properties : list json) (selectedPropertyId : option json) : option (option map_cmd) :=
  if Nat.eqb (length properties) 0 then Some None else
  found ← (if truthy_opt selectedPropertyId
           then find_opt (fun p => (fun id => strict_eq id selectedPropertyId) <$> mem p "id") properties
           else Some None);
  match found with
  | Some s => c ← coords s; Some (Some (SetView c 15))
  | None =>
      match properties with
      | [p0] => c ← coords p0; Some (Some (SetView c 14))
      | _ => cs ← mapM coords properties; Some (Some (FitBounds cs (50, 50)%Z))
      end
  end.

(** [isMounted], set by the mount effect. *)
Record state := mkState { isMounted : bool }.
Definition initial : state := mkState false.
Definition mount_effect (st : state) : state := mkState true.

(** The tile layer's attribution, whose [href] is in double quotes. *)
Definition attribution : string :=
  let q := String "034"%char EmptyString in
  "&copy; <a href=" +:+ q +:+ "https://www.openstreetmap.org/copyright" +:+ q +:+ ">OpenStreetMap</a> contributors".

(** Kolkata, the centre of an empty map. *)
Definition defaultCenter : point := (Some (JDec 225726 4), Some (JDec 883639 4)).

Section view.
Context `{Locale}.

Definition point_text (c : point) : string := interp c.1 +:+ "," +:+ interp c.2.

(** [genderPreference === "MALE" ? "Boys" : ... "FEMALE" ? "Girls" : "Any"] *)
Definition gender_text (g : option json) : string :=
  if strict_eq g (Some (JStr "MALE")) then "Boys" else if strict_eq g (Some (JStr "FEMALE")) then "Girls" else "Any".

(** The icon of a marker. *)
Definition marker_icon (selectedPropertyId id : option json) : leaflet_icon :=
  if strict_eq selectedPropertyId id then highlightedIcon else customIcon.

(** A marker with its popup (lines 139-191). *)
Definition marker (selectedPropertyId : option json) (p : json) : frag :=
  id ← mem p "id"; c ← coords p; images ← mem p "images"; img0 ← index0 images; url ← opt_mem img0 "url";
  title ← mem p "title"; ty ← mem p "propertyType"; address ← mem p "address"; city ← mem p "city";
  rent ← mem p "rent"; g ← mem p "genderPreference"; slug ← mem p "slug";
  E "Marker" [("position", point_text c); ("icon", iconUrl (marker_icon selectedPropertyId id));
              ("onClick", "onPropertySelect:" +:+ interp id)] [
    E "Popup" [] [E "div" [] [
      E "div" [] [E "img" (attr_opt "src" url ++ attr_opt "alt" title) []; E "Badge" [] [V ty]];
      E "h3" [] [V title];
      E "p" [] [V address; T ", "; V city];
      E "div" [] [E "div" [] [icon "IndianRupee"; E "span" [] [locale_num rent]; E "span" [] [T "/mo"]];
                  E "Badge" [("variant", "secondary")] [T (gender_text g)]];
      link ("/properties/" +:+ interp slug) [E "Button" [("size", "sm")] [T "View Details"]]]]].

(** [PropertyMap] (lines 92-196). *)
Definition render (st : state) (properties : list json) (selectedPropertyId : option json) : frag :=
  if negb (isMounted st) then E "div" [] [E "p" [] [T "Loading map..."]]
  else
    center ← (match properties with p0 :: _ => coords p0 | [] => Some defaultCenter end);
    E "div" [] [
      E "MapContainer" [("center", point_text center); ("zoom", "13"); ("scrollWheelZoom", "true")] [
        E "TileLayer" [("attribution", attribution);
                       ("url", "https://{s}.tile.openstreetmap.org/{z}/{x}/{y}.png")] [];
        E "MapUpdater" [] [];
        each properties (marker selectedPropertyId)]].

End view.

Definition demo_points : list json :=
  [JObj [("id", JStr "p1"); ("latitude", JDec 2257 2); ("longitude", JDec 8836 2)];
   JObj [("id", JStr "p2"); ("latitude", JDec 2250 2); ("longitude", JDec 8840 2)]].

(** ** Theorems *)

Lemma find_opt_Some {A} (P : A → option bool) l x : find_opt P l = Some (Some x) → x ∈ l ∧ P x = Some true.
Proof.
  induction l as [|y l IH]; simpl; [done |]. destruct (P y) as [[] |] eqn:Hy; simpl; intros Hf; try done.
  - injection Hf as <-. split; [left | done].
  - destruct (IH Hf). split; [by right | done].
Qed.

Lemma find_opt_found {A} (P : A → option bool) l x :
  Forall (λ y, is_Some (P y)) l → x ∈ l → P x = Some true → ∃ y, find_opt P l = Some (Some y).
Proof.
  induction l as [|y l IH]; [by intros _ ?%not_elem_of_nil |]. intros [[b Hb] Hl]%Forall_cons Hx Hpx. simpl.
  rewrite Hb. simpl. destruct b; [by eexists |].
  apply elem_of_cons in Hx as [-> | Hx]; [congruence | by apply IH].
Qed.

Lemma strict_eq_str_ne_l a x : x ≠ Some (JStr a) → strict_eq (Some (JStr a)) x = false.
Proof. intros Hx. destruct x as [[]|]; simpl; try done. apply String.eqb_neq. congruence. Qed.

(** Selecting a listing (by a marker or by its card beside the map)
    centres the map on it at zoom 15 and draws its marker, and only
    its marker, with the highlighted icon. *)
Theorem map_select_centers properties p id :
  p ∈ properties → get p "id" = Some (JStr id) → id ≠ "" →
  Forall (λ q, ∃ fs, q = JObj fs) properties →
  (∀ q, q ∈ properties → get q "id" = Some (JStr id) → q = p) →
  ∃ c, coords p = Some c ∧ mapUpdater properties (Some (JStr id)) = Some (Some (SetView c 15)) ∧
       marker_icon (Some (JStr id)) (get p "id") = highlightedIcon ∧
       ∀ q, q ∈ properties → q ≠ p → marker_icon (Some (JStr id)) (get q "id") = customIcon.
Proof.
  intros Hp Hid Hne Hobj Huniq.
  assert (Hmem : ∀ q, q ∈ properties → mem q "id" = Some (get q "id")).
  { intros q Hq. rewrite Forall_forall in Hobj. by destruct (Hobj q Hq) as [fs ->]. }
  pose proof Hobj as Hall. rewrite Forall_forall in Hall. destruct (Hall p Hp) as [fs ->].
  exists (lookup_field "latitude" fs, lookup_field "longitude" fs). split_and!; [done | | | ].
  - unfold mapUpdater. destruct (Nat.eqb (length properties) 0) eqn:Hl.
    { apply Nat.eqb_eq, length_zero_iff_nil in Hl. subst. by apply not_elem_of_nil in Hp. }
    rewrite truthy_opt_str by done. simpl.
    destruct (find_opt_found (fun q => (fun i => strict_eq i (Some (JStr id))) <$> mem q "id") properties (JObj fs))
      as [y Hy]; [| done | by rewrite Hmem, Hid; [simpl; rewrite String.eqb_refl |] |].
    { apply Forall_forall. intros q Hq. rewrite Hmem by done. by eexists. }
    rewrite Hy. simpl. apply find_opt_Some in Hy as [Hyin Hyt]. rewrite Hmem in Hyt by done.
    injection Hyt as Hyt%strict_eq_str_Some. by rewrite (Huniq y Hyin Hyt).
  - unfold marker_icon. by rewrite Hid, strict_eq_str_refl.
  - intros q Hq Hqp. unfold marker_icon. rewrite strict_eq_str_ne_l; [done |]. intros Hq'. apply Hqp.
    symmetry in Hq'. by apply Huniq.
Qed.

(** Every link of the map is the page of a listing of the list. *)
Lemma map_links `{Locale} (q : string → bool) st properties sel :
  (∀ p s, p ∈ properties → mem p "slug" = Some s → q ("/properties/" +:+ interp s) = true) →
  links_in (λ h, q h = true) (render st properties sel).
Proof.
  intros Hq. unfold render. destruct (negb (isMounted st)); [links_in_auto |].
  apply links_in_bind; intros ??. unfold attribution. links_in_auto.
  match goal with Hp : ?p ∈ properties |- _ =>
    unfold marker; do 11 (apply links_in_bind; intros ??); apply links_in_bind; intros s Hs;
    unfold link; links_in_auto; apply links_in_E; [by apply (Hq p s) | links_in_auto] end.
Qed.

(** ** Witnesses *)

Lemma map_select_centers_witness :
  mapUpdater demo_points (Some (JStr "p2")) = Some (Some (SetView (Some (JDec 2250 2), Some (JDec 8840 2)) 15)).
Proof.
  destruct (map_select_centers demo_points
              (JObj [("id", JStr "p2"); ("latitude", JDec 2250 2); ("longitude", JDec 8840 2)]) "p2")
    as (c & Hc & Hm & _); [by right; left | reflexivity | discriminate | by repeat constructor; eexists |
                           intros q Hq Hid; repeat (apply elem_of_cons in Hq as [-> | Hq]); try discriminate;
                           [done | by apply not_elem_of_nil in Hq] |].
  rewrite Hm. simpl in Hc. by injection Hc as <-.
Defined.

End PropertyMapView.
