(* ===== verification/Guards.v ===== *)
(** * The redirects of the dashboard pages

    Every page under [src/src/app/dashboard/] has an effect that sends
    the visitor elsewhere from the state of the auth context: the hub
    ([PublicPages.dashboard_redirect]) to the dashboard of the user's
    role, the student dashboard ([StudentDashboardView.redirect]) and
    the landlord dashboard ([LandlordDashboardView.redirect]) to the
    other one when the role is not theirs, and the landlord's inquiries,
    properties and add-property pages (modelled here) like the landlord
    dashboard.  [guard] gives the effect of the page at a path,
    [settle] follows the redirects, and [client_step] is a step of
    [AuthProvider]'s state through the operations its context hands
    the pages.

    The theorems: while the session loads no page redirects; a signed-out
    visitor is sent to [/login] from every dashboard page; a signed-in
    user whose role is "student" or "landlord" (the roles [register]
    accepts) is sent at most once, to the dashboard of the role, which
    keeps them; any other role bounces between the two dashboards
    forever; and since [isLoading] starts false and no step of the
    provider sets it, in every state without a user (the first render
    included) every dashboard page sends even a signed-in user to
    [/login], which the application does not serve. *)

From S2P Require Import Prelude Json MongoDb Auth App Html PublicPages StudentView LandlordView.
From stdpp Require Import relations.
Open Scope string_scope.
Open Scope list_scope.

Module DashboardGuards.

(** The landlord pages' effect: [!authLoading && !isAuthenticated]
    sends to [/login], [!authLoading && user?.role !== "landlord"] to
    the student dashboard. *)
Definition inquiries_redirect (authLoading : bool) (user : option json) : option string :=
  if negb authLoading && negb (bool_decide (is_Some user)) then Some "/login"
  else if negb authLoading && negb (strict_eq (user ≫= fun u => get u "role") (Some (JStr "landlord")))
  then Some "/dashboard/student"
  else None.

Definition properties_redirect (authLoading : bool) (user : option json) : option string :=
  if negb authLoading && negb (bool_decide (is_Some user)) then Some "/login"
  else if negb authLoading && negb (strict_eq (user ≫= fun u => get u "role") (Some (JStr "landlord")))
  then Some "/dashboard/student"
  else None.

Definition add_property_redirect (authLoading : bool) (user : option json) : option string :=
  if negb authLoading && negb (bool_decide (is_Some user)) then Some "/login"
  else if negb authLoading && negb (strict_eq (user ≫= fun u => get u "role") (Some (JStr "landlord")))
  then Some "/dashboard/student"
  else None.

(** The effect of the page at [path], if it has one. *)
Definition guard (path : string) (isLoading : bool) (user : option json) : option string :=
  if String.eqb path "/dashboard" then dashboard_redirect isLoading (bool_decide (is_Some user)) user
  else if String.eqb path "/dashboard/student" then StudentDashboardView.redirect isLoading user
  else if String.eqb path "/dashboard/landlord" then LandlordDashboardView.redirect isLoading user
  else if String.eqb path "/dashboard/landlord/inquiries" then inquiries_redirect isLoading user
  else if String.eqb path "/dashboard/landlord/properties" then properties_redirect isLoading user
  else if String.eqb path "/dashboard/landlord/add-property" then add_property_redirect isLoading user
  else None.

(** The paths visited from [path], following at most [n] redirects. *)
Fixpoint settle (n : nat) (path : string) (isLoading : bool) (user : option json) : list string :=
  match n with
  | O => [path]
  | S n' => match guard path isLoading user with
            | Some q => path :: settle n' q isLoading user
            | None => [path]
            end
  end.

(** The dashboard of a role. *)
Definition home (role : string) : string :=
  if String.eqb role "student" then "/dashboard/student" else "/dashboard/landlord".

(** The pages under [src/src/app/dashboard/]. *)
Definition dashboard_paths : list string :=
  ["/dashboard"; "/dashboard/student"; "/dashboard/landlord"; "/dashboard/landlord/inquiries";
   "/dashboard/landlord/properties"; "/dashboard/landlord/add-property"].

Definition demo_landlord : json := JObj [("id", JStr "u1"); ("role", JStr "landlord")].

(** What changes the state of [AuthProvider]: the four operations its
    context value hands the pages ([login], [register], [logout],
    [refreshUser], which the mount effect also calls), each with the
    outcome of its [fetch] and the time it runs at. *)
Section provider.
Context `{RegexEngine} `{PasswordHasher}.
Variable env : option string.

Inductive client_step : App.world * App.AuthClient.state → App.world * App.AuthClient.state → Prop :=
| client_refresh ok now w st : client_step (w, st) (App.AuthClient.refreshUser env ok now w st)
| client_login ok now email password w st :
    client_step (w, st) (App.AuthClient.login env ok now email password w st).1
| client_register ok now name email password phone role w st :
    client_step (w, st) (App.AuthClient.register env ok now name email password phone role w st).1
| client_logout ok now w st : client_step (w, st) (App.AuthClient.logout env ok now w st).
End provider.

(** ** Theorems *)

Ltac unfold_guards :=
  unfold guard, dashboard_redirect, StudentDashboardView.redirect, LandlordDashboardView.redirect,
    inquiries_redirect, properties_redirect, add_property_redirect.

(** The hub and the dashboard of a user's role let them stay or send
    them home, and home keeps them. *)
Lemma guard_role u r path :
  get u "role" = Some (JStr r) → r = "student" ∨ r = "landlord" →
  guard path false (Some u) = None ∨
  (guard path false (Some u) = Some (home r) ∧ guard (home r) false (Some u) = None).
Proof.
  intros Hr Hrole. unfold_guards. simpl. rewrite Hr.
  destruct Hrole as [-> | ->]; simpl;
    repeat match goal with |- context [String.eqb path ?s] => destruct (String.eqb path s) end; simpl; auto.
Qed.

(** Signed out and not loading, exactly the dashboard pages redirect,
    and all of them to [/login]. *)
Lemma guard_signed_out path :
  guard path false None = if bool_decide (path ∈ dashboard_paths) then Some "/login" else None.
Proof.
  unfold_guards.
  repeat match goal with
         | |- context [String.eqb path ?q] => destruct (String.eqb_spec path q) as [-> | ?]; [reflexivity |]
         end.
  rewrite bool_decide_false; [reflexivity |]. intros Hin.
  repeat (apply elem_of_cons in Hin as [-> | Hin]; [done |]). by apply not_elem_of_nil in Hin.
Qed.

(** Every state [AuthProvider] reaches keeps [isLoading] as it was. *)
Lemma client_step_loading `{RegexEngine} `{PasswordHasher} env x y :
  client_step env x y → App.AuthClient.isLoading y.2 = App.AuthClient.isLoading x.2.
Proof.
  destruct 1; unfold App.AuthClient.refreshUser, App.AuthClient.login, App.AuthClient.register,
    App.AuthClient.logout; repeat case_match; simplify_eq; done.
Qed.

(** C21. The redirects of the dashboard pages settle: while the session
    loads no page redirects; a signed-out visitor is sent from every
    dashboard page to [/login], and the page does redirect; and a signed-in user whose role is
    "student" or "landlord" reaches, from any path, after at most one
    redirect, a page that keeps them, which is the path itself or the
    dashboard of their role. *)
Theorem dashboard_redirects_settle u r :
  get u "role" = Some (JStr r) → r = "student" ∨ r = "landlord" →
  (∀ path user, guard path true user = None) ∧
  (∀ path, path ∈ dashboard_paths → guard path false None = Some "/login") ∧
  (∀ path, ∃ q, last (settle 5 path false (Some u)) = Some q ∧ guard q false (Some u) = None ∧
               (q = path ∨ q = home r) ∧ (length (settle 5 path false (Some u)) ≤ 2)%nat).
Proof.
  intros Hr Hrole. split_and!.
  - intros path user. unfold_guards. by repeat case_match.
  - intros path Hp. rewrite guard_signed_out. by rewrite bool_decide_true.
  - intros path. destruct (guard_role u r path Hr Hrole) as [Hn | [Hs Hh]].
    + exists path. cbn [settle]. rewrite Hn. split_and!; simpl; auto.
    + exists (home r). cbn [settle]. rewrite Hs. cbn [settle]. rewrite Hh. split_and!; simpl; auto.
Qed.

(** C22. The auth context starts with no user and [isLoading] false
    ([useState(false)], "for instant UI"), and none of the operations
    of [AuthProvider] ever sets it to true: in every state the provider
    reaches, whatever the requests answer, [isLoading] is false.  So the
    dashboards never wait for the session: in any state without a user
    (the first render, before the mount effect's [refreshUser] has read
    the session, as well as after a failed refresh or a logout) every
    dashboard page sends the visitor to [/login], a path the application
    does not serve.  A signed-in user who opens or reloads a dashboard
    lands on a missing page. *)
Theorem dashboards_first_render_login `{RegexEngine} `{PasswordHasher} env w0 w st :
  rtc (client_step env) (w0, App.AuthClient.initial) (w, st) →
  App.AuthClient.isLoading st = false ∧
  (App.AuthClient.user st = None →
   ∀ path, path ∈ dashboard_paths → guard path (App.AuthClient.isLoading st) (App.AuthClient.user st) = Some "/login") ∧
  Site.served "/login" = false.
Proof.
  intros Hr. assert (Hl : App.AuthClient.isLoading st = false).
  { change st with (w, st).2. remember (w0, App.AuthClient.initial) as x eqn:Hx.
    assert (Hx0 : App.AuthClient.isLoading x.2 = false) by (by subst x). clear Hx.
    induction Hr as [x | x y z Hxy _ IH]; [done |]. apply IH. by rewrite (client_step_loading env x y Hxy). }
  split_and!; [done | | reflexivity]. intros Hu path Hp. rewrite Hl, Hu, guard_signed_out. by rewrite bool_decide_true.
Qed.

(** A role that is neither: the two dashboards send the user to each
    other, and the redirects never settle. *)
Lemma other_role_bounces u r n :
  get u "role" = Some (JStr r) → r ≠ "student" → r ≠ "landlord" →
  guard "/dashboard/student" false (Some u) = Some "/dashboard/landlord" ∧
  guard "/dashboard/landlord" false (Some u) = Some "/dashboard/student" ∧
  length (settle n "/dashboard/student" false (Some u)) = S n.
Proof.
  intros Hr Hs Hl.
  assert (Hst : guard "/dashboard/student" false (Some u) = Some "/dashboard/landlord").
  { unfold guard, StudentDashboardView.redirect. simpl. rewrite Hr. simpl. by rewrite (proj2 (String.eqb_neq r _) Hs). }
  assert (Hld : guard "/dashboard/landlord" false (Some u) = Some "/dashboard/student").
  { unfold guard, LandlordDashboardView.redirect. simpl. rewrite Hr. simpl. by rewrite (proj2 (String.eqb_neq r _) Hl). }
  split_and!; [done | done |].
  assert (H : ∀ m, length (settle m "/dashboard/student" false (Some u)) = S m ∧
                   length (settle m "/dashboard/landlord" false (Some u)) = S m).
  { induction m as [| m [IH1 IH2]]; [done |]. cbn [settle]. rewrite Hst, Hld. cbn [length]. by rewrite IH1, IH2. }
  apply H.
Qed.

(** ** Witnesses *)

Section witnesses.
#[local] Existing Instance literal_regex.
#[local] Existing Instance Auth.toy_hasher.

(** The first render, and the state after the mount effect's refresh
    is aborted. *)
Lemma dashboards_first_render_login_witness :
  guard "/dashboard/student" (App.AuthClient.isLoading (App.AuthClient.refreshUser None false 1000
                                (App.mkWorld empty_store None) App.AuthClient.initial).2)
    (App.AuthClient.user (App.AuthClient.refreshUser None false 1000
                            (App.mkWorld empty_store None) App.AuthClient.initial).2) = Some "/login".
Proof.
  destruct (App.AuthClient.refreshUser None false 1000 (App.mkWorld empty_store None) App.AuthClient.initial)
    as [w st] eqn:E.
  refine (proj1 (proj2 (dashboards_first_render_login None (App.mkWorld empty_store None) w st _)) _ _ _).
  - eapply rtc_l; [| apply rtc_refl]. rewrite <- E. constructor.
  - revert E. vm_compute. by intros [= _ <-].
  - by right; left.
Defined.
End witnesses.

Lemma dashboard_redirects_settle_witness :
  last (settle 5 "/dashboard/student" false (Some demo_landlord)) = Some "/dashboard/landlord" ∧
  guard "/dashboard/landlord" false (Some demo_landlord) = None.
Proof.
  destruct (dashboard_redirects_settle demo_landlord "landlord" eq_refl (or_intror eq_refl)) as (_ & _ & H).
  destruct (H "/dashboard/student") as (q & Hq & Hg & _).
  assert (Hq' : q = "/dashboard/landlord") by (simpl in Hq; congruence). subst q.
  split; [exact Hq | exact Hg].
Defined.

End DashboardGuards.
